(** * The retrieval-augmented proxy of enterprise-rag-system

    A shallow embedding of the two proxy implementations
    ([services/rag-wrapper/injector.py] and [services/rag-wrapper/rag_api.py]),
    of the indexer ([services/data-indexer/base.py] and its handlers) and of
    the wait loops of [services/openwebui-config], followed by the
    properties of the specification that concern them and by further
    properties of the code.

    Python values are modelled as JSON trees, Python strings as lists of
    Unicode code points, the parsed request body as a mutable object in a
    store, outbound HTTP calls as questions to a [world] that are recorded
    in a log, and Python exceptions as an explicit [Raise] result.  The
    string operations of the runtime that depend on the Unicode character
    database ([str.lower], [unicodedata]) are computed from the tables of
    Unicode 14.0.0, the database of CPython 3.11. *)

From Stdlib Require Import ZArith QArith String Ascii Lia.
From stdpp Require Import base option list gmap.

Set Warnings "-register-all".
Local Open Scope Z_scope.

(** ** Python strings and JSON values *)

Module Py.

(** A [str] is a sequence of code points. *)
Abbreviation pystr := (list Z).

(** ASCII literals of the source, as code points. *)
Fixpoint u (s : string) : pystr :=
  match s with
  | EmptyString => []
  | String a s' => Z.of_N (N_of_ascii a) :: u s'
  end.

Arguments u : simpl never.

(** Line feed. *)
Definition nl : pystr := [10].

Inductive json :=
| JNull
| JBool (b : bool)
| JInt (n : Z)
| JFloat (q : Q)
| JStr (s : pystr)
| JList (l : list json)
| JDict (d : list (pystr * json)).

(** A [dict] keeps its keys in insertion order. *)
Abbreviation dict := (list (pystr * json)).

Inductive exn :=
| AttributeError | TypeError | KeyError | IndexError
| ConnectionError | JSONDecodeError
| UnboundLocalError      (* a local variable is read before it is bound *)
| HTTPException.         (* werkzeug's BadRequest or UnsupportedMediaType *)

(** The result of evaluating a Python expression. *)
Inductive res (A : Type) :=
| Ret (a : A)
| Raise (e : exn).
Arguments Ret {A} a.
Arguments Raise {A} e.

Definition res_bind {A B} (r : res A) (k : A -> res B) : res B :=
  match r with
  | Ret a => k a
  | Raise e => Raise e
  end.

(** [bool(x)] *)
Definition truthy (j : json) : bool :=
  match j with
  | JNull => false
  | JBool b => b
  | JInt n => negb (n =? 0)
  | JFloat q => negb (Qeq_bool q 0)
  | JStr s => match s with [] => false | _ => true end
  | JList l => match l with [] => false | _ => true end
  | JDict d => match d with [] => false | _ => true end
  end.

(** [d.get(k)] on the items of a dict *)
Fixpoint dict_get (k : pystr) (d : dict) : option json :=
  match d with
  | [] => None
  | (k', v) :: d' => if bool_decide (k' = k) then Some v else dict_get k d'
  end.

(** [d[k] = v]: an existing key keeps its place, a new key goes last. *)
Fixpoint dict_set (k : pystr) (v : json) (d : dict) : dict :=
  match d with
  | [] => [(k, v)]
  | (k', v') :: d' =>
      if bool_decide (k' = k) then (k, v) :: d' else (k', v') :: dict_set k v d'
  end.

(** [x.get(k, default)]; only a dict has [get]. *)
Definition py_get (x : json) (k : pystr) (dflt : json) : res json :=
  match x with
  | JDict d => Ret (default dflt (dict_get k d))
  | _ => Raise AttributeError
  end.

(** [a in b] for two strings *)
Fixpoint starts_with (a b : pystr) : bool :=
  match a, b with
  | [], _ => true
  | x :: a', y :: b' => (x =? y) && starts_with a' b'
  | _ :: _, [] => false
  end.

Fixpoint contains (a b : pystr) : bool :=
  starts_with a b ||
  match b with
  | [] => false
  | _ :: b' => contains a b'
  end.

Definition is_str (k : pystr) (j : json) : bool :=
  match j with
  | JStr s => bool_decide (s = k)
  | _ => false
  end.

(** [k in x] for a string [k] *)
Definition py_in (k : pystr) (x : json) : res bool :=
  match x with
  | JDict d => Ret (match dict_get k d with Some _ => true | None => false end)
  | JList l => Ret (existsb (is_str k) l)
  | JStr s => Ret (contains k s)
  | _ => Raise TypeError
  end.

(** [x[k]] for a string [k] *)
Definition py_item (x : json) (k : pystr) : res json :=
  match x with
  | JDict d => match dict_get k d with Some v => Ret v | None => Raise KeyError end
  | _ => Raise TypeError
  end.

(** [x[0]] *)
Definition py_item0 (x : json) : res json :=
  match x with
  | JList (v :: _) => Ret v
  | JList [] => Raise IndexError
  | JStr (c :: _) => Ret (JStr [c])
  | JStr [] => Raise IndexError
  | JDict _ => Raise KeyError
  | _ => Raise TypeError
  end.

(** [for v in x] *)
Definition py_iter (x : json) : res (list json) :=
  match x with
  | JList l => Ret l
  | JDict d => Ret (map (fun kv => JStr kv.1) d)
  | JStr s => Ret (map (fun c => JStr [c]) s)
  | _ => Raise TypeError
  end.

(** [sep.join(l)]; every element must be a string. *)
Fixpoint py_join (sep : pystr) (l : list json) : res pystr :=
  match l with
  | [] => Ret []
  | JStr s :: l' =>
      match l' with
      | [] => Ret s
      | _ => res_bind (py_join sep l') (fun r => Ret (s ++ sep ++ r))
      end
  | _ => Raise TypeError
  end.

(** [s.replace(old, "")] for a non-empty [old] *)
Fixpoint drop_all (fuel : nat) (old s : pystr) : pystr :=
  match fuel with
  | O => s
  | S fuel' =>
      match s with
      | [] => []
      | c :: s' =>
          if starts_with old s
          then drop_all fuel' old (drop (length old) s)
          else c :: drop_all fuel' old s'
      end
  end.

Definition remove (old s : pystr) : pystr := drop_all (length s) old s.

(** [sep.join(parts)] for strings *)
Fixpoint join (sep : pystr) (parts : list pystr) : pystr :=
  match parts with
  | [] => []
  | [p] => p
  | p :: parts' => p ++ sep ++ join sep parts'
  end.

End Py.
Export Py.

(** ** The Unicode operations the proxies call

    [str.lower], [unicodedata.normalize('NFD', _)] and the test
    [unicodedata.category(c) == 'Mn'] belong to the Python runtime.  The
    handlers are written against this interface.  [Unicodedata.unicode14]
    below implements it with the character database of CPython 3.11;
    [Ucd.fragment] is the part of it for Latin-1 text, on which the sample
    requests are run. *)

Class Unicode := {
  lower : pystr -> pystr;
  normalize_NFD : pystr -> pystr;
  category_Mn : Z -> bool
}.

(** ** Outbound calls, the store and the handler monad *)

Module Http.

Inductive endpoint := Embeddings | Qdrant | Ollama.
(** The methods of [requests], and the methods with which Flask calls a
    view registered for GET, POST, PUT and DELETE: it adds HEAD to every
    route that allows GET. *)
Inductive verb := GET | HEAD | POST | PUT | DELETE.

(** One [requests.<verb>(url, json=..., timeout=...)]; the url is the
    configured base url of [target] followed by [path]. *)
Record call := Call {
  method : verb;
  target : endpoint;
  path : pystr;
  payload : option json;
  timeout : Z
}.

(** What [requests] hands back: [parsed] is the value of [.json()], absent
    when the body is not JSON. *)
Record answer := Answer {
  status_code : Z;
  parsed : option json;
  text : pystr;
  content_type : option pystr
}.

(** The [json=] argument for the value [d].  [json=None] is the default
    of the argument: [requests] sends no body for it. *)
Definition json_arg (d : json) : option json :=
  match d with
  | JNull => None
  | _ => Some d
  end.

(** A call is answered, or raises (connection refused, timeout). *)
Inductive reply :=
| Reply (a : answer)
| NoReply.

Definition world := call -> reply.

Abbreviation loc := positive.

Record state := State {
  heap : gmap loc json;
  log : list (call * reply)
}.

Definition M (A : Type) : Type := world -> state -> res A * state.

Definition ret {A} (a : A) : M A := fun _ s => (Ret a, s).

Definition raise {A} (e : exn) : M A := fun _ s => (Raise e, s).

Definition bind {A B} (m : M A) (k : A -> M B) : M B :=
  fun w s =>
    match m w s with
    | (Ret a, s') => k a w s'
    | (Raise e, s') => (Raise e, s')
    end.

(** [try: m except Exception as e: h e]; what [m] did before raising stays
    done. *)
Definition try_ {A} (m : M A) (h : exn -> M A) : M A :=
  fun w s =>
    match m w s with
    | (Ret a, s') => (Ret a, s')
    | (Raise e, s') => h e w s'
    end.

Definition lift {A} (r : res A) : M A := fun _ s => (r, s).

Definition requests (v : verb) (t : endpoint) (p : pystr)
    (j : option json) (tmo : Z) : M answer :=
  fun w s =>
    let c := Call v t p j tmo in
    match w c with
    | Reply a => (Ret a, State (heap s) (log s ++ [(c, Reply a)]))
    | NoReply => (Raise ConnectionError, State (heap s) (log s ++ [(c, NoReply)]))
    end.

(** [response.json()] *)
Definition json_ (a : answer) : res json :=
  match parsed a with
  | Some j => Ret j
  | None => Raise JSONDecodeError
  end.

(** The object behind a reference; a reference to nothing reads as
    [None]. *)
Definition load (l : loc) : M json :=
  fun _ s => (Ret (default JNull (heap s !! l)), s).

(** [request.json], for the request whose parsed body is the object at
    [l].  A body that cannot be read as JSON has no object: werkzeug raises
    [BadRequest], or [UnsupportedMediaType] when the content type is not
    JSON. *)
Definition request_json (l : loc) : M json :=
  fun _ s =>
    match heap s !! l with
    | Some j => (Ret j, s)
    | None => (Raise HTTPException, s)
    end.

(** [obj[k] = v] on the object behind [l] *)
Definition setitem (l : loc) (k : pystr) (v : json) : M unit :=
  fun _ s =>
    match heap s !! l with
    | Some (JDict d) => (Ret tt, State (<[l := JDict (dict_set k v d)]> (heap s)) (log s))
    | _ => (Raise TypeError, s)
    end.

(** What the Flask application sends back. *)
Inductive content :=
| BJson (j : json)          (* a jsonified value *)
| BText (s : pystr)         (* a text body *)
| BStream (s : pystr)       (* upstream bytes relayed chunk by chunk *)
| BIter (j : json)          (* [Response(x)]: x is iterated when the response is sent *)
| BError (e : exn)          (* [{"error": str(e)}] *)
| BInternal.                (* Flask's page for an unhandled exception *)

Record response := Response {
  status : Z;
  sent : content;
  mimetype : pystr
}.

Definition application_json : pystr := u "application/json".
Definition text_html : pystr := u "text/html".

(** Flask turns the value a view returns into a response: a dict or a list
    is jsonified, a string is sent as text, anything else is a [TypeError]
    that the view can no longer catch. *)
Definition make_response (rv : json) (st : Z) : response :=
  match rv with
  | JDict _ | JList _ => Response st (BJson rv) application_json
  | JStr s => Response st (BText s) text_html
  | _ => Response 500 BInternal text_html
  end.

(** [Response(x, mimetype='application/json')]: the status defaults to
    200, and [None] gives an empty body. *)
Definition Response_ (x : json) : response :=
  match x with
  | JStr s => Response 200 (BText s) application_json
  | JNull => Response 200 (BText []) application_json
  | _ => Response 200 (BIter x) application_json
  end.

End Http.
Export Http.

Notation "x <- m ;; k" := (bind m (fun x => k))
  (at level 100, m at next level, right associativity).
Notation "m ;;; k" := (bind m (fun _ => k))
  (at level 100, right associativity).

(** ** [services/rag-wrapper/injector.py] *)

Module Injector.

Definition COLLECTION_NAME : pystr := u "documents".

Definition search_path : pystr :=
  u "/collections/" ++ COLLECTION_NAME ++ u "/points/search".

(** The loop over [results["result"]] of [search_context]. *)
Fixpoint documents_of (hits : list json) : res (list json) :=
  match hits with
  | [] => Ret []
  | hit :: hits' =>
      res_bind (py_in (u "payload") hit) (fun has_payload =>
      res_bind (if has_payload
                then res_bind (py_item hit (u "payload")) (py_in (u "content"))
                else Ret false) (fun has_content =>
      if has_content
      then res_bind (res_bind (py_item hit (u "payload"))
                              (fun p => py_item p (u "content"))) (fun content =>
           res_bind (documents_of hits') (fun rest => Ret (content :: rest)))
      else documents_of hits'))
  end.

Definition embed_body (query : json) : json :=
  JDict [(u "inputs", JList [query])].

Definition search_body (embeddings : json) (limit : Z) : json :=
  JDict [(u "vector", embeddings); (u "limit", JInt limit);
         (u "with_payload", JBool true); (u "score_threshold", JFloat (3 # 10))].

Definition search_context (query : json) (limit : Z) : M (list json) :=
  try_
    (response <- requests POST Embeddings [] (Some (embed_body query)) 30 ;;
     if negb (status_code response =? 200) then ret []
     else
       embeddings <- lift (res_bind (json_ response) py_item0) ;;
       response <- requests POST Qdrant search_path
                     (Some (search_body embeddings limit)) 10 ;;
       if negb (status_code response =? 200) then ret []
       else
         results <- lift (json_ response) ;;
         has_result <- lift (py_in (u "result") results) ;;
         if has_result
         then lift (res_bind (res_bind (py_item results (u "result")) py_iter)
                             documents_of)
         else ret [])
    (fun _ => ret []).

Definition weather_keywords : list pystr :=
  [u "tiempo"; u "weather"; u "temperatura"; u "climate";
   u "clim" ++ [225] ++ u "tico";
   u "madrid"; u "barcelona"; u "valencia"; u "espa" ++ [241] ++ u "a";
   u "spain"; u "lluvia"; u "rain"; u "nublado"; u "cloudy"; u "soleado";
   u "sunny"].

Definition is_weather_query `{Unicode} (prompt : pystr) : bool :=
  existsb (fun keyword => contains keyword (lower prompt)) weather_keywords.

(** "INFORMACIÓN RELEVANTE:\n\n" *)
Definition heading : pystr :=
  u "INFORMACI" ++ [211] ++ u "N RELEVANTE:" ++ nl ++ nl.

(** "---\n\n" *)
Definition delimiter : pystr := u "---" ++ nl ++ nl.

(** "Basándote en la información anterior, responde: " *)
Definition instruction : pystr :=
  u "Bas" ++ [225] ++ u "ndote en la informaci" ++ [243]
    ++ u "n anterior, responde: ".

(** [for doc in documents: context += doc + "\n\n"] *)
Fixpoint add_documents (context : pystr) (documents : list json) : res pystr :=
  match documents with
  | [] => Ret context
  | JStr doc :: documents' => add_documents (context ++ doc ++ nl ++ nl) documents'
  | _ :: _ => Raise TypeError
  end.

Definition inject_context `{Unicode} (prompt : json) : M json :=
  try_
    (match prompt with
     | JStr p =>
         if negb (is_weather_query p) then ret prompt
         else
           documents <- search_context prompt 2 ;;
           match documents with
           | [] => ret prompt
           | _ =>
               context <- lift (add_documents heading documents) ;;
               ret (JStr ((context ++ delimiter) ++ instruction ++ p))
           end
     | _ => raise AttributeError   (* prompt.lower() *)
     end)
    (fun _ => ret prompt).

Definition process_request `{Unicode} (data : loc) : M loc :=
  try_
    (d <- load data ;;
     stream <- lift (py_get d (u "stream") JNull) ;;
     match stream with
     | JBool false =>
         prompt <- lift (py_get d (u "prompt") (JStr [])) ;;
         if truthy prompt
         then
           injected_prompt <- inject_context prompt ;;
           setitem data (u "prompt") injected_prompt ;;;
           ret data
         else ret data
     | _ => ret data
     end)
    (fun _ => ret data).

(** The view of [POST /api/generate]; [data] is [request.json]. *)
Definition generate `{Unicode} (data : loc) : M response :=
  try_
    (request_json data ;;;
     data <- process_request data ;;
     d <- load data ;;
     stream <- lift (py_get d (u "stream") (JBool false)) ;;
     response <- requests POST Ollama (u "/api/generate") (Some d) 300 ;;
     if truthy stream
     then ret (Response 200 (BStream (text response))
                 (default application_json (content_type response)))
     else
       rv <- lift (json_ response) ;;
       ret (make_response rv (status_code response)))
    (fun e => ret (Response 500 (BError e) application_json)).

(** The view of [/api/<path>]. *)
Definition proxy (v : verb) (path : pystr) (data : loc) : M response :=
  try_
    (response <-
       match v with
       | GET => requests GET Ollama (u "/api/" ++ path) None 30
       | POST =>
           d <- request_json data ;;
           requests POST Ollama (u "/api/" ++ path) (json_arg d) 30
       | PUT =>
           d <- request_json data ;;
           requests PUT Ollama (u "/api/" ++ path) (json_arg d) 30
       | DELETE => requests DELETE Ollama (u "/api/" ++ path) None 30
       | HEAD => raise UnboundLocalError   (* no branch binds [response] *)
       end ;;
     rv <- lift (json_ response) ;;
     ret (make_response rv (status_code response)))
    (fun e => ret (Response 500 (BError e) application_json)).

Definition status_ok : json := JDict [(u "status", JStr (u "ok"))].
Definition status_error : json := JDict [(u "status", JStr (u "error"))].

(** The view of [GET /health]. *)
Definition health : M response :=
  ok <- try_
          (response <- requests GET Ollama (u "/api/tags") None 5 ;;
           ret (status_code response =? 200))
          (fun _ => ret false) ;;
  if ok then ret (make_response status_ok 200)
  else ret (make_response status_error 500).

End Injector.

(** ** [services/rag-wrapper/rag_api.py] *)

Module RagApi.

(** "Â¿": the two code points U+00C2 U+00BF of the literal in the source. *)
Definition mojibake : pystr := [194; 191].

(** The query as it is sent to the embeddings service. *)
Definition normalize `{Unicode} (query : pystr) : pystr :=
  List.filter (fun c => negb (category_Mn c))
    (normalize_NFD (lower (remove (u "?") (remove mojibake query)))).

Definition search_path : pystr := u "/collections/documents/points/search".

Definition embed_body (normalized : pystr) : json :=
  JDict [(u "inputs", JList [JStr normalized])].

Definition search_body (embeddings : json) : json :=
  JDict [(u "vector", embeddings); (u "limit", JInt 2);
         (u "with_payload", JBool true)].

(** The loop over the hits of [get_rag_context]. *)
Fixpoint docs_of (hits : list json) : res (list json) :=
  match hits with
  | [] => Ret []
  | hit :: hits' =>
      res_bind (res_bind (py_item hit (u "payload")) (py_in (u "content")))
        (fun has_content =>
      if has_content
      then res_bind (res_bind (py_item hit (u "payload"))
                              (fun p => py_item p (u "content"))) (fun content =>
           res_bind (docs_of hits') (fun rest => Ret (content :: rest)))
      else docs_of hits')
  end.

(** The context, or [None]. *)
Definition get_rag_context `{Unicode} (query : json) : M (option pystr) :=
  try_
    (match query with
     | JStr q =>
         resp <- requests POST Embeddings [] (Some (embed_body (normalize q))) 30 ;;
         if negb (status_code resp =? 200) then ret None
         else
           embeddings <- lift (res_bind (json_ resp) py_item0) ;;
           resp <- requests POST Qdrant search_path
                     (Some (search_body embeddings)) 10 ;;
           if negb (status_code resp =? 200) then ret None
           else
             docs <- lift (res_bind (res_bind (res_bind (json_ resp)
                              (fun j => py_get j (u "result") (JList [])))
                              py_iter) docs_of) ;;
             match docs with
             | [] => ret None
             | _ => context <- lift (py_join (nl ++ nl) docs) ;; ret (Some context)
             end
     | _ => raise AttributeError   (* query.replace *)
     end)
    (fun _ => ret None).

(** [if context:] *)
Definition nonempty (context : option pystr) : option pystr :=
  match context with
  | Some (c :: s) => Some (c :: s)
  | _ => None
  end.

(** [str(x)] inside an f-string, for a string [x].  No other value reaches
    the two f-strings below: the context is only found for a query that is
    a string (lemma [get_rag_context_str]). *)
Definition str_ (x : json) : pystr :=
  match x with
  | JStr s => s
  | _ => []
  end.

(** f"INFORMACION:\n{context}\n\n---\n\nBasandote en la informacion anterior:\n{prompt}" *)
Definition generate_prompt (context prompt : pystr) : pystr :=
  u "INFORMACION:" ++ nl ++ context ++ nl ++ nl ++ u "---" ++ nl ++ nl
    ++ u "Basandote en la informacion anterior:" ++ nl ++ prompt.

(** f"[Context Information]\n{context}\n\n[Question]\n{original_content}" *)
Definition chat_content (context original_content : pystr) : pystr :=
  u "[Context Information]" ++ nl ++ context ++ nl ++ nl
    ++ u "[Question]" ++ nl ++ original_content.

(** What [generate] does to the request before forwarding it. *)
Definition augment_generate `{Unicode} (data : loc) : M unit :=
  d <- request_json data ;;
  prompt <- lift (py_get d (u "prompt") (JStr [])) ;;
  context <- get_rag_context prompt ;;
  match nonempty context with
  | Some context => setitem data (u "prompt") (JStr (generate_prompt context (str_ prompt)))
  | None => ret tt
  end.

(** The view of [POST /api/generate]. *)
Definition generate `{Unicode} (data : loc) : M response :=
  augment_generate data ;;;
  d <- load data ;;
  resp <- requests POST Ollama (u "/api/generate") (Some d) 600 ;;
  rv <- lift (json_ resp) ;;
  ret (make_response rv 200).

(** [for msg in reversed(messages): if msg.get("role") == "user": ... break],
    run over the reversed list: the position and the message where it
    stops. *)
Fixpoint find_user (msgs : list json) : res (option (nat * json)) :=
  match msgs with
  | [] => Ret None
  | msg :: msgs' =>
      res_bind (py_get msg (u "role") JNull) (fun role =>
      if is_str (u "user") role then Ret (Some (O, msg))
      else res_bind (find_user msgs')
             (fun r => Ret (match r with
                            | Some (i, m) => Some (S i, m)
                            | None => None
                            end)))
  end.

(** [msg["content"] = v] for the message at index [k] of
    [data["messages"]].  The messages are part of the request object, so
    writing into one of them changes the request. *)
Definition set_message_content (data : loc) (k : nat) (v : json) : M unit :=
  fun _ s =>
    match heap s !! data with
    | Some (JDict d) =>
        match dict_get (u "messages") d with
        | Some (JList ms) =>
            match ms !! k with
            | Some (JDict m) =>
                let ms' := <[k := JDict (dict_set (u "content") v m)]> ms in
                (Ret tt,
                 State (<[data := JDict (dict_set (u "messages") (JList ms') d)]> (heap s))
                       (log s))
            | _ => (Raise TypeError, s)
            end
        | _ => (Raise TypeError, s)
        end
    | _ => (Raise TypeError, s)
    end.

(** What [chat_with_rag] does to the request before forwarding it. *)
Definition augment_chat `{Unicode} (data : loc) : M unit :=
  d <- request_json data ;;
  messages <- lift (py_get d (u "messages") (JList [])) ;;
  match messages with
  | JList (m0 :: ms0) =>
      let msgs := m0 :: ms0 in
      found <- lift (find_user (reverse msgs)) ;;
      match found with
      | Some (i, msg) =>
          prompt_for_rag <- lift (py_get msg (u "content") (JStr [])) ;;
          if truthy prompt_for_rag
          then
            context <- get_rag_context prompt_for_rag ;;
            match nonempty context with
            | Some context =>
                set_message_content data (length msgs - 1 - i)
                  (JStr (chat_content context (str_ prompt_for_rag)))
            | None => ret tt
            end
          else ret tt
      | None => ret tt
      end
  | _ => ret tt
  end.

Definition failure : json :=
  JDict [(u "error", JStr (u "Failed to get response from Ollama"))].

(** The view of [POST /api/chat]. *)
Definition chat_with_rag `{Unicode} (data : loc) : M response :=
  augment_chat data ;;;
  d <- load data ;;
  resp <- requests POST Ollama (u "/api/chat") (Some d) 600 ;;
  if 400 <=? status_code resp
  then
    try_ (rv <- lift (json_ resp) ;; ret (Response_ rv))
         (fun _ => ret (make_response failure (status_code resp)))
  else
    try_ (rv <- lift (json_ resp) ;; ret (make_response rv 200))
         (fun _ => ret (Response_ (JStr (text resp)))).

(** The view of [/api/<path>]. *)
Definition proxy (v : verb) (path : pystr) (data : loc) : M response :=
  resp <-
    match v with
    | GET => requests GET Ollama (u "/api/" ++ path) None 30
    | POST =>
        d <- request_json data ;;
        requests POST Ollama (u "/api/" ++ path) (json_arg d) 600
    | PUT =>
        d <- request_json data ;;
        requests PUT Ollama (u "/api/" ++ path) (json_arg d) 30
    | DELETE | HEAD =>                  (* the final [else] *)
        requests DELETE Ollama (u "/api/" ++ path) None 30
    end ;;
  try_ (rv <- lift (json_ resp) ;; ret (make_response rv 200))
       (fun _ => ret (make_response (JStr (text resp)) 200)).

(** The view of [GET /health]. *)
Definition health : M response :=
  try_
    (resp <- requests GET Ollama (u "/api/tags") None 5 ;;
     ret (make_response Injector.status_ok 200))
    (fun _ => ret (make_response Injector.status_error 500)).

End RagApi.

(** ** A fragment of the Unicode character database

    The tables of Unicode 14 for the code points U+0000..U+00FF (Latin-1),
    for the seven combining marks that their canonical decompositions
    produce (U+0300 U+0301 U+0302 U+0303 U+0308 U+030A U+0327), for
    U+034F COMBINING GRAPHEME JOINER, U+1B44 BALINESE ADEG ADEG and
    U+302F HANGUL DOUBLE DOT TONE MARK.  Other code points are outside the
    fragment; the instance leaves them alone, which the runtime does not:
    the fragment stands for the runtime on Latin-1 text only (lemma
    [fragment_agrees]). *)

Module Ucd.

(** [str.lower] on one code point *)
Definition lower_cp (c : Z) : Z :=
  if ((65 <=? c) && (c <=? 90))
     || ((192 <=? c) && (c <=? 222) && negb (c =? 215))
  then c + 32 else c.

(** Canonical decompositions: code point, base letter, combining mark. *)
Definition decompositions : list (Z * (Z * Z)) :=
  [(192, (65, 768)); (193, (65, 769)); (194, (65, 770)); (195, (65, 771));
   (196, (65, 776)); (197, (65, 778)); (199, (67, 807)); (200, (69, 768));
   (201, (69, 769)); (202, (69, 770)); (203, (69, 776)); (204, (73, 768));
   (205, (73, 769)); (206, (73, 770)); (207, (73, 776)); (209, (78, 771));
   (210, (79, 768)); (211, (79, 769)); (212, (79, 770)); (213, (79, 771));
   (214, (79, 776)); (217, (85, 768)); (218, (85, 769)); (219, (85, 770));
   (220, (85, 776)); (221, (89, 769)); (224, (97, 768)); (225, (97, 769));
   (226, (97, 770)); (227, (97, 771)); (228, (97, 776)); (229, (97, 778));
   (231, (99, 807)); (232, (101, 768)); (233, (101, 769)); (234, (101, 770));
   (235, (101, 776)); (236, (105, 768)); (237, (105, 769)); (238, (105, 770));
   (239, (105, 776)); (241, (110, 771)); (242, (111, 768)); (243, (111, 769));
   (244, (111, 770)); (245, (111, 771)); (246, (111, 776)); (249, (117, 768));
   (250, (117, 769)); (251, (117, 770)); (252, (117, 776)); (253, (121, 769));
   (255, (121, 776))].

Fixpoint assoc (c : Z) (t : list (Z * (Z * Z))) : option (Z * Z) :=
  match t with
  | [] => None
  | (c', bm) :: t' => if c' =? c then Some bm else assoc c t'
  end.

Definition decomposition (c : Z) : pystr :=
  match assoc c decompositions with
  | Some (b, m) => [b; m]
  | None => [c]
  end.

(** Canonical combining class *)
Definition combining (c : Z) : Z :=
  if existsb (Z.eqb c) [768; 769; 770; 771; 776; 778] then 230
  else if c =? 807 then 202
  else if c =? 12335 then 224
  else if c =? 6980 then 9
  else 0.

(** General category Mn (nonspacing mark) *)
Definition is_Mn (c : Z) : bool :=
  existsb (Z.eqb c) [768; 769; 770; 771; 776; 778; 807; 847].

(** Canonical ordering: a character with a non-zero combining class moves
    in front of the characters before it that have a greater class.
    [placed] is the text so far, last character first. *)
Fixpoint place (c : Z) (placed : pystr) : pystr :=
  match placed with
  | d :: placed' =>
      if (0 <? combining c) && (combining c <? combining d)
      then d :: place c placed'
      else c :: placed
  | [] => [c]
  end.

Definition reorder (s : pystr) : pystr :=
  rev (fold_left (fun placed c => place c placed) s []).

Definition nfd (s : pystr) : pystr := reorder (flat_map decomposition s).

#[export] Instance fragment : Unicode := {|
  lower := map lower_cp;
  normalize_NFD := nfd;
  category_Mn := is_Mn
|}.

(** The code points of Latin-1. *)
Definition latin1 (c : Z) : bool := (0 <=? c) && (c <=? 255).

(** The letter that is left of a character once its marks are gone. *)
Definition base (c : Z) : Z := hd c (decomposition c).

Definition not_Mn (c : Z) : bool := negb (is_Mn c).

(** A combining character that is a nonspacing mark, or a starter. *)
Definition marks_are_Mn (c : Z) : bool :=
  if 0 <? combining c then is_Mn c else true.

(** A Latin-1 character that normalisation leaves alone. *)
Definition settled (c : Z) : bool :=
  latin1 c && negb (c =? 63) && negb (c =? 194)
  && (lower_cp c =? c) && (base c =? c).

End Ucd.

(** ** The character database of the Python runtime

    [str.lower], [unicodedata.normalize('NFD', _)] and
    [unicodedata.category] as CPython 3.11 computes them, with the tables
    of the Unicode character database 14.0.0 that it ships.  The tables
    are sorted by code point; a code point that a table does not list is
    mapped to itself, has combining class 0 and is in none of the sets. *)

Module Unicodedata.

(** The entry of a code point in a table. *)
Fixpoint lookup {A} (c : Z) (t : list (Z * A)) : option A :=
  match t with
  | [] => None
  | (k, v) :: t' =>
      if c <? k then None else if c =? k then Some v else lookup c t'
  end.

(** Membership in a list of ranges [(first, last)]. *)
Fixpoint in_ranges (c : Z) (rs : list (Z * Z)) : bool :=
  match rs with
  | [] => false
  | (lo, hi) :: rs' =>
      if c <? lo then false else if c <=? hi then true else in_ranges c rs'
  end.

(** The code points that [str.lower] changes, with their lowercase
    mapping (SpecialCasing included: U+0130 gives two code points). *)
Definition lowercase : list (Z * pystr) :=
  [(0x41, [0x61]); (0x42, [0x62]); (0x43, [0x63]); (0x44, [0x64]);
   (0x45, [0x65]); (0x46, [0x66]); (0x47, [0x67]); (0x48, [0x68]);
   (0x49, [0x69]); (0x4a, [0x6a]); (0x4b, [0x6b]); (0x4c, [0x6c]);
   (0x4d, [0x6d]); (0x4e, [0x6e]); (0x4f, [0x6f]); (0x50, [0x70]);
   (0x51, [0x71]); (0x52, [0x72]); (0x53, [0x73]); (0x54, [0x74]);
   (0x55, [0x75]); (0x56, [0x76]); (0x57, [0x77]); (0x58, [0x78]);
   (0x59, [0x79]); (0x5a, [0x7a]); (0xc0, [0xe0]); (0xc1, [0xe1]);
   (0xc2, [0xe2]); (0xc3, [0xe3]); (0xc4, [0xe4]); (0xc5, [0xe5]);
   (0xc6, [0xe6]); (0xc7, [0xe7]); (0xc8, [0xe8]); (0xc9, [0xe9]);
   (0xca, [0xea]); (0xcb, [0xeb]); (0xcc, [0xec]); (0xcd, [0xed]);
   (0xce, [0xee]); (0xcf, [0xef]); (0xd0, [0xf0]); (0xd1, [0xf1]);
   (0xd2, [0xf2]); (0xd3, [0xf3]); (0xd4, [0xf4]); (0xd5, [0xf5]);
   (0xd6, [0xf6]); (0xd8, [0xf8]); (0xd9, [0xf9]); (0xda, [0xfa]);
   (0xdb, [0xfb]); (0xdc, [0xfc]); (0xdd, [0xfd]); (0xde, [0xfe]);
   (0x100, [0x101]); (0x102, [0x103]); (0x104, [0x105]); (0x106, [0x107]);
   (0x108, [0x109]); (0x10a, [0x10b]); (0x10c, [0x10d]); (0x10e, [0x10f]);
   (0x110, [0x111]); (0x112, [0x113]); (0x114, [0x115]); (0x116, [0x117]);
   (0x118, [0x119]); (0x11a, [0x11b]); (0x11c, [0x11d]); (0x11e, [0x11f]);
   (0x120, [0x121]); (0x122, [0x123]); (0x124, [0x125]); (0x126, [0x127]);
   (0x128, [0x129]); (0x12a, [0x12b]); (0x12c, [0x12d]); (0x12e, [0x12f]);
   (0x130, [0x69; 0x307]); (0x132, [0x133]); (0x134, [0x135]);
   (0x136, [0x137]); (0x139, [0x13a]); (0x13b, [0x13c]); (0x13d, [0x13e]);
   (0x13f, [0x140]); (0x141, [0x142]); (0x143, [0x144]); (0x145, [0x146]);
   (0x147, [0x148]); (0x14a, [0x14b]); (0x14c, [0x14d]); (0x14e, [0x14f]);
   (0x150, [0x151]); (0x152, [0x153]); (0x154, [0x155]); (0x156, [0x157]);
   (0x158, [0x159]); (0x15a, [0x15b]); (0x15c, [0x15d]); (0x15e, [0x15f]);
   (0x160, [0x161]); (0x162, [0x163]); (0x164, [0x165]); (0x166, [0x167]);
   (0x168, [0x169]); (0x16a, [0x16b]); (0x16c, [0x16d]); (0x16e, [0x16f]);
   (0x170, [0x171]); (0x172, [0x173]); (0x174, [0x175]); (0x176, [0x177]);
   (0x178, [0xff]); (0x179, [0x17a]); (0x17b, [0x17c]); (0x17d, [0x17e]);
   (0x181, [0x253]); (0x182, [0x183]); (0x184, [0x185]); (0x186, [0x254]);
   (0x187, [0x188]); (0x189, [0x256]); (0x18a, [0x257]); (0x18b, [0x18c]);
   (0x18e, [0x1dd]); (0x18f, [0x259]); (0x190, [0x25b]); (0x191, [0x192]);
   (0x193, [0x260]); (0x194, [0x263]); (0x196, [0x269]); (0x197, [0x268]);
   (0x198, [0x199]); (0x19c, [0x26f]); (0x19d, [0x272]); (0x19f, [0x275]);
   (0x1a0, [0x1a1]); (0x1a2, [0x1a3]); (0x1a4, [0x1a5]); (0x1a6, [0x280]);
   (0x1a7, [0x1a8]); (0x1a9, [0x283]); (0x1ac, [0x1ad]); (0x1ae, [0x288]);
   (0x1af, [0x1b0]); (0x1b1, [0x28a]); (0x1b2, [0x28b]); (0x1b3, [0x1b4]);
   (0x1b5, [0x1b6]); (0x1b7, [0x292]); (0x1b8, [0x1b9]); (0x1bc, [0x1bd]);
   (0x1c4, [0x1c6]); (0x1c5, [0x1c6]); (0x1c7, [0x1c9]); (0x1c8, [0x1c9]);
   (0x1ca, [0x1cc]); (0x1cb, [0x1cc]); (0x1cd, [0x1ce]); (0x1cf, [0x1d0]);
   (0x1d1, [0x1d2]); (0x1d3, [0x1d4]); (0x1d5, [0x1d6]); (0x1d7, [0x1d8]);
   (0x1d9, [0x1da]); (0x1db, [0x1dc]); (0x1de, [0x1df]); (0x1e0, [0x1e1]);
   (0x1e2, [0x1e3]); (0x1e4, [0x1e5]); (0x1e6, [0x1e7]); (0x1e8, [0x1e9]);
   (0x1ea, [0x1eb]); (0x1ec, [0x1ed]); (0x1ee, [0x1ef]); (0x1f1, [0x1f3]);
   (0x1f2, [0x1f3]); (0x1f4, [0x1f5]); (0x1f6, [0x195]); (0x1f7, [0x1bf]);
   (0x1f8, [0x1f9]); (0x1fa, [0x1fb]); (0x1fc, [0x1fd]); (0x1fe, [0x1ff]);
   (0x200, [0x201]); (0x202, [0x203]); (0x204, [0x205]); (0x206, [0x207]);
   (0x208, [0x209]); (0x20a, [0x20b]); (0x20c, [0x20d]); (0x20e, [0x20f]);
   (0x210, [0x211]); (0x212, [0x213]); (0x214, [0x215]); (0x216, [0x217]);
   (0x218, [0x219]); (0x21a, [0x21b]); (0x21c, [0x21d]); (0x21e, [0x21f]);
   (0x220, [0x19e]); (0x222, [0x223]); (0x224, [0x225]); (0x226, [0x227]);
   (0x228, [0x229]); (0x22a, [0x22b]); (0x22c, [0x22d]); (0x22e, [0x22f]);
   (0x230, [0x231]); (0x232, [0x233]); (0x23a, [0x2c65]); (0x23b, [0x23c]);
   (0x23d, [0x19a]); (0x23e, [0x2c66]); (0x241, [0x242]); (0x243, [0x180]);
   (0x244, [0x289]); (0x245, [0x28c]); (0x246, [0x247]); (0x248, [0x249]);
   (0x24a, [0x24b]); (0x24c, [0x24d]); (0x24e, [0x24f]); (0x370, [0x371]);
   (0x372, [0x373]); (0x376, [0x377]); (0x37f, [0x3f3]); (0x386, [0x3ac]);
   (0x388, [0x3ad]); (0x389, [0x3ae]); (0x38a, [0x3af]); (0x38c, [0x3cc]);
   (0x38e, [0x3cd]); (0x38f, [0x3ce]); (0x391, [0x3b1]); (0x392, [0x3b2]);
   (0x393, [0x3b3]); (0x394, [0x3b4]); (0x395, [0x3b5]); (0x396, [0x3b6]);
   (0x397, [0x3b7]); (0x398, [0x3b8]); (0x399, [0x3b9]); (0x39a, [0x3ba]);
   (0x39b, [0x3bb]); (0x39c, [0x3bc]); (0x39d, [0x3bd]); (0x39e, [0x3be]);
   (0x39f, [0x3bf]); (0x3a0, [0x3c0]); (0x3a1, [0x3c1]); (0x3a3, [0x3c3]);
   (0x3a4, [0x3c4]); (0x3a5, [0x3c5]); (0x3a6, [0x3c6]); (0x3a7, [0x3c7]);
   (0x3a8, [0x3c8]); (0x3a9, [0x3c9]); (0x3aa, [0x3ca]); (0x3ab, [0x3cb]);
   (0x3cf, [0x3d7]); (0x3d8, [0x3d9]); (0x3da, [0x3db]); (0x3dc, [0x3dd]);
   (0x3de, [0x3df]); (0x3e0, [0x3e1]); (0x3e2, [0x3e3]); (0x3e4, [0x3e5]);
   (0x3e6, [0x3e7]); (0x3e8, [0x3e9]); (0x3ea, [0x3eb]); (0x3ec, [0x3ed]);
   (0x3ee, [0x3ef]); (0x3f4, [0x3b8]); (0x3f7, [0x3f8]); (0x3f9, [0x3f2]);
   (0x3fa, [0x3fb]); (0x3fd, [0x37b]); (0x3fe, [0x37c]); (0x3ff, [0x37d]);
   (0x400, [0x450]); (0x401, [0x451]); (0x402, [0x452]); (0x403, [0x453]);
   (0x404, [0x454]); (0x405, [0x455]); (0x406, [0x456]); (0x407, [0x457]);
   (0x408, [0x458]); (0x409, [0x459]); (0x40a, [0x45a]); (0x40b, [0x45b]);
   (0x40c, [0x45c]); (0x40d, [0x45d]); (0x40e, [0x45e]); (0x40f, [0x45f]);
   (0x410, [0x430]); (0x411, [0x431]); (0x412, [0x432]); (0x413, [0x433]);
   (0x414, [0x434]); (0x415, [0x435]); (0x416, [0x436]); (0x417, [0x437]);
   (0x418, [0x438]); (0x419, [0x439]); (0x41a, [0x43a]); (0x41b, [0x43b]);
   (0x41c, [0x43c]); (0x41d, [0x43d]); (0x41e, [0x43e]); (0x41f, [0x43f]);
   (0x420, [0x440]); (0x421, [0x441]); (0x422, [0x442]); (0x423, [0x443]);
   (0x424, [0x444]); (0x425, [0x445]); (0x426, [0x446]); (0x427, [0x447]);
   (0x428, [0x448]); (0x429, [0x449]); (0x42a, [0x44a]); (0x42b, [0x44b]);
   (0x42c, [0x44c]); (0x42d, [0x44d]); (0x42e, [0x44e]); (0x42f, [0x44f]);
   (0x460, [0x461]); (0x462, [0x463]); (0x464, [0x465]); (0x466, [0x467]);
   (0x468, [0x469]); (0x46a, [0x46b]); (0x46c, [0x46d]); (0x46e, [0x46f]);
   (0x470, [0x471]); (0x472, [0x473]); (0x474, [0x475]); (0x476, [0x477]);
   (0x478, [0x479]); (0x47a, [0x47b]); (0x47c, [0x47d]); (0x47e, [0x47f]);
   (0x480, [0x481]); (0x48a, [0x48b]); (0x48c, [0x48d]); (0x48e, [0x48f]);
   (0x490, [0x491]); (0x492, [0x493]); (0x494, [0x495]); (0x496, [0x497]);
   (0x498, [0x499]); (0x49a, [0x49b]); (0x49c, [0x49d]); (0x49e, [0x49f]);
   (0x4a0, [0x4a1]); (0x4a2, [0x4a3]); (0x4a4, [0x4a5]); (0x4a6, [0x4a7]);
   (0x4a8, [0x4a9]); (0x4aa, [0x4ab]); (0x4ac, [0x4ad]); (0x4ae, [0x4af]);
   (0x4b0, [0x4b1]); (0x4b2, [0x4b3]); (0x4b4, [0x4b5]); (0x4b6, [0x4b7]);
   (0x4b8, [0x4b9]); (0x4ba, [0x4bb]); (0x4bc, [0x4bd]); (0x4be, [0x4bf]);
   (0x4c0, [0x4cf]); (0x4c1, [0x4c2]); (0x4c3, [0x4c4]); (0x4c5, [0x4c6]);
   (0x4c7, [0x4c8]); (0x4c9, [0x4ca]); (0x4cb, [0x4cc]); (0x4cd, [0x4ce]);
   (0x4d0, [0x4d1]); (0x4d2, [0x4d3]); (0x4d4, [0x4d5]); (0x4d6, [0x4d7]);
   (0x4d8, [0x4d9]); (0x4da, [0x4db]); (0x4dc, [0x4dd]); (0x4de, [0x4df]);
   (0x4e0, [0x4e1]); (0x4e2, [0x4e3]); (0x4e4, [0x4e5]); (0x4e6, [0x4e7]);
   (0x4e8, [0x4e9]); (0x4ea, [0x4eb]); (0x4ec, [0x4ed]); (0x4ee, [0x4ef]);
   (0x4f0, [0x4f1]); (0x4f2, [0x4f3]); (0x4f4, [0x4f5]); (0x4f6, [0x4f7]);
   (0x4f8, [0x4f9]); (0x4fa, [0x4fb]); (0x4fc, [0x4fd]); (0x4fe, [0x4ff]);
   (0x500, [0x501]); (0x502, [0x503]); (0x504, [0x505]); (0x506, [0x507]);
   (0x508, [0x509]); (0x50a, [0x50b]); (0x50c, [0x50d]); (0x50e, [0x50f]);
   (0x510, [0x511]); (0x512, [0x513]); (0x514, [0x515]); (0x516, [0x517]);
   (0x518, [0x519]); (0x51a, [0x51b]); (0x51c, [0x51d]); (0x51e, [0x51f]);
   (0x520, [0x521]); (0x522, [0x523]); (0x524, [0x525]); (0x526, [0x527]);
   (0x528, [0x529]); (0x52a, [0x52b]); (0x52c, [0x52d]); (0x52e, [0x52f]);
   (0x531, [0x561]); (0x532, [0x562]); (0x533, [0x563]); (0x534, [0x564]);
   (0x535, [0x565]); (0x536, [0x566]); (0x537, [0x567]); (0x538, [0x568]);
   (0x539, [0x569]); (0x53a, [0x56a]); (0x53b, [0x56b]); (0x53c, [0x56c]);
   (0x53d, [0x56d]); (0x53e, [0x56e]); (0x53f, [0x56f]); (0x540, [0x570]);
   (0x541, [0x571]); (0x542, [0x572]); (0x543, [0x573]); (0x544, [0x574]);
   (0x545, [0x575]); (0x546, [0x576]); (0x547, [0x577]); (0x548, [0x578]);
   (0x549, [0x579]); (0x54a, [0x57a]); (0x54b, [0x57b]); (0x54c, [0x57c]);
   (0x54d, [0x57d]); (0x54e, [0x57e]); (0x54f, [0x57f]); (0x550, [0x580]);
   (0x551, [0x581]); (0x552, [0x582]); (0x553, [0x583]); (0x554, [0x584]);
   (0x555, [0x585]); (0x556, [0x586]); (0x10a0, [0x2d00]); (0x10a1, [0x2d01]);
   (0x10a2, [0x2d02]); (0x10a3, [0x2d03]); (0x10a4, [0x2d04]);
   (0x10a5, [0x2d05]); (0x10a6, [0x2d06]); (0x10a7, [0x2d07]);
   (0x10a8, [0x2d08]); (0x10a9, [0x2d09]); (0x10aa, [0x2d0a]);
   (0x10ab, [0x2d0b]); (0x10ac, [0x2d0c]); (0x10ad, [0x2d0d]);
   (0x10ae, [0x2d0e]); (0x10af, [0x2d0f]); (0x10b0, [0x2d10]);
   (0x10b1, [0x2d11]); (0x10b2, [0x2d12]); (0x10b3, [0x2d13]);
   (0x10b4, [0x2d14]); (0x10b5, [0x2d15]); (0x10b6, [0x2d16]);
   (0x10b7, [0x2d17]); (0x10b8, [0x2d18]); (0x10b9, [0x2d19]);
   (0x10ba, [0x2d1a]); (0x10bb, [0x2d1b]); (0x10bc, [0x2d1c]);
   (0x10bd, [0x2d1d]); (0x10be, [0x2d1e]); (0x10bf, [0x2d1f]);
   (0x10c0, [0x2d20]); (0x10c1, [0x2d21]); (0x10c2, [0x2d22]);
   (0x10c3, [0x2d23]); (0x10c4, [0x2d24]); (0x10c5, [0x2d25]);
   (0x10c7, [0x2d27]); (0x10cd, [0x2d2d]); (0x13a0, [0xab70]);
   (0x13a1, [0xab71]); (0x13a2, [0xab72]); (0x13a3, [0xab73]);
   (0x13a4, [0xab74]); (0x13a5, [0xab75]); (0x13a6, [0xab76]);
   (0x13a7, [0xab77]); (0x13a8, [0xab78]); (0x13a9, [0xab79]);
   (0x13aa, [0xab7a]); (0x13ab, [0xab7b]); (0x13ac, [0xab7c]);
   (0x13ad, [0xab7d]); (0x13ae, [0xab7e]); (0x13af, [0xab7f]);
   (0x13b0, [0xab80]); (0x13b1, [0xab81]); (0x13b2, [0xab82]);
   (0x13b3, [0xab83]); (0x13b4, [0xab84]); (0x13b5, [0xab85]);
   (0x13b6, [0xab86]); (0x13b7, [0xab87]); (0x13b8, [0xab88]);
   (0x13b9, [0xab89]); (0x13ba, [0xab8a]); (0x13bb, [0xab8b]);
   (0x13bc, [0xab8c]); (0x13bd, [0xab8d]); (0x13be, [0xab8e]);
   (0x13bf, [0xab8f]); (0x13c0, [0xab90]); (0x13c1, [0xab91]);
   (0x13c2, [0xab92]); (0x13c3, [0xab93]); (0x13c4, [0xab94]);
   (0x13c5, [0xab95]); (0x13c6, [0xab96]); (0x13c7, [0xab97]);
   (0x13c8, [0xab98]); (0x13c9, [0xab99]); (0x13ca, [0xab9a]);
   (0x13cb, [0xab9b]); (0x13cc, [0xab9c]); (0x13cd, [0xab9d]);
   (0x13ce, [0xab9e]); (0x13cf, [0xab9f]); (0x13d0, [0xaba0]);
   (0x13d1, [0xaba1]); (0x13d2, [0xaba2]); (0x13d3, [0xaba3]);
   (0x13d4, [0xaba4]); (0x13d5, [0xaba5]); (0x13d6, [0xaba6]);
   (0x13d7, [0xaba7]); (0x13d8, [0xaba8]); (0x13d9, [0xaba9]);
   (0x13da, [0xabaa]); (0x13db, [0xabab]); (0x13dc, [0xabac]);
   (0x13dd, [0xabad]); (0x13de, [0xabae]); (0x13df, [0xabaf]);
   (0x13e0, [0xabb0]); (0x13e1, [0xabb1]); (0x13e2, [0xabb2]);
   (0x13e3, [0xabb3]); (0x13e4, [0xabb4]); (0x13e5, [0xabb5]);
   (0x13e6, [0xabb6]); (0x13e7, [0xabb7]); (0x13e8, [0xabb8]);
   (0x13e9, [0xabb9]); (0x13ea, [0xabba]); (0x13eb, [0xabbb]);
   (0x13ec, [0xabbc]); (0x13ed, [0xabbd]); (0x13ee, [0xabbe]);
   (0x13ef, [0xabbf]); (0x13f0, [0x13f8]); (0x13f1, [0x13f9]);
   (0x13f2, [0x13fa]); (0x13f3, [0x13fb]); (0x13f4, [0x13fc]);
   (0x13f5, [0x13fd]); (0x1c90, [0x10d0]); (0x1c91, [0x10d1]);
   (0x1c92, [0x10d2]); (0x1c93, [0x10d3]); (0x1c94, [0x10d4]);
   (0x1c95, [0x10d5]); (0x1c96, [0x10d6]); (0x1c97, [0x10d7]);
   (0x1c98, [0x10d8]); (0x1c99, [0x10d9]); (0x1c9a, [0x10da]);
   (0x1c9b, [0x10db]); (0x1c9c, [0x10dc]); (0x1c9d, [0x10dd]);
   (0x1c9e, [0x10de]); (0x1c9f, [0x10df]); (0x1ca0, [0x10e0]);
   (0x1ca1, [0x10e1]); (0x1ca2, [0x10e2]); (0x1ca3, [0x10e3]);
   (0x1ca4, [0x10e4]); (0x1ca5, [0x10e5]); (0x1ca6, [0x10e6]);
   (0x1ca7, [0x10e7]); (0x1ca8, [0x10e8]); (0x1ca9, [0x10e9]);
   (0x1caa, [0x10ea]); (0x1cab, [0x10eb]); (0x1cac, [0x10ec]);
   (0x1cad, [0x10ed]); (0x1cae, [0x10ee]); (0x1caf, [0x10ef]);
   (0x1cb0, [0x10f0]); (0x1cb1, [0x10f1]); (0x1cb2, [0x10f2]);
   (0x1cb3, [0x10f3]); (0x1cb4, [0x10f4]); (0x1cb5, [0x10f5]);
   (0x1cb6, [0x10f6]); (0x1cb7, [0x10f7]); (0x1cb8, [0x10f8]);
   (0x1cb9, [0x10f9]); (0x1cba, [0x10fa]); (0x1cbd, [0x10fd]);
   (0x1cbe, [0x10fe]); (0x1cbf, [0x10ff]); (0x1e00, [0x1e01]);
   (0x1e02, [0x1e03]); (0x1e04, [0x1e05]); (0x1e06, [0x1e07]);
   (0x1e08, [0x1e09]); (0x1e0a, [0x1e0b]); (0x1e0c, [0x1e0d]);
   (0x1e0e, [0x1e0f]); (0x1e10, [0x1e11]); (0x1e12, [0x1e13]);
   (0x1e14, [0x1e15]); (0x1e16, [0x1e17]); (0x1e18, [0x1e19]);
   (0x1e1a, [0x1e1b]); (0x1e1c, [0x1e1d]); (0x1e1e, [0x1e1f]);
   (0x1e20, [0x1e21]); (0x1e22, [0x1e23]); (0x1e24, [0x1e25]);
   (0x1e26, [0x1e27]); (0x1e28, [0x1e29]); (0x1e2a, [0x1e2b]);
   (0x1e2c, [0x1e2d]); (0x1e2e, [0x1e2f]); (0x1e30, [0x1e31]);
   (0x1e32, [0x1e33]); (0x1e34, [0x1e35]); (0x1e36, [0x1e37]);
   (0x1e38, [0x1e39]); (0x1e3a, [0x1e3b]); (0x1e3c, [0x1e3d]);
   (0x1e3e, [0x1e3f]); (0x1e40, [0x1e41]); (0x1e42, [0x1e43]);
   (0x1e44, [0x1e45]); (0x1e46, [0x1e47]); (0x1e48, [0x1e49]);
   (0x1e4a, [0x1e4b]); (0x1e4c, [0x1e4d]); (0x1e4e, [0x1e4f]);
   (0x1e50, [0x1e51]); (0x1e52, [0x1e53]); (0x1e54, [0x1e55]);
   (0x1e56, [0x1e57]); (0x1e58, [0x1e59]); (0x1e5a, [0x1e5b]);
   (0x1e5c, [0x1e5d]); (0x1e5e, [0x1e5f]); (0x1e60, [0x1e61]);
   (0x1e62, [0x1e63]); (0x1e64, [0x1e65]); (0x1e66, [0x1e67]);
   (0x1e68, [0x1e69]); (0x1e6a, [0x1e6b]); (0x1e6c, [0x1e6d]);
   (0x1e6e, [0x1e6f]); (0x1e70, [0x1e71]); (0x1e72, [0x1e73]);
   (0x1e74, [0x1e75]); (0x1e76, [0x1e77]); (0x1e78, [0x1e79]);
   (0x1e7a, [0x1e7b]); (0x1e7c, [0x1e7d]); (0x1e7e, [0x1e7f]);
   (0x1e80, [0x1e81]); (0x1e82, [0x1e83]); (0x1e84, [0x1e85]);
   (0x1e86, [0x1e87]); (0x1e88, [0x1e89]); (0x1e8a, [0x1e8b]);
   (0x1e8c, [0x1e8d]); (0x1e8e, [0x1e8f]); (0x1e90, [0x1e91]);
   (0x1e92, [0x1e93]); (0x1e94, [0x1e95]); (0x1e9e, [0xdf]);
   (0x1ea0, [0x1ea1]); (0x1ea2, [0x1ea3]); (0x1ea4, [0x1ea5]);
   (0x1ea6, [0x1ea7]); (0x1ea8, [0x1ea9]); (0x1eaa, [0x1eab]);
   (0x1eac, [0x1ead]); (0x1eae, [0x1eaf]); (0x1eb0, [0x1eb1]);
   (0x1eb2, [0x1eb3]); (0x1eb4, [0x1eb5]); (0x1eb6, [0x1eb7]);
   (0x1eb8, [0x1eb9]); (0x1eba, [0x1ebb]); (0x1ebc, [0x1ebd]);
   (0x1ebe, [0x1ebf]); (0x1ec0, [0x1ec1]); (0x1ec2, [0x1ec3]);
   (0x1ec4, [0x1ec5]); (0x1ec6, [0x1ec7]); (0x1ec8, [0x1ec9]);
   (0x1eca, [0x1ecb]); (0x1ecc, [0x1ecd]); (0x1ece, [0x1ecf]);
   (0x1ed0, [0x1ed1]); (0x1ed2, [0x1ed3]); (0x1ed4, [0x1ed5]);
   (0x1ed6, [0x1ed7]); (0x1ed8, [0x1ed9]); (0x1eda, [0x1edb]);
   (0x1edc, [0x1edd]); (0x1ede, [0x1edf]); (0x1ee0, [0x1ee1]);
   (0x1ee2, [0x1ee3]); (0x1ee4, [0x1ee5]); (0x1ee6, [0x1ee7]);
   (0x1ee8, [0x1ee9]); (0x1eea, [0x1eeb]); (0x1eec, [0x1eed]);
   (0x1eee, [0x1eef]); (0x1ef0, [0x1ef1]); (0x1ef2, [0x1ef3]);
   (0x1ef4, [0x1ef5]); (0x1ef6, [0x1ef7]); (0x1ef8, [0x1ef9]);
   (0x1efa, [0x1efb]); (0x1efc, [0x1efd]); (0x1efe, [0x1eff]);
   (0x1f08, [0x1f00]); (0x1f09, [0x1f01]); (0x1f0a, [0x1f02]);
   (0x1f0b, [0x1f03]); (0x1f0c, [0x1f04]); (0x1f0d, [0x1f05]);
   (0x1f0e, [0x1f06]); (0x1f0f, [0x1f07]); (0x1f18, [0x1f10]);
   (0x1f19, [0x1f11]); (0x1f1a, [0x1f12]); (0x1f1b, [0x1f13]);
   (0x1f1c, [0x1f14]); (0x1f1d, [0x1f15]); (0x1f28, [0x1f20]);
   (0x1f29, [0x1f21]); (0x1f2a, [0x1f22]); (0x1f2b, [0x1f23]);
   (0x1f2c, [0x1f24]); (0x1f2d, [0x1f25]); (0x1f2e, [0x1f26]);
   (0x1f2f, [0x1f27]); (0x1f38, [0x1f30]); (0x1f39, [0x1f31]);
   (0x1f3a, [0x1f32]); (0x1f3b, [0x1f33]); (0x1f3c, [0x1f34]);
   (0x1f3d, [0x1f35]); (0x1f3e, [0x1f36]); (0x1f3f, [0x1f37]);
   (0x1f48, [0x1f40]); (0x1f49, [0x1f41]); (0x1f4a, [0x1f42]);
   (0x1f4b, [0x1f43]); (0x1f4c, [0x1f44]); (0x1f4d, [0x1f45]);
   (0x1f59, [0x1f51]); (0x1f5b, [0x1f53]); (0x1f5d, [0x1f55]);
   (0x1f5f, [0x1f57]); (0x1f68, [0x1f60]); (0x1f69, [0x1f61]);
   (0x1f6a, [0x1f62]); (0x1f6b, [0x1f63]); (0x1f6c, [0x1f64]);
   (0x1f6d, [0x1f65]); (0x1f6e, [0x1f66]); (0x1f6f, [0x1f67]);
   (0x1f88, [0x1f80]); (0x1f89, [0x1f81]); (0x1f8a, [0x1f82]);
   (0x1f8b, [0x1f83]); (0x1f8c, [0x1f84]); (0x1f8d, [0x1f85]);
   (0x1f8e, [0x1f86]); (0x1f8f, [0x1f87]); (0x1f98, [0x1f90]);
   (0x1f99, [0x1f91]); (0x1f9a, [0x1f92]); (0x1f9b, [0x1f93]);
   (0x1f9c, [0x1f94]); (0x1f9d, [0x1f95]); (0x1f9e, [0x1f96]);
   (0x1f9f, [0x1f97]); (0x1fa8, [0x1fa0]); (0x1fa9, [0x1fa1]);
   (0x1faa, [0x1fa2]); (0x1fab, [0x1fa3]); (0x1fac, [0x1fa4]);
   (0x1fad, [0x1fa5]); (0x1fae, [0x1fa6]); (0x1faf, [0x1fa7]);
   (0x1fb8, [0x1fb0]); (0x1fb9, [0x1fb1]); (0x1fba, [0x1f70]);
   (0x1fbb, [0x1f71]); (0x1fbc, [0x1fb3]); (0x1fc8, [0x1f72]);
   (0x1fc9, [0x1f73]); (0x1fca, [0x1f74]); (0x1fcb, [0x1f75]);
   (0x1fcc, [0x1fc3]); (0x1fd8, [0x1fd0]); (0x1fd9, [0x1fd1]);
   (0x1fda, [0x1f76]); (0x1fdb, [0x1f77]); (0x1fe8, [0x1fe0]);
   (0x1fe9, [0x1fe1]); (0x1fea, [0x1f7a]); (0x1feb, [0x1f7b]);
   (0x1fec, [0x1fe5]); (0x1ff8, [0x1f78]); (0x1ff9, [0x1f79]);
   (0x1ffa, [0x1f7c]); (0x1ffb, [0x1f7d]); (0x1ffc, [0x1ff3]);
   (0x2126, [0x3c9]); (0x212a, [0x6b]); (0x212b, [0xe5]); (0x2132, [0x214e]);
   (0x2160, [0x2170]); (0x2161, [0x2171]); (0x2162, [0x2172]);
   (0x2163, [0x2173]); (0x2164, [0x2174]); (0x2165, [0x2175]);
   (0x2166, [0x2176]); (0x2167, [0x2177]); (0x2168, [0x2178]);
   (0x2169, [0x2179]); (0x216a, [0x217a]); (0x216b, [0x217b]);
   (0x216c, [0x217c]); (0x216d, [0x217d]); (0x216e, [0x217e]);
   (0x216f, [0x217f]); (0x2183, [0x2184]); (0x24b6, [0x24d0]);
   (0x24b7, [0x24d1]); (0x24b8, [0x24d2]); (0x24b9, [0x24d3]);
   (0x24ba, [0x24d4]); (0x24bb, [0x24d5]); (0x24bc, [0x24d6]);
   (0x24bd, [0x24d7]); (0x24be, [0x24d8]); (0x24bf, [0x24d9]);
   (0x24c0, [0x24da]); (0x24c1, [0x24db]); (0x24c2, [0x24dc]);
   (0x24c3, [0x24dd]); (0x24c4, [0x24de]); (0x24c5, [0x24df]);
   (0x24c6, [0x24e0]); (0x24c7, [0x24e1]); (0x24c8, [0x24e2]);
   (0x24c9, [0x24e3]); (0x24ca, [0x24e4]); (0x24cb, [0x24e5]);
   (0x24cc, [0x24e6]); (0x24cd, [0x24e7]); (0x24ce, [0x24e8]);
   (0x24cf, [0x24e9]); (0x2c00, [0x2c30]); (0x2c01, [0x2c31]);
   (0x2c02, [0x2c32]); (0x2c03, [0x2c33]); (0x2c04, [0x2c34]);
   (0x2c05, [0x2c35]); (0x2c06, [0x2c36]); (0x2c07, [0x2c37]);
   (0x2c08, [0x2c38]); (0x2c09, [0x2c39]); (0x2c0a, [0x2c3a]);
   (0x2c0b, [0x2c3b]); (0x2c0c, [0x2c3c]); (0x2c0d, [0x2c3d]);
   (0x2c0e, [0x2c3e]); (0x2c0f, [0x2c3f]); (0x2c10, [0x2c40]);
   (0x2c11, [0x2c41]); (0x2c12, [0x2c42]); (0x2c13, [0x2c43]);
   (0x2c14, [0x2c44]); (0x2c15, [0x2c45]); (0x2c16, [0x2c46]);
   (0x2c17, [0x2c47]); (0x2c18, [0x2c48]); (0x2c19, [0x2c49]);
   (0x2c1a, [0x2c4a]); (0x2c1b, [0x2c4b]); (0x2c1c, [0x2c4c]);
   (0x2c1d, [0x2c4d]); (0x2c1e, [0x2c4e]); (0x2c1f, [0x2c4f]);
   (0x2c20, [0x2c50]); (0x2c21, [0x2c51]); (0x2c22, [0x2c52]);
   (0x2c23, [0x2c53]); (0x2c24, [0x2c54]); (0x2c25, [0x2c55]);
   (0x2c26, [0x2c56]); (0x2c27, [0x2c57]); (0x2c28, [0x2c58]);
   (0x2c29, [0x2c59]); (0x2c2a, [0x2c5a]); (0x2c2b, [0x2c5b]);
   (0x2c2c, [0x2c5c]); (0x2c2d, [0x2c5d]); (0x2c2e, [0x2c5e]);
   (0x2c2f, [0x2c5f]); (0x2c60, [0x2c61]); (0x2c62, [0x26b]);
   (0x2c63, [0x1d7d]); (0x2c64, [0x27d]); (0x2c67, [0x2c68]);
   (0x2c69, [0x2c6a]); (0x2c6b, [0x2c6c]); (0x2c6d, [0x251]);
   (0x2c6e, [0x271]); (0x2c6f, [0x250]); (0x2c70, [0x252]);
   (0x2c72, [0x2c73]); (0x2c75, [0x2c76]); (0x2c7e, [0x23f]);
   (0x2c7f, [0x240]); (0x2c80, [0x2c81]); (0x2c82, [0x2c83]);
   (0x2c84, [0x2c85]); (0x2c86, [0x2c87]); (0x2c88, [0x2c89]);
   (0x2c8a, [0x2c8b]); (0x2c8c, [0x2c8d]); (0x2c8e, [0x2c8f]);
   (0x2c90, [0x2c91]); (0x2c92, [0x2c93]); (0x2c94, [0x2c95]);
   (0x2c96, [0x2c97]); (0x2c98, [0x2c99]); (0x2c9a, [0x2c9b]);
   (0x2c9c, [0x2c9d]); (0x2c9e, [0x2c9f]); (0x2ca0, [0x2ca1]);
   (0x2ca2, [0x2ca3]); (0x2ca4, [0x2ca5]); (0x2ca6, [0x2ca7]);
   (0x2ca8, [0x2ca9]); (0x2caa, [0x2cab]); (0x2cac, [0x2cad]);
   (0x2cae, [0x2caf]); (0x2cb0, [0x2cb1]); (0x2cb2, [0x2cb3]);
   (0x2cb4, [0x2cb5]); (0x2cb6, [0x2cb7]); (0x2cb8, [0x2cb9]);
   (0x2cba, [0x2cbb]); (0x2cbc, [0x2cbd]); (0x2cbe, [0x2cbf]);
   (0x2cc0, [0x2cc1]); (0x2cc2, [0x2cc3]); (0x2cc4, [0x2cc5]);
   (0x2cc6, [0x2cc7]); (0x2cc8, [0x2cc9]); (0x2cca, [0x2ccb]);
   (0x2ccc, [0x2ccd]); (0x2cce, [0x2ccf]); (0x2cd0, [0x2cd1]);
   (0x2cd2, [0x2cd3]); (0x2cd4, [0x2cd5]); (0x2cd6, [0x2cd7]);
   (0x2cd8, [0x2cd9]); (0x2cda, [0x2cdb]); (0x2cdc, [0x2cdd]);
   (0x2cde, [0x2cdf]); (0x2ce0, [0x2ce1]); (0x2ce2, [0x2ce3]);
   (0x2ceb, [0x2cec]); (0x2ced, [0x2cee]); (0x2cf2, [0x2cf3]);
   (0xa640, [0xa641]); (0xa642, [0xa643]); (0xa644, [0xa645]);
   (0xa646, [0xa647]); (0xa648, [0xa649]); (0xa64a, [0xa64b]);
   (0xa64c, [0xa64d]); (0xa64e, [0xa64f]); (0xa650, [0xa651]);
   (0xa652, [0xa653]); (0xa654, [0xa655]); (0xa656, [0xa657]);
   (0xa658, [0xa659]); (0xa65a, [0xa65b]); (0xa65c, [0xa65d]);
   (0xa65e, [0xa65f]); (0xa660, [0xa661]); (0xa662, [0xa663]);
   (0xa664, [0xa665]); (0xa666, [0xa667]); (0xa668, [0xa669]);
   (0xa66a, [0xa66b]); (0xa66c, [0xa66d]); (0xa680, [0xa681]);
   (0xa682, [0xa683]); (0xa684, [0xa685]); (0xa686, [0xa687]);
   (0xa688, [0xa689]); (0xa68a, [0xa68b]); (0xa68c, [0xa68d]);
   (0xa68e, [0xa68f]); (0xa690, [0xa691]); (0xa692, [0xa693]);
   (0xa694, [0xa695]); (0xa696, [0xa697]); (0xa698, [0xa699]);
   (0xa69a, [0xa69b]); (0xa722, [0xa723]); (0xa724, [0xa725]);
   (0xa726, [0xa727]); (0xa728, [0xa729]); (0xa72a, [0xa72b]);
   (0xa72c, [0xa72d]); (0xa72e, [0xa72f]); (0xa732, [0xa733]);
   (0xa734, [0xa735]); (0xa736, [0xa737]); (0xa738, [0xa739]);
   (0xa73a, [0xa73b]); (0xa73c, [0xa73d]); (0xa73e, [0xa73f]);
   (0xa740, [0xa741]); (0xa742, [0xa743]); (0xa744, [0xa745]);
   (0xa746, [0xa747]); (0xa748, [0xa749]); (0xa74a, [0xa74b]);
   (0xa74c, [0xa74d]); (0xa74e, [0xa74f]); (0xa750, [0xa751]);
   (0xa752, [0xa753]); (0xa754, [0xa755]); (0xa756, [0xa757]);
   (0xa758, [0xa759]); (0xa75a, [0xa75b]); (0xa75c, [0xa75d]);
   (0xa75e, [0xa75f]); (0xa760, [0xa761]); (0xa762, [0xa763]);
   (0xa764, [0xa765]); (0xa766, [0xa767]); (0xa768, [0xa769]);
   (0xa76a, [0xa76b]); (0xa76c, [0xa76d]); (0xa76e, [0xa76f]);
   (0xa779, [0xa77a]); (0xa77b, [0xa77c]); (0xa77d, [0x1d79]);
   (0xa77e, [0xa77f]); (0xa780, [0xa781]); (0xa782, [0xa783]);
   (0xa784, [0xa785]); (0xa786, [0xa787]); (0xa78b, [0xa78c]);
   (0xa78d, [0x265]); (0xa790, [0xa791]); (0xa792, [0xa793]);
   (0xa796, [0xa797]); (0xa798, [0xa799]); (0xa79a, [0xa79b]);
   (0xa79c, [0xa79d]); (0xa79e, [0xa79f]); (0xa7a0, [0xa7a1]);
   (0xa7a2, [0xa7a3]); (0xa7a4, [0xa7a5]); (0xa7a6, [0xa7a7]);
   (0xa7a8, [0xa7a9]); (0xa7aa, [0x266]); (0xa7ab, [0x25c]);
   (0xa7ac, [0x261]); (0xa7ad, [0x26c]); (0xa7ae, [0x26a]); (0xa7b0, [0x29e]);
   (0xa7b1, [0x287]); (0xa7b2, [0x29d]); (0xa7b3, [0xab53]);
   (0xa7b4, [0xa7b5]); (0xa7b6, [0xa7b7]); (0xa7b8, [0xa7b9]);
   (0xa7ba, [0xa7bb]); (0xa7bc, [0xa7bd]); (0xa7be, [0xa7bf]);
   (0xa7c0, [0xa7c1]); (0xa7c2, [0xa7c3]); (0xa7c4, [0xa794]);
   (0xa7c5, [0x282]); (0xa7c6, [0x1d8e]); (0xa7c7, [0xa7c8]);
   (0xa7c9, [0xa7ca]); (0xa7d0, [0xa7d1]); (0xa7d6, [0xa7d7]);
   (0xa7d8, [0xa7d9]); (0xa7f5, [0xa7f6]); (0xff21, [0xff41]);
   (0xff22, [0xff42]); (0xff23, [0xff43]); (0xff24, [0xff44]);
   (0xff25, [0xff45]); (0xff26, [0xff46]); (0xff27, [0xff47]);
   (0xff28, [0xff48]); (0xff29, [0xff49]); (0xff2a, [0xff4a]);
   (0xff2b, [0xff4b]); (0xff2c, [0xff4c]); (0xff2d, [0xff4d]);
   (0xff2e, [0xff4e]); (0xff2f, [0xff4f]); (0xff30, [0xff50]);
   (0xff31, [0xff51]); (0xff32, [0xff52]); (0xff33, [0xff53]);
   (0xff34, [0xff54]); (0xff35, [0xff55]); (0xff36, [0xff56]);
   (0xff37, [0xff57]); (0xff38, [0xff58]); (0xff39, [0xff59]);
   (0xff3a, [0xff5a]); (0x10400, [0x10428]); (0x10401, [0x10429]);
   (0x10402, [0x1042a]); (0x10403, [0x1042b]); (0x10404, [0x1042c]);
   (0x10405, [0x1042d]); (0x10406, [0x1042e]); (0x10407, [0x1042f]);
   (0x10408, [0x10430]); (0x10409, [0x10431]); (0x1040a, [0x10432]);
   (0x1040b, [0x10433]); (0x1040c, [0x10434]); (0x1040d, [0x10435]);
   (0x1040e, [0x10436]); (0x1040f, [0x10437]); (0x10410, [0x10438]);
   (0x10411, [0x10439]); (0x10412, [0x1043a]); (0x10413, [0x1043b]);
   (0x10414, [0x1043c]); (0x10415, [0x1043d]); (0x10416, [0x1043e]);
   (0x10417, [0x1043f]); (0x10418, [0x10440]); (0x10419, [0x10441]);
   (0x1041a, [0x10442]); (0x1041b, [0x10443]); (0x1041c, [0x10444]);
   (0x1041d, [0x10445]); (0x1041e, [0x10446]); (0x1041f, [0x10447]);
   (0x10420, [0x10448]); (0x10421, [0x10449]); (0x10422, [0x1044a]);
   (0x10423, [0x1044b]); (0x10424, [0x1044c]); (0x10425, [0x1044d]);
   (0x10426, [0x1044e]); (0x10427, [0x1044f]); (0x104b0, [0x104d8]);
   (0x104b1, [0x104d9]); (0x104b2, [0x104da]); (0x104b3, [0x104db]);
   (0x104b4, [0x104dc]); (0x104b5, [0x104dd]); (0x104b6, [0x104de]);
   (0x104b7, [0x104df]); (0x104b8, [0x104e0]); (0x104b9, [0x104e1]);
   (0x104ba, [0x104e2]); (0x104bb, [0x104e3]); (0x104bc, [0x104e4]);
   (0x104bd, [0x104e5]); (0x104be, [0x104e6]); (0x104bf, [0x104e7]);
   (0x104c0, [0x104e8]); (0x104c1, [0x104e9]); (0x104c2, [0x104ea]);
   (0x104c3, [0x104eb]); (0x104c4, [0x104ec]); (0x104c5, [0x104ed]);
   (0x104c6, [0x104ee]); (0x104c7, [0x104ef]); (0x104c8, [0x104f0]);
   (0x104c9, [0x104f1]); (0x104ca, [0x104f2]); (0x104cb, [0x104f3]);
   (0x104cc, [0x104f4]); (0x104cd, [0x104f5]); (0x104ce, [0x104f6]);
   (0x104cf, [0x104f7]); (0x104d0, [0x104f8]); (0x104d1, [0x104f9]);
   (0x104d2, [0x104fa]); (0x104d3, [0x104fb]); (0x10570, [0x10597]);
   (0x10571, [0x10598]); (0x10572, [0x10599]); (0x10573, [0x1059a]);
   (0x10574, [0x1059b]); (0x10575, [0x1059c]); (0x10576, [0x1059d]);
   (0x10577, [0x1059e]); (0x10578, [0x1059f]); (0x10579, [0x105a0]);
   (0x1057a, [0x105a1]); (0x1057c, [0x105a3]); (0x1057d, [0x105a4]);
   (0x1057e, [0x105a5]); (0x1057f, [0x105a6]); (0x10580, [0x105a7]);
   (0x10581, [0x105a8]); (0x10582, [0x105a9]); (0x10583, [0x105aa]);
   (0x10584, [0x105ab]); (0x10585, [0x105ac]); (0x10586, [0x105ad]);
   (0x10587, [0x105ae]); (0x10588, [0x105af]); (0x10589, [0x105b0]);
   (0x1058a, [0x105b1]); (0x1058c, [0x105b3]); (0x1058d, [0x105b4]);
   (0x1058e, [0x105b5]); (0x1058f, [0x105b6]); (0x10590, [0x105b7]);
   (0x10591, [0x105b8]); (0x10592, [0x105b9]); (0x10594, [0x105bb]);
   (0x10595, [0x105bc]); (0x10c80, [0x10cc0]); (0x10c81, [0x10cc1]);
   (0x10c82, [0x10cc2]); (0x10c83, [0x10cc3]); (0x10c84, [0x10cc4]);
   (0x10c85, [0x10cc5]); (0x10c86, [0x10cc6]); (0x10c87, [0x10cc7]);
   (0x10c88, [0x10cc8]); (0x10c89, [0x10cc9]); (0x10c8a, [0x10cca]);
   (0x10c8b, [0x10ccb]); (0x10c8c, [0x10ccc]); (0x10c8d, [0x10ccd]);
   (0x10c8e, [0x10cce]); (0x10c8f, [0x10ccf]); (0x10c90, [0x10cd0]);
   (0x10c91, [0x10cd1]); (0x10c92, [0x10cd2]); (0x10c93, [0x10cd3]);
   (0x10c94, [0x10cd4]); (0x10c95, [0x10cd5]); (0x10c96, [0x10cd6]);
   (0x10c97, [0x10cd7]); (0x10c98, [0x10cd8]); (0x10c99, [0x10cd9]);
   (0x10c9a, [0x10cda]); (0x10c9b, [0x10cdb]); (0x10c9c, [0x10cdc]);
   (0x10c9d, [0x10cdd]); (0x10c9e, [0x10cde]); (0x10c9f, [0x10cdf]);
   (0x10ca0, [0x10ce0]); (0x10ca1, [0x10ce1]); (0x10ca2, [0x10ce2]);
   (0x10ca3, [0x10ce3]); (0x10ca4, [0x10ce4]); (0x10ca5, [0x10ce5]);
   (0x10ca6, [0x10ce6]); (0x10ca7, [0x10ce7]); (0x10ca8, [0x10ce8]);
   (0x10ca9, [0x10ce9]); (0x10caa, [0x10cea]); (0x10cab, [0x10ceb]);
   (0x10cac, [0x10cec]); (0x10cad, [0x10ced]); (0x10cae, [0x10cee]);
   (0x10caf, [0x10cef]); (0x10cb0, [0x10cf0]); (0x10cb1, [0x10cf1]);
   (0x10cb2, [0x10cf2]); (0x118a0, [0x118c0]); (0x118a1, [0x118c1]);
   (0x118a2, [0x118c2]); (0x118a3, [0x118c3]); (0x118a4, [0x118c4]);
   (0x118a5, [0x118c5]); (0x118a6, [0x118c6]); (0x118a7, [0x118c7]);
   (0x118a8, [0x118c8]); (0x118a9, [0x118c9]); (0x118aa, [0x118ca]);
   (0x118ab, [0x118cb]); (0x118ac, [0x118cc]); (0x118ad, [0x118cd]);
   (0x118ae, [0x118ce]); (0x118af, [0x118cf]); (0x118b0, [0x118d0]);
   (0x118b1, [0x118d1]); (0x118b2, [0x118d2]); (0x118b3, [0x118d3]);
   (0x118b4, [0x118d4]); (0x118b5, [0x118d5]); (0x118b6, [0x118d6]);
   (0x118b7, [0x118d7]); (0x118b8, [0x118d8]); (0x118b9, [0x118d9]);
   (0x118ba, [0x118da]); (0x118bb, [0x118db]); (0x118bc, [0x118dc]);
   (0x118bd, [0x118dd]); (0x118be, [0x118de]); (0x118bf, [0x118df]);
   (0x16e40, [0x16e60]); (0x16e41, [0x16e61]); (0x16e42, [0x16e62]);
   (0x16e43, [0x16e63]); (0x16e44, [0x16e64]); (0x16e45, [0x16e65]);
   (0x16e46, [0x16e66]); (0x16e47, [0x16e67]); (0x16e48, [0x16e68]);
   (0x16e49, [0x16e69]); (0x16e4a, [0x16e6a]); (0x16e4b, [0x16e6b]);
   (0x16e4c, [0x16e6c]); (0x16e4d, [0x16e6d]); (0x16e4e, [0x16e6e]);
   (0x16e4f, [0x16e6f]); (0x16e50, [0x16e70]); (0x16e51, [0x16e71]);
   (0x16e52, [0x16e72]); (0x16e53, [0x16e73]); (0x16e54, [0x16e74]);
   (0x16e55, [0x16e75]); (0x16e56, [0x16e76]); (0x16e57, [0x16e77]);
   (0x16e58, [0x16e78]); (0x16e59, [0x16e79]); (0x16e5a, [0x16e7a]);
   (0x16e5b, [0x16e7b]); (0x16e5c, [0x16e7c]); (0x16e5d, [0x16e7d]);
   (0x16e5e, [0x16e7e]); (0x16e5f, [0x16e7f]); (0x1e900, [0x1e922]);
   (0x1e901, [0x1e923]); (0x1e902, [0x1e924]); (0x1e903, [0x1e925]);
   (0x1e904, [0x1e926]); (0x1e905, [0x1e927]); (0x1e906, [0x1e928]);
   (0x1e907, [0x1e929]); (0x1e908, [0x1e92a]); (0x1e909, [0x1e92b]);
   (0x1e90a, [0x1e92c]); (0x1e90b, [0x1e92d]); (0x1e90c, [0x1e92e]);
   (0x1e90d, [0x1e92f]); (0x1e90e, [0x1e930]); (0x1e90f, [0x1e931]);
   (0x1e910, [0x1e932]); (0x1e911, [0x1e933]); (0x1e912, [0x1e934]);
   (0x1e913, [0x1e935]); (0x1e914, [0x1e936]); (0x1e915, [0x1e937]);
   (0x1e916, [0x1e938]); (0x1e917, [0x1e939]); (0x1e918, [0x1e93a]);
   (0x1e919, [0x1e93b]); (0x1e91a, [0x1e93c]); (0x1e91b, [0x1e93d]);
   (0x1e91c, [0x1e93e]); (0x1e91d, [0x1e93f]); (0x1e91e, [0x1e940]);
   (0x1e91f, [0x1e941]); (0x1e920, [0x1e942]); (0x1e921, [0x1e943])].

(** [_PyUnicode_ToLowerFull] *)
Definition tolower_full (c : Z) : pystr :=
  match lookup c lowercase with
  | Some l => l
  | None => [c]
  end.

(** Property Case_Ignorable. *)
Definition case_ignorable_ranges : list (Z * Z) :=
  [(0x27, 0x27); (0x2e, 0x2e); (0x3a, 0x3a); (0x5e, 0x5e); (0x60, 0x60);
   (0xa8, 0xa8); (0xad, 0xad); (0xaf, 0xaf); (0xb4, 0xb4); (0xb7, 0xb8);
   (0x2b0, 0x36f); (0x374, 0x375); (0x37a, 0x37a); (0x384, 0x385);
   (0x387, 0x387); (0x483, 0x489); (0x559, 0x559); (0x55f, 0x55f);
   (0x591, 0x5bd); (0x5bf, 0x5bf); (0x5c1, 0x5c2); (0x5c4, 0x5c5);
   (0x5c7, 0x5c7); (0x5f4, 0x5f4); (0x600, 0x605); (0x610, 0x61a);
   (0x61c, 0x61c); (0x640, 0x640); (0x64b, 0x65f); (0x670, 0x670);
   (0x6d6, 0x6dd); (0x6df, 0x6e8); (0x6ea, 0x6ed); (0x70f, 0x70f);
   (0x711, 0x711); (0x730, 0x74a); (0x7a6, 0x7b0); (0x7eb, 0x7f5);
   (0x7fa, 0x7fa); (0x7fd, 0x7fd); (0x816, 0x82d); (0x859, 0x85b);
   (0x888, 0x888); (0x890, 0x891); (0x898, 0x89f); (0x8c9, 0x902);
   (0x93a, 0x93a); (0x93c, 0x93c); (0x941, 0x948); (0x94d, 0x94d);
   (0x951, 0x957); (0x962, 0x963); (0x971, 0x971); (0x981, 0x981);
   (0x9bc, 0x9bc); (0x9c1, 0x9c4); (0x9cd, 0x9cd); (0x9e2, 0x9e3);
   (0x9fe, 0x9fe); (0xa01, 0xa02); (0xa3c, 0xa3c); (0xa41, 0xa42);
   (0xa47, 0xa48); (0xa4b, 0xa4d); (0xa51, 0xa51); (0xa70, 0xa71);
   (0xa75, 0xa75); (0xa81, 0xa82); (0xabc, 0xabc); (0xac1, 0xac5);
   (0xac7, 0xac8); (0xacd, 0xacd); (0xae2, 0xae3); (0xafa, 0xaff);
   (0xb01, 0xb01); (0xb3c, 0xb3c); (0xb3f, 0xb3f); (0xb41, 0xb44);
   (0xb4d, 0xb4d); (0xb55, 0xb56); (0xb62, 0xb63); (0xb82, 0xb82);
   (0xbc0, 0xbc0); (0xbcd, 0xbcd); (0xc00, 0xc00); (0xc04, 0xc04);
   (0xc3c, 0xc3c); (0xc3e, 0xc40); (0xc46, 0xc48); (0xc4a, 0xc4d);
   (0xc55, 0xc56); (0xc62, 0xc63); (0xc81, 0xc81); (0xcbc, 0xcbc);
   (0xcbf, 0xcbf); (0xcc6, 0xcc6); (0xccc, 0xccd); (0xce2, 0xce3);
   (0xd00, 0xd01); (0xd3b, 0xd3c); (0xd41, 0xd44); (0xd4d, 0xd4d);
   (0xd62, 0xd63); (0xd81, 0xd81); (0xdca, 0xdca); (0xdd2, 0xdd4);
   (0xdd6, 0xdd6); (0xe31, 0xe31); (0xe34, 0xe3a); (0xe46, 0xe4e);
   (0xeb1, 0xeb1); (0xeb4, 0xebc); (0xec6, 0xec6); (0xec8, 0xecd);
   (0xf18, 0xf19); (0xf35, 0xf35); (0xf37, 0xf37); (0xf39, 0xf39);
   (0xf71, 0xf7e); (0xf80, 0xf84); (0xf86, 0xf87); (0xf8d, 0xf97);
   (0xf99, 0xfbc); (0xfc6, 0xfc6); (0x102d, 0x1030); (0x1032, 0x1037);
   (0x1039, 0x103a); (0x103d, 0x103e); (0x1058, 0x1059); (0x105e, 0x1060);
   (0x1071, 0x1074); (0x1082, 0x1082); (0x1085, 0x1086); (0x108d, 0x108d);
   (0x109d, 0x109d); (0x10fc, 0x10fc); (0x135d, 0x135f); (0x1712, 0x1714);
   (0x1732, 0x1733); (0x1752, 0x1753); (0x1772, 0x1773); (0x17b4, 0x17b5);
   (0x17b7, 0x17bd); (0x17c6, 0x17c6); (0x17c9, 0x17d3); (0x17d7, 0x17d7);
   (0x17dd, 0x17dd); (0x180b, 0x180f); (0x1843, 0x1843); (0x1885, 0x1886);
   (0x18a9, 0x18a9); (0x1920, 0x1922); (0x1927, 0x1928); (0x1932, 0x1932);
   (0x1939, 0x193b); (0x1a17, 0x1a18); (0x1a1b, 0x1a1b); (0x1a56, 0x1a56);
   (0x1a58, 0x1a5e); (0x1a60, 0x1a60); (0x1a62, 0x1a62); (0x1a65, 0x1a6c);
   (0x1a73, 0x1a7c); (0x1a7f, 0x1a7f); (0x1aa7, 0x1aa7); (0x1ab0, 0x1ace);
   (0x1b00, 0x1b03); (0x1b34, 0x1b34); (0x1b36, 0x1b3a); (0x1b3c, 0x1b3c);
   (0x1b42, 0x1b42); (0x1b6b, 0x1b73); (0x1b80, 0x1b81); (0x1ba2, 0x1ba5);
   (0x1ba8, 0x1ba9); (0x1bab, 0x1bad); (0x1be6, 0x1be6); (0x1be8, 0x1be9);
   (0x1bed, 0x1bed); (0x1bef, 0x1bf1); (0x1c2c, 0x1c33); (0x1c36, 0x1c37);
   (0x1c78, 0x1c7d); (0x1cd0, 0x1cd2); (0x1cd4, 0x1ce0); (0x1ce2, 0x1ce8);
   (0x1ced, 0x1ced); (0x1cf4, 0x1cf4); (0x1cf8, 0x1cf9); (0x1d2c, 0x1d6a);
   (0x1d78, 0x1d78); (0x1d9b, 0x1dff); (0x1fbd, 0x1fbd); (0x1fbf, 0x1fc1);
   (0x1fcd, 0x1fcf); (0x1fdd, 0x1fdf); (0x1fed, 0x1fef); (0x1ffd, 0x1ffe);
   (0x200b, 0x200f); (0x2018, 0x2019); (0x2024, 0x2024); (0x2027, 0x2027);
   (0x202a, 0x202e); (0x2060, 0x2064); (0x2066, 0x206f); (0x2071, 0x2071);
   (0x207f, 0x207f); (0x2090, 0x209c); (0x20d0, 0x20f0); (0x2c7c, 0x2c7d);
   (0x2cef, 0x2cf1); (0x2d6f, 0x2d6f); (0x2d7f, 0x2d7f); (0x2de0, 0x2dff);
   (0x2e2f, 0x2e2f); (0x3005, 0x3005); (0x302a, 0x302d); (0x3031, 0x3035);
   (0x303b, 0x303b); (0x3099, 0x309e); (0x30fc, 0x30fe); (0xa015, 0xa015);
   (0xa4f8, 0xa4fd); (0xa60c, 0xa60c); (0xa66f, 0xa672); (0xa674, 0xa67d);
   (0xa67f, 0xa67f); (0xa69c, 0xa69f); (0xa6f0, 0xa6f1); (0xa700, 0xa721);
   (0xa770, 0xa770); (0xa788, 0xa78a); (0xa7f2, 0xa7f4); (0xa7f8, 0xa7f9);
   (0xa802, 0xa802); (0xa806, 0xa806); (0xa80b, 0xa80b); (0xa825, 0xa826);
   (0xa82c, 0xa82c); (0xa8c4, 0xa8c5); (0xa8e0, 0xa8f1); (0xa8ff, 0xa8ff);
   (0xa926, 0xa92d); (0xa947, 0xa951); (0xa980, 0xa982); (0xa9b3, 0xa9b3);
   (0xa9b6, 0xa9b9); (0xa9bc, 0xa9bd); (0xa9cf, 0xa9cf); (0xa9e5, 0xa9e6);
   (0xaa29, 0xaa2e); (0xaa31, 0xaa32); (0xaa35, 0xaa36); (0xaa43, 0xaa43);
   (0xaa4c, 0xaa4c); (0xaa70, 0xaa70); (0xaa7c, 0xaa7c); (0xaab0, 0xaab0);
   (0xaab2, 0xaab4); (0xaab7, 0xaab8); (0xaabe, 0xaabf); (0xaac1, 0xaac1);
   (0xaadd, 0xaadd); (0xaaec, 0xaaed); (0xaaf3, 0xaaf4); (0xaaf6, 0xaaf6);
   (0xab5b, 0xab5f); (0xab69, 0xab6b); (0xabe5, 0xabe5); (0xabe8, 0xabe8);
   (0xabed, 0xabed); (0xfb1e, 0xfb1e); (0xfbb2, 0xfbc2); (0xfe00, 0xfe0f);
   (0xfe13, 0xfe13); (0xfe20, 0xfe2f); (0xfe52, 0xfe52); (0xfe55, 0xfe55);
   (0xfeff, 0xfeff); (0xff07, 0xff07); (0xff0e, 0xff0e); (0xff1a, 0xff1a);
   (0xff3e, 0xff3e); (0xff40, 0xff40); (0xff70, 0xff70); (0xff9e, 0xff9f);
   (0xffe3, 0xffe3); (0xfff9, 0xfffb); (0x101fd, 0x101fd); (0x102e0, 0x102e0);
   (0x10376, 0x1037a); (0x10780, 0x10785); (0x10787, 0x107b0);
   (0x107b2, 0x107ba); (0x10a01, 0x10a03); (0x10a05, 0x10a06);
   (0x10a0c, 0x10a0f); (0x10a38, 0x10a3a); (0x10a3f, 0x10a3f);
   (0x10ae5, 0x10ae6); (0x10d24, 0x10d27); (0x10eab, 0x10eac);
   (0x10f46, 0x10f50); (0x10f82, 0x10f85); (0x11001, 0x11001);
   (0x11038, 0x11046); (0x11070, 0x11070); (0x11073, 0x11074);
   (0x1107f, 0x11081); (0x110b3, 0x110b6); (0x110b9, 0x110ba);
   (0x110bd, 0x110bd); (0x110c2, 0x110c2); (0x110cd, 0x110cd);
   (0x11100, 0x11102); (0x11127, 0x1112b); (0x1112d, 0x11134);
   (0x11173, 0x11173); (0x11180, 0x11181); (0x111b6, 0x111be);
   (0x111c9, 0x111cc); (0x111cf, 0x111cf); (0x1122f, 0x11231);
   (0x11234, 0x11234); (0x11236, 0x11237); (0x1123e, 0x1123e);
   (0x112df, 0x112df); (0x112e3, 0x112ea); (0x11300, 0x11301);
   (0x1133b, 0x1133c); (0x11340, 0x11340); (0x11366, 0x1136c);
   (0x11370, 0x11374); (0x11438, 0x1143f); (0x11442, 0x11444);
   (0x11446, 0x11446); (0x1145e, 0x1145e); (0x114b3, 0x114b8);
   (0x114ba, 0x114ba); (0x114bf, 0x114c0); (0x114c2, 0x114c3);
   (0x115b2, 0x115b5); (0x115bc, 0x115bd); (0x115bf, 0x115c0);
   (0x115dc, 0x115dd); (0x11633, 0x1163a); (0x1163d, 0x1163d);
   (0x1163f, 0x11640); (0x116ab, 0x116ab); (0x116ad, 0x116ad);
   (0x116b0, 0x116b5); (0x116b7, 0x116b7); (0x1171d, 0x1171f);
   (0x11722, 0x11725); (0x11727, 0x1172b); (0x1182f, 0x11837);
   (0x11839, 0x1183a); (0x1193b, 0x1193c); (0x1193e, 0x1193e);
   (0x11943, 0x11943); (0x119d4, 0x119d7); (0x119da, 0x119db);
   (0x119e0, 0x119e0); (0x11a01, 0x11a0a); (0x11a33, 0x11a38);
   (0x11a3b, 0x11a3e); (0x11a47, 0x11a47); (0x11a51, 0x11a56);
   (0x11a59, 0x11a5b); (0x11a8a, 0x11a96); (0x11a98, 0x11a99);
   (0x11c30, 0x11c36); (0x11c38, 0x11c3d); (0x11c3f, 0x11c3f);
   (0x11c92, 0x11ca7); (0x11caa, 0x11cb0); (0x11cb2, 0x11cb3);
   (0x11cb5, 0x11cb6); (0x11d31, 0x11d36); (0x11d3a, 0x11d3a);
   (0x11d3c, 0x11d3d); (0x11d3f, 0x11d45); (0x11d47, 0x11d47);
   (0x11d90, 0x11d91); (0x11d95, 0x11d95); (0x11d97, 0x11d97);
   (0x11ef3, 0x11ef4); (0x13430, 0x13438); (0x16af0, 0x16af4);
   (0x16b30, 0x16b36); (0x16b40, 0x16b43); (0x16f4f, 0x16f4f);
   (0x16f8f, 0x16f9f); (0x16fe0, 0x16fe1); (0x16fe3, 0x16fe4);
   (0x1aff0, 0x1aff3); (0x1aff5, 0x1affb); (0x1affd, 0x1affe);
   (0x1bc9d, 0x1bc9e); (0x1bca0, 0x1bca3); (0x1cf00, 0x1cf2d);
   (0x1cf30, 0x1cf46); (0x1d167, 0x1d169); (0x1d173, 0x1d182);
   (0x1d185, 0x1d18b); (0x1d1aa, 0x1d1ad); (0x1d242, 0x1d244);
   (0x1da00, 0x1da36); (0x1da3b, 0x1da6c); (0x1da75, 0x1da75);
   (0x1da84, 0x1da84); (0x1da9b, 0x1da9f); (0x1daa1, 0x1daaf);
   (0x1e000, 0x1e006); (0x1e008, 0x1e018); (0x1e01b, 0x1e021);
   (0x1e023, 0x1e024); (0x1e026, 0x1e02a); (0x1e130, 0x1e13d);
   (0x1e2ae, 0x1e2ae); (0x1e2ec, 0x1e2ef); (0x1e8d0, 0x1e8d6);
   (0x1e944, 0x1e94b); (0x1f3fb, 0x1f3ff); (0xe0001, 0xe0001);
   (0xe0020, 0xe007f); (0xe0100, 0xe01ef)].

(** Property Cased. *)
Definition cased_ranges : list (Z * Z) :=
  [(0x41, 0x5a); (0x61, 0x7a); (0xaa, 0xaa); (0xb5, 0xb5); (0xba, 0xba);
   (0xc0, 0xd6); (0xd8, 0xf6); (0xf8, 0x1ba); (0x1bc, 0x1bf); (0x1c4, 0x293);
   (0x295, 0x2b8); (0x2c0, 0x2c1); (0x2e0, 0x2e4); (0x345, 0x345);
   (0x370, 0x373); (0x376, 0x377); (0x37a, 0x37d); (0x37f, 0x37f);
   (0x386, 0x386); (0x388, 0x38a); (0x38c, 0x38c); (0x38e, 0x3a1);
   (0x3a3, 0x3f5); (0x3f7, 0x481); (0x48a, 0x52f); (0x531, 0x556);
   (0x560, 0x588); (0x10a0, 0x10c5); (0x10c7, 0x10c7); (0x10cd, 0x10cd);
   (0x10d0, 0x10fa); (0x10fd, 0x10ff); (0x13a0, 0x13f5); (0x13f8, 0x13fd);
   (0x1c80, 0x1c88); (0x1c90, 0x1cba); (0x1cbd, 0x1cbf); (0x1d00, 0x1dbf);
   (0x1e00, 0x1f15); (0x1f18, 0x1f1d); (0x1f20, 0x1f45); (0x1f48, 0x1f4d);
   (0x1f50, 0x1f57); (0x1f59, 0x1f59); (0x1f5b, 0x1f5b); (0x1f5d, 0x1f5d);
   (0x1f5f, 0x1f7d); (0x1f80, 0x1fb4); (0x1fb6, 0x1fbc); (0x1fbe, 0x1fbe);
   (0x1fc2, 0x1fc4); (0x1fc6, 0x1fcc); (0x1fd0, 0x1fd3); (0x1fd6, 0x1fdb);
   (0x1fe0, 0x1fec); (0x1ff2, 0x1ff4); (0x1ff6, 0x1ffc); (0x2071, 0x2071);
   (0x207f, 0x207f); (0x2090, 0x209c); (0x2102, 0x2102); (0x2107, 0x2107);
   (0x210a, 0x2113); (0x2115, 0x2115); (0x2119, 0x211d); (0x2124, 0x2124);
   (0x2126, 0x2126); (0x2128, 0x2128); (0x212a, 0x212d); (0x212f, 0x2134);
   (0x2139, 0x2139); (0x213c, 0x213f); (0x2145, 0x2149); (0x214e, 0x214e);
   (0x2160, 0x217f); (0x2183, 0x2184); (0x24b6, 0x24e9); (0x2c00, 0x2ce4);
   (0x2ceb, 0x2cee); (0x2cf2, 0x2cf3); (0x2d00, 0x2d25); (0x2d27, 0x2d27);
   (0x2d2d, 0x2d2d); (0xa640, 0xa66d); (0xa680, 0xa69d); (0xa722, 0xa787);
   (0xa78b, 0xa78e); (0xa790, 0xa7ca); (0xa7d0, 0xa7d1); (0xa7d3, 0xa7d3);
   (0xa7d5, 0xa7d9); (0xa7f5, 0xa7f6); (0xa7f8, 0xa7fa); (0xab30, 0xab5a);
   (0xab5c, 0xab68); (0xab70, 0xabbf); (0xfb00, 0xfb06); (0xfb13, 0xfb17);
   (0xff21, 0xff3a); (0xff41, 0xff5a); (0x10400, 0x1044f); (0x104b0, 0x104d3);
   (0x104d8, 0x104fb); (0x10570, 0x1057a); (0x1057c, 0x1058a);
   (0x1058c, 0x10592); (0x10594, 0x10595); (0x10597, 0x105a1);
   (0x105a3, 0x105b1); (0x105b3, 0x105b9); (0x105bb, 0x105bc);
   (0x10780, 0x10780); (0x10783, 0x10785); (0x10787, 0x107b0);
   (0x107b2, 0x107ba); (0x10c80, 0x10cb2); (0x10cc0, 0x10cf2);
   (0x118a0, 0x118df); (0x16e40, 0x16e7f); (0x1d400, 0x1d454);
   (0x1d456, 0x1d49c); (0x1d49e, 0x1d49f); (0x1d4a2, 0x1d4a2);
   (0x1d4a5, 0x1d4a6); (0x1d4a9, 0x1d4ac); (0x1d4ae, 0x1d4b9);
   (0x1d4bb, 0x1d4bb); (0x1d4bd, 0x1d4c3); (0x1d4c5, 0x1d505);
   (0x1d507, 0x1d50a); (0x1d50d, 0x1d514); (0x1d516, 0x1d51c);
   (0x1d51e, 0x1d539); (0x1d53b, 0x1d53e); (0x1d540, 0x1d544);
   (0x1d546, 0x1d546); (0x1d54a, 0x1d550); (0x1d552, 0x1d6a5);
   (0x1d6a8, 0x1d6c0); (0x1d6c2, 0x1d6da); (0x1d6dc, 0x1d6fa);
   (0x1d6fc, 0x1d714); (0x1d716, 0x1d734); (0x1d736, 0x1d74e);
   (0x1d750, 0x1d76e); (0x1d770, 0x1d788); (0x1d78a, 0x1d7a8);
   (0x1d7aa, 0x1d7c2); (0x1d7c4, 0x1d7cb); (0x1df00, 0x1df09);
   (0x1df0b, 0x1df1e); (0x1e900, 0x1e943); (0x1f130, 0x1f149);
   (0x1f150, 0x1f169); (0x1f170, 0x1f189)].

Definition case_ignorable (c : Z) : bool := in_ranges c case_ignorable_ranges.
Definition cased (c : Z) : bool := in_ranges c cased_ranges.

Fixpoint skip_ignorable (s : pystr) : pystr :=
  match s with
  | c :: s' => if case_ignorable c then skip_ignorable s' else s
  | [] => []
  end.

(** [handle_capital_sigma]: U+03A3 is in final position when a cased
    character comes before it and none comes after it, case-ignorable
    characters being skipped.  [before] is the text before it, last
    character first. *)
Definition final_sigma (before after : pystr) : bool :=
  match skip_ignorable before with
  | c :: _ =>
      cased c
      && match skip_ignorable after with
         | d :: _ => negb (cased d)
         | [] => true
         end
  | [] => false
  end.

(** [str.lower]: every code point is replaced by its lowercase mapping,
    U+03A3 by U+03C2 in final position and by U+03C3 elsewhere. *)
Fixpoint lower_from (before s : pystr) : pystr :=
  match s with
  | [] => []
  | c :: s' =>
      (if c =? 0x3a3
       then [if final_sigma before s' then 0x3c2 else 0x3c3]
       else tolower_full c)
      ++ lower_from (c :: before) s'
  end.

Definition str_lower (s : pystr) : pystr := lower_from [] s.

(** The code points with a canonical decomposition, Hangul syllables
    apart, with the decomposition applied until nothing decomposes. *)
Definition decompositions : list (Z * pystr) :=
  [(0xc0, [0x41; 0x300]); (0xc1, [0x41; 0x301]); (0xc2, [0x41; 0x302]);
   (0xc3, [0x41; 0x303]); (0xc4, [0x41; 0x308]); (0xc5, [0x41; 0x30a]);
   (0xc7, [0x43; 0x327]); (0xc8, [0x45; 0x300]); (0xc9, [0x45; 0x301]);
   (0xca, [0x45; 0x302]); (0xcb, [0x45; 0x308]); (0xcc, [0x49; 0x300]);
   (0xcd, [0x49; 0x301]); (0xce, [0x49; 0x302]); (0xcf, [0x49; 0x308]);
   (0xd1, [0x4e; 0x303]); (0xd2, [0x4f; 0x300]); (0xd3, [0x4f; 0x301]);
   (0xd4, [0x4f; 0x302]); (0xd5, [0x4f; 0x303]); (0xd6, [0x4f; 0x308]);
   (0xd9, [0x55; 0x300]); (0xda, [0x55; 0x301]); (0xdb, [0x55; 0x302]);
   (0xdc, [0x55; 0x308]); (0xdd, [0x59; 0x301]); (0xe0, [0x61; 0x300]);
   (0xe1, [0x61; 0x301]); (0xe2, [0x61; 0x302]); (0xe3, [0x61; 0x303]);
   (0xe4, [0x61; 0x308]); (0xe5, [0x61; 0x30a]); (0xe7, [0x63; 0x327]);
   (0xe8, [0x65; 0x300]); (0xe9, [0x65; 0x301]); (0xea, [0x65; 0x302]);
   (0xeb, [0x65; 0x308]); (0xec, [0x69; 0x300]); (0xed, [0x69; 0x301]);
   (0xee, [0x69; 0x302]); (0xef, [0x69; 0x308]); (0xf1, [0x6e; 0x303]);
   (0xf2, [0x6f; 0x300]); (0xf3, [0x6f; 0x301]); (0xf4, [0x6f; 0x302]);
   (0xf5, [0x6f; 0x303]); (0xf6, [0x6f; 0x308]); (0xf9, [0x75; 0x300]);
   (0xfa, [0x75; 0x301]); (0xfb, [0x75; 0x302]); (0xfc, [0x75; 0x308]);
   (0xfd, [0x79; 0x301]); (0xff, [0x79; 0x308]); (0x100, [0x41; 0x304]);
   (0x101, [0x61; 0x304]); (0x102, [0x41; 0x306]); (0x103, [0x61; 0x306]);
   (0x104, [0x41; 0x328]); (0x105, [0x61; 0x328]); (0x106, [0x43; 0x301]);
   (0x107, [0x63; 0x301]); (0x108, [0x43; 0x302]); (0x109, [0x63; 0x302]);
   (0x10a, [0x43; 0x307]); (0x10b, [0x63; 0x307]); (0x10c, [0x43; 0x30c]);
   (0x10d, [0x63; 0x30c]); (0x10e, [0x44; 0x30c]); (0x10f, [0x64; 0x30c]);
   (0x112, [0x45; 0x304]); (0x113, [0x65; 0x304]); (0x114, [0x45; 0x306]);
   (0x115, [0x65; 0x306]); (0x116, [0x45; 0x307]); (0x117, [0x65; 0x307]);
   (0x118, [0x45; 0x328]); (0x119, [0x65; 0x328]); (0x11a, [0x45; 0x30c]);
   (0x11b, [0x65; 0x30c]); (0x11c, [0x47; 0x302]); (0x11d, [0x67; 0x302]);
   (0x11e, [0x47; 0x306]); (0x11f, [0x67; 0x306]); (0x120, [0x47; 0x307]);
   (0x121, [0x67; 0x307]); (0x122, [0x47; 0x327]); (0x123, [0x67; 0x327]);
   (0x124, [0x48; 0x302]); (0x125, [0x68; 0x302]); (0x128, [0x49; 0x303]);
   (0x129, [0x69; 0x303]); (0x12a, [0x49; 0x304]); (0x12b, [0x69; 0x304]);
   (0x12c, [0x49; 0x306]); (0x12d, [0x69; 0x306]); (0x12e, [0x49; 0x328]);
   (0x12f, [0x69; 0x328]); (0x130, [0x49; 0x307]); (0x134, [0x4a; 0x302]);
   (0x135, [0x6a; 0x302]); (0x136, [0x4b; 0x327]); (0x137, [0x6b; 0x327]);
   (0x139, [0x4c; 0x301]); (0x13a, [0x6c; 0x301]); (0x13b, [0x4c; 0x327]);
   (0x13c, [0x6c; 0x327]); (0x13d, [0x4c; 0x30c]); (0x13e, [0x6c; 0x30c]);
   (0x143, [0x4e; 0x301]); (0x144, [0x6e; 0x301]); (0x145, [0x4e; 0x327]);
   (0x146, [0x6e; 0x327]); (0x147, [0x4e; 0x30c]); (0x148, [0x6e; 0x30c]);
   (0x14c, [0x4f; 0x304]); (0x14d, [0x6f; 0x304]); (0x14e, [0x4f; 0x306]);
   (0x14f, [0x6f; 0x306]); (0x150, [0x4f; 0x30b]); (0x151, [0x6f; 0x30b]);
   (0x154, [0x52; 0x301]); (0x155, [0x72; 0x301]); (0x156, [0x52; 0x327]);
   (0x157, [0x72; 0x327]); (0x158, [0x52; 0x30c]); (0x159, [0x72; 0x30c]);
   (0x15a, [0x53; 0x301]); (0x15b, [0x73; 0x301]); (0x15c, [0x53; 0x302]);
   (0x15d, [0x73; 0x302]); (0x15e, [0x53; 0x327]); (0x15f, [0x73; 0x327]);
   (0x160, [0x53; 0x30c]); (0x161, [0x73; 0x30c]); (0x162, [0x54; 0x327]);
   (0x163, [0x74; 0x327]); (0x164, [0x54; 0x30c]); (0x165, [0x74; 0x30c]);
   (0x168, [0x55; 0x303]); (0x169, [0x75; 0x303]); (0x16a, [0x55; 0x304]);
   (0x16b, [0x75; 0x304]); (0x16c, [0x55; 0x306]); (0x16d, [0x75; 0x306]);
   (0x16e, [0x55; 0x30a]); (0x16f, [0x75; 0x30a]); (0x170, [0x55; 0x30b]);
   (0x171, [0x75; 0x30b]); (0x172, [0x55; 0x328]); (0x173, [0x75; 0x328]);
   (0x174, [0x57; 0x302]); (0x175, [0x77; 0x302]); (0x176, [0x59; 0x302]);
   (0x177, [0x79; 0x302]); (0x178, [0x59; 0x308]); (0x179, [0x5a; 0x301]);
   (0x17a, [0x7a; 0x301]); (0x17b, [0x5a; 0x307]); (0x17c, [0x7a; 0x307]);
   (0x17d, [0x5a; 0x30c]); (0x17e, [0x7a; 0x30c]); (0x1a0, [0x4f; 0x31b]);
   (0x1a1, [0x6f; 0x31b]); (0x1af, [0x55; 0x31b]); (0x1b0, [0x75; 0x31b]);
   (0x1cd, [0x41; 0x30c]); (0x1ce, [0x61; 0x30c]); (0x1cf, [0x49; 0x30c]);
   (0x1d0, [0x69; 0x30c]); (0x1d1, [0x4f; 0x30c]); (0x1d2, [0x6f; 0x30c]);
   (0x1d3, [0x55; 0x30c]); (0x1d4, [0x75; 0x30c]);
   (0x1d5, [0x55; 0x308; 0x304]); (0x1d6, [0x75; 0x308; 0x304]);
   (0x1d7, [0x55; 0x308; 0x301]); (0x1d8, [0x75; 0x308; 0x301]);
   (0x1d9, [0x55; 0x308; 0x30c]); (0x1da, [0x75; 0x308; 0x30c]);
   (0x1db, [0x55; 0x308; 0x300]); (0x1dc, [0x75; 0x308; 0x300]);
   (0x1de, [0x41; 0x308; 0x304]); (0x1df, [0x61; 0x308; 0x304]);
   (0x1e0, [0x41; 0x307; 0x304]); (0x1e1, [0x61; 0x307; 0x304]);
   (0x1e2, [0xc6; 0x304]); (0x1e3, [0xe6; 0x304]); (0x1e6, [0x47; 0x30c]);
   (0x1e7, [0x67; 0x30c]); (0x1e8, [0x4b; 0x30c]); (0x1e9, [0x6b; 0x30c]);
   (0x1ea, [0x4f; 0x328]); (0x1eb, [0x6f; 0x328]);
   (0x1ec, [0x4f; 0x328; 0x304]); (0x1ed, [0x6f; 0x328; 0x304]);
   (0x1ee, [0x1b7; 0x30c]); (0x1ef, [0x292; 0x30c]); (0x1f0, [0x6a; 0x30c]);
   (0x1f4, [0x47; 0x301]); (0x1f5, [0x67; 0x301]); (0x1f8, [0x4e; 0x300]);
   (0x1f9, [0x6e; 0x300]); (0x1fa, [0x41; 0x30a; 0x301]);
   (0x1fb, [0x61; 0x30a; 0x301]); (0x1fc, [0xc6; 0x301]);
   (0x1fd, [0xe6; 0x301]); (0x1fe, [0xd8; 0x301]); (0x1ff, [0xf8; 0x301]);
   (0x200, [0x41; 0x30f]); (0x201, [0x61; 0x30f]); (0x202, [0x41; 0x311]);
   (0x203, [0x61; 0x311]); (0x204, [0x45; 0x30f]); (0x205, [0x65; 0x30f]);
   (0x206, [0x45; 0x311]); (0x207, [0x65; 0x311]); (0x208, [0x49; 0x30f]);
   (0x209, [0x69; 0x30f]); (0x20a, [0x49; 0x311]); (0x20b, [0x69; 0x311]);
   (0x20c, [0x4f; 0x30f]); (0x20d, [0x6f; 0x30f]); (0x20e, [0x4f; 0x311]);
   (0x20f, [0x6f; 0x311]); (0x210, [0x52; 0x30f]); (0x211, [0x72; 0x30f]);
   (0x212, [0x52; 0x311]); (0x213, [0x72; 0x311]); (0x214, [0x55; 0x30f]);
   (0x215, [0x75; 0x30f]); (0x216, [0x55; 0x311]); (0x217, [0x75; 0x311]);
   (0x218, [0x53; 0x326]); (0x219, [0x73; 0x326]); (0x21a, [0x54; 0x326]);
   (0x21b, [0x74; 0x326]); (0x21e, [0x48; 0x30c]); (0x21f, [0x68; 0x30c]);
   (0x226, [0x41; 0x307]); (0x227, [0x61; 0x307]); (0x228, [0x45; 0x327]);
   (0x229, [0x65; 0x327]); (0x22a, [0x4f; 0x308; 0x304]);
   (0x22b, [0x6f; 0x308; 0x304]); (0x22c, [0x4f; 0x303; 0x304]);
   (0x22d, [0x6f; 0x303; 0x304]); (0x22e, [0x4f; 0x307]);
   (0x22f, [0x6f; 0x307]); (0x230, [0x4f; 0x307; 0x304]);
   (0x231, [0x6f; 0x307; 0x304]); (0x232, [0x59; 0x304]);
   (0x233, [0x79; 0x304]); (0x340, [0x300]); (0x341, [0x301]);
   (0x343, [0x313]); (0x344, [0x308; 0x301]); (0x374, [0x2b9]);
   (0x37e, [0x3b]); (0x385, [0xa8; 0x301]); (0x386, [0x391; 0x301]);
   (0x387, [0xb7]); (0x388, [0x395; 0x301]); (0x389, [0x397; 0x301]);
   (0x38a, [0x399; 0x301]); (0x38c, [0x39f; 0x301]); (0x38e, [0x3a5; 0x301]);
   (0x38f, [0x3a9; 0x301]); (0x390, [0x3b9; 0x308; 0x301]);
   (0x3aa, [0x399; 0x308]); (0x3ab, [0x3a5; 0x308]); (0x3ac, [0x3b1; 0x301]);
   (0x3ad, [0x3b5; 0x301]); (0x3ae, [0x3b7; 0x301]); (0x3af, [0x3b9; 0x301]);
   (0x3b0, [0x3c5; 0x308; 0x301]); (0x3ca, [0x3b9; 0x308]);
   (0x3cb, [0x3c5; 0x308]); (0x3cc, [0x3bf; 0x301]); (0x3cd, [0x3c5; 0x301]);
   (0x3ce, [0x3c9; 0x301]); (0x3d3, [0x3d2; 0x301]); (0x3d4, [0x3d2; 0x308]);
   (0x400, [0x415; 0x300]); (0x401, [0x415; 0x308]); (0x403, [0x413; 0x301]);
   (0x407, [0x406; 0x308]); (0x40c, [0x41a; 0x301]); (0x40d, [0x418; 0x300]);
   (0x40e, [0x423; 0x306]); (0x419, [0x418; 0x306]); (0x439, [0x438; 0x306]);
   (0x450, [0x435; 0x300]); (0x451, [0x435; 0x308]); (0x453, [0x433; 0x301]);
   (0x457, [0x456; 0x308]); (0x45c, [0x43a; 0x301]); (0x45d, [0x438; 0x300]);
   (0x45e, [0x443; 0x306]); (0x476, [0x474; 0x30f]); (0x477, [0x475; 0x30f]);
   (0x4c1, [0x416; 0x306]); (0x4c2, [0x436; 0x306]); (0x4d0, [0x410; 0x306]);
   (0x4d1, [0x430; 0x306]); (0x4d2, [0x410; 0x308]); (0x4d3, [0x430; 0x308]);
   (0x4d6, [0x415; 0x306]); (0x4d7, [0x435; 0x306]); (0x4da, [0x4d8; 0x308]);
   (0x4db, [0x4d9; 0x308]); (0x4dc, [0x416; 0x308]); (0x4dd, [0x436; 0x308]);
   (0x4de, [0x417; 0x308]); (0x4df, [0x437; 0x308]); (0x4e2, [0x418; 0x304]);
   (0x4e3, [0x438; 0x304]); (0x4e4, [0x418; 0x308]); (0x4e5, [0x438; 0x308]);
   (0x4e6, [0x41e; 0x308]); (0x4e7, [0x43e; 0x308]); (0x4ea, [0x4e8; 0x308]);
   (0x4eb, [0x4e9; 0x308]); (0x4ec, [0x42d; 0x308]); (0x4ed, [0x44d; 0x308]);
   (0x4ee, [0x423; 0x304]); (0x4ef, [0x443; 0x304]); (0x4f0, [0x423; 0x308]);
   (0x4f1, [0x443; 0x308]); (0x4f2, [0x423; 0x30b]); (0x4f3, [0x443; 0x30b]);
   (0x4f4, [0x427; 0x308]); (0x4f5, [0x447; 0x308]); (0x4f8, [0x42b; 0x308]);
   (0x4f9, [0x44b; 0x308]); (0x622, [0x627; 0x653]); (0x623, [0x627; 0x654]);
   (0x624, [0x648; 0x654]); (0x625, [0x627; 0x655]); (0x626, [0x64a; 0x654]);
   (0x6c0, [0x6d5; 0x654]); (0x6c2, [0x6c1; 0x654]); (0x6d3, [0x6d2; 0x654]);
   (0x929, [0x928; 0x93c]); (0x931, [0x930; 0x93c]); (0x934, [0x933; 0x93c]);
   (0x958, [0x915; 0x93c]); (0x959, [0x916; 0x93c]); (0x95a, [0x917; 0x93c]);
   (0x95b, [0x91c; 0x93c]); (0x95c, [0x921; 0x93c]); (0x95d, [0x922; 0x93c]);
   (0x95e, [0x92b; 0x93c]); (0x95f, [0x92f; 0x93c]); (0x9cb, [0x9c7; 0x9be]);
   (0x9cc, [0x9c7; 0x9d7]); (0x9dc, [0x9a1; 0x9bc]); (0x9dd, [0x9a2; 0x9bc]);
   (0x9df, [0x9af; 0x9bc]); (0xa33, [0xa32; 0xa3c]); (0xa36, [0xa38; 0xa3c]);
   (0xa59, [0xa16; 0xa3c]); (0xa5a, [0xa17; 0xa3c]); (0xa5b, [0xa1c; 0xa3c]);
   (0xa5e, [0xa2b; 0xa3c]); (0xb48, [0xb47; 0xb56]); (0xb4b, [0xb47; 0xb3e]);
   (0xb4c, [0xb47; 0xb57]); (0xb5c, [0xb21; 0xb3c]); (0xb5d, [0xb22; 0xb3c]);
   (0xb94, [0xb92; 0xbd7]); (0xbca, [0xbc6; 0xbbe]); (0xbcb, [0xbc7; 0xbbe]);
   (0xbcc, [0xbc6; 0xbd7]); (0xc48, [0xc46; 0xc56]); (0xcc0, [0xcbf; 0xcd5]);
   (0xcc7, [0xcc6; 0xcd5]); (0xcc8, [0xcc6; 0xcd6]); (0xcca, [0xcc6; 0xcc2]);
   (0xccb, [0xcc6; 0xcc2; 0xcd5]); (0xd4a, [0xd46; 0xd3e]);
   (0xd4b, [0xd47; 0xd3e]); (0xd4c, [0xd46; 0xd57]); (0xdda, [0xdd9; 0xdca]);
   (0xddc, [0xdd9; 0xdcf]); (0xddd, [0xdd9; 0xdcf; 0xdca]);
   (0xdde, [0xdd9; 0xddf]); (0xf43, [0xf42; 0xfb7]); (0xf4d, [0xf4c; 0xfb7]);
   (0xf52, [0xf51; 0xfb7]); (0xf57, [0xf56; 0xfb7]); (0xf5c, [0xf5b; 0xfb7]);
   (0xf69, [0xf40; 0xfb5]); (0xf73, [0xf71; 0xf72]); (0xf75, [0xf71; 0xf74]);
   (0xf76, [0xfb2; 0xf80]); (0xf78, [0xfb3; 0xf80]); (0xf81, [0xf71; 0xf80]);
   (0xf93, [0xf92; 0xfb7]); (0xf9d, [0xf9c; 0xfb7]); (0xfa2, [0xfa1; 0xfb7]);
   (0xfa7, [0xfa6; 0xfb7]); (0xfac, [0xfab; 0xfb7]); (0xfb9, [0xf90; 0xfb5]);
   (0x1026, [0x1025; 0x102e]); (0x1b06, [0x1b05; 0x1b35]);
   (0x1b08, [0x1b07; 0x1b35]); (0x1b0a, [0x1b09; 0x1b35]);
   (0x1b0c, [0x1b0b; 0x1b35]); (0x1b0e, [0x1b0d; 0x1b35]);
   (0x1b12, [0x1b11; 0x1b35]); (0x1b3b, [0x1b3a; 0x1b35]);
   (0x1b3d, [0x1b3c; 0x1b35]); (0x1b40, [0x1b3e; 0x1b35]);
   (0x1b41, [0x1b3f; 0x1b35]); (0x1b43, [0x1b42; 0x1b35]);
   (0x1e00, [0x41; 0x325]); (0x1e01, [0x61; 0x325]); (0x1e02, [0x42; 0x307]);
   (0x1e03, [0x62; 0x307]); (0x1e04, [0x42; 0x323]); (0x1e05, [0x62; 0x323]);
   (0x1e06, [0x42; 0x331]); (0x1e07, [0x62; 0x331]);
   (0x1e08, [0x43; 0x327; 0x301]); (0x1e09, [0x63; 0x327; 0x301]);
   (0x1e0a, [0x44; 0x307]); (0x1e0b, [0x64; 0x307]); (0x1e0c, [0x44; 0x323]);
   (0x1e0d, [0x64; 0x323]); (0x1e0e, [0x44; 0x331]); (0x1e0f, [0x64; 0x331]);
   (0x1e10, [0x44; 0x327]); (0x1e11, [0x64; 0x327]); (0x1e12, [0x44; 0x32d]);
   (0x1e13, [0x64; 0x32d]); (0x1e14, [0x45; 0x304; 0x300]);
   (0x1e15, [0x65; 0x304; 0x300]); (0x1e16, [0x45; 0x304; 0x301]);
   (0x1e17, [0x65; 0x304; 0x301]); (0x1e18, [0x45; 0x32d]);
   (0x1e19, [0x65; 0x32d]); (0x1e1a, [0x45; 0x330]); (0x1e1b, [0x65; 0x330]);
   (0x1e1c, [0x45; 0x327; 0x306]); (0x1e1d, [0x65; 0x327; 0x306]);
   (0x1e1e, [0x46; 0x307]); (0x1e1f, [0x66; 0x307]); (0x1e20, [0x47; 0x304]);
   (0x1e21, [0x67; 0x304]); (0x1e22, [0x48; 0x307]); (0x1e23, [0x68; 0x307]);
   (0x1e24, [0x48; 0x323]); (0x1e25, [0x68; 0x323]); (0x1e26, [0x48; 0x308]);
   (0x1e27, [0x68; 0x308]); (0x1e28, [0x48; 0x327]); (0x1e29, [0x68; 0x327]);
   (0x1e2a, [0x48; 0x32e]); (0x1e2b, [0x68; 0x32e]); (0x1e2c, [0x49; 0x330]);
   (0x1e2d, [0x69; 0x330]); (0x1e2e, [0x49; 0x308; 0x301]);
   (0x1e2f, [0x69; 0x308; 0x301]); (0x1e30, [0x4b; 0x301]);
   (0x1e31, [0x6b; 0x301]); (0x1e32, [0x4b; 0x323]); (0x1e33, [0x6b; 0x323]);
   (0x1e34, [0x4b; 0x331]); (0x1e35, [0x6b; 0x331]); (0x1e36, [0x4c; 0x323]);
   (0x1e37, [0x6c; 0x323]); (0x1e38, [0x4c; 0x323; 0x304]);
   (0x1e39, [0x6c; 0x323; 0x304]); (0x1e3a, [0x4c; 0x331]);
   (0x1e3b, [0x6c; 0x331]); (0x1e3c, [0x4c; 0x32d]); (0x1e3d, [0x6c; 0x32d]);
   (0x1e3e, [0x4d; 0x301]); (0x1e3f, [0x6d; 0x301]); (0x1e40, [0x4d; 0x307]);
   (0x1e41, [0x6d; 0x307]); (0x1e42, [0x4d; 0x323]); (0x1e43, [0x6d; 0x323]);
   (0x1e44, [0x4e; 0x307]); (0x1e45, [0x6e; 0x307]); (0x1e46, [0x4e; 0x323]);
   (0x1e47, [0x6e; 0x323]); (0x1e48, [0x4e; 0x331]); (0x1e49, [0x6e; 0x331]);
   (0x1e4a, [0x4e; 0x32d]); (0x1e4b, [0x6e; 0x32d]);
   (0x1e4c, [0x4f; 0x303; 0x301]); (0x1e4d, [0x6f; 0x303; 0x301]);
   (0x1e4e, [0x4f; 0x303; 0x308]); (0x1e4f, [0x6f; 0x303; 0x308]);
   (0x1e50, [0x4f; 0x304; 0x300]); (0x1e51, [0x6f; 0x304; 0x300]);
   (0x1e52, [0x4f; 0x304; 0x301]); (0x1e53, [0x6f; 0x304; 0x301]);
   (0x1e54, [0x50; 0x301]); (0x1e55, [0x70; 0x301]); (0x1e56, [0x50; 0x307]);
   (0x1e57, [0x70; 0x307]); (0x1e58, [0x52; 0x307]); (0x1e59, [0x72; 0x307]);
   (0x1e5a, [0x52; 0x323]); (0x1e5b, [0x72; 0x323]);
   (0x1e5c, [0x52; 0x323; 0x304]); (0x1e5d, [0x72; 0x323; 0x304]);
   (0x1e5e, [0x52; 0x331]); (0x1e5f, [0x72; 0x331]); (0x1e60, [0x53; 0x307]);
   (0x1e61, [0x73; 0x307]); (0x1e62, [0x53; 0x323]); (0x1e63, [0x73; 0x323]);
   (0x1e64, [0x53; 0x301; 0x307]); (0x1e65, [0x73; 0x301; 0x307]);
   (0x1e66, [0x53; 0x30c; 0x307]); (0x1e67, [0x73; 0x30c; 0x307]);
   (0x1e68, [0x53; 0x323; 0x307]); (0x1e69, [0x73; 0x323; 0x307]);
   (0x1e6a, [0x54; 0x307]); (0x1e6b, [0x74; 0x307]); (0x1e6c, [0x54; 0x323]);
   (0x1e6d, [0x74; 0x323]); (0x1e6e, [0x54; 0x331]); (0x1e6f, [0x74; 0x331]);
   (0x1e70, [0x54; 0x32d]); (0x1e71, [0x74; 0x32d]); (0x1e72, [0x55; 0x324]);
   (0x1e73, [0x75; 0x324]); (0x1e74, [0x55; 0x330]); (0x1e75, [0x75; 0x330]);
   (0x1e76, [0x55; 0x32d]); (0x1e77, [0x75; 0x32d]);
   (0x1e78, [0x55; 0x303; 0x301]); (0x1e79, [0x75; 0x303; 0x301]);
   (0x1e7a, [0x55; 0x304; 0x308]); (0x1e7b, [0x75; 0x304; 0x308]);
   (0x1e7c, [0x56; 0x303]); (0x1e7d, [0x76; 0x303]); (0x1e7e, [0x56; 0x323]);
   (0x1e7f, [0x76; 0x323]); (0x1e80, [0x57; 0x300]); (0x1e81, [0x77; 0x300]);
   (0x1e82, [0x57; 0x301]); (0x1e83, [0x77; 0x301]); (0x1e84, [0x57; 0x308]);
   (0x1e85, [0x77; 0x308]); (0x1e86, [0x57; 0x307]); (0x1e87, [0x77; 0x307]);
   (0x1e88, [0x57; 0x323]); (0x1e89, [0x77; 0x323]); (0x1e8a, [0x58; 0x307]);
   (0x1e8b, [0x78; 0x307]); (0x1e8c, [0x58; 0x308]); (0x1e8d, [0x78; 0x308]);
   (0x1e8e, [0x59; 0x307]); (0x1e8f, [0x79; 0x307]); (0x1e90, [0x5a; 0x302]);
   (0x1e91, [0x7a; 0x302]); (0x1e92, [0x5a; 0x323]); (0x1e93, [0x7a; 0x323]);
   (0x1e94, [0x5a; 0x331]); (0x1e95, [0x7a; 0x331]); (0x1e96, [0x68; 0x331]);
   (0x1e97, [0x74; 0x308]); (0x1e98, [0x77; 0x30a]); (0x1e99, [0x79; 0x30a]);
   (0x1e9b, [0x17f; 0x307]); (0x1ea0, [0x41; 0x323]); (0x1ea1, [0x61; 0x323]);
   (0x1ea2, [0x41; 0x309]); (0x1ea3, [0x61; 0x309]);
   (0x1ea4, [0x41; 0x302; 0x301]); (0x1ea5, [0x61; 0x302; 0x301]);
   (0x1ea6, [0x41; 0x302; 0x300]); (0x1ea7, [0x61; 0x302; 0x300]);
   (0x1ea8, [0x41; 0x302; 0x309]); (0x1ea9, [0x61; 0x302; 0x309]);
   (0x1eaa, [0x41; 0x302; 0x303]); (0x1eab, [0x61; 0x302; 0x303]);
   (0x1eac, [0x41; 0x323; 0x302]); (0x1ead, [0x61; 0x323; 0x302]);
   (0x1eae, [0x41; 0x306; 0x301]); (0x1eaf, [0x61; 0x306; 0x301]);
   (0x1eb0, [0x41; 0x306; 0x300]); (0x1eb1, [0x61; 0x306; 0x300]);
   (0x1eb2, [0x41; 0x306; 0x309]); (0x1eb3, [0x61; 0x306; 0x309]);
   (0x1eb4, [0x41; 0x306; 0x303]); (0x1eb5, [0x61; 0x306; 0x303]);
   (0x1eb6, [0x41; 0x323; 0x306]); (0x1eb7, [0x61; 0x323; 0x306]);
   (0x1eb8, [0x45; 0x323]); (0x1eb9, [0x65; 0x323]); (0x1eba, [0x45; 0x309]);
   (0x1ebb, [0x65; 0x309]); (0x1ebc, [0x45; 0x303]); (0x1ebd, [0x65; 0x303]);
   (0x1ebe, [0x45; 0x302; 0x301]); (0x1ebf, [0x65; 0x302; 0x301]);
   (0x1ec0, [0x45; 0x302; 0x300]); (0x1ec1, [0x65; 0x302; 0x300]);
   (0x1ec2, [0x45; 0x302; 0x309]); (0x1ec3, [0x65; 0x302; 0x309]);
   (0x1ec4, [0x45; 0x302; 0x303]); (0x1ec5, [0x65; 0x302; 0x303]);
   (0x1ec6, [0x45; 0x323; 0x302]); (0x1ec7, [0x65; 0x323; 0x302]);
   (0x1ec8, [0x49; 0x309]); (0x1ec9, [0x69; 0x309]); (0x1eca, [0x49; 0x323]);
   (0x1ecb, [0x69; 0x323]); (0x1ecc, [0x4f; 0x323]); (0x1ecd, [0x6f; 0x323]);
   (0x1ece, [0x4f; 0x309]); (0x1ecf, [0x6f; 0x309]);
   (0x1ed0, [0x4f; 0x302; 0x301]); (0x1ed1, [0x6f; 0x302; 0x301]);
   (0x1ed2, [0x4f; 0x302; 0x300]); (0x1ed3, [0x6f; 0x302; 0x300]);
   (0x1ed4, [0x4f; 0x302; 0x309]); (0x1ed5, [0x6f; 0x302; 0x309]);
   (0x1ed6, [0x4f; 0x302; 0x303]); (0x1ed7, [0x6f; 0x302; 0x303]);
   (0x1ed8, [0x4f; 0x323; 0x302]); (0x1ed9, [0x6f; 0x323; 0x302]);
   (0x1eda, [0x4f; 0x31b; 0x301]); (0x1edb, [0x6f; 0x31b; 0x301]);
   (0x1edc, [0x4f; 0x31b; 0x300]); (0x1edd, [0x6f; 0x31b; 0x300]);
   (0x1ede, [0x4f; 0x31b; 0x309]); (0x1edf, [0x6f; 0x31b; 0x309]);
   (0x1ee0, [0x4f; 0x31b; 0x303]); (0x1ee1, [0x6f; 0x31b; 0x303]);
   (0x1ee2, [0x4f; 0x31b; 0x323]); (0x1ee3, [0x6f; 0x31b; 0x323]);
   (0x1ee4, [0x55; 0x323]); (0x1ee5, [0x75; 0x323]); (0x1ee6, [0x55; 0x309]);
   (0x1ee7, [0x75; 0x309]); (0x1ee8, [0x55; 0x31b; 0x301]);
   (0x1ee9, [0x75; 0x31b; 0x301]); (0x1eea, [0x55; 0x31b; 0x300]);
   (0x1eeb, [0x75; 0x31b; 0x300]); (0x1eec, [0x55; 0x31b; 0x309]);
   (0x1eed, [0x75; 0x31b; 0x309]); (0x1eee, [0x55; 0x31b; 0x303]);
   (0x1eef, [0x75; 0x31b; 0x303]); (0x1ef0, [0x55; 0x31b; 0x323]);
   (0x1ef1, [0x75; 0x31b; 0x323]); (0x1ef2, [0x59; 0x300]);
   (0x1ef3, [0x79; 0x300]); (0x1ef4, [0x59; 0x323]); (0x1ef5, [0x79; 0x323]);
   (0x1ef6, [0x59; 0x309]); (0x1ef7, [0x79; 0x309]); (0x1ef8, [0x59; 0x303]);
   (0x1ef9, [0x79; 0x303]); (0x1f00, [0x3b1; 0x313]);
   (0x1f01, [0x3b1; 0x314]); (0x1f02, [0x3b1; 0x313; 0x300]);
   (0x1f03, [0x3b1; 0x314; 0x300]); (0x1f04, [0x3b1; 0x313; 0x301]);
   (0x1f05, [0x3b1; 0x314; 0x301]); (0x1f06, [0x3b1; 0x313; 0x342]);
   (0x1f07, [0x3b1; 0x314; 0x342]); (0x1f08, [0x391; 0x313]);
   (0x1f09, [0x391; 0x314]); (0x1f0a, [0x391; 0x313; 0x300]);
   (0x1f0b, [0x391; 0x314; 0x300]); (0x1f0c, [0x391; 0x313; 0x301]);
   (0x1f0d, [0x391; 0x314; 0x301]); (0x1f0e, [0x391; 0x313; 0x342]);
   (0x1f0f, [0x391; 0x314; 0x342]); (0x1f10, [0x3b5; 0x313]);
   (0x1f11, [0x3b5; 0x314]); (0x1f12, [0x3b5; 0x313; 0x300]);
   (0x1f13, [0x3b5; 0x314; 0x300]); (0x1f14, [0x3b5; 0x313; 0x301]);
   (0x1f15, [0x3b5; 0x314; 0x301]); (0x1f18, [0x395; 0x313]);
   (0x1f19, [0x395; 0x314]); (0x1f1a, [0x395; 0x313; 0x300]);
   (0x1f1b, [0x395; 0x314; 0x300]); (0x1f1c, [0x395; 0x313; 0x301]);
   (0x1f1d, [0x395; 0x314; 0x301]); (0x1f20, [0x3b7; 0x313]);
   (0x1f21, [0x3b7; 0x314]); (0x1f22, [0x3b7; 0x313; 0x300]);
   (0x1f23, [0x3b7; 0x314; 0x300]); (0x1f24, [0x3b7; 0x313; 0x301]);
   (0x1f25, [0x3b7; 0x314; 0x301]); (0x1f26, [0x3b7; 0x313; 0x342]);
   (0x1f27, [0x3b7; 0x314; 0x342]); (0x1f28, [0x397; 0x313]);
   (0x1f29, [0x397; 0x314]); (0x1f2a, [0x397; 0x313; 0x300]);
   (0x1f2b, [0x397; 0x314; 0x300]); (0x1f2c, [0x397; 0x313; 0x301]);
   (0x1f2d, [0x397; 0x314; 0x301]); (0x1f2e, [0x397; 0x313; 0x342]);
   (0x1f2f, [0x397; 0x314; 0x342]); (0x1f30, [0x3b9; 0x313]);
   (0x1f31, [0x3b9; 0x314]); (0x1f32, [0x3b9; 0x313; 0x300]);
   (0x1f33, [0x3b9; 0x314; 0x300]); (0x1f34, [0x3b9; 0x313; 0x301]);
   (0x1f35, [0x3b9; 0x314; 0x301]); (0x1f36, [0x3b9; 0x313; 0x342]);
   (0x1f37, [0x3b9; 0x314; 0x342]); (0x1f38, [0x399; 0x313]);
   (0x1f39, [0x399; 0x314]); (0x1f3a, [0x399; 0x313; 0x300]);
   (0x1f3b, [0x399; 0x314; 0x300]); (0x1f3c, [0x399; 0x313; 0x301]);
   (0x1f3d, [0x399; 0x314; 0x301]); (0x1f3e, [0x399; 0x313; 0x342]);
   (0x1f3f, [0x399; 0x314; 0x342]); (0x1f40, [0x3bf; 0x313]);
   (0x1f41, [0x3bf; 0x314]); (0x1f42, [0x3bf; 0x313; 0x300]);
   (0x1f43, [0x3bf; 0x314; 0x300]); (0x1f44, [0x3bf; 0x313; 0x301]);
   (0x1f45, [0x3bf; 0x314; 0x301]); (0x1f48, [0x39f; 0x313]);
   (0x1f49, [0x39f; 0x314]); (0x1f4a, [0x39f; 0x313; 0x300]);
   (0x1f4b, [0x39f; 0x314; 0x300]); (0x1f4c, [0x39f; 0x313; 0x301]);
   (0x1f4d, [0x39f; 0x314; 0x301]); (0x1f50, [0x3c5; 0x313]);
   (0x1f51, [0x3c5; 0x314]); (0x1f52, [0x3c5; 0x313; 0x300]);
   (0x1f53, [0x3c5; 0x314; 0x300]); (0x1f54, [0x3c5; 0x313; 0x301]);
   (0x1f55, [0x3c5; 0x314; 0x301]); (0x1f56, [0x3c5; 0x313; 0x342]);
   (0x1f57, [0x3c5; 0x314; 0x342]); (0x1f59, [0x3a5; 0x314]);
   (0x1f5b, [0x3a5; 0x314; 0x300]); (0x1f5d, [0x3a5; 0x314; 0x301]);
   (0x1f5f, [0x3a5; 0x314; 0x342]); (0x1f60, [0x3c9; 0x313]);
   (0x1f61, [0x3c9; 0x314]); (0x1f62, [0x3c9; 0x313; 0x300]);
   (0x1f63, [0x3c9; 0x314; 0x300]); (0x1f64, [0x3c9; 0x313; 0x301]);
   (0x1f65, [0x3c9; 0x314; 0x301]); (0x1f66, [0x3c9; 0x313; 0x342]);
   (0x1f67, [0x3c9; 0x314; 0x342]); (0x1f68, [0x3a9; 0x313]);
   (0x1f69, [0x3a9; 0x314]); (0x1f6a, [0x3a9; 0x313; 0x300]);
   (0x1f6b, [0x3a9; 0x314; 0x300]); (0x1f6c, [0x3a9; 0x313; 0x301]);
   (0x1f6d, [0x3a9; 0x314; 0x301]); (0x1f6e, [0x3a9; 0x313; 0x342]);
   (0x1f6f, [0x3a9; 0x314; 0x342]); (0x1f70, [0x3b1; 0x300]);
   (0x1f71, [0x3b1; 0x301]); (0x1f72, [0x3b5; 0x300]);
   (0x1f73, [0x3b5; 0x301]); (0x1f74, [0x3b7; 0x300]);
   (0x1f75, [0x3b7; 0x301]); (0x1f76, [0x3b9; 0x300]);
   (0x1f77, [0x3b9; 0x301]); (0x1f78, [0x3bf; 0x300]);
   (0x1f79, [0x3bf; 0x301]); (0x1f7a, [0x3c5; 0x300]);
   (0x1f7b, [0x3c5; 0x301]); (0x1f7c, [0x3c9; 0x300]);
   (0x1f7d, [0x3c9; 0x301]); (0x1f80, [0x3b1; 0x313; 0x345]);
   (0x1f81, [0x3b1; 0x314; 0x345]); (0x1f82, [0x3b1; 0x313; 0x300; 0x345]);
   (0x1f83, [0x3b1; 0x314; 0x300; 0x345]);
   (0x1f84, [0x3b1; 0x313; 0x301; 0x345]);
   (0x1f85, [0x3b1; 0x314; 0x301; 0x345]);
   (0x1f86, [0x3b1; 0x313; 0x342; 0x345]);
   (0x1f87, [0x3b1; 0x314; 0x342; 0x345]); (0x1f88, [0x391; 0x313; 0x345]);
   (0x1f89, [0x391; 0x314; 0x345]); (0x1f8a, [0x391; 0x313; 0x300; 0x345]);
   (0x1f8b, [0x391; 0x314; 0x300; 0x345]);
   (0x1f8c, [0x391; 0x313; 0x301; 0x345]);
   (0x1f8d, [0x391; 0x314; 0x301; 0x345]);
   (0x1f8e, [0x391; 0x313; 0x342; 0x345]);
   (0x1f8f, [0x391; 0x314; 0x342; 0x345]); (0x1f90, [0x3b7; 0x313; 0x345]);
   (0x1f91, [0x3b7; 0x314; 0x345]); (0x1f92, [0x3b7; 0x313; 0x300; 0x345]);
   (0x1f93, [0x3b7; 0x314; 0x300; 0x345]);
   (0x1f94, [0x3b7; 0x313; 0x301; 0x345]);
   (0x1f95, [0x3b7; 0x314; 0x301; 0x345]);
   (0x1f96, [0x3b7; 0x313; 0x342; 0x345]);
   (0x1f97, [0x3b7; 0x314; 0x342; 0x345]); (0x1f98, [0x397; 0x313; 0x345]);
   (0x1f99, [0x397; 0x314; 0x345]); (0x1f9a, [0x397; 0x313; 0x300; 0x345]);
   (0x1f9b, [0x397; 0x314; 0x300; 0x345]);
   (0x1f9c, [0x397; 0x313; 0x301; 0x345]);
   (0x1f9d, [0x397; 0x314; 0x301; 0x345]);
   (0x1f9e, [0x397; 0x313; 0x342; 0x345]);
   (0x1f9f, [0x397; 0x314; 0x342; 0x345]); (0x1fa0, [0x3c9; 0x313; 0x345]);
   (0x1fa1, [0x3c9; 0x314; 0x345]); (0x1fa2, [0x3c9; 0x313; 0x300; 0x345]);
   (0x1fa3, [0x3c9; 0x314; 0x300; 0x345]);
   (0x1fa4, [0x3c9; 0x313; 0x301; 0x345]);
   (0x1fa5, [0x3c9; 0x314; 0x301; 0x345]);
   (0x1fa6, [0x3c9; 0x313; 0x342; 0x345]);
   (0x1fa7, [0x3c9; 0x314; 0x342; 0x345]); (0x1fa8, [0x3a9; 0x313; 0x345]);
   (0x1fa9, [0x3a9; 0x314; 0x345]); (0x1faa, [0x3a9; 0x313; 0x300; 0x345]);
   (0x1fab, [0x3a9; 0x314; 0x300; 0x345]);
   (0x1fac, [0x3a9; 0x313; 0x301; 0x345]);
   (0x1fad, [0x3a9; 0x314; 0x301; 0x345]);
   (0x1fae, [0x3a9; 0x313; 0x342; 0x345]);
   (0x1faf, [0x3a9; 0x314; 0x342; 0x345]); (0x1fb0, [0x3b1; 0x306]);
   (0x1fb1, [0x3b1; 0x304]); (0x1fb2, [0x3b1; 0x300; 0x345]);
   (0x1fb3, [0x3b1; 0x345]); (0x1fb4, [0x3b1; 0x301; 0x345]);
   (0x1fb6, [0x3b1; 0x342]); (0x1fb7, [0x3b1; 0x342; 0x345]);
   (0x1fb8, [0x391; 0x306]); (0x1fb9, [0x391; 0x304]);
   (0x1fba, [0x391; 0x300]); (0x1fbb, [0x391; 0x301]);
   (0x1fbc, [0x391; 0x345]); (0x1fbe, [0x3b9]); (0x1fc1, [0xa8; 0x342]);
   (0x1fc2, [0x3b7; 0x300; 0x345]); (0x1fc3, [0x3b7; 0x345]);
   (0x1fc4, [0x3b7; 0x301; 0x345]); (0x1fc6, [0x3b7; 0x342]);
   (0x1fc7, [0x3b7; 0x342; 0x345]); (0x1fc8, [0x395; 0x300]);
   (0x1fc9, [0x395; 0x301]); (0x1fca, [0x397; 0x300]);
   (0x1fcb, [0x397; 0x301]); (0x1fcc, [0x397; 0x345]);
   (0x1fcd, [0x1fbf; 0x300]); (0x1fce, [0x1fbf; 0x301]);
   (0x1fcf, [0x1fbf; 0x342]); (0x1fd0, [0x3b9; 0x306]);
   (0x1fd1, [0x3b9; 0x304]); (0x1fd2, [0x3b9; 0x308; 0x300]);
   (0x1fd3, [0x3b9; 0x308; 0x301]); (0x1fd6, [0x3b9; 0x342]);
   (0x1fd7, [0x3b9; 0x308; 0x342]); (0x1fd8, [0x399; 0x306]);
   (0x1fd9, [0x399; 0x304]); (0x1fda, [0x399; 0x300]);
   (0x1fdb, [0x399; 0x301]); (0x1fdd, [0x1ffe; 0x300]);
   (0x1fde, [0x1ffe; 0x301]); (0x1fdf, [0x1ffe; 0x342]);
   (0x1fe0, [0x3c5; 0x306]); (0x1fe1, [0x3c5; 0x304]);
   (0x1fe2, [0x3c5; 0x308; 0x300]); (0x1fe3, [0x3c5; 0x308; 0x301]);
   (0x1fe4, [0x3c1; 0x313]); (0x1fe5, [0x3c1; 0x314]);
   (0x1fe6, [0x3c5; 0x342]); (0x1fe7, [0x3c5; 0x308; 0x342]);
   (0x1fe8, [0x3a5; 0x306]); (0x1fe9, [0x3a5; 0x304]);
   (0x1fea, [0x3a5; 0x300]); (0x1feb, [0x3a5; 0x301]);
   (0x1fec, [0x3a1; 0x314]); (0x1fed, [0xa8; 0x300]); (0x1fee, [0xa8; 0x301]);
   (0x1fef, [0x60]); (0x1ff2, [0x3c9; 0x300; 0x345]);
   (0x1ff3, [0x3c9; 0x345]); (0x1ff4, [0x3c9; 0x301; 0x345]);
   (0x1ff6, [0x3c9; 0x342]); (0x1ff7, [0x3c9; 0x342; 0x345]);
   (0x1ff8, [0x39f; 0x300]); (0x1ff9, [0x39f; 0x301]);
   (0x1ffa, [0x3a9; 0x300]); (0x1ffb, [0x3a9; 0x301]);
   (0x1ffc, [0x3a9; 0x345]); (0x1ffd, [0xb4]); (0x2000, [0x2002]);
   (0x2001, [0x2003]); (0x2126, [0x3a9]); (0x212a, [0x4b]);
   (0x212b, [0x41; 0x30a]); (0x219a, [0x2190; 0x338]);
   (0x219b, [0x2192; 0x338]); (0x21ae, [0x2194; 0x338]);
   (0x21cd, [0x21d0; 0x338]); (0x21ce, [0x21d4; 0x338]);
   (0x21cf, [0x21d2; 0x338]); (0x2204, [0x2203; 0x338]);
   (0x2209, [0x2208; 0x338]); (0x220c, [0x220b; 0x338]);
   (0x2224, [0x2223; 0x338]); (0x2226, [0x2225; 0x338]);
   (0x2241, [0x223c; 0x338]); (0x2244, [0x2243; 0x338]);
   (0x2247, [0x2245; 0x338]); (0x2249, [0x2248; 0x338]);
   (0x2260, [0x3d; 0x338]); (0x2262, [0x2261; 0x338]);
   (0x226d, [0x224d; 0x338]); (0x226e, [0x3c; 0x338]);
   (0x226f, [0x3e; 0x338]); (0x2270, [0x2264; 0x338]);
   (0x2271, [0x2265; 0x338]); (0x2274, [0x2272; 0x338]);
   (0x2275, [0x2273; 0x338]); (0x2278, [0x2276; 0x338]);
   (0x2279, [0x2277; 0x338]); (0x2280, [0x227a; 0x338]);
   (0x2281, [0x227b; 0x338]); (0x2284, [0x2282; 0x338]);
   (0x2285, [0x2283; 0x338]); (0x2288, [0x2286; 0x338]);
   (0x2289, [0x2287; 0x338]); (0x22ac, [0x22a2; 0x338]);
   (0x22ad, [0x22a8; 0x338]); (0x22ae, [0x22a9; 0x338]);
   (0x22af, [0x22ab; 0x338]); (0x22e0, [0x227c; 0x338]);
   (0x22e1, [0x227d; 0x338]); (0x22e2, [0x2291; 0x338]);
   (0x22e3, [0x2292; 0x338]); (0x22ea, [0x22b2; 0x338]);
   (0x22eb, [0x22b3; 0x338]); (0x22ec, [0x22b4; 0x338]);
   (0x22ed, [0x22b5; 0x338]); (0x2329, [0x3008]); (0x232a, [0x3009]);
   (0x2adc, [0x2add; 0x338]); (0x304c, [0x304b; 0x3099]);
   (0x304e, [0x304d; 0x3099]); (0x3050, [0x304f; 0x3099]);
   (0x3052, [0x3051; 0x3099]); (0x3054, [0x3053; 0x3099]);
   (0x3056, [0x3055; 0x3099]); (0x3058, [0x3057; 0x3099]);
   (0x305a, [0x3059; 0x3099]); (0x305c, [0x305b; 0x3099]);
   (0x305e, [0x305d; 0x3099]); (0x3060, [0x305f; 0x3099]);
   (0x3062, [0x3061; 0x3099]); (0x3065, [0x3064; 0x3099]);
   (0x3067, [0x3066; 0x3099]); (0x3069, [0x3068; 0x3099]);
   (0x3070, [0x306f; 0x3099]); (0x3071, [0x306f; 0x309a]);
   (0x3073, [0x3072; 0x3099]); (0x3074, [0x3072; 0x309a]);
   (0x3076, [0x3075; 0x3099]); (0x3077, [0x3075; 0x309a]);
   (0x3079, [0x3078; 0x3099]); (0x307a, [0x3078; 0x309a]);
   (0x307c, [0x307b; 0x3099]); (0x307d, [0x307b; 0x309a]);
   (0x3094, [0x3046; 0x3099]); (0x309e, [0x309d; 0x3099]);
   (0x30ac, [0x30ab; 0x3099]); (0x30ae, [0x30ad; 0x3099]);
   (0x30b0, [0x30af; 0x3099]); (0x30b2, [0x30b1; 0x3099]);
   (0x30b4, [0x30b3; 0x3099]); (0x30b6, [0x30b5; 0x3099]);
   (0x30b8, [0x30b7; 0x3099]); (0x30ba, [0x30b9; 0x3099]);
   (0x30bc, [0x30bb; 0x3099]); (0x30be, [0x30bd; 0x3099]);
   (0x30c0, [0x30bf; 0x3099]); (0x30c2, [0x30c1; 0x3099]);
   (0x30c5, [0x30c4; 0x3099]); (0x30c7, [0x30c6; 0x3099]);
   (0x30c9, [0x30c8; 0x3099]); (0x30d0, [0x30cf; 0x3099]);
   (0x30d1, [0x30cf; 0x309a]); (0x30d3, [0x30d2; 0x3099]);
   (0x30d4, [0x30d2; 0x309a]); (0x30d6, [0x30d5; 0x3099]);
   (0x30d7, [0x30d5; 0x309a]); (0x30d9, [0x30d8; 0x3099]);
   (0x30da, [0x30d8; 0x309a]); (0x30dc, [0x30db; 0x3099]);
   (0x30dd, [0x30db; 0x309a]); (0x30f4, [0x30a6; 0x3099]);
   (0x30f7, [0x30ef; 0x3099]); (0x30f8, [0x30f0; 0x3099]);
   (0x30f9, [0x30f1; 0x3099]); (0x30fa, [0x30f2; 0x3099]);
   (0x30fe, [0x30fd; 0x3099]); (0xf900, [0x8c48]); (0xf901, [0x66f4]);
   (0xf902, [0x8eca]); (0xf903, [0x8cc8]); (0xf904, [0x6ed1]);
   (0xf905, [0x4e32]); (0xf906, [0x53e5]); (0xf907, [0x9f9c]);
   (0xf908, [0x9f9c]); (0xf909, [0x5951]); (0xf90a, [0x91d1]);
   (0xf90b, [0x5587]); (0xf90c, [0x5948]); (0xf90d, [0x61f6]);
   (0xf90e, [0x7669]); (0xf90f, [0x7f85]); (0xf910, [0x863f]);
   (0xf911, [0x87ba]); (0xf912, [0x88f8]); (0xf913, [0x908f]);
   (0xf914, [0x6a02]); (0xf915, [0x6d1b]); (0xf916, [0x70d9]);
   (0xf917, [0x73de]); (0xf918, [0x843d]); (0xf919, [0x916a]);
   (0xf91a, [0x99f1]); (0xf91b, [0x4e82]); (0xf91c, [0x5375]);
   (0xf91d, [0x6b04]); (0xf91e, [0x721b]); (0xf91f, [0x862d]);
   (0xf920, [0x9e1e]); (0xf921, [0x5d50]); (0xf922, [0x6feb]);
   (0xf923, [0x85cd]); (0xf924, [0x8964]); (0xf925, [0x62c9]);
   (0xf926, [0x81d8]); (0xf927, [0x881f]); (0xf928, [0x5eca]);
   (0xf929, [0x6717]); (0xf92a, [0x6d6a]); (0xf92b, [0x72fc]);
   (0xf92c, [0x90ce]); (0xf92d, [0x4f86]); (0xf92e, [0x51b7]);
   (0xf92f, [0x52de]); (0xf930, [0x64c4]); (0xf931, [0x6ad3]);
   (0xf932, [0x7210]); (0xf933, [0x76e7]); (0xf934, [0x8001]);
   (0xf935, [0x8606]); (0xf936, [0x865c]); (0xf937, [0x8def]);
   (0xf938, [0x9732]); (0xf939, [0x9b6f]); (0xf93a, [0x9dfa]);
   (0xf93b, [0x788c]); (0xf93c, [0x797f]); (0xf93d, [0x7da0]);
   (0xf93e, [0x83c9]); (0xf93f, [0x9304]); (0xf940, [0x9e7f]);
   (0xf941, [0x8ad6]); (0xf942, [0x58df]); (0xf943, [0x5f04]);
   (0xf944, [0x7c60]); (0xf945, [0x807e]); (0xf946, [0x7262]);
   (0xf947, [0x78ca]); (0xf948, [0x8cc2]); (0xf949, [0x96f7]);
   (0xf94a, [0x58d8]); (0xf94b, [0x5c62]); (0xf94c, [0x6a13]);
   (0xf94d, [0x6dda]); (0xf94e, [0x6f0f]); (0xf94f, [0x7d2f]);
   (0xf950, [0x7e37]); (0xf951, [0x964b]); (0xf952, [0x52d2]);
   (0xf953, [0x808b]); (0xf954, [0x51dc]); (0xf955, [0x51cc]);
   (0xf956, [0x7a1c]); (0xf957, [0x7dbe]); (0xf958, [0x83f1]);
   (0xf959, [0x9675]); (0xf95a, [0x8b80]); (0xf95b, [0x62cf]);
   (0xf95c, [0x6a02]); (0xf95d, [0x8afe]); (0xf95e, [0x4e39]);
   (0xf95f, [0x5be7]); (0xf960, [0x6012]); (0xf961, [0x7387]);
   (0xf962, [0x7570]); (0xf963, [0x5317]); (0xf964, [0x78fb]);
   (0xf965, [0x4fbf]); (0xf966, [0x5fa9]); (0xf967, [0x4e0d]);
   (0xf968, [0x6ccc]); (0xf969, [0x6578]); (0xf96a, [0x7d22]);
   (0xf96b, [0x53c3]); (0xf96c, [0x585e]); (0xf96d, [0x7701]);
   (0xf96e, [0x8449]); (0xf96f, [0x8aaa]); (0xf970, [0x6bba]);
   (0xf971, [0x8fb0]); (0xf972, [0x6c88]); (0xf973, [0x62fe]);
   (0xf974, [0x82e5]); (0xf975, [0x63a0]); (0xf976, [0x7565]);
   (0xf977, [0x4eae]); (0xf978, [0x5169]); (0xf979, [0x51c9]);
   (0xf97a, [0x6881]); (0xf97b, [0x7ce7]); (0xf97c, [0x826f]);
   (0xf97d, [0x8ad2]); (0xf97e, [0x91cf]); (0xf97f, [0x52f5]);
   (0xf980, [0x5442]); (0xf981, [0x5973]); (0xf982, [0x5eec]);
   (0xf983, [0x65c5]); (0xf984, [0x6ffe]); (0xf985, [0x792a]);
   (0xf986, [0x95ad]); (0xf987, [0x9a6a]); (0xf988, [0x9e97]);
   (0xf989, [0x9ece]); (0xf98a, [0x529b]); (0xf98b, [0x66c6]);
   (0xf98c, [0x6b77]); (0xf98d, [0x8f62]); (0xf98e, [0x5e74]);
   (0xf98f, [0x6190]); (0xf990, [0x6200]); (0xf991, [0x649a]);
   (0xf992, [0x6f23]); (0xf993, [0x7149]); (0xf994, [0x7489]);
   (0xf995, [0x79ca]); (0xf996, [0x7df4]); (0xf997, [0x806f]);
   (0xf998, [0x8f26]); (0xf999, [0x84ee]); (0xf99a, [0x9023]);
   (0xf99b, [0x934a]); (0xf99c, [0x5217]); (0xf99d, [0x52a3]);
   (0xf99e, [0x54bd]); (0xf99f, [0x70c8]); (0xf9a0, [0x88c2]);
   (0xf9a1, [0x8aaa]); (0xf9a2, [0x5ec9]); (0xf9a3, [0x5ff5]);
   (0xf9a4, [0x637b]); (0xf9a5, [0x6bae]); (0xf9a6, [0x7c3e]);
   (0xf9a7, [0x7375]); (0xf9a8, [0x4ee4]); (0xf9a9, [0x56f9]);
   (0xf9aa, [0x5be7]); (0xf9ab, [0x5dba]); (0xf9ac, [0x601c]);
   (0xf9ad, [0x73b2]); (0xf9ae, [0x7469]); (0xf9af, [0x7f9a]);
   (0xf9b0, [0x8046]); (0xf9b1, [0x9234]); (0xf9b2, [0x96f6]);
   (0xf9b3, [0x9748]); (0xf9b4, [0x9818]); (0xf9b5, [0x4f8b]);
   (0xf9b6, [0x79ae]); (0xf9b7, [0x91b4]); (0xf9b8, [0x96b8]);
   (0xf9b9, [0x60e1]); (0xf9ba, [0x4e86]); (0xf9bb, [0x50da]);
   (0xf9bc, [0x5bee]); (0xf9bd, [0x5c3f]); (0xf9be, [0x6599]);
   (0xf9bf, [0x6a02]); (0xf9c0, [0x71ce]); (0xf9c1, [0x7642]);
   (0xf9c2, [0x84fc]); (0xf9c3, [0x907c]); (0xf9c4, [0x9f8d]);
   (0xf9c5, [0x6688]); (0xf9c6, [0x962e]); (0xf9c7, [0x5289]);
   (0xf9c8, [0x677b]); (0xf9c9, [0x67f3]); (0xf9ca, [0x6d41]);
   (0xf9cb, [0x6e9c]); (0xf9cc, [0x7409]); (0xf9cd, [0x7559]);
   (0xf9ce, [0x786b]); (0xf9cf, [0x7d10]); (0xf9d0, [0x985e]);
   (0xf9d1, [0x516d]); (0xf9d2, [0x622e]); (0xf9d3, [0x9678]);
   (0xf9d4, [0x502b]); (0xf9d5, [0x5d19]); (0xf9d6, [0x6dea]);
   (0xf9d7, [0x8f2a]); (0xf9d8, [0x5f8b]); (0xf9d9, [0x6144]);
   (0xf9da, [0x6817]); (0xf9db, [0x7387]); (0xf9dc, [0x9686]);
   (0xf9dd, [0x5229]); (0xf9de, [0x540f]); (0xf9df, [0x5c65]);
   (0xf9e0, [0x6613]); (0xf9e1, [0x674e]); (0xf9e2, [0x68a8]);
   (0xf9e3, [0x6ce5]); (0xf9e4, [0x7406]); (0xf9e5, [0x75e2]);
   (0xf9e6, [0x7f79]); (0xf9e7, [0x88cf]); (0xf9e8, [0x88e1]);
   (0xf9e9, [0x91cc]); (0xf9ea, [0x96e2]); (0xf9eb, [0x533f]);
   (0xf9ec, [0x6eba]); (0xf9ed, [0x541d]); (0xf9ee, [0x71d0]);
   (0xf9ef, [0x7498]); (0xf9f0, [0x85fa]); (0xf9f1, [0x96a3]);
   (0xf9f2, [0x9c57]); (0xf9f3, [0x9e9f]); (0xf9f4, [0x6797]);
   (0xf9f5, [0x6dcb]); (0xf9f6, [0x81e8]); (0xf9f7, [0x7acb]);
   (0xf9f8, [0x7b20]); (0xf9f9, [0x7c92]); (0xf9fa, [0x72c0]);
   (0xf9fb, [0x7099]); (0xf9fc, [0x8b58]); (0xf9fd, [0x4ec0]);
   (0xf9fe, [0x8336]); (0xf9ff, [0x523a]); (0xfa00, [0x5207]);
   (0xfa01, [0x5ea6]); (0xfa02, [0x62d3]); (0xfa03, [0x7cd6]);
   (0xfa04, [0x5b85]); (0xfa05, [0x6d1e]); (0xfa06, [0x66b4]);
   (0xfa07, [0x8f3b]); (0xfa08, [0x884c]); (0xfa09, [0x964d]);
   (0xfa0a, [0x898b]); (0xfa0b, [0x5ed3]); (0xfa0c, [0x5140]);
   (0xfa0d, [0x55c0]); (0xfa10, [0x585a]); (0xfa12, [0x6674]);
   (0xfa15, [0x51de]); (0xfa16, [0x732a]); (0xfa17, [0x76ca]);
   (0xfa18, [0x793c]); (0xfa19, [0x795e]); (0xfa1a, [0x7965]);
   (0xfa1b, [0x798f]); (0xfa1c, [0x9756]); (0xfa1d, [0x7cbe]);
   (0xfa1e, [0x7fbd]); (0xfa20, [0x8612]); (0xfa22, [0x8af8]);
   (0xfa25, [0x9038]); (0xfa26, [0x90fd]); (0xfa2a, [0x98ef]);
   (0xfa2b, [0x98fc]); (0xfa2c, [0x9928]); (0xfa2d, [0x9db4]);
   (0xfa2e, [0x90de]); (0xfa2f, [0x96b7]); (0xfa30, [0x4fae]);
   (0xfa31, [0x50e7]); (0xfa32, [0x514d]); (0xfa33, [0x52c9]);
   (0xfa34, [0x52e4]); (0xfa35, [0x5351]); (0xfa36, [0x559d]);
   (0xfa37, [0x5606]); (0xfa38, [0x5668]); (0xfa39, [0x5840]);
   (0xfa3a, [0x58a8]); (0xfa3b, [0x5c64]); (0xfa3c, [0x5c6e]);
   (0xfa3d, [0x6094]); (0xfa3e, [0x6168]); (0xfa3f, [0x618e]);
   (0xfa40, [0x61f2]); (0xfa41, [0x654f]); (0xfa42, [0x65e2]);
   (0xfa43, [0x6691]); (0xfa44, [0x6885]); (0xfa45, [0x6d77]);
   (0xfa46, [0x6e1a]); (0xfa47, [0x6f22]); (0xfa48, [0x716e]);
   (0xfa49, [0x722b]); (0xfa4a, [0x7422]); (0xfa4b, [0x7891]);
   (0xfa4c, [0x793e]); (0xfa4d, [0x7949]); (0xfa4e, [0x7948]);
   (0xfa4f, [0x7950]); (0xfa50, [0x7956]); (0xfa51, [0x795d]);
   (0xfa52, [0x798d]); (0xfa53, [0x798e]); (0xfa54, [0x7a40]);
   (0xfa55, [0x7a81]); (0xfa56, [0x7bc0]); (0xfa57, [0x7df4]);
   (0xfa58, [0x7e09]); (0xfa59, [0x7e41]); (0xfa5a, [0x7f72]);
   (0xfa5b, [0x8005]); (0xfa5c, [0x81ed]); (0xfa5d, [0x8279]);
   (0xfa5e, [0x8279]); (0xfa5f, [0x8457]); (0xfa60, [0x8910]);
   (0xfa61, [0x8996]); (0xfa62, [0x8b01]); (0xfa63, [0x8b39]);
   (0xfa64, [0x8cd3]); (0xfa65, [0x8d08]); (0xfa66, [0x8fb6]);
   (0xfa67, [0x9038]); (0xfa68, [0x96e3]); (0xfa69, [0x97ff]);
   (0xfa6a, [0x983b]); (0xfa6b, [0x6075]); (0xfa6c, [0x242ee]);
   (0xfa6d, [0x8218]); (0xfa70, [0x4e26]); (0xfa71, [0x51b5]);
   (0xfa72, [0x5168]); (0xfa73, [0x4f80]); (0xfa74, [0x5145]);
   (0xfa75, [0x5180]); (0xfa76, [0x52c7]); (0xfa77, [0x52fa]);
   (0xfa78, [0x559d]); (0xfa79, [0x5555]); (0xfa7a, [0x5599]);
   (0xfa7b, [0x55e2]); (0xfa7c, [0x585a]); (0xfa7d, [0x58b3]);
   (0xfa7e, [0x5944]); (0xfa7f, [0x5954]); (0xfa80, [0x5a62]);
   (0xfa81, [0x5b28]); (0xfa82, [0x5ed2]); (0xfa83, [0x5ed9]);
   (0xfa84, [0x5f69]); (0xfa85, [0x5fad]); (0xfa86, [0x60d8]);
   (0xfa87, [0x614e]); (0xfa88, [0x6108]); (0xfa89, [0x618e]);
   (0xfa8a, [0x6160]); (0xfa8b, [0x61f2]); (0xfa8c, [0x6234]);
   (0xfa8d, [0x63c4]); (0xfa8e, [0x641c]); (0xfa8f, [0x6452]);
   (0xfa90, [0x6556]); (0xfa91, [0x6674]); (0xfa92, [0x6717]);
   (0xfa93, [0x671b]); (0xfa94, [0x6756]); (0xfa95, [0x6b79]);
   (0xfa96, [0x6bba]); (0xfa97, [0x6d41]); (0xfa98, [0x6edb]);
   (0xfa99, [0x6ecb]); (0xfa9a, [0x6f22]); (0xfa9b, [0x701e]);
   (0xfa9c, [0x716e]); (0xfa9d, [0x77a7]); (0xfa9e, [0x7235]);
   (0xfa9f, [0x72af]); (0xfaa0, [0x732a]); (0xfaa1, [0x7471]);
   (0xfaa2, [0x7506]); (0xfaa3, [0x753b]); (0xfaa4, [0x761d]);
   (0xfaa5, [0x761f]); (0xfaa6, [0x76ca]); (0xfaa7, [0x76db]);
   (0xfaa8, [0x76f4]); (0xfaa9, [0x774a]); (0xfaaa, [0x7740]);
   (0xfaab, [0x78cc]); (0xfaac, [0x7ab1]); (0xfaad, [0x7bc0]);
   (0xfaae, [0x7c7b]); (0xfaaf, [0x7d5b]); (0xfab0, [0x7df4]);
   (0xfab1, [0x7f3e]); (0xfab2, [0x8005]); (0xfab3, [0x8352]);
   (0xfab4, [0x83ef]); (0xfab5, [0x8779]); (0xfab6, [0x8941]);
   (0xfab7, [0x8986]); (0xfab8, [0x8996]); (0xfab9, [0x8abf]);
   (0xfaba, [0x8af8]); (0xfabb, [0x8acb]); (0xfabc, [0x8b01]);
   (0xfabd, [0x8afe]); (0xfabe, [0x8aed]); (0xfabf, [0x8b39]);
   (0xfac0, [0x8b8a]); (0xfac1, [0x8d08]); (0xfac2, [0x8f38]);
   (0xfac3, [0x9072]); (0xfac4, [0x9199]); (0xfac5, [0x9276]);
   (0xfac6, [0x967c]); (0xfac7, [0x96e3]); (0xfac8, [0x9756]);
   (0xfac9, [0x97db]); (0xfaca, [0x97ff]); (0xfacb, [0x980b]);
   (0xfacc, [0x983b]); (0xfacd, [0x9b12]); (0xface, [0x9f9c]);
   (0xfacf, [0x2284a]); (0xfad0, [0x22844]); (0xfad1, [0x233d5]);
   (0xfad2, [0x3b9d]); (0xfad3, [0x4018]); (0xfad4, [0x4039]);
   (0xfad5, [0x25249]); (0xfad6, [0x25cd0]); (0xfad7, [0x27ed3]);
   (0xfad8, [0x9f43]); (0xfad9, [0x9f8e]); (0xfb1d, [0x5d9; 0x5b4]);
   (0xfb1f, [0x5f2; 0x5b7]); (0xfb2a, [0x5e9; 0x5c1]);
   (0xfb2b, [0x5e9; 0x5c2]); (0xfb2c, [0x5e9; 0x5bc; 0x5c1]);
   (0xfb2d, [0x5e9; 0x5bc; 0x5c2]); (0xfb2e, [0x5d0; 0x5b7]);
   (0xfb2f, [0x5d0; 0x5b8]); (0xfb30, [0x5d0; 0x5bc]);
   (0xfb31, [0x5d1; 0x5bc]); (0xfb32, [0x5d2; 0x5bc]);
   (0xfb33, [0x5d3; 0x5bc]); (0xfb34, [0x5d4; 0x5bc]);
   (0xfb35, [0x5d5; 0x5bc]); (0xfb36, [0x5d6; 0x5bc]);
   (0xfb38, [0x5d8; 0x5bc]); (0xfb39, [0x5d9; 0x5bc]);
   (0xfb3a, [0x5da; 0x5bc]); (0xfb3b, [0x5db; 0x5bc]);
   (0xfb3c, [0x5dc; 0x5bc]); (0xfb3e, [0x5de; 0x5bc]);
   (0xfb40, [0x5e0; 0x5bc]); (0xfb41, [0x5e1; 0x5bc]);
   (0xfb43, [0x5e3; 0x5bc]); (0xfb44, [0x5e4; 0x5bc]);
   (0xfb46, [0x5e6; 0x5bc]); (0xfb47, [0x5e7; 0x5bc]);
   (0xfb48, [0x5e8; 0x5bc]); (0xfb49, [0x5e9; 0x5bc]);
   (0xfb4a, [0x5ea; 0x5bc]); (0xfb4b, [0x5d5; 0x5b9]);
   (0xfb4c, [0x5d1; 0x5bf]); (0xfb4d, [0x5db; 0x5bf]);
   (0xfb4e, [0x5e4; 0x5bf]); (0x1109a, [0x11099; 0x110ba]);
   (0x1109c, [0x1109b; 0x110ba]); (0x110ab, [0x110a5; 0x110ba]);
   (0x1112e, [0x11131; 0x11127]); (0x1112f, [0x11132; 0x11127]);
   (0x1134b, [0x11347; 0x1133e]); (0x1134c, [0x11347; 0x11357]);
   (0x114bb, [0x114b9; 0x114ba]); (0x114bc, [0x114b9; 0x114b0]);
   (0x114be, [0x114b9; 0x114bd]); (0x115ba, [0x115b8; 0x115af]);
   (0x115bb, [0x115b9; 0x115af]); (0x11938, [0x11935; 0x11930]);
   (0x1d15e, [0x1d157; 0x1d165]); (0x1d15f, [0x1d158; 0x1d165]);
   (0x1d160, [0x1d158; 0x1d165; 0x1d16e]);
   (0x1d161, [0x1d158; 0x1d165; 0x1d16f]);
   (0x1d162, [0x1d158; 0x1d165; 0x1d170]);
   (0x1d163, [0x1d158; 0x1d165; 0x1d171]);
   (0x1d164, [0x1d158; 0x1d165; 0x1d172]); (0x1d1bb, [0x1d1b9; 0x1d165]);
   (0x1d1bc, [0x1d1ba; 0x1d165]); (0x1d1bd, [0x1d1b9; 0x1d165; 0x1d16e]);
   (0x1d1be, [0x1d1ba; 0x1d165; 0x1d16e]);
   (0x1d1bf, [0x1d1b9; 0x1d165; 0x1d16f]);
   (0x1d1c0, [0x1d1ba; 0x1d165; 0x1d16f]); (0x2f800, [0x4e3d]);
   (0x2f801, [0x4e38]); (0x2f802, [0x4e41]); (0x2f803, [0x20122]);
   (0x2f804, [0x4f60]); (0x2f805, [0x4fae]); (0x2f806, [0x4fbb]);
   (0x2f807, [0x5002]); (0x2f808, [0x507a]); (0x2f809, [0x5099]);
   (0x2f80a, [0x50e7]); (0x2f80b, [0x50cf]); (0x2f80c, [0x349e]);
   (0x2f80d, [0x2063a]); (0x2f80e, [0x514d]); (0x2f80f, [0x5154]);
   (0x2f810, [0x5164]); (0x2f811, [0x5177]); (0x2f812, [0x2051c]);
   (0x2f813, [0x34b9]); (0x2f814, [0x5167]); (0x2f815, [0x518d]);
   (0x2f816, [0x2054b]); (0x2f817, [0x5197]); (0x2f818, [0x51a4]);
   (0x2f819, [0x4ecc]); (0x2f81a, [0x51ac]); (0x2f81b, [0x51b5]);
   (0x2f81c, [0x291df]); (0x2f81d, [0x51f5]); (0x2f81e, [0x5203]);
   (0x2f81f, [0x34df]); (0x2f820, [0x523b]); (0x2f821, [0x5246]);
   (0x2f822, [0x5272]); (0x2f823, [0x5277]); (0x2f824, [0x3515]);
   (0x2f825, [0x52c7]); (0x2f826, [0x52c9]); (0x2f827, [0x52e4]);
   (0x2f828, [0x52fa]); (0x2f829, [0x5305]); (0x2f82a, [0x5306]);
   (0x2f82b, [0x5317]); (0x2f82c, [0x5349]); (0x2f82d, [0x5351]);
   (0x2f82e, [0x535a]); (0x2f82f, [0x5373]); (0x2f830, [0x537d]);
   (0x2f831, [0x537f]); (0x2f832, [0x537f]); (0x2f833, [0x537f]);
   (0x2f834, [0x20a2c]); (0x2f835, [0x7070]); (0x2f836, [0x53ca]);
   (0x2f837, [0x53df]); (0x2f838, [0x20b63]); (0x2f839, [0x53eb]);
   (0x2f83a, [0x53f1]); (0x2f83b, [0x5406]); (0x2f83c, [0x549e]);
   (0x2f83d, [0x5438]); (0x2f83e, [0x5448]); (0x2f83f, [0x5468]);
   (0x2f840, [0x54a2]); (0x2f841, [0x54f6]); (0x2f842, [0x5510]);
   (0x2f843, [0x5553]); (0x2f844, [0x5563]); (0x2f845, [0x5584]);
   (0x2f846, [0x5584]); (0x2f847, [0x5599]); (0x2f848, [0x55ab]);
   (0x2f849, [0x55b3]); (0x2f84a, [0x55c2]); (0x2f84b, [0x5716]);
   (0x2f84c, [0x5606]); (0x2f84d, [0x5717]); (0x2f84e, [0x5651]);
   (0x2f84f, [0x5674]); (0x2f850, [0x5207]); (0x2f851, [0x58ee]);
   (0x2f852, [0x57ce]); (0x2f853, [0x57f4]); (0x2f854, [0x580d]);
   (0x2f855, [0x578b]); (0x2f856, [0x5832]); (0x2f857, [0x5831]);
   (0x2f858, [0x58ac]); (0x2f859, [0x214e4]); (0x2f85a, [0x58f2]);
   (0x2f85b, [0x58f7]); (0x2f85c, [0x5906]); (0x2f85d, [0x591a]);
   (0x2f85e, [0x5922]); (0x2f85f, [0x5962]); (0x2f860, [0x216a8]);
   (0x2f861, [0x216ea]); (0x2f862, [0x59ec]); (0x2f863, [0x5a1b]);
   (0x2f864, [0x5a27]); (0x2f865, [0x59d8]); (0x2f866, [0x5a66]);
   (0x2f867, [0x36ee]); (0x2f868, [0x36fc]); (0x2f869, [0x5b08]);
   (0x2f86a, [0x5b3e]); (0x2f86b, [0x5b3e]); (0x2f86c, [0x219c8]);
   (0x2f86d, [0x5bc3]); (0x2f86e, [0x5bd8]); (0x2f86f, [0x5be7]);
   (0x2f870, [0x5bf3]); (0x2f871, [0x21b18]); (0x2f872, [0x5bff]);
   (0x2f873, [0x5c06]); (0x2f874, [0x5f53]); (0x2f875, [0x5c22]);
   (0x2f876, [0x3781]); (0x2f877, [0x5c60]); (0x2f878, [0x5c6e]);
   (0x2f879, [0x5cc0]); (0x2f87a, [0x5c8d]); (0x2f87b, [0x21de4]);
   (0x2f87c, [0x5d43]); (0x2f87d, [0x21de6]); (0x2f87e, [0x5d6e]);
   (0x2f87f, [0x5d6b]); (0x2f880, [0x5d7c]); (0x2f881, [0x5de1]);
   (0x2f882, [0x5de2]); (0x2f883, [0x382f]); (0x2f884, [0x5dfd]);
   (0x2f885, [0x5e28]); (0x2f886, [0x5e3d]); (0x2f887, [0x5e69]);
   (0x2f888, [0x3862]); (0x2f889, [0x22183]); (0x2f88a, [0x387c]);
   (0x2f88b, [0x5eb0]); (0x2f88c, [0x5eb3]); (0x2f88d, [0x5eb6]);
   (0x2f88e, [0x5eca]); (0x2f88f, [0x2a392]); (0x2f890, [0x5efe]);
   (0x2f891, [0x22331]); (0x2f892, [0x22331]); (0x2f893, [0x8201]);
   (0x2f894, [0x5f22]); (0x2f895, [0x5f22]); (0x2f896, [0x38c7]);
   (0x2f897, [0x232b8]); (0x2f898, [0x261da]); (0x2f899, [0x5f62]);
   (0x2f89a, [0x5f6b]); (0x2f89b, [0x38e3]); (0x2f89c, [0x5f9a]);
   (0x2f89d, [0x5fcd]); (0x2f89e, [0x5fd7]); (0x2f89f, [0x5ff9]);
   (0x2f8a0, [0x6081]); (0x2f8a1, [0x393a]); (0x2f8a2, [0x391c]);
   (0x2f8a3, [0x6094]); (0x2f8a4, [0x226d4]); (0x2f8a5, [0x60c7]);
   (0x2f8a6, [0x6148]); (0x2f8a7, [0x614c]); (0x2f8a8, [0x614e]);
   (0x2f8a9, [0x614c]); (0x2f8aa, [0x617a]); (0x2f8ab, [0x618e]);
   (0x2f8ac, [0x61b2]); (0x2f8ad, [0x61a4]); (0x2f8ae, [0x61af]);
   (0x2f8af, [0x61de]); (0x2f8b0, [0x61f2]); (0x2f8b1, [0x61f6]);
   (0x2f8b2, [0x6210]); (0x2f8b3, [0x621b]); (0x2f8b4, [0x625d]);
   (0x2f8b5, [0x62b1]); (0x2f8b6, [0x62d4]); (0x2f8b7, [0x6350]);
   (0x2f8b8, [0x22b0c]); (0x2f8b9, [0x633d]); (0x2f8ba, [0x62fc]);
   (0x2f8bb, [0x6368]); (0x2f8bc, [0x6383]); (0x2f8bd, [0x63e4]);
   (0x2f8be, [0x22bf1]); (0x2f8bf, [0x6422]); (0x2f8c0, [0x63c5]);
   (0x2f8c1, [0x63a9]); (0x2f8c2, [0x3a2e]); (0x2f8c3, [0x6469]);
   (0x2f8c4, [0x647e]); (0x2f8c5, [0x649d]); (0x2f8c6, [0x6477]);
   (0x2f8c7, [0x3a6c]); (0x2f8c8, [0x654f]); (0x2f8c9, [0x656c]);
   (0x2f8ca, [0x2300a]); (0x2f8cb, [0x65e3]); (0x2f8cc, [0x66f8]);
   (0x2f8cd, [0x6649]); (0x2f8ce, [0x3b19]); (0x2f8cf, [0x6691]);
   (0x2f8d0, [0x3b08]); (0x2f8d1, [0x3ae4]); (0x2f8d2, [0x5192]);
   (0x2f8d3, [0x5195]); (0x2f8d4, [0x6700]); (0x2f8d5, [0x669c]);
   (0x2f8d6, [0x80ad]); (0x2f8d7, [0x43d9]); (0x2f8d8, [0x6717]);
   (0x2f8d9, [0x671b]); (0x2f8da, [0x6721]); (0x2f8db, [0x675e]);
   (0x2f8dc, [0x6753]); (0x2f8dd, [0x233c3]); (0x2f8de, [0x3b49]);
   (0x2f8df, [0x67fa]); (0x2f8e0, [0x6785]); (0x2f8e1, [0x6852]);
   (0x2f8e2, [0x6885]); (0x2f8e3, [0x2346d]); (0x2f8e4, [0x688e]);
   (0x2f8e5, [0x681f]); (0x2f8e6, [0x6914]); (0x2f8e7, [0x3b9d]);
   (0x2f8e8, [0x6942]); (0x2f8e9, [0x69a3]); (0x2f8ea, [0x69ea]);
   (0x2f8eb, [0x6aa8]); (0x2f8ec, [0x236a3]); (0x2f8ed, [0x6adb]);
   (0x2f8ee, [0x3c18]); (0x2f8ef, [0x6b21]); (0x2f8f0, [0x238a7]);
   (0x2f8f1, [0x6b54]); (0x2f8f2, [0x3c4e]); (0x2f8f3, [0x6b72]);
   (0x2f8f4, [0x6b9f]); (0x2f8f5, [0x6bba]); (0x2f8f6, [0x6bbb]);
   (0x2f8f7, [0x23a8d]); (0x2f8f8, [0x21d0b]); (0x2f8f9, [0x23afa]);
   (0x2f8fa, [0x6c4e]); (0x2f8fb, [0x23cbc]); (0x2f8fc, [0x6cbf]);
   (0x2f8fd, [0x6ccd]); (0x2f8fe, [0x6c67]); (0x2f8ff, [0x6d16]);
   (0x2f900, [0x6d3e]); (0x2f901, [0x6d77]); (0x2f902, [0x6d41]);
   (0x2f903, [0x6d69]); (0x2f904, [0x6d78]); (0x2f905, [0x6d85]);
   (0x2f906, [0x23d1e]); (0x2f907, [0x6d34]); (0x2f908, [0x6e2f]);
   (0x2f909, [0x6e6e]); (0x2f90a, [0x3d33]); (0x2f90b, [0x6ecb]);
   (0x2f90c, [0x6ec7]); (0x2f90d, [0x23ed1]); (0x2f90e, [0x6df9]);
   (0x2f90f, [0x6f6e]); (0x2f910, [0x23f5e]); (0x2f911, [0x23f8e]);
   (0x2f912, [0x6fc6]); (0x2f913, [0x7039]); (0x2f914, [0x701e]);
   (0x2f915, [0x701b]); (0x2f916, [0x3d96]); (0x2f917, [0x704a]);
   (0x2f918, [0x707d]); (0x2f919, [0x7077]); (0x2f91a, [0x70ad]);
   (0x2f91b, [0x20525]); (0x2f91c, [0x7145]); (0x2f91d, [0x24263]);
   (0x2f91e, [0x719c]); (0x2f91f, [0x243ab]); (0x2f920, [0x7228]);
   (0x2f921, [0x7235]); (0x2f922, [0x7250]); (0x2f923, [0x24608]);
   (0x2f924, [0x7280]); (0x2f925, [0x7295]); (0x2f926, [0x24735]);
   (0x2f927, [0x24814]); (0x2f928, [0x737a]); (0x2f929, [0x738b]);
   (0x2f92a, [0x3eac]); (0x2f92b, [0x73a5]); (0x2f92c, [0x3eb8]);
   (0x2f92d, [0x3eb8]); (0x2f92e, [0x7447]); (0x2f92f, [0x745c]);
   (0x2f930, [0x7471]); (0x2f931, [0x7485]); (0x2f932, [0x74ca]);
   (0x2f933, [0x3f1b]); (0x2f934, [0x7524]); (0x2f935, [0x24c36]);
   (0x2f936, [0x753e]); (0x2f937, [0x24c92]); (0x2f938, [0x7570]);
   (0x2f939, [0x2219f]); (0x2f93a, [0x7610]); (0x2f93b, [0x24fa1]);
   (0x2f93c, [0x24fb8]); (0x2f93d, [0x25044]); (0x2f93e, [0x3ffc]);
   (0x2f93f, [0x4008]); (0x2f940, [0x76f4]); (0x2f941, [0x250f3]);
   (0x2f942, [0x250f2]); (0x2f943, [0x25119]); (0x2f944, [0x25133]);
   (0x2f945, [0x771e]); (0x2f946, [0x771f]); (0x2f947, [0x771f]);
   (0x2f948, [0x774a]); (0x2f949, [0x4039]); (0x2f94a, [0x778b]);
   (0x2f94b, [0x4046]); (0x2f94c, [0x4096]); (0x2f94d, [0x2541d]);
   (0x2f94e, [0x784e]); (0x2f94f, [0x788c]); (0x2f950, [0x78cc]);
   (0x2f951, [0x40e3]); (0x2f952, [0x25626]); (0x2f953, [0x7956]);
   (0x2f954, [0x2569a]); (0x2f955, [0x256c5]); (0x2f956, [0x798f]);
   (0x2f957, [0x79eb]); (0x2f958, [0x412f]); (0x2f959, [0x7a40]);
   (0x2f95a, [0x7a4a]); (0x2f95b, [0x7a4f]); (0x2f95c, [0x2597c]);
   (0x2f95d, [0x25aa7]); (0x2f95e, [0x25aa7]); (0x2f95f, [0x7aee]);
   (0x2f960, [0x4202]); (0x2f961, [0x25bab]); (0x2f962, [0x7bc6]);
   (0x2f963, [0x7bc9]); (0x2f964, [0x4227]); (0x2f965, [0x25c80]);
   (0x2f966, [0x7cd2]); (0x2f967, [0x42a0]); (0x2f968, [0x7ce8]);
   (0x2f969, [0x7ce3]); (0x2f96a, [0x7d00]); (0x2f96b, [0x25f86]);
   (0x2f96c, [0x7d63]); (0x2f96d, [0x4301]); (0x2f96e, [0x7dc7]);
   (0x2f96f, [0x7e02]); (0x2f970, [0x7e45]); (0x2f971, [0x4334]);
   (0x2f972, [0x26228]); (0x2f973, [0x26247]); (0x2f974, [0x4359]);
   (0x2f975, [0x262d9]); (0x2f976, [0x7f7a]); (0x2f977, [0x2633e]);
   (0x2f978, [0x7f95]); (0x2f979, [0x7ffa]); (0x2f97a, [0x8005]);
   (0x2f97b, [0x264da]); (0x2f97c, [0x26523]); (0x2f97d, [0x8060]);
   (0x2f97e, [0x265a8]); (0x2f97f, [0x8070]); (0x2f980, [0x2335f]);
   (0x2f981, [0x43d5]); (0x2f982, [0x80b2]); (0x2f983, [0x8103]);
   (0x2f984, [0x440b]); (0x2f985, [0x813e]); (0x2f986, [0x5ab5]);
   (0x2f987, [0x267a7]); (0x2f988, [0x267b5]); (0x2f989, [0x23393]);
   (0x2f98a, [0x2339c]); (0x2f98b, [0x8201]); (0x2f98c, [0x8204]);
   (0x2f98d, [0x8f9e]); (0x2f98e, [0x446b]); (0x2f98f, [0x8291]);
   (0x2f990, [0x828b]); (0x2f991, [0x829d]); (0x2f992, [0x52b3]);
   (0x2f993, [0x82b1]); (0x2f994, [0x82b3]); (0x2f995, [0x82bd]);
   (0x2f996, [0x82e6]); (0x2f997, [0x26b3c]); (0x2f998, [0x82e5]);
   (0x2f999, [0x831d]); (0x2f99a, [0x8363]); (0x2f99b, [0x83ad]);
   (0x2f99c, [0x8323]); (0x2f99d, [0x83bd]); (0x2f99e, [0x83e7]);
   (0x2f99f, [0x8457]); (0x2f9a0, [0x8353]); (0x2f9a1, [0x83ca]);
   (0x2f9a2, [0x83cc]); (0x2f9a3, [0x83dc]); (0x2f9a4, [0x26c36]);
   (0x2f9a5, [0x26d6b]); (0x2f9a6, [0x26cd5]); (0x2f9a7, [0x452b]);
   (0x2f9a8, [0x84f1]); (0x2f9a9, [0x84f3]); (0x2f9aa, [0x8516]);
   (0x2f9ab, [0x273ca]); (0x2f9ac, [0x8564]); (0x2f9ad, [0x26f2c]);
   (0x2f9ae, [0x455d]); (0x2f9af, [0x4561]); (0x2f9b0, [0x26fb1]);
   (0x2f9b1, [0x270d2]); (0x2f9b2, [0x456b]); (0x2f9b3, [0x8650]);
   (0x2f9b4, [0x865c]); (0x2f9b5, [0x8667]); (0x2f9b6, [0x8669]);
   (0x2f9b7, [0x86a9]); (0x2f9b8, [0x8688]); (0x2f9b9, [0x870e]);
   (0x2f9ba, [0x86e2]); (0x2f9bb, [0x8779]); (0x2f9bc, [0x8728]);
   (0x2f9bd, [0x876b]); (0x2f9be, [0x8786]); (0x2f9bf, [0x45d7]);
   (0x2f9c0, [0x87e1]); (0x2f9c1, [0x8801]); (0x2f9c2, [0x45f9]);
   (0x2f9c3, [0x8860]); (0x2f9c4, [0x8863]); (0x2f9c5, [0x27667]);
   (0x2f9c6, [0x88d7]); (0x2f9c7, [0x88de]); (0x2f9c8, [0x4635]);
   (0x2f9c9, [0x88fa]); (0x2f9ca, [0x34bb]); (0x2f9cb, [0x278ae]);
   (0x2f9cc, [0x27966]); (0x2f9cd, [0x46be]); (0x2f9ce, [0x46c7]);
   (0x2f9cf, [0x8aa0]); (0x2f9d0, [0x8aed]); (0x2f9d1, [0x8b8a]);
   (0x2f9d2, [0x8c55]); (0x2f9d3, [0x27ca8]); (0x2f9d4, [0x8cab]);
   (0x2f9d5, [0x8cc1]); (0x2f9d6, [0x8d1b]); (0x2f9d7, [0x8d77]);
   (0x2f9d8, [0x27f2f]); (0x2f9d9, [0x20804]); (0x2f9da, [0x8dcb]);
   (0x2f9db, [0x8dbc]); (0x2f9dc, [0x8df0]); (0x2f9dd, [0x208de]);
   (0x2f9de, [0x8ed4]); (0x2f9df, [0x8f38]); (0x2f9e0, [0x285d2]);
   (0x2f9e1, [0x285ed]); (0x2f9e2, [0x9094]); (0x2f9e3, [0x90f1]);
   (0x2f9e4, [0x9111]); (0x2f9e5, [0x2872e]); (0x2f9e6, [0x911b]);
   (0x2f9e7, [0x9238]); (0x2f9e8, [0x92d7]); (0x2f9e9, [0x92d8]);
   (0x2f9ea, [0x927c]); (0x2f9eb, [0x93f9]); (0x2f9ec, [0x9415]);
   (0x2f9ed, [0x28bfa]); (0x2f9ee, [0x958b]); (0x2f9ef, [0x4995]);
   (0x2f9f0, [0x95b7]); (0x2f9f1, [0x28d77]); (0x2f9f2, [0x49e6]);
   (0x2f9f3, [0x96c3]); (0x2f9f4, [0x5db2]); (0x2f9f5, [0x9723]);
   (0x2f9f6, [0x29145]); (0x2f9f7, [0x2921a]); (0x2f9f8, [0x4a6e]);
   (0x2f9f9, [0x4a76]); (0x2f9fa, [0x97e0]); (0x2f9fb, [0x2940a]);
   (0x2f9fc, [0x4ab2]); (0x2f9fd, [0x29496]); (0x2f9fe, [0x980b]);
   (0x2f9ff, [0x980b]); (0x2fa00, [0x9829]); (0x2fa01, [0x295b6]);
   (0x2fa02, [0x98e2]); (0x2fa03, [0x4b33]); (0x2fa04, [0x9929]);
   (0x2fa05, [0x99a7]); (0x2fa06, [0x99c2]); (0x2fa07, [0x99fe]);
   (0x2fa08, [0x4bce]); (0x2fa09, [0x29b30]); (0x2fa0a, [0x9b12]);
   (0x2fa0b, [0x9c40]); (0x2fa0c, [0x9cfd]); (0x2fa0d, [0x4cce]);
   (0x2fa0e, [0x4ced]); (0x2fa0f, [0x9d67]); (0x2fa10, [0x2a0ce]);
   (0x2fa11, [0x4cf8]); (0x2fa12, [0x2a105]); (0x2fa13, [0x2a20e]);
   (0x2fa14, [0x2a291]); (0x2fa15, [0x9ebb]); (0x2fa16, [0x4d56]);
   (0x2fa17, [0x9ef9]); (0x2fa18, [0x9efe]); (0x2fa19, [0x9f05]);
   (0x2fa1a, [0x9f0f]); (0x2fa1b, [0x9f16]); (0x2fa1c, [0x9f3b]);
   (0x2fa1d, [0x2a600])].

Definition hangul_syllable (c : Z) : bool := (0xac00 <=? c) && (c <=? 0xd7a3).

(** A Hangul syllable decomposes into two or three jamo. *)
Definition hangul_decomposition (c : Z) : pystr :=
  let SIndex := c - 0xac00 in
  let L := 0x1100 + SIndex / 588 in
  let V := 0x1161 + (SIndex mod 588) / 28 in
  let T := 0x11a7 + SIndex mod 28 in
  if T =? 0x11a7 then [L; V] else [L; V; T].

Definition decomposition (c : Z) : pystr :=
  if hangul_syllable c then hangul_decomposition c
  else match lookup c decompositions with
       | Some l => l
       | None => [c]
       end.

(** The canonical combining classes other than 0: [(first, last, class)]. *)
Definition combining_classes : list (Z * Z * Z) :=
  [(0x300, 0x314, 230); (0x315, 0x315, 232); (0x316, 0x319, 220);
   (0x31a, 0x31a, 232); (0x31b, 0x31b, 216); (0x31c, 0x320, 220);
   (0x321, 0x322, 202); (0x323, 0x326, 220); (0x327, 0x328, 202);
   (0x329, 0x333, 220); (0x334, 0x338, 1); (0x339, 0x33c, 220);
   (0x33d, 0x344, 230); (0x345, 0x345, 240); (0x346, 0x346, 230);
   (0x347, 0x349, 220); (0x34a, 0x34c, 230); (0x34d, 0x34e, 220);
   (0x350, 0x352, 230); (0x353, 0x356, 220); (0x357, 0x357, 230);
   (0x358, 0x358, 232); (0x359, 0x35a, 220); (0x35b, 0x35b, 230);
   (0x35c, 0x35c, 233); (0x35d, 0x35e, 234); (0x35f, 0x35f, 233);
   (0x360, 0x361, 234); (0x362, 0x362, 233); (0x363, 0x36f, 230);
   (0x483, 0x487, 230); (0x591, 0x591, 220); (0x592, 0x595, 230);
   (0x596, 0x596, 220); (0x597, 0x599, 230); (0x59a, 0x59a, 222);
   (0x59b, 0x59b, 220); (0x59c, 0x5a1, 230); (0x5a2, 0x5a7, 220);
   (0x5a8, 0x5a9, 230); (0x5aa, 0x5aa, 220); (0x5ab, 0x5ac, 230);
   (0x5ad, 0x5ad, 222); (0x5ae, 0x5ae, 228); (0x5af, 0x5af, 230);
   (0x5b0, 0x5b0, 10); (0x5b1, 0x5b1, 11); (0x5b2, 0x5b2, 12);
   (0x5b3, 0x5b3, 13); (0x5b4, 0x5b4, 14); (0x5b5, 0x5b5, 15);
   (0x5b6, 0x5b6, 16); (0x5b7, 0x5b7, 17); (0x5b8, 0x5b8, 18);
   (0x5b9, 0x5ba, 19); (0x5bb, 0x5bb, 20); (0x5bc, 0x5bc, 21);
   (0x5bd, 0x5bd, 22); (0x5bf, 0x5bf, 23); (0x5c1, 0x5c1, 24);
   (0x5c2, 0x5c2, 25); (0x5c4, 0x5c4, 230); (0x5c5, 0x5c5, 220);
   (0x5c7, 0x5c7, 18); (0x610, 0x617, 230); (0x618, 0x618, 30);
   (0x619, 0x619, 31); (0x61a, 0x61a, 32); (0x64b, 0x64b, 27);
   (0x64c, 0x64c, 28); (0x64d, 0x64d, 29); (0x64e, 0x64e, 30);
   (0x64f, 0x64f, 31); (0x650, 0x650, 32); (0x651, 0x651, 33);
   (0x652, 0x652, 34); (0x653, 0x654, 230); (0x655, 0x656, 220);
   (0x657, 0x65b, 230); (0x65c, 0x65c, 220); (0x65d, 0x65e, 230);
   (0x65f, 0x65f, 220); (0x670, 0x670, 35); (0x6d6, 0x6dc, 230);
   (0x6df, 0x6e2, 230); (0x6e3, 0x6e3, 220); (0x6e4, 0x6e4, 230);
   (0x6e7, 0x6e8, 230); (0x6ea, 0x6ea, 220); (0x6eb, 0x6ec, 230);
   (0x6ed, 0x6ed, 220); (0x711, 0x711, 36); (0x730, 0x730, 230);
   (0x731, 0x731, 220); (0x732, 0x733, 230); (0x734, 0x734, 220);
   (0x735, 0x736, 230); (0x737, 0x739, 220); (0x73a, 0x73a, 230);
   (0x73b, 0x73c, 220); (0x73d, 0x73d, 230); (0x73e, 0x73e, 220);
   (0x73f, 0x741, 230); (0x742, 0x742, 220); (0x743, 0x743, 230);
   (0x744, 0x744, 220); (0x745, 0x745, 230); (0x746, 0x746, 220);
   (0x747, 0x747, 230); (0x748, 0x748, 220); (0x749, 0x74a, 230);
   (0x7eb, 0x7f1, 230); (0x7f2, 0x7f2, 220); (0x7f3, 0x7f3, 230);
   (0x7fd, 0x7fd, 220); (0x816, 0x819, 230); (0x81b, 0x823, 230);
   (0x825, 0x827, 230); (0x829, 0x82d, 230); (0x859, 0x85b, 220);
   (0x898, 0x898, 230); (0x899, 0x89b, 220); (0x89c, 0x89f, 230);
   (0x8ca, 0x8ce, 230); (0x8cf, 0x8d3, 220); (0x8d4, 0x8e1, 230);
   (0x8e3, 0x8e3, 220); (0x8e4, 0x8e5, 230); (0x8e6, 0x8e6, 220);
   (0x8e7, 0x8e8, 230); (0x8e9, 0x8e9, 220); (0x8ea, 0x8ec, 230);
   (0x8ed, 0x8ef, 220); (0x8f0, 0x8f0, 27); (0x8f1, 0x8f1, 28);
   (0x8f2, 0x8f2, 29); (0x8f3, 0x8f5, 230); (0x8f6, 0x8f6, 220);
   (0x8f7, 0x8f8, 230); (0x8f9, 0x8fa, 220); (0x8fb, 0x8ff, 230);
   (0x93c, 0x93c, 7); (0x94d, 0x94d, 9); (0x951, 0x951, 230);
   (0x952, 0x952, 220); (0x953, 0x954, 230); (0x9bc, 0x9bc, 7);
   (0x9cd, 0x9cd, 9); (0x9fe, 0x9fe, 230); (0xa3c, 0xa3c, 7);
   (0xa4d, 0xa4d, 9); (0xabc, 0xabc, 7); (0xacd, 0xacd, 9); (0xb3c, 0xb3c, 7);
   (0xb4d, 0xb4d, 9); (0xbcd, 0xbcd, 9); (0xc3c, 0xc3c, 7); (0xc4d, 0xc4d, 9);
   (0xc55, 0xc55, 84); (0xc56, 0xc56, 91); (0xcbc, 0xcbc, 7);
   (0xccd, 0xccd, 9); (0xd3b, 0xd3c, 9); (0xd4d, 0xd4d, 9); (0xdca, 0xdca, 9);
   (0xe38, 0xe39, 103); (0xe3a, 0xe3a, 9); (0xe48, 0xe4b, 107);
   (0xeb8, 0xeb9, 118); (0xeba, 0xeba, 9); (0xec8, 0xecb, 122);
   (0xf18, 0xf19, 220); (0xf35, 0xf35, 220); (0xf37, 0xf37, 220);
   (0xf39, 0xf39, 216); (0xf71, 0xf71, 129); (0xf72, 0xf72, 130);
   (0xf74, 0xf74, 132); (0xf7a, 0xf7d, 130); (0xf80, 0xf80, 130);
   (0xf82, 0xf83, 230); (0xf84, 0xf84, 9); (0xf86, 0xf87, 230);
   (0xfc6, 0xfc6, 220); (0x1037, 0x1037, 7); (0x1039, 0x103a, 9);
   (0x108d, 0x108d, 220); (0x135d, 0x135f, 230); (0x1714, 0x1715, 9);
   (0x1734, 0x1734, 9); (0x17d2, 0x17d2, 9); (0x17dd, 0x17dd, 230);
   (0x18a9, 0x18a9, 228); (0x1939, 0x1939, 222); (0x193a, 0x193a, 230);
   (0x193b, 0x193b, 220); (0x1a17, 0x1a17, 230); (0x1a18, 0x1a18, 220);
   (0x1a60, 0x1a60, 9); (0x1a75, 0x1a7c, 230); (0x1a7f, 0x1a7f, 220);
   (0x1ab0, 0x1ab4, 230); (0x1ab5, 0x1aba, 220); (0x1abb, 0x1abc, 230);
   (0x1abd, 0x1abd, 220); (0x1abf, 0x1ac0, 220); (0x1ac1, 0x1ac2, 230);
   (0x1ac3, 0x1ac4, 220); (0x1ac5, 0x1ac9, 230); (0x1aca, 0x1aca, 220);
   (0x1acb, 0x1ace, 230); (0x1b34, 0x1b34, 7); (0x1b44, 0x1b44, 9);
   (0x1b6b, 0x1b6b, 230); (0x1b6c, 0x1b6c, 220); (0x1b6d, 0x1b73, 230);
   (0x1baa, 0x1bab, 9); (0x1be6, 0x1be6, 7); (0x1bf2, 0x1bf3, 9);
   (0x1c37, 0x1c37, 7); (0x1cd0, 0x1cd2, 230); (0x1cd4, 0x1cd4, 1);
   (0x1cd5, 0x1cd9, 220); (0x1cda, 0x1cdb, 230); (0x1cdc, 0x1cdf, 220);
   (0x1ce0, 0x1ce0, 230); (0x1ce2, 0x1ce8, 1); (0x1ced, 0x1ced, 220);
   (0x1cf4, 0x1cf4, 230); (0x1cf8, 0x1cf9, 230); (0x1dc0, 0x1dc1, 230);
   (0x1dc2, 0x1dc2, 220); (0x1dc3, 0x1dc9, 230); (0x1dca, 0x1dca, 220);
   (0x1dcb, 0x1dcc, 230); (0x1dcd, 0x1dcd, 234); (0x1dce, 0x1dce, 214);
   (0x1dcf, 0x1dcf, 220); (0x1dd0, 0x1dd0, 202); (0x1dd1, 0x1df5, 230);
   (0x1df6, 0x1df6, 232); (0x1df7, 0x1df8, 228); (0x1df9, 0x1df9, 220);
   (0x1dfa, 0x1dfa, 218); (0x1dfb, 0x1dfb, 230); (0x1dfc, 0x1dfc, 233);
   (0x1dfd, 0x1dfd, 220); (0x1dfe, 0x1dfe, 230); (0x1dff, 0x1dff, 220);
   (0x20d0, 0x20d1, 230); (0x20d2, 0x20d3, 1); (0x20d4, 0x20d7, 230);
   (0x20d8, 0x20da, 1); (0x20db, 0x20dc, 230); (0x20e1, 0x20e1, 230);
   (0x20e5, 0x20e6, 1); (0x20e7, 0x20e7, 230); (0x20e8, 0x20e8, 220);
   (0x20e9, 0x20e9, 230); (0x20ea, 0x20eb, 1); (0x20ec, 0x20ef, 220);
   (0x20f0, 0x20f0, 230); (0x2cef, 0x2cf1, 230); (0x2d7f, 0x2d7f, 9);
   (0x2de0, 0x2dff, 230); (0x302a, 0x302a, 218); (0x302b, 0x302b, 228);
   (0x302c, 0x302c, 232); (0x302d, 0x302d, 222); (0x302e, 0x302f, 224);
   (0x3099, 0x309a, 8); (0xa66f, 0xa66f, 230); (0xa674, 0xa67d, 230);
   (0xa69e, 0xa69f, 230); (0xa6f0, 0xa6f1, 230); (0xa806, 0xa806, 9);
   (0xa82c, 0xa82c, 9); (0xa8c4, 0xa8c4, 9); (0xa8e0, 0xa8f1, 230);
   (0xa92b, 0xa92d, 220); (0xa953, 0xa953, 9); (0xa9b3, 0xa9b3, 7);
   (0xa9c0, 0xa9c0, 9); (0xaab0, 0xaab0, 230); (0xaab2, 0xaab3, 230);
   (0xaab4, 0xaab4, 220); (0xaab7, 0xaab8, 230); (0xaabe, 0xaabf, 230);
   (0xaac1, 0xaac1, 230); (0xaaf6, 0xaaf6, 9); (0xabed, 0xabed, 9);
   (0xfb1e, 0xfb1e, 26); (0xfe20, 0xfe26, 230); (0xfe27, 0xfe2d, 220);
   (0xfe2e, 0xfe2f, 230); (0x101fd, 0x101fd, 220); (0x102e0, 0x102e0, 220);
   (0x10376, 0x1037a, 230); (0x10a0d, 0x10a0d, 220); (0x10a0f, 0x10a0f, 230);
   (0x10a38, 0x10a38, 230); (0x10a39, 0x10a39, 1); (0x10a3a, 0x10a3a, 220);
   (0x10a3f, 0x10a3f, 9); (0x10ae5, 0x10ae5, 230); (0x10ae6, 0x10ae6, 220);
   (0x10d24, 0x10d27, 230); (0x10eab, 0x10eac, 230); (0x10f46, 0x10f47, 220);
   (0x10f48, 0x10f4a, 230); (0x10f4b, 0x10f4b, 220); (0x10f4c, 0x10f4c, 230);
   (0x10f4d, 0x10f50, 220); (0x10f82, 0x10f82, 230); (0x10f83, 0x10f83, 220);
   (0x10f84, 0x10f84, 230); (0x10f85, 0x10f85, 220); (0x11046, 0x11046, 9);
   (0x11070, 0x11070, 9); (0x1107f, 0x1107f, 9); (0x110b9, 0x110b9, 9);
   (0x110ba, 0x110ba, 7); (0x11100, 0x11102, 230); (0x11133, 0x11134, 9);
   (0x11173, 0x11173, 7); (0x111c0, 0x111c0, 9); (0x111ca, 0x111ca, 7);
   (0x11235, 0x11235, 9); (0x11236, 0x11236, 7); (0x112e9, 0x112e9, 7);
   (0x112ea, 0x112ea, 9); (0x1133b, 0x1133c, 7); (0x1134d, 0x1134d, 9);
   (0x11366, 0x1136c, 230); (0x11370, 0x11374, 230); (0x11442, 0x11442, 9);
   (0x11446, 0x11446, 7); (0x1145e, 0x1145e, 230); (0x114c2, 0x114c2, 9);
   (0x114c3, 0x114c3, 7); (0x115bf, 0x115bf, 9); (0x115c0, 0x115c0, 7);
   (0x1163f, 0x1163f, 9); (0x116b6, 0x116b6, 9); (0x116b7, 0x116b7, 7);
   (0x1172b, 0x1172b, 9); (0x11839, 0x11839, 9); (0x1183a, 0x1183a, 7);
   (0x1193d, 0x1193e, 9); (0x11943, 0x11943, 7); (0x119e0, 0x119e0, 9);
   (0x11a34, 0x11a34, 9); (0x11a47, 0x11a47, 9); (0x11a99, 0x11a99, 9);
   (0x11c3f, 0x11c3f, 9); (0x11d42, 0x11d42, 7); (0x11d44, 0x11d45, 9);
   (0x11d97, 0x11d97, 9); (0x16af0, 0x16af4, 1); (0x16b30, 0x16b36, 230);
   (0x16ff0, 0x16ff1, 6); (0x1bc9e, 0x1bc9e, 1); (0x1d165, 0x1d166, 216);
   (0x1d167, 0x1d169, 1); (0x1d16d, 0x1d16d, 226); (0x1d16e, 0x1d172, 216);
   (0x1d17b, 0x1d182, 220); (0x1d185, 0x1d189, 230); (0x1d18a, 0x1d18b, 220);
   (0x1d1aa, 0x1d1ad, 230); (0x1d242, 0x1d244, 230); (0x1e000, 0x1e006, 230);
   (0x1e008, 0x1e018, 230); (0x1e01b, 0x1e021, 230); (0x1e023, 0x1e024, 230);
   (0x1e026, 0x1e02a, 230); (0x1e130, 0x1e136, 230); (0x1e2ae, 0x1e2ae, 230);
   (0x1e2ec, 0x1e2ef, 230); (0x1e8d0, 0x1e8d6, 220); (0x1e944, 0x1e949, 230);
   (0x1e94a, 0x1e94a, 7)].

Fixpoint class_in (c : Z) (t : list (Z * Z * Z)) : Z :=
  match t with
  | [] => 0
  | (lo, hi, k) :: t' =>
      if c <? lo then 0 else if c <=? hi then k else class_in c t'
  end.

(** [unicodedata.combining] *)
Definition combining (c : Z) : Z := class_in c combining_classes.

(** General category Mn (nonspacing mark). *)
Definition Mn_ranges : list (Z * Z) :=
  [(0x300, 0x36f); (0x483, 0x487); (0x591, 0x5bd); (0x5bf, 0x5bf);
   (0x5c1, 0x5c2); (0x5c4, 0x5c5); (0x5c7, 0x5c7); (0x610, 0x61a);
   (0x64b, 0x65f); (0x670, 0x670); (0x6d6, 0x6dc); (0x6df, 0x6e4);
   (0x6e7, 0x6e8); (0x6ea, 0x6ed); (0x711, 0x711); (0x730, 0x74a);
   (0x7a6, 0x7b0); (0x7eb, 0x7f3); (0x7fd, 0x7fd); (0x816, 0x819);
   (0x81b, 0x823); (0x825, 0x827); (0x829, 0x82d); (0x859, 0x85b);
   (0x898, 0x89f); (0x8ca, 0x8e1); (0x8e3, 0x902); (0x93a, 0x93a);
   (0x93c, 0x93c); (0x941, 0x948); (0x94d, 0x94d); (0x951, 0x957);
   (0x962, 0x963); (0x981, 0x981); (0x9bc, 0x9bc); (0x9c1, 0x9c4);
   (0x9cd, 0x9cd); (0x9e2, 0x9e3); (0x9fe, 0x9fe); (0xa01, 0xa02);
   (0xa3c, 0xa3c); (0xa41, 0xa42); (0xa47, 0xa48); (0xa4b, 0xa4d);
   (0xa51, 0xa51); (0xa70, 0xa71); (0xa75, 0xa75); (0xa81, 0xa82);
   (0xabc, 0xabc); (0xac1, 0xac5); (0xac7, 0xac8); (0xacd, 0xacd);
   (0xae2, 0xae3); (0xafa, 0xaff); (0xb01, 0xb01); (0xb3c, 0xb3c);
   (0xb3f, 0xb3f); (0xb41, 0xb44); (0xb4d, 0xb4d); (0xb55, 0xb56);
   (0xb62, 0xb63); (0xb82, 0xb82); (0xbc0, 0xbc0); (0xbcd, 0xbcd);
   (0xc00, 0xc00); (0xc04, 0xc04); (0xc3c, 0xc3c); (0xc3e, 0xc40);
   (0xc46, 0xc48); (0xc4a, 0xc4d); (0xc55, 0xc56); (0xc62, 0xc63);
   (0xc81, 0xc81); (0xcbc, 0xcbc); (0xcbf, 0xcbf); (0xcc6, 0xcc6);
   (0xccc, 0xccd); (0xce2, 0xce3); (0xd00, 0xd01); (0xd3b, 0xd3c);
   (0xd41, 0xd44); (0xd4d, 0xd4d); (0xd62, 0xd63); (0xd81, 0xd81);
   (0xdca, 0xdca); (0xdd2, 0xdd4); (0xdd6, 0xdd6); (0xe31, 0xe31);
   (0xe34, 0xe3a); (0xe47, 0xe4e); (0xeb1, 0xeb1); (0xeb4, 0xebc);
   (0xec8, 0xecd); (0xf18, 0xf19); (0xf35, 0xf35); (0xf37, 0xf37);
   (0xf39, 0xf39); (0xf71, 0xf7e); (0xf80, 0xf84); (0xf86, 0xf87);
   (0xf8d, 0xf97); (0xf99, 0xfbc); (0xfc6, 0xfc6); (0x102d, 0x1030);
   (0x1032, 0x1037); (0x1039, 0x103a); (0x103d, 0x103e); (0x1058, 0x1059);
   (0x105e, 0x1060); (0x1071, 0x1074); (0x1082, 0x1082); (0x1085, 0x1086);
   (0x108d, 0x108d); (0x109d, 0x109d); (0x135d, 0x135f); (0x1712, 0x1714);
   (0x1732, 0x1733); (0x1752, 0x1753); (0x1772, 0x1773); (0x17b4, 0x17b5);
   (0x17b7, 0x17bd); (0x17c6, 0x17c6); (0x17c9, 0x17d3); (0x17dd, 0x17dd);
   (0x180b, 0x180d); (0x180f, 0x180f); (0x1885, 0x1886); (0x18a9, 0x18a9);
   (0x1920, 0x1922); (0x1927, 0x1928); (0x1932, 0x1932); (0x1939, 0x193b);
   (0x1a17, 0x1a18); (0x1a1b, 0x1a1b); (0x1a56, 0x1a56); (0x1a58, 0x1a5e);
   (0x1a60, 0x1a60); (0x1a62, 0x1a62); (0x1a65, 0x1a6c); (0x1a73, 0x1a7c);
   (0x1a7f, 0x1a7f); (0x1ab0, 0x1abd); (0x1abf, 0x1ace); (0x1b00, 0x1b03);
   (0x1b34, 0x1b34); (0x1b36, 0x1b3a); (0x1b3c, 0x1b3c); (0x1b42, 0x1b42);
   (0x1b6b, 0x1b73); (0x1b80, 0x1b81); (0x1ba2, 0x1ba5); (0x1ba8, 0x1ba9);
   (0x1bab, 0x1bad); (0x1be6, 0x1be6); (0x1be8, 0x1be9); (0x1bed, 0x1bed);
   (0x1bef, 0x1bf1); (0x1c2c, 0x1c33); (0x1c36, 0x1c37); (0x1cd0, 0x1cd2);
   (0x1cd4, 0x1ce0); (0x1ce2, 0x1ce8); (0x1ced, 0x1ced); (0x1cf4, 0x1cf4);
   (0x1cf8, 0x1cf9); (0x1dc0, 0x1dff); (0x20d0, 0x20dc); (0x20e1, 0x20e1);
   (0x20e5, 0x20f0); (0x2cef, 0x2cf1); (0x2d7f, 0x2d7f); (0x2de0, 0x2dff);
   (0x302a, 0x302d); (0x3099, 0x309a); (0xa66f, 0xa66f); (0xa674, 0xa67d);
   (0xa69e, 0xa69f); (0xa6f0, 0xa6f1); (0xa802, 0xa802); (0xa806, 0xa806);
   (0xa80b, 0xa80b); (0xa825, 0xa826); (0xa82c, 0xa82c); (0xa8c4, 0xa8c5);
   (0xa8e0, 0xa8f1); (0xa8ff, 0xa8ff); (0xa926, 0xa92d); (0xa947, 0xa951);
   (0xa980, 0xa982); (0xa9b3, 0xa9b3); (0xa9b6, 0xa9b9); (0xa9bc, 0xa9bd);
   (0xa9e5, 0xa9e5); (0xaa29, 0xaa2e); (0xaa31, 0xaa32); (0xaa35, 0xaa36);
   (0xaa43, 0xaa43); (0xaa4c, 0xaa4c); (0xaa7c, 0xaa7c); (0xaab0, 0xaab0);
   (0xaab2, 0xaab4); (0xaab7, 0xaab8); (0xaabe, 0xaabf); (0xaac1, 0xaac1);
   (0xaaec, 0xaaed); (0xaaf6, 0xaaf6); (0xabe5, 0xabe5); (0xabe8, 0xabe8);
   (0xabed, 0xabed); (0xfb1e, 0xfb1e); (0xfe00, 0xfe0f); (0xfe20, 0xfe2f);
   (0x101fd, 0x101fd); (0x102e0, 0x102e0); (0x10376, 0x1037a);
   (0x10a01, 0x10a03); (0x10a05, 0x10a06); (0x10a0c, 0x10a0f);
   (0x10a38, 0x10a3a); (0x10a3f, 0x10a3f); (0x10ae5, 0x10ae6);
   (0x10d24, 0x10d27); (0x10eab, 0x10eac); (0x10f46, 0x10f50);
   (0x10f82, 0x10f85); (0x11001, 0x11001); (0x11038, 0x11046);
   (0x11070, 0x11070); (0x11073, 0x11074); (0x1107f, 0x11081);
   (0x110b3, 0x110b6); (0x110b9, 0x110ba); (0x110c2, 0x110c2);
   (0x11100, 0x11102); (0x11127, 0x1112b); (0x1112d, 0x11134);
   (0x11173, 0x11173); (0x11180, 0x11181); (0x111b6, 0x111be);
   (0x111c9, 0x111cc); (0x111cf, 0x111cf); (0x1122f, 0x11231);
   (0x11234, 0x11234); (0x11236, 0x11237); (0x1123e, 0x1123e);
   (0x112df, 0x112df); (0x112e3, 0x112ea); (0x11300, 0x11301);
   (0x1133b, 0x1133c); (0x11340, 0x11340); (0x11366, 0x1136c);
   (0x11370, 0x11374); (0x11438, 0x1143f); (0x11442, 0x11444);
   (0x11446, 0x11446); (0x1145e, 0x1145e); (0x114b3, 0x114b8);
   (0x114ba, 0x114ba); (0x114bf, 0x114c0); (0x114c2, 0x114c3);
   (0x115b2, 0x115b5); (0x115bc, 0x115bd); (0x115bf, 0x115c0);
   (0x115dc, 0x115dd); (0x11633, 0x1163a); (0x1163d, 0x1163d);
   (0x1163f, 0x11640); (0x116ab, 0x116ab); (0x116ad, 0x116ad);
   (0x116b0, 0x116b5); (0x116b7, 0x116b7); (0x1171d, 0x1171f);
   (0x11722, 0x11725); (0x11727, 0x1172b); (0x1182f, 0x11837);
   (0x11839, 0x1183a); (0x1193b, 0x1193c); (0x1193e, 0x1193e);
   (0x11943, 0x11943); (0x119d4, 0x119d7); (0x119da, 0x119db);
   (0x119e0, 0x119e0); (0x11a01, 0x11a0a); (0x11a33, 0x11a38);
   (0x11a3b, 0x11a3e); (0x11a47, 0x11a47); (0x11a51, 0x11a56);
   (0x11a59, 0x11a5b); (0x11a8a, 0x11a96); (0x11a98, 0x11a99);
   (0x11c30, 0x11c36); (0x11c38, 0x11c3d); (0x11c3f, 0x11c3f);
   (0x11c92, 0x11ca7); (0x11caa, 0x11cb0); (0x11cb2, 0x11cb3);
   (0x11cb5, 0x11cb6); (0x11d31, 0x11d36); (0x11d3a, 0x11d3a);
   (0x11d3c, 0x11d3d); (0x11d3f, 0x11d45); (0x11d47, 0x11d47);
   (0x11d90, 0x11d91); (0x11d95, 0x11d95); (0x11d97, 0x11d97);
   (0x11ef3, 0x11ef4); (0x16af0, 0x16af4); (0x16b30, 0x16b36);
   (0x16f4f, 0x16f4f); (0x16f8f, 0x16f92); (0x16fe4, 0x16fe4);
   (0x1bc9d, 0x1bc9e); (0x1cf00, 0x1cf2d); (0x1cf30, 0x1cf46);
   (0x1d167, 0x1d169); (0x1d17b, 0x1d182); (0x1d185, 0x1d18b);
   (0x1d1aa, 0x1d1ad); (0x1d242, 0x1d244); (0x1da00, 0x1da36);
   (0x1da3b, 0x1da6c); (0x1da75, 0x1da75); (0x1da84, 0x1da84);
   (0x1da9b, 0x1da9f); (0x1daa1, 0x1daaf); (0x1e000, 0x1e006);
   (0x1e008, 0x1e018); (0x1e01b, 0x1e021); (0x1e023, 0x1e024);
   (0x1e026, 0x1e02a); (0x1e130, 0x1e136); (0x1e2ae, 0x1e2ae);
   (0x1e2ec, 0x1e2ef); (0x1e8d0, 0x1e8d6); (0x1e944, 0x1e94a);
   (0xe0100, 0xe01ef)].

Definition is_Mn (c : Z) : bool := in_ranges c Mn_ranges.

(** Canonical ordering: a character with a non-zero combining class moves
    in front of the characters before it that have a greater class.
    [placed] is the text so far, last character first. *)
Fixpoint place (c : Z) (placed : pystr) : pystr :=
  match placed with
  | d :: placed' =>
      if (0 <? combining c) && (combining c <? combining d)
      then d :: place c placed'
      else c :: placed
  | [] => [c]
  end.

Definition canonical_order (s : pystr) : pystr :=
  rev (fold_left (fun placed c => place c placed) s []).

(** [unicodedata.normalize('NFD', s)] *)
Definition nfd (s : pystr) : pystr := canonical_order (flat_map decomposition s).

Definition unicode14 : Unicode := {|
  lower := str_lower;
  normalize_NFD := nfd;
  category_Mn := is_Mn
|}.

(** [l] is the one character [c]. *)
Definition single (c : Z) (l : pystr) : bool :=
  match l with
  | [d] => d =? c
  | _ => false
  end.

(** A character that the normalisation of a query leaves alone, unless it
    is a nonspacing mark. *)
Definition settled (c : Z) : bool :=
  negb (c =? 63) && negb (c =? 194) && negb (c =? 0x3a3)
  && single c (tolower_full c) && single c (decomposition c)
  && (combining c =? 0).

(** What [str.lower] can put in the place of [c]. *)
Definition lowered (c : Z) : pystr :=
  if c =? 0x3a3 then [0x3c2; 0x3c3] else tolower_full c.

(** Lower-casing and decomposing [c] gives nonspacing marks and settled
    characters only. *)
Definition stable (c : Z) : bool :=
  forallb (fun e => forallb (fun d => is_Mn d || settled d) (decomposition e))
    (lowered c).

(** A combining character (its combining class is not 0) that is not a
    nonspacing mark. *)
Definition spacing_mark (c : Z) : bool :=
  negb (combining c =? 0) && negb (is_Mn c).

(** Lower-casing and decomposing [c] gives such a character. *)
Definition yields_spacing_mark (c : Z) : bool :=
  existsb (fun e => existsb spacing_mark (decomposition e)) (lowered c).

(** The code points that do: the 25 combining characters that are not
    nonspacing marks themselves (viramas, tone marks, musical stems and
    flags) and the 13 musical symbols that decompose into them. *)
Definition spacing_mark_sources : list (Z * Z) :=
  [(0x1715, 0x1715); (0x1734, 0x1734); (0x1b44, 0x1b44); (0x1baa, 0x1baa);
   (0x1bf2, 0x1bf3); (0x302e, 0x302f); (0xa953, 0xa953); (0xa9c0, 0xa9c0);
   (0x111c0, 0x111c0); (0x11235, 0x11235); (0x1134d, 0x1134d);
   (0x116b6, 0x116b6); (0x1193d, 0x1193d); (0x16ff0, 0x16ff1);
   (0x1d15e, 0x1d166); (0x1d16d, 0x1d172); (0x1d1bb, 0x1d1c0)].

(** A code point that is not one of those 38. *)
Definition plain (c : Z) : bool := negb (in_ranges c spacing_mark_sources).

(** The entry of a table is for "?" or for a source of spacing marks, or
    its code point is stable. *)
Definition stable_entry (kv : Z * pystr) : bool :=
  (kv.1 =? 63) || negb (plain kv.1) || stable kv.1.

End Unicodedata.

Arguments Unicodedata.tolower_full : simpl never.
Arguments Unicodedata.decomposition : simpl never.
Arguments Unicodedata.combining : simpl never.
Arguments Unicodedata.is_Mn : simpl never.
Arguments Unicodedata.case_ignorable : simpl never.
Arguments Unicodedata.cased : simpl never.
Arguments Unicodedata.plain : simpl never.

(** ** [hash_id] of [services/data-indexer/base.py] *)

Module Md5.

(** [hashlib.md5] (RFC 1321) on a list of bytes; words are 32 bits wide. *)

Definition w32 (x : Z) : Z := x mod 2 ^ 32.

Definition rotl (x c : Z) : Z :=
  w32 (Z.lor (Z.shiftl x c) (Z.shiftr x (32 - c))).

Definition lnot32 (x : Z) : Z := Z.lxor x (2 ^ 32 - 1).

(** [floor(2^32 * abs(sin(i + 1)))] for i = 0..63 *)
Definition K : list Z :=
  [3614090360; 3905402710; 606105819; 3250441966;
   4118548399; 1200080426; 2821735955; 4249261313;
   1770035416; 2336552879; 4294925233; 2304563134;
   1804603682; 4254626195; 2792965006; 1236535329;
   4129170786; 3225465664; 643717713; 3921069994;
   3593408605; 38016083; 3634488961; 3889429448;
   568446438; 3275163606; 4107603335; 1163531501;
   2850285829; 4243563512; 1735328473; 2368359562;
   4294588738; 2272392833; 1839030562; 4259657740;
   2763975236; 1272893353; 4139469664; 3200236656;
   681279174; 3936430074; 3572445317; 76029189;
   3654602809; 3873151461; 530742520; 3299628645;
   4096336452; 1126891415; 2878612391; 4237533241;
   1700485571; 2399980690; 4293915773; 2240044497;
   1873313359; 4264355552; 2734768916; 1309151649;
   4149444226; 3174756917; 718787259; 3951481745].

Definition shifts : list Z :=
  [7; 12; 17; 22; 7; 12; 17; 22; 7; 12; 17; 22; 7; 12; 17; 22;
   5; 9; 14; 20; 5; 9; 14; 20; 5; 9; 14; 20; 5; 9; 14; 20;
   4; 11; 16; 23; 4; 11; 16; 23; 4; 11; 16; 23; 4; 11; 16; 23;
   6; 10; 15; 21; 6; 10; 15; 21; 6; 10; 15; 21; 6; 10; 15; 21].

Record regs := Regs { ra : Z; rb : Z; rc : Z; rd : Z }.

Definition init : regs := Regs 1732584193 4023233417 2562383102 271733878.

(** One of the 64 operations on the block [m] of sixteen words. *)
Definition operation (m : list Z) (r : regs) (i : nat) : regs :=
  let '(Regs a b c d) := r in
  let iz := Z.of_nat i in
  let '(f, g) :=
    if iz <? 16 then (Z.lor (Z.land b c) (Z.land (lnot32 b) d), iz)
    else if iz <? 32 then (Z.lor (Z.land d b) (Z.land (lnot32 d) c), (5 * iz + 1) mod 16)
    else if iz <? 48 then (Z.lxor (Z.lxor b c) d, (3 * iz + 5) mod 16)
    else (Z.lxor c (Z.lor b (lnot32 d)), (7 * iz) mod 16) in
  let f' := w32 (f + a + nth i K 0 + nth (Z.to_nat g) m 0) in
  Regs d (w32 (b + rotl f' (nth i shifts 0))) b c.

Definition add_regs (r r' : regs) : regs :=
  Regs (w32 (ra r + ra r')) (w32 (rb r + rb r'))
       (w32 (rc r + rc r')) (w32 (rd r + rd r')).

Definition block (r : regs) (m : list Z) : regs :=
  add_regs r (fold_left (operation m) (seq 0 64) r).

(** Little-endian bytes of a word and back. *)
Fixpoint le_bytes (n : nat) (x : Z) : list Z :=
  match n with
  | O => []
  | S n' => x mod 256 :: le_bytes n' (x / 256)
  end.

Fixpoint le_word (bs : list Z) : Z :=
  match bs with
  | [] => 0
  | b :: bs' => b + 256 * le_word bs'
  end.

(** The message followed by 0x80, zeros up to 56 modulo 64, and the bit
    length on eight bytes. *)
Definition pad (msg : list Z) : list Z :=
  let n := Z.of_nat (length msg) in
  msg ++ [128] ++ repeat 0 (Z.to_nat ((55 - n) mod 64)) ++ le_bytes 8 (8 * n).

(** Cut a list into pieces of [k] elements. *)
Fixpoint pieces {A} (fuel k : nat) (l : list A) : list (list A) :=
  match fuel with
  | O => []
  | S fuel' =>
      match l with
      | [] => []
      | _ => take k l :: pieces fuel' k (drop k l)
      end
  end.

Definition words (bs : list Z) : list Z :=
  map le_word (pieces (length bs) 4 bs).

(** The sixteen bytes of the digest. *)
Definition digest (msg : list Z) : list Z :=
  let p := pad msg in
  let r := fold_left block (map words (pieces (length p) 64 p)) init in
  le_bytes 4 (ra r) ++ le_bytes 4 (rb r) ++ le_bytes 4 (rc r) ++ le_bytes 4 (rd r).

End Md5.

Module Indexer.

Inductive failure := UnicodeEncodeError.

(** [s.encode("utf-8")] on one code point: a surrogate cannot be
    encoded. *)
Definition encode_cp (c : Z) : option (list Z) :=
  if c <? 128 then Some [c]
  else if c <? 2048 then Some [192 + c / 64; 128 + c mod 64]
  else if (55296 <=? c) && (c <=? 57343) then None
  else if c <? 65536
  then Some [224 + c / 4096; 128 + (c / 64) mod 64; 128 + c mod 64]
  else Some [240 + c / 262144; 128 + (c / 4096) mod 64;
             128 + (c / 64) mod 64; 128 + c mod 64].

Fixpoint encode (s : pystr) : option (list Z) :=
  match s with
  | [] => Some []
  | c :: s' =>
      match encode_cp c, encode s' with
      | Some bs, Some bs' => Some (bs ++ bs')
      | _, _ => None
      end
  end.

(** [int(hexdigest, 16)]: the digest read as one big-endian number. *)
Definition int16 (bs : list Z) : Z :=
  fold_left (fun n b => 256 * n + b) bs 0.

(** The id, or the exception that [encode] raises. *)
Definition hash_id (parts : list pystr) : failure + Z :=
  let key := join (u "::") parts in
  match encode key with
  | Some bs => inr (int16 (Md5.digest bs) mod 2 ^ 31)
  | None => inl UnicodeEncodeError
  end.

(** A Python string holds code points up to U+10FFFF. *)
Definition code_point (c : Z) : Prop := 0 <= c <= 1114111.

(** A code point that is not a surrogate. *)
Definition scalar (c : Z) : Prop :=
  code_point c /\ ~ (55296 <= c <= 57343).

End Indexer.

(** ** The vocabulary of the specification *)

Module Spec.

(** The three places where a request is augmented. *)
Inductive route :=
| InjectorGenerate     (* injector.py, POST /api/generate *)
| ApiGenerate          (* rag_api.py, POST /api/generate *)
| ApiChat.             (* rag_api.py, POST /api/chat *)

(** [augment(request)]: the step between reading the request and forwarding
    it; the result is the object that is forwarded. *)
Definition augment `{Unicode} (i : route) (data : loc) : M loc :=
  match i with
  | InjectorGenerate => Injector.process_request data
  | ApiGenerate => RagApi.augment_generate data ;;; ret data
  | ApiChat => RagApi.augment_chat data ;;; ret data
  end.

(** A call that raised, or was answered with a status other than 200 or
    with a body that is not JSON. *)
Definition failed (r : reply) : Prop :=
  match r with
  | NoReply => True
  | Reply a => status_code a <> 200 \/ parsed a = None
  end.

(** Some call to the embeddings service or to the vector index failed. *)
Definition retrieval_failed (lg : list (call * reply)) : Prop :=
  Exists (fun cr => target cr.1 <> Ollama /\ failed cr.2) lg.

(** The hits of a successful answer of the vector index. *)
Definition hits_of (r : reply) : option (list json) :=
  match r with
  | Reply a =>
      if status_code a =? 200
      then match parsed a with
           | Some (JDict d) =>
               match dict_get (u "result") d with
               | Some (JList hits) => Some hits
               | _ => None
               end
           | _ => None
           end
      else None
  | NoReply => None
  end.

Definition search_hits (lg : list (call * reply)) (hits : list json) : Prop :=
  exists c r, (c, r) ∈ lg /\ target c = Qdrant /\ hits_of r = Some hits.

(** A retrieved document. *)
Record document := Document { content_of : pystr; score : Q }.

(** [{"payload": {"content": text, ...}, "score": float, ...}] *)
Definition is_hit (hit : json) (doc : document) : Prop :=
  exists d p,
    hit = JDict d
    /\ dict_get (u "payload") d = Some (JDict p)
    /\ dict_get (u "content") p = Some (JStr (content_of doc))
    /\ dict_get (u "score") d = Some (JFloat (score doc)).

(** The vector index answered with these documents, in this order. *)
Definition returned (lg : list (call * reply)) (docs : list document) : Prop :=
  exists hits, search_hits lg hits /\ Forall2 is_hit hits docs.


Definition is_user (m : json) : bool :=
  match m with
  | JDict d =>
      match dict_get (u "role") d with
      | Some r => is_str (u "user") r
      | None => false
      end
  | _ => false
  end.

(** The index of the last message with role "user". *)
Definition last_user (msgs : list json) (k : nat) : Prop :=
  (exists m, msgs !! k = Some m /\ is_user m = true)
  /\ forall j m, (k < j)%nat -> msgs !! j = Some m -> is_user m = false.


(** The text that replaces the question. *)
Definition rendered (i : route) (contents : list pystr) (q : pystr) : pystr :=
  match i with
  | InjectorGenerate =>
      Injector.heading ++ concat (map (fun c => c ++ nl ++ nl) contents)
        ++ Injector.delimiter ++ Injector.instruction ++ q
  | ApiGenerate => RagApi.generate_prompt (join (nl ++ nl) contents) q
  | ApiChat => RagApi.chat_content (join (nl ++ nl) contents) q
  end.

Arguments rendered : simpl never.


(** The items of a dict under the keys other than [k], in order. *)
Definition other_items (k : pystr) (d : dict) : dict :=
  List.filter (fun kv => negb (bool_decide (kv.1 = k))) d.

(** Two dicts that differ at most in the item under [k]. *)
Definition same_but (k : pystr) (d d' : dict) : Prop :=
  other_items k d' = other_items k d.

(** What may differ between the request before and after [augment]. *)
Definition only_question_changed (i : route) (d d' : dict) : Prop :=
  match i with
  | ApiChat =>
      same_but (u "messages") d d'
      /\ exists msgs msgs' k m m',
           dict_get (u "messages") d = Some (JList msgs)
           /\ dict_get (u "messages") d' = Some (JList msgs')
           /\ length msgs' = length msgs
           /\ last_user msgs k
           /\ (forall j, j <> k -> msgs' !! j = msgs !! j)
           /\ msgs !! k = Some (JDict m)
           /\ msgs' !! k = Some (JDict m')
           /\ same_but (u "content") m m'
  | _ => same_but (u "prompt") d d'
  end.

(** The call that asks for the embedding of a query. *)
Definition embedding_call `{Unicode} (q : pystr) : call :=
  Call POST Embeddings [] (Some (RagApi.embed_body (RagApi.normalize q))) 30.


Definition is_dict (x : json) : Prop := exists d, x = JDict d.





End Spec.

(** ** Worlds and requests of the examples *)

Module Examples.

Import Spec.

(** "Madrid: 22°C, clear skies" *)
Definition madrid_doc : pystr := u "Madrid: 22" ++ [176] ++ u "C, clear skies".

Definition hit (id : Z) (c : pystr) (q : Q) : json :=
  JDict [(u "id", JInt id); (u "version", JInt 1); (u "score", JFloat q);
         (u "payload", JDict [(u "content", JStr c)])].

Definition answer_json (st : Z) (j : json) : reply :=
  Reply (Answer st (Some j) [] (Some application_json)).

Definition vector : json := JList [JFloat (1 # 10); JFloat (2 # 10)].

(** Every service answers; the index holds the given hits. *)
Definition serving (hits : list json) (generation : reply) : world :=
  fun c =>
    match target c with
    | Embeddings => answer_json 200 (JList [vector])
    | Qdrant =>
        answer_json 200 (JDict [(u "result", JList hits);
                                (u "status", JStr (u "ok"))])
    | Ollama => generation
    end.

Definition generated : reply :=
  answer_json 200 (JDict [(u "response", JStr (u "It is sunny."));
                          (u "done", JBool true)]).

(** The index returns the Madrid document at score 0.81. *)
Definition madrid : world := serving [hit 1 madrid_doc (81 # 100)] generated.

(** The index returns a document at score 0.05. *)
Definition unrelated_doc : pystr := u "Quarterly report".
Definition low_score : world := serving [hit 7 unrelated_doc (5 # 100)] generated.



(** The embeddings service is down. *)
Definition embeddings_down : world :=
  fun c =>
    match target c with
    | Embeddings => NoReply
    | _ => madrid c
    end.

(** The backend answers every call with status 500 and a JSON body. *)
Definition model_missing : json :=
  JDict [(u "error", JStr (u "model 'llama9' not found"))].
Definition backend_error : world := serving [] (answer_json 500 model_missing).

(** The backend answers the tags query with status 503. *)
Definition backend_unavailable : world :=
  serving [] (Reply (Answer 503 None (u "Service Unavailable") None)).

(** "What's the weather in Madrid?" *)
Definition weather_question : pystr := u "What's the weather in Madrid?".

Definition generate_request (stream : json) (prompt : pystr) : json :=
  JDict [(u "model", JStr (u "llama3")); (u "prompt", JStr prompt);
         (u "stream", stream)].

Definition chat_request (content : pystr) : json :=
  JDict [(u "model", JStr (u "llama3"));
         (u "messages",
          JList [JDict [(u "role", JStr (u "system"));
                        (u "content", JStr (u "Be brief."))];
                 JDict [(u "role", JStr (u "user"));
                        (u "content", JStr content)]]);
         (u "stream", JBool false)].

(** The request object of the view is at location 1. *)
Definition at1 (request : json) : state := State {[1%positive := request]} [].

End Examples.
(** ** [services/data-indexer/base.py]: the calls to the services

    The indexer raises exceptions that the proxies do not ([RuntimeError],
    [ValueError], the [HTTPError] of [raise_for_status], [OSError] from the
    file system), and it reads two module globals that [configure_endpoints]
    sets.  Its functions run in a monad of their own: the state holds the two
    globals and the calls made so far. *)

Module Base.

Inductive error :=
| RuntimeError (message : pystr)
| ValueError (message : pystr)
| HTTPError
| OSError
| Encoding (f : Indexer.failure)
| Builtin (e : exn).

Record process := Process {
  EMBEDDINGS_API : option pystr;
  QDRANT_API : option pystr;
  calls : list (call * reply)
}.

Definition IO (A : Type) : Type := world -> process -> (error + A) * process.

Definition ret {A} (a : A) : IO A := fun _ s => (inr a, s).

Definition raise {A} (e : error) : IO A := fun _ s => (inl e, s).

Definition bind {A B} (m : IO A) (k : A -> IO B) : IO B :=
  fun w s =>
    match m w s with
    | (inr a, s') => k a w s'
    | (inl e, s') => (inl e, s')
    end.

(** [try: m except Exception as exc: h exc] *)
Definition try_ {A} (m : IO A) (h : error -> IO A) : IO A :=
  fun w s =>
    match m w s with
    | (inr a, s') => (inr a, s')
    | (inl e, s') => h e w s'
    end.

Declare Scope io_scope.
Delimit Scope io_scope with io.
Notation "x <- m ;; k" := (bind m (fun x => k))
  (at level 100, m at next level, right associativity) : io_scope.
Notation "m ;;; k" := (bind m (fun _ => k))
  (at level 100, right associativity) : io_scope.
Local Open Scope io_scope.

Definition lift {A} (r : res A) : IO A :=
  fun _ s =>
    match r with
    | Ret a => (inr a, s)
    | Raise e => (inl (Builtin e), s)
    end.

Definition requests (v : verb) (t : endpoint) (p : pystr)
    (j : option json) (tmo : Z) : IO answer :=
  fun w s =>
    let c := Call v t p j tmo in
    let s' r := Process (EMBEDDINGS_API s) (QDRANT_API s) (calls s ++ [(c, r)]) in
    match w c with
    | Reply a => (inr a, s' (Reply a))
    | NoReply => (inl (Builtin ConnectionError), s' NoReply)
    end.

Definition global (g : process -> option pystr) : IO (option pystr) :=
  fun _ s => (inr (g s), s).

(** [if x:] for a global that is [None] or a string *)
Definition configured (x : option pystr) : bool :=
  match x with
  | Some (_ :: _) => true
  | _ => false
  end.

(** [resp.raise_for_status()] *)
Definition raise_for_status (a : answer) : IO unit :=
  if (400 <=? status_code a) && (status_code a <? 600)
  then raise HTTPError else ret tt.

(** [status in (200, 201)] *)
Definition ok_or_created (st : Z) : bool := (st =? 200) || (st =? 201).

Definition configure_endpoints (embeddings_url qdrant_url : pystr) : IO unit :=
  fun _ s => (inr tt, Process (Some embeddings_url) (Some qdrant_url) (calls s)).

Definition qdrant_not_configured : pystr :=
  u "QDRANT_API endpoint is not configured".

Definition embeddings_not_configured : pystr :=
  u "EMBEDDINGS_API endpoint is not configured".

Definition collection_path (collection : pystr) : pystr :=
  u "/collections/" ++ collection.

Definition vectors : json :=
  JDict [(u "vectors",
          JDict [(u "size", JInt 1024); (u "distance", JStr (u "Cosine"))])].

Definition creation_failed (collection : pystr) (a : answer) : pystr :=
  u "Failed to create collection '" ++ collection ++ u "': " ++ text a.

Definition ensure_collection_exists (collection : pystr) : IO unit :=
  api <- global QDRANT_API ;;
  if negb (configured api) then raise (RuntimeError qdrant_not_configured)
  else
    present <- try_
                 (resp <- requests GET Qdrant (collection_path collection) None 5 ;;
                  ret (status_code resp =? 200))
                 (fun _ => ret false) ;;
    if present then ret tt
    else
      resp <- requests PUT Qdrant (collection_path collection) (Some vectors) 10 ;;
      if negb (ok_or_created (status_code resp))
      then raise (RuntimeError (creation_failed collection resp))
      else ret tt.

Definition points_path (collection : pystr) : pystr :=
  u "/collections/" ++ collection ++ u "/points?wait=true".

Definition points (point_id : Z) (vector payload : json) : json :=
  JDict [(u "points",
          JList [JDict [(u "id", JInt point_id); (u "vector", vector);
                        (u "payload", payload)]])].

Definition upsert_document (collection : pystr) (point_id : Z)
    (vector payload : json) : IO bool :=
  api <- global QDRANT_API ;;
  if negb (configured api) then raise (RuntimeError qdrant_not_configured)
  else
    resp <- requests PUT Qdrant (points_path collection)
              (Some (points point_id vector payload)) 10 ;;
    if negb (ok_or_created (status_code resp)) then ret false else ret true.

Definition inputs (text : pystr) : json :=
  JDict [(u "inputs", JList [JStr text])].

(** The vector, or [None] (here [JNull]). *)
Definition embed_text (text : pystr) : IO json :=
  api <- global EMBEDDINGS_API ;;
  if negb (configured api) then raise (RuntimeError embeddings_not_configured)
  else
    try_
      (resp <- requests POST Embeddings [] (Some (inputs text)) 30 ;;
       raise_for_status resp ;;;
       data <- lift (json_ resp) ;;
       match data with
       | JList _ => lift (py_item0 data)
       | _ => ret data
       end)
      (fun _ => ret JNull).

Record SourceConfig := {
  id : pystr;
  type : pystr;
  collection : pystr;
  interval_minutes : Z;
  settings : json
}.

End Base.

(** ** The character tests the indexer calls

    [str.isspace] and [str.isalnum] on one character belong to the Python
    runtime, like the operations of [Unicode]. *)

Class Ctype := {
  isspace : Z -> bool;
  isalnum : Z -> bool
}.

Module Str.

(** [s.lstrip(chars)], [chars] given as a test *)
Fixpoint lstrip (strippable : Z -> bool) (s : pystr) : pystr :=
  match s with
  | c :: s' => if strippable c then lstrip strippable s' else s
  | [] => []
  end.

(** [s.strip(chars)] *)
Definition strip (strippable : Z -> bool) (s : pystr) : pystr :=
  reverse (lstrip strippable (reverse (lstrip strippable s))).

End Str.

(** ** [services/data-indexer/base.py]: [BaseSourceHandler] *)

Module BaseSourceHandler.

Import Base.
Local Open Scope io_scope.

Definition __init__ (config : SourceConfig) : IO unit :=
  ensure_collection_exists (collection config).

(** [config.settings or {}] *)
Definition settings_or_empty (config : SourceConfig) : json :=
  if truthy (settings config) then settings config else JDict [].

End BaseSourceHandler.

(** ** [services/data-indexer/handlers/file_source_handler.py] *)

Module FileSourceHandler.

Import Base.
Local Open Scope io_scope.

Definition HANDLER_TYPE : pystr := u "file_source".

Record handler := Handler {
  config : SourceConfig;
  directory : pystr;
  patterns : json
}.

Definition directory_required : pystr :=
  u "File source handler requires 'directory' in settings".

Definition __init__ (config : SourceConfig) : IO handler :=
  BaseSourceHandler.__init__ config ;;;
  let settings := BaseSourceHandler.settings_or_empty config in
  directory <- lift (py_get settings (u "directory") JNull) ;;
  patterns <- lift (py_get settings (u "patterns") (JList [JStr (u "*.txt")])) ;;
  if negb (truthy directory) then raise (ValueError directory_required)
  else
    match directory with
    | JStr d => ret (Handler config d patterns)
    | _ => raise (Builtin TypeError)     (* Path(self.directory) *)
    end.

(** A path that [glob] yields: [str(file_path)], [file_path.name], and what
    [open(file_path, "r", encoding="utf-8").read()] gives, the text of the
    file or the exception that opening, reading or decoding raises. *)
Record Path := {
  str : pystr;
  name : pystr;
  read : error + pystr
}.

Definition file_payload (config : SourceConfig) (file_path : Path)
    (content : pystr) : json :=
  JDict [(u "source", JStr (id config));
         (u "filename", JStr (name file_path));
         (u "file_path", JStr (str file_path));
         (u "content", JStr content);
         (u "content_length", JInt (Z.of_nat (length content)));
         (u "metadata",
          JDict [(u "collection", JStr (collection config));
                 (u "handler", JStr HANDLER_TYPE);
                 (u "type", JStr (u "file"))])].

Definition open_read (file_path : Path) : IO pystr :=
  fun _ s => (read file_path, s).

Definition hash_id (parts : list pystr) : IO Z :=
  fun _ s =>
    match Indexer.hash_id parts with
    | inr n => (inr n, s)
    | inl f => (inl (Encoding f), s)
    end.

Definition _index_file `{Ctype} (config : SourceConfig) (file_path : Path) : IO bool :=
  try_
    (content <- open_read file_path ;;
     match Str.strip isspace content with
     | [] => ret false
     | _ =>
         vector <- embed_text content ;;
         if negb (truthy vector) then ret false
         else
           point_id <- hash_id [id config; str file_path] ;;
           let payload := file_payload config file_path content in
           stored <- upsert_document (collection config) point_id vector payload ;;
           if stored then ret true else ret false
     end)
    (fun _ => ret false).

End FileSourceHandler.

(** ** [services/data-indexer/handlers/weather_open_meteo.py] *)

Module WeatherOpenMeteoHandler.

Import Base.
Local Open Scope io_scope.

Record handler := Handler {
  config : SourceConfig;
  locations : json;
  timezone : json;
  forecast_days : json
}.

Definition location_required : pystr :=
  u "Weather handler requires at least one location".

Definition __init__ (config : SourceConfig) : IO handler :=
  BaseSourceHandler.__init__ config ;;;
  let settings := BaseSourceHandler.settings_or_empty config in
  locations <- lift (py_get settings (u "locations") (JList [])) ;;
  if negb (truthy locations) then raise (ValueError location_required)
  else
    timezone <- lift (py_get settings (u "timezone") (JStr (u "UTC"))) ;;
    forecast_days <- lift (py_get settings (u "forecast_days") (JInt 3)) ;;
    ret (Handler config locations timezone forecast_days).

(** ["".join(c.lower() if c.isalnum() else "-" for c in name or "unknown").strip("-")]
    for a name that is [None] or a string. *)
Definition _slugify `{Unicode} `{Ctype} (name : option pystr) : pystr :=
  let name := match name with Some (c :: s) => c :: s | _ => u "unknown" end in
  Str.strip (Z.eqb 45)
    (flat_map (fun c => if isalnum c then lower [c] else [45]) name).

End WeatherOpenMeteoHandler.

(** ** Waiting for Open WebUI
    ([services/openwebui-config/app.py] and [uploader.py])

    The server is given by its answer to the first, second, ... request. *)

Module OpenWebUI.

Definition MAX_RETRIES : nat := 30.
Definition RETRY_DELAY : Z := 2.

Inductive event :=
| Asked (r : reply)           (* [session.get(url, timeout=5)] *)
| Slept (seconds : Z).        (* [time.sleep(seconds)] *)

(** [for attempt in attempts: try: ... except Exception: ...; return False] *)
Fixpoint poll (ready : Z -> bool) (server : nat -> reply) (attempts : list nat)
    : bool * list event :=
  match attempts with
  | [] => (false, [])
  | attempt :: attempts' =>
      match server attempt with
      | Reply a =>
          if ready (status_code a) then (true, [Asked (Reply a)])
          else
            let r := poll ready server attempts' in
            (r.1, Asked (Reply a) :: r.2)
      | NoReply =>
          if (attempt =? MAX_RETRIES - 1)%nat then (false, [Asked NoReply])
          else
            let r := poll ready server attempts' in
            (r.1, Asked NoReply :: Slept RETRY_DELAY :: r.2)
      end
  end.

(** [response.status_code in [200, 301, 302]] *)
Definition up (st : Z) : bool := existsb (Z.eqb st) [200; 301; 302].

Definition wait_for_webui (server : nat -> reply) : bool * list event :=
  poll up server (seq 0 MAX_RETRIES).

Definition wait_for_api (server : nat -> reply) : bool * list event :=
  poll (fun st => st =? 200) server (seq 0 MAX_RETRIES).

(** The requests made and the seconds slept. *)
Definition requests_made (t : list event) : nat :=
  length (List.filter (fun e => match e with Asked _ => true | _ => false end) t).

Definition slept (t : list event) : Z :=
  fold_right (fun e n => match e with Slept k => k + n | _ => n end) 0 t.

End OpenWebUI.

(** The character tests on U+0000..U+00FF, from the Unicode character
    database; the instance is used on Latin-1 text only and answers [false]
    elsewhere. *)

Module Latin1.

Definition isspace_cp (c : Z) : bool :=
  existsb (Z.eqb c) [9; 10; 11; 12; 13; 28; 29; 30; 31; 32; 133; 160].

Definition isalnum_cp (c : Z) : bool :=
  ((48 <=? c) && (c <=? 57)) || ((65 <=? c) && (c <=? 90))
  || ((97 <=? c) && (c <=? 122))
  || existsb (Z.eqb c) [170; 178; 179; 181; 185; 186; 188; 189; 190]
  || ((192 <=? c) && (c <=? 255) && negb (c =? 215) && negb (c =? 247)).

#[export] Instance ctype : Ctype := {|
  isspace := isspace_cp;
  isalnum := isalnum_cp
|}.

End Latin1.

(** ** Further worlds and requests *)

Module Samples.

Import Examples.

(** The backend cannot be reached; retrieval works. *)
Definition backend_down : world :=
  fun c =>
    match target c with
    | Ollama => NoReply
    | _ => madrid c
    end.

(** The backend answers every call with status 502 and a body that is not
    JSON. *)
Definition bad_gateway : answer :=
  Answer 502 None (u "Bad Gateway") (Some text_html).
Definition behind_gateway : world := serving [] (Reply bad_gateway).

(** A conversation whose last user message is empty. *)
Definition empty_turn : json :=
  JDict [(u "model", JStr (u "llama3"));
         (u "messages",
          JList [JDict [(u "role", JStr (u "user"));
                        (u "content", JStr weather_question)];
                 JDict [(u "role", JStr (u "assistant"));
                        (u "content", JStr (u "It is sunny."))];
                 JDict [(u "role", JStr (u "user"));
                        (u "content", JStr [])]])].

(** A conversation without a user message. *)
Definition system_only : json :=
  JDict [(u "messages",
          JList [JDict [(u "role", JStr (u "system"));
                        (u "content", JStr (u "Be brief."))]])].

(** The backend answers every call with status 200 and the JSON number
    7. *)
Definition answers_number : world := serving [] (answer_json 200 (JInt 7)).

(** A message list that ends with a string instead of an object. *)
Definition malformed_chat : json :=
  JDict [(u "messages",
          JList [JDict [(u "role", JStr (u "user"));
                        (u "content", JStr weather_question)];
                 JStr (u "and tomorrow?")])].

End Samples.

(** ** An indexer process, its configuration and some files *)

Module IndexerSamples.

Import Examples.

Definition ready : Base.process :=
  Base.Process (Some (u "http://embeddings:80/embed"))
    (Some (u "http://qdrant:6333")) [].

Definition not_found : reply :=
  Reply (Answer 404 (Some (JDict [(u "status", JStr (u "not found"))])) []
           (Some application_json)).

(** The index has no collection yet and accepts every PUT; the embeddings
    service answers. *)
Definition fresh_index : world :=
  fun c =>
    match target c, method c with
    | Qdrant, GET => not_found
    | _, _ => madrid c
    end.

(** The index refuses to create a collection. *)
Definition refused : answer :=
  Answer 400 None (u "Wrong input: bad vector size") None.

Definition read_only_index : world :=
  fun c =>
    match target c, method c with
    | Qdrant, GET => not_found
    | Qdrant, PUT => Reply refused
    | _, _ => madrid c
    end.

Definition files : Base.SourceConfig := {|
  Base.id := u "files";
  Base.type := u "file_source";
  Base.collection := u "documents";
  Base.interval_minutes := 10;
  Base.settings := JDict [(u "directory", JStr (u "/data"))]
|}.

(** A file source without a directory. *)
Definition nowhere : Base.SourceConfig := {|
  Base.id := u "files";
  Base.type := u "file_source";
  Base.collection := u "documents";
  Base.interval_minutes := 10;
  Base.settings := JDict []
|}.

Definition note : FileSourceHandler.Path := {|
  FileSourceHandler.str := u "/data/a.txt";
  FileSourceHandler.name := u "a.txt";
  FileSourceHandler.read := inr madrid_doc
|}.

(** A file that holds a space and a line feed. *)
Definition blank : FileSourceHandler.Path := {|
  FileSourceHandler.str := u "/data/blank.txt";
  FileSourceHandler.name := u "blank.txt";
  FileSourceHandler.read := inr [32; 10]
|}.

(** A file whose name holds a byte that is not UTF-8: Python reads it as
    the lone surrogate U+DCFF. *)
Definition odd : FileSourceHandler.Path := {|
  FileSourceHandler.str := u "/data/" ++ [56575] ++ u ".txt";
  FileSourceHandler.name := [56575] ++ u ".txt";
  FileSourceHandler.read := inr madrid_doc
|}.

(** Open WebUI answers 503 to every request. *)
Definition starting : nat -> reply :=
  fun _ => Reply (Answer 503 None (u "Service Unavailable") None).

End IndexerSamples.

(** * Properties *)

Import Spec.

(** ** Tactics for running a handler *)

Ltac no_match x :=
  lazymatch x with
  | context [match _ with _ => _ end] => fail
  | _ => idtac
  end.

(** Case analysis on the innermost scrutinee that blocks the computation. *)
Ltac run_step :=
  match goal with
  | |- context [match ?x with _ => _ end] =>
      no_match x; let E := fresh "E" in destruct x eqn:E
  end; simpl.

Ltac run :=
  unfold try_, bind, requests, lift, ret, raise, load, request_json, setitem; simpl;
  repeat run_step.

Ltac in_log :=
  repeat match goal with
  | H : _ ∈ [] |- _ => by apply not_elem_of_nil in H
  | H : _ ∈ _ :: _ |- _ => apply elem_of_cons in H; destruct H as [H|H]
  | H : Exists _ [] |- _ => by apply Exists_nil in H
  | H : Exists _ (_ :: _) |- _ => apply Exists_cons in H; destruct H as [H|H]
  end.

Ltac to_Z :=
  repeat match goal with
  | H : negb (_ =? _) = false |- _ => apply negb_false_iff, Z.eqb_eq in H
  | H : negb (_ =? _) = true |- _ => apply negb_true_iff, Z.eqb_neq in H
  | H : (_ =? _) = true |- _ => apply Z.eqb_eq in H
  | H : (_ =? _) = false |- _ => apply Z.eqb_neq in H
  end.

Ltac open_hyps :=
  repeat match goal with
  | H : ∃ _, _ |- _ => destruct H
  | H : _ ∧ _ |- _ => destruct H
  end.

(** Closes the goal left at the end of one path through a handler. *)
Ltac leaf :=
  intros;
  unfold returned, retrieval_failed, search_hits, failed, hits_of, json_, py_get, py_in,
    py_item, py_iter, res_bind in *;
  open_hyps; in_log; simplify_eq/=; open_hyps; to_Z;
  repeat (case_match; simplify_eq/=);
  repeat match goal with H : _ ∨ _ |- _ => destruct H end;
  simplify_eq/=; try done; try congruence; try lia; eauto.

(** ** Dictionaries *)

Lemma dict_set_same k v d : dict_get k d = Some v -> dict_set k v d = d.
Proof.
  induction d as [|[k' v'] d IH]; simpl; [done|].
  case_bool_decide; intros; simplify_eq; [done|]. by rewrite IH.
Qed.


Lemma dict_get_set_eq k v d : dict_get k (dict_set k v d) = Some v.
Proof.
  induction d as [|[k0 v0] d IH]; simpl.
  - by rewrite bool_decide_eq_true_2.
  - case_bool_decide; simpl.
    + by rewrite bool_decide_eq_true_2.
    + by rewrite bool_decide_eq_false_2.
Qed.

Lemma dict_set_keys k v v0 d :
  dict_get k d = Some v0 -> map fst (dict_set k v d) = map fst d.
Proof.
  induction d as [|[k' v'] d IH]; simpl; [done|].
  case_bool_decide; intros; simplify_eq/=; [done|]. by rewrite IH.
Qed.

Lemma same_but_set k v d : same_but k d (dict_set k v d).
Proof.
  unfold same_but, other_items.
  induction d as [|[k' v'] d IH]; simpl.
  - by rewrite bool_decide_eq_true_2.
  - case_bool_decide; simpl.
    + by rewrite bool_decide_eq_true_2.
    + rewrite bool_decide_eq_false_2 by done. simpl. by rewrite IH.
Qed.

Lemma same_but_refl k d : same_but k d d.
Proof. done. Qed.

Lemma same_but_get k k' d d' :
  same_but k d d' -> k' <> k -> dict_get k' d' = dict_get k' d.
Proof.
  unfold same_but, other_items. intros Hs Hne.
  assert (Hf : forall e, dict_get k' e
    = dict_get k' (List.filter (fun kv => negb (bool_decide (kv.1 = k))) e)).
  { induction e as [|[k0 v0] e IH]; simpl; [done|].
    repeat (case_bool_decide; simplify_eq/=); try done;
      rewrite ?bool_decide_eq_true_2, ?bool_decide_eq_false_2 by done; done. }
  by rewrite (Hf d), (Hf d'), Hs.
Qed.

(** ** What the loops over the hits collect *)

Lemma documents_of_hits hits docs :
  Forall2 is_hit hits docs ->
  Injector.documents_of hits = Ret (map (fun d => JStr (content_of d)) docs).
Proof.
  induction 1 as [|hit doc hits docs (d & p & -> & Hp & Hc & _) _ IH]; [done|].
  simpl. rewrite Hp. simpl. rewrite Hc. simpl. by rewrite IH.
Qed.

Lemma docs_of_hits hits docs :
  Forall2 is_hit hits docs ->
  RagApi.docs_of hits = Ret (map (fun d => JStr (content_of d)) docs).
Proof.
  induction 1 as [|hit doc hits docs (d & p & -> & Hp & Hc & _) _ IH]; [done|].
  simpl. rewrite Hp. simpl. rewrite Hc. simpl. by rewrite IH.
Qed.

Lemma add_documents_strings context (cs : list pystr) :
  Injector.add_documents context (map JStr cs)
  = Ret (context ++ concat (map (fun c => c ++ nl ++ nl) cs)).
Proof.
  revert context. induction cs as [|c cs IH]; intros context; simpl.
  - by rewrite app_nil_r.
  - rewrite IH. by rewrite <- !app_assoc.
Qed.

Lemma py_join_strings sep (cs : list pystr) :
  py_join sep (map JStr cs) = Ret (join sep cs).
Proof.
  induction cs as [|c cs IH]; [done|].
  simpl. destruct cs as [|c' cs]; [done|].
  simpl in *. rewrite IH. done.
Qed.

(** ** [injector.py]: what one run does *)

Lemma search_context_run query limit w h :
  exists docs lg,
    Injector.search_context query limit w (State h []) = (Ret docs, State h lg)
    /\ Forall (fun cr => target cr.1 <> Ollama) lg
    /\ (retrieval_failed lg -> docs = [])
    /\ (forall hits, search_hits lg hits ->
          Injector.documents_of hits = Ret docs
          \/ docs = [] /\ exists e, Injector.documents_of hits = Raise e)
    /\ Forall (fun cr => target cr.1 = Qdrant ->
                 exists e, payload cr.1 = Some (Injector.search_body e limit)) lg.
Proof.
  unfold Injector.search_context. run.
  all: eexists _, _; split; [reflexivity|].
  all: split; [repeat constructor; simpl; congruence|].
  all: split; [by leaf|].
  all: split; [by leaf|].
  all: repeat constructor; simpl; intros; try congruence; eauto.
Qed.

Lemma inject_context_run `{Unicode} prompt w h :
  exists j lg,
    Injector.inject_context prompt w (State h []) = (Ret j, State h lg)
    /\ Forall (fun cr => target cr.1 <> Ollama) lg
    /\ (retrieval_failed lg -> j = prompt)
    /\ (forall docs, returned lg docs -> docs <> [] ->
          exists p, prompt = JStr p
            /\ j = JStr (rendered InjectorGenerate (map content_of docs) p))
    /\ Forall (fun cr => target cr.1 = Qdrant ->
                 exists e, payload cr.1 = Some (Injector.search_body e 2)) lg.
Proof.
  unfold Injector.inject_context, try_, bind, raise, ret.
  destruct prompt as [|b|n|q|p|l|d];
    try (eexists _, []; split; [reflexivity|]; repeat split; try done; by leaf).
  destruct (negb (Injector.is_weather_query p)).
  { eexists _, []. split; [reflexivity|]. repeat split; try done; by leaf. }
  destruct (search_context_run (JStr p) 2 w h)
    as (docs & lg & -> & Hlg & Hfail & Hhits & Hbody).
  assert (Hret : forall ds, returned lg ds ->
            docs = map JStr (map content_of ds)).
  { intros ds (hits & Hs & Hf). apply documents_of_hits in Hf.
    destruct (Hhits _ Hs) as [Hd|[_ [e He]]]; [|congruence].
    rewrite Hf in Hd. injection Hd as <-. by rewrite map_map. }
  destruct docs as [|doc docs].
  { eexists _, lg. split; [reflexivity|]. repeat split; try done.
    intros ds Hr Hne. apply Hret in Hr. by destruct ds. }
  unfold lift.
  destruct (Injector.add_documents Injector.heading (doc :: docs)) as [ctx|e] eqn:Ectx.
  - eexists _, lg. split; [reflexivity|]. repeat split; try done.
    + intros Hf. by specialize (Hfail Hf).
    + intros ds Hr _. exists p. split; [done|]. apply Hret in Hr.
      rewrite Hr, add_documents_strings in Ectx. injection Ectx as <-.
      unfold rendered. by rewrite <- !app_assoc.
  - eexists _, lg. split; [reflexivity|]. repeat split; try done.
    intros ds Hr _. apply Hret in Hr.
    rewrite Hr, add_documents_strings in Ectx. done.
Qed.

Lemma truthy_get_default k d :
  truthy (default (JStr []) (dict_get k d)) = true ->
  dict_get k d = Some (default (JStr []) (dict_get k d)).
Proof. by destruct (dict_get k d). Qed.

Lemma process_request_run `{Unicode} data w h :
  exists h' lg,
    Injector.process_request data w (State h []) = (Ret data, State h' lg)
    /\ Forall (fun cr => target cr.1 <> Ollama) lg
    /\ (retrieval_failed lg -> h' = h)
    /\ (forall docs, returned lg docs -> docs <> [] ->
          exists d p,
            h !! data = Some (JDict d)
            /\ dict_get (u "prompt") d = Some (JStr p)
            /\ h' = <[data := JDict (dict_set (u "prompt")
                       (JStr (rendered InjectorGenerate (map content_of docs) p)) d)]> h)
    /\ (h' = h
        \/ exists d v0 v,
             h !! data = Some (JDict d)
             /\ dict_get (u "prompt") d = Some v0
             /\ h' = <[data := JDict (dict_set (u "prompt") v d)]> h)
    /\ Forall (fun cr => target cr.1 = Qdrant ->
                 exists e, payload cr.1 = Some (Injector.search_body e 2)) lg
    /\ (forall d, h !! data = Some (JDict d) ->
          dict_get (u "stream") d <> Some (JBool false)
          \/ truthy (default (JStr []) (dict_get (u "prompt") d)) = false ->
          h' = h /\ lg = []).
Proof.
  unfold Injector.process_request, try_, bind, load, request_json, lift, ret. simpl.
  destruct (h !! data) as [[|b|n|q|s|l|d]|] eqn:Hd; simpl;
    try (eexists _, []; split; [reflexivity|]; repeat split; try done;
         first [by left | by leaf]).
  destruct (dict_get (u "stream") d) as [[|[|]|n|q|s|l|d']|] eqn:Hs; simpl;
    try (eexists _, []; split; [reflexivity|]; repeat split; try done;
         first [by left | by leaf]).
  destruct (truthy (default (JStr []) (dict_get (u "prompt") d))) eqn:Ht.
  2:{ eexists _, []; split; [reflexivity|]; repeat split; try done;
        first [by left | by leaf]. }
  apply truthy_get_default in Ht as Hp.
  destruct (inject_context_run (default (JStr []) (dict_get (u "prompt") d)) w h)
    as (j & lg & -> & Hlg & Hfail & Hret & Hbody).
  unfold setitem. simpl. rewrite Hd.
  eexists _, lg. split; [reflexivity|].
  split; [exact Hlg|]. split; [|split; [|split; [|split; [exact Hbody|]]]].
  - intros Hf. rewrite (Hfail Hf). rewrite dict_set_same by done.
    by apply insert_id.
  - intros docs Hr Hne. destruct (Hret _ Hr Hne) as (p & Hpp & ->).
    exists d, p. rewrite Hpp in Hp. done.
  - right. eauto 10.
  - intros dd [= <-] [Hc|Hc]; congruence.
Qed.

(** ** [rag_api.py]: what one run does *)

Lemma get_rag_context_run `{Unicode} query w h :
  exists ctx lg,
    RagApi.get_rag_context query w (State h []) = (Ret ctx, State h lg)
    /\ Forall (fun cr => target cr.1 <> Ollama) lg
    /\ (retrieval_failed lg -> ctx = None)
    /\ (forall hits ds c, search_hits lg hits ->
          RagApi.docs_of hits = Ret ds -> ds <> [] ->
          py_join (nl ++ nl) ds = Ret c -> ctx = Some c)
    /\ (ctx <> None -> exists q, query = JStr q)
    /\ Forall (fun cr => target cr.1 = Embeddings ->
                 exists q, query = JStr q
                   /\ payload cr.1 = Some (RagApi.embed_body (RagApi.normalize q))) lg
    /\ Forall (fun cr => target cr.1 = Qdrant ->
                 exists e, payload cr.1 = Some (RagApi.search_body e)) lg.
Proof.
  unfold RagApi.get_rag_context.
  destruct query as [|b|n|q0|q|l|d];
    try (eexists _, []; split; [reflexivity|];
         split; [constructor|]; split; [done|]; split; [by leaf|];
         split; [done|]; split; constructor).
  set (c := py_join (nl ++ nl)).
  run.
  all: eexists _, _; split; [reflexivity|].
  all: split; [repeat constructor; simpl; congruence|].
  all: split; [by leaf|].
  all: split; [try by leaf|].
  all: try (split; [by eauto|]).
  all: try (split; repeat constructor; simpl; intros; try congruence; eauto).
Qed.

(** A context is only found for a query that is a string. *)
Lemma get_rag_context_str `{Unicode} query w h c s' :
  RagApi.get_rag_context query w (State h []) = (Ret (Some c), s') ->
  exists q, query = JStr q.
Proof.
  destruct (get_rag_context_run query w h)
    as (ctx & lg & -> & _ & _ & _ & Hstr & _).
  intros [= -> _]. by apply Hstr.
Qed.

Lemma nonempty_join (cs : list pystr) :
  cs <> [] -> Forall (fun c => c <> []) cs ->
  RagApi.nonempty (Some (join (nl ++ nl) cs)) = Some (join (nl ++ nl) cs).
Proof.
  destruct cs as [|c cs]; [done|]. intros _ Hc.
  apply Forall_cons in Hc as [Hc _].
  destruct c as [|x c]; [done|]. simpl. by destruct cs.
Qed.

Lemma nonempty_Some ctx c : RagApi.nonempty ctx = Some c -> ctx = Some c.
Proof. destruct ctx as [[|x s]|]; simpl; congruence. Qed.

Lemma augment_generate_run `{Unicode} data w h :
  exists r h' lg,
    RagApi.augment_generate data w (State h []) = (r, State h' lg)
    /\ Forall (fun cr => target cr.1 <> Ollama) lg
    /\ (retrieval_failed lg -> r = Ret tt /\ h' = h)
    /\ (forall docs, returned lg docs -> docs <> [] ->
          Forall (fun d => content_of d <> []) docs ->
          exists d p,
            h !! data = Some (JDict d)
            /\ default (JStr []) (dict_get (u "prompt") d) = JStr p
            /\ r = Ret tt
            /\ h' = <[data := JDict (dict_set (u "prompt")
                       (JStr (rendered ApiGenerate (map content_of docs) p)) d)]> h)
    /\ (h' = h
        \/ exists d v,
             r = Ret tt /\ h !! data = Some (JDict d)
             /\ h' = <[data := JDict (dict_set (u "prompt") v d)]> h)
    /\ Forall (fun cr => target cr.1 = Embeddings ->
                 exists d q,
                   h !! data = Some (JDict d)
                   /\ default (JStr []) (dict_get (u "prompt") d) = JStr q
                   /\ payload cr.1 = Some (RagApi.embed_body (RagApi.normalize q))) lg
    /\ Forall (fun cr => target cr.1 = Qdrant ->
                 exists e, payload cr.1 = Some (RagApi.search_body e)) lg.
Proof.
  unfold RagApi.augment_generate, bind, load, request_json, lift, ret. simpl.
  destruct (h !! data) as [[|b|n|q|s|l|d]|] eqn:Hd; simpl;
    try (eexists _, _, []; split; [reflexivity|];
         split; [constructor|]; split; [by leaf|]; split; [by leaf|];
         split; [by left|]; split; constructor).
  destruct (get_rag_context_run (default (JStr []) (dict_get (u "prompt") d)) w h)
    as (ctx & lg & -> & Hlg & Hfail & Hhits & Hstr & Hemb & Hbody).
  assert (Hret : forall docs, returned lg docs -> docs <> [] ->
            ctx = Some (join (nl ++ nl) (map content_of docs))).
  { intros docs (hits & Hs & Hf) Hne. apply docs_of_hits in Hf.
    eapply Hhits; [done..| |].
    - by destruct docs.
    - rewrite <- (map_map content_of JStr). apply py_join_strings. }
  assert (Hemb' : Forall (fun cr => target cr.1 = Embeddings ->
                 exists d0 q,
                   Some (JDict d) = Some (JDict d0)
                   /\ default (JStr []) (dict_get (u "prompt") d0) = JStr q
                   /\ payload cr.1 = Some (RagApi.embed_body (RagApi.normalize q))) lg).
  { eapply Forall_impl; [exact Hemb|]. intros cr Hc Ht.
    destruct (Hc Ht) as (q & Hq & Hp). eauto. }
  destruct (RagApi.nonempty ctx) as [c|] eqn:Hc.
  - unfold setitem. simpl. rewrite Hd.
    eexists _, _, lg. split; [reflexivity|].
    split; [done|]. split; [|split; [|split; [|split; [done|done]]]].
    + intros Hf. rewrite (Hfail Hf) in Hc. done.
    + intros docs Hr Hne Hcs. apply nonempty_Some in Hc.
      destruct Hstr as [p Hp]; [congruence|].
      exists d, p. rewrite Hp. repeat split; try done.
      rewrite (Hret _ Hr Hne) in Hc. by injection Hc as <-.
    + right. eauto.
  - eexists _, _, lg. split; [reflexivity|].
    split; [done|]. split; [done|]. split; [|split; [by left|done]].
    intros docs Hr Hne Hcs. rewrite (Hret _ Hr Hne) in Hc.
    rewrite nonempty_join in Hc; [done| |].
    + by destruct docs.
    + by apply Forall_map.
Qed.

(** The loop over the reversed messages stops at the first user message. *)
Lemma find_user_Some l i m :
  RagApi.find_user l = Ret (Some (i, m)) ->
  l !! i = Some m /\ is_user m = true
  /\ (exists d, m = JDict d)
  /\ forall j m', (j < i)%nat -> l !! j = Some m' -> is_user m' = false.
Proof.
  revert i. induction l as [|x l IH]; intros i; simpl; [done|].
  destruct x as [|b|n|q|s|l0|d]; simpl; try done.
  destruct (is_str (u "user") (default JNull (dict_get (u "role") d))) eqn:Hu.
  - intros [= <- <-]. repeat split; eauto.
    + simpl. by destruct (dict_get (u "role") d).
    + intros; lia.
  - destruct (RagApi.find_user l) as [[[i' m']|]|] eqn:Hf; simpl; try done.
    intros [= <- <-]. destruct (IH _ eq_refl) as (Hl & Hm & Hd & Hlt).
    repeat split; try done.
    intros [|j] m'' Hj; simpl.
    + intros [= <-]. simpl. by destruct (dict_get (u "role") d).
    + apply Hlt. lia.
Qed.

Lemma find_user_last msgs i m :
  RagApi.find_user (reverse msgs) = Ret (Some (i, m)) ->
  let k := (length msgs - 1 - i)%nat in
  last_user msgs k /\ msgs !! k = Some m /\ exists d, m = JDict d.
Proof.
  intros (Hl & Hm & Hd & Hlt)%find_user_Some. simpl.
  apply reverse_lookup_Some in Hl as [Hl Hi].
  replace (length msgs - 1 - i)%nat with (length msgs - S i)%nat by lia.
  split; [|done]. split; [eauto|].
  intros j m' Hj Hm'. apply lookup_lt_Some in Hm' as Hlen.
  apply (Hlt (length msgs - S j)%nat); [lia|].
  apply reverse_lookup_Some. split; [|lia].
  by replace (length msgs - S (length msgs - S j))%nat with j by lia.
Qed.

Lemma augment_chat_run `{Unicode} data w h :
  exists r h' lg,
    RagApi.augment_chat data w (State h []) = (r, State h' lg)
    /\ Forall (fun cr => target cr.1 <> Ollama) lg
    /\ (retrieval_failed lg -> r = Ret tt /\ h' = h)
    /\ (h' = h /\ (forall docs, returned lg docs -> docs <> [] ->
                     Forall (fun d => content_of d <> []) docs -> False)
        \/ exists d msgs k m v,
             r = Ret tt /\ h !! data = Some (JDict d)
             /\ dict_get (u "messages") d = Some (JList msgs)
             /\ last_user msgs k
             /\ msgs !! k = Some (JDict m)
             /\ (forall docs, returned lg docs -> docs <> [] ->
                   Forall (fun d => content_of d <> []) docs ->
                   exists p, default (JStr []) (dict_get (u "content") m) = JStr p
                     /\ v = JStr (rendered ApiChat (map content_of docs) p))
             /\ h' = <[data := JDict (dict_set (u "messages")
                        (JList (<[k := JDict (dict_set (u "content") v m)]> msgs)) d)]> h)
    /\ Forall (fun cr => target cr.1 = Embeddings ->
                 exists q, payload cr.1 = Some (RagApi.embed_body (RagApi.normalize q))) lg
    /\ Forall (fun cr => target cr.1 = Qdrant ->
                 exists e, payload cr.1 = Some (RagApi.search_body e)) lg.
Proof.
  unfold RagApi.augment_chat, bind, load, request_json, lift, ret. simpl.
  assert (Hnone : forall r, exists r0 h' lg,
    (r, State h []) = (r0, State h' lg)
    /\ Forall (fun cr => target cr.1 <> Ollama) lg
    /\ (retrieval_failed lg -> r0 = Ret tt /\ h' = h)
    /\ (h' = h /\ (forall docs, returned lg docs -> docs <> [] ->
                     Forall (fun d => content_of d <> []) docs -> False)
        \/ exists d msgs k m v,
             r0 = Ret tt /\ h !! data = Some (JDict d)
             /\ dict_get (u "messages") d = Some (JList msgs)
             /\ last_user msgs k
             /\ msgs !! k = Some (JDict m)
             /\ (forall docs, returned lg docs -> docs <> [] ->
                   Forall (fun d => content_of d <> []) docs ->
                   exists p, default (JStr []) (dict_get (u "content") m) = JStr p
                     /\ v = JStr (rendered ApiChat (map content_of docs) p))
             /\ h' = <[data := JDict (dict_set (u "messages")
                        (JList (<[k := JDict (dict_set (u "content") v m)]> msgs)) d)]> h)
    /\ Forall (fun cr => target cr.1 = Embeddings ->
                 exists q, payload cr.1 = Some (RagApi.embed_body (RagApi.normalize q))) lg
    /\ Forall (fun cr => target cr.1 = Qdrant ->
                 exists e, payload cr.1 = Some (RagApi.search_body e)) lg).
  { intros r. exists r, h, []. split; [done|]. split; [constructor|].
    split; [by leaf|]. split; [left; split; [done|by leaf]|]. split; constructor. }
  destruct (h !! data) as [[|b|n|q|s|l|d]|] eqn:Hd; simpl; try apply Hnone.
  destruct (dict_get (u "messages") d) as [[|b|n|q|s|[|m0 ms0]|d']|] eqn:Hm;
    simpl; try apply Hnone.
  set (msgs := m0 :: ms0) in *.
  destruct (RagApi.find_user (reverse msgs)) as [[[i msg]|]|e] eqn:Hf;
    simpl; try apply Hnone.
  apply find_user_last in Hf as (Hlast & Hk & m & ->). simpl.
  set (k := (length msgs - 1 - i)%nat) in *.
  destruct (truthy (default (JStr []) (dict_get (u "content") m))) eqn:Ht;
    try apply Hnone.
  destruct (get_rag_context_run (default (JStr []) (dict_get (u "content") m)) w h)
    as (ctx & lg & -> & Hlg & Hfail & Hhits & Hstr & Hemb & Hbody).
  assert (Hret : forall docs, returned lg docs -> docs <> [] ->
            ctx = Some (join (nl ++ nl) (map content_of docs))).
  { intros docs (hits & Hs & Hh) Hne. apply docs_of_hits in Hh.
    eapply Hhits; [done..| |].
    - by destruct docs.
    - rewrite <- (map_map content_of JStr). apply py_join_strings. }
  assert (Hemb' : Forall (fun cr => target cr.1 = Embeddings ->
            exists q, payload cr.1 = Some (RagApi.embed_body (RagApi.normalize q))) lg).
  { eapply Forall_impl; [exact Hemb|]. intros cr Hc Hta.
    destruct (Hc Hta) as (q & Hq & Hp). eauto. }
  destruct (RagApi.nonempty ctx) as [c|] eqn:Hc.
  - unfold RagApi.set_message_content. simpl. rewrite Hd, Hm.
    change (length ms0 - 0 - i)%nat with k. rewrite Hk.
    eexists _, _, lg. split; [reflexivity|].
    split; [done|]. split; [|split; [|done]].
    + intros Hfl. rewrite (Hfail Hfl) in Hc. done.
    + right. exists d, msgs, k, m. eexists.
      do 5 (split; [done|]). split; [|reflexivity].
      intros docs Hr Hne Hcs. apply nonempty_Some in Hc.
      destruct Hstr as [p Hp]; [congruence|].
      exists p. split; [done|]. rewrite Hp. simpl.
      rewrite (Hret _ Hr Hne) in Hc. by injection Hc as <-.
  - eexists _, _, lg. split; [reflexivity|].
    split; [done|]. split; [done|]. split; [|done].
    left. split; [done|]. intros docs Hr Hne Hcs.
    rewrite (Hret _ Hr Hne) in Hc.
    rewrite nonempty_join in Hc; [done| |].
    + by destruct docs.
    + by apply Forall_map.
Qed.

Import Examples.

(** * The claims *)

(** C1. For every generation request, if the embedding call or the
    vector-search call fails (it raises, or is answered with a status other
    than 200 or with a body that is not JSON), [augment] returns the request
    object it was given, the request is unchanged, and no exception leaves
    [augment].  This holds for the three places where requests are
    augmented. *)
Theorem augment_degrades `{Unicode} (i : route) (data : loc) (w : world)
    (h : gmap loc json) (r : res loc) (s' : state) :
  augment i data w (State h []) = (r, s') ->
  retrieval_failed (log s') ->
  r = Ret data /\ heap s' = h.
Proof.
  destruct i; simpl.
  - destruct (process_request_run data w h)
      as (h' & lg & -> & _ & Hfail & _).
    intros [= <- <-]. simpl. intros Hf. split; [done|]. by apply Hfail.
  - unfold bind, ret.
    destruct (augment_generate_run data w h)
      as (r0 & h' & lg & -> & _ & Hfail & _).
    destruct r0 as [[]|e]; intros [= <- <-]; simpl; intros Hf;
      destruct (Hfail Hf) as [? ->]; by simplify_eq.
  - unfold bind, ret.
    destruct (augment_chat_run data w h)
      as (r0 & h' & lg & -> & _ & Hfail & _).
    destruct r0 as [[]|e]; intros [= <- <-]; simpl; intros Hf;
      destruct (Hfail Hf) as [? ->]; by simplify_eq.
Qed.

Lemma augment_degrades_witness :
  let run := @augment Ucd.fragment InjectorGenerate 1 embeddings_down
               (at1 (generate_request (JBool false) weather_question)) in
  retrieval_failed (log run.2)
  /\ run.1 = Ret 1%positive
  /\ heap run.2 = {[1%positive := generate_request (JBool false) weather_question]}.
Proof.
  intros run.
  assert (Hf : retrieval_failed (log run.2)).
  { vm_compute. apply Exists_cons_hd. split; [discriminate|exact I]. }
  split; [exact Hf|].
  exact (@augment_degrades Ucd.fragment InjectorGenerate 1 embeddings_down
           _ run.1 run.2 (surjective_pairing run) Hf).
Defined.

(** ** Where the documents are in the rendered text *)










Lemma rendered_ends i (cs : list pystr) q :
  exists x, rendered i cs q = x ++ q.
Proof.
  unfold rendered, RagApi.generate_prompt, RagApi.chat_content.
  destruct i; eexists; rewrite !app_assoc; reflexivity.
Qed.



(** ** The text that replaces the question *)









(** C3, as stated, fails: the request object of the caller is changed in
    place and handed back; no copy is made. *)
Lemma request_mutated_in_place :
  let request := generate_request (JBool false) weather_question in
  let run := @augment Ucd.fragment InjectorGenerate 1 madrid (at1 request) in
  run.1 = Ret 1%positive
  /\ heap run.2 !! 1%positive <> heap (at1 request) !! 1%positive.
Proof.
  intros request run. split; [reflexivity|].
  intros Hc. vm_compute in Hc. discriminate Hc.
Qed.

(** C3, amended.  When augmentation applies, [augment] changes the request
    object of the caller in place and returns that same object; in it only
    the prompt (or the content of the last message with role "user") is
    replaced: every other field, every other message, every other field of
    that message and every other object of the store is left as it was. *)
Theorem augment_frame `{Unicode} (i : route) (data : loc) (w : world)
    (h : gmap loc json) (r : res loc) (s' : state) :
  augment i data w (State h []) = (r, s') ->
  (forall l, l <> data -> heap s' !! l = h !! l)
  /\ (heap s' = h
      \/ exists d d',
           r = Ret data
           /\ h !! data = Some (JDict d)
           /\ heap s' !! data = Some (JDict d')
           /\ only_question_changed i d d').
Proof.
  destruct i; simpl.
  - destruct (process_request_run data w h)
      as (h' & lg & -> & _ & _ & _ & Hh & _).
    intros [= <- <-]. simpl.
    destruct Hh as [->|(d & v0 & v & Hd & Hp & ->)]; [by split; [|left]|].
    split; [intros l Hl; by rewrite lookup_insert_ne|].
    right. exists d. eexists. split; [done|]. split; [done|].
    split; [apply lookup_insert_eq|]. apply same_but_set.
  - unfold bind, ret.
    destruct (augment_generate_run data w h)
      as (r0 & h' & lg & -> & _ & _ & _ & Hh & _).
    destruct Hh as [->|(d & v & -> & Hd & ->)].
    { destruct r0 as [[]|e]; intros [= <- <-]; by split; [|left]. }
    intros [= <- <-]. simpl.
    split; [intros l Hl; by rewrite lookup_insert_ne|].
    right. exists d. eexists. split; [done|]. split; [done|].
    split; [apply lookup_insert_eq|]. apply same_but_set.
  - unfold bind, ret.
    destruct (augment_chat_run data w h)
      as (r0 & h' & lg & -> & _ & _ & Hh & _).
    destruct Hh as [[-> _]|(d & msgs & k & m & v & -> & Hd & Hm & Hlast & Hk & _ & ->)].
    { destruct r0 as [[]|e]; intros [= <- <-]; by split; [|left]. }
    intros [= <- <-]. simpl.
    split; [intros l Hl; by rewrite lookup_insert_ne|].
    right. exists d. eexists. split; [done|]. split; [done|].
    split; [apply lookup_insert_eq|].
    split; [apply same_but_set|].
    exists msgs. eexists _, k, m, _.
    split; [done|]. split; [apply dict_get_set_eq|].
    split; [apply length_insert|]. split; [done|].
    split; [intros j Hj; by apply list_lookup_insert_ne|].
    split; [done|].
    split; [apply list_lookup_insert_eq; by eapply lookup_lt_Some|].
    apply same_but_set.
Qed.

Lemma augment_frame_witness :
  let request := chat_request weather_question in
  let run := @augment Ucd.fragment ApiChat 1 madrid (at1 request) in
  (forall l, l <> 1%positive -> heap run.2 !! l = heap (at1 request) !! l)
  /\ (heap run.2 = heap (at1 request)
      \/ exists d d',
           run.1 = Ret 1%positive
           /\ heap (at1 request) !! 1%positive = Some (JDict d)
           /\ heap run.2 !! 1%positive = Some (JDict d')
           /\ only_question_changed ApiChat d d').
Proof.
  intros request run.
  exact (@augment_frame Ucd.fragment ApiChat 1 madrid _ run.1 run.2
           (surjective_pairing run)).
Defined.


Lemma find_user_complete l i m :
  l !! i = Some (JDict m) -> is_user (JDict m) = true ->
  (forall j m', (j < i)%nat -> l !! j = Some m' -> is_user m' = false) ->
  Forall is_dict l ->
  RagApi.find_user l = Ret (Some (i, JDict m)).
Proof.
  revert i. induction l as [|x l IH]; intros i Hi Hu Hlt Hd; [done|].
  apply Forall_cons in Hd as [[d ->] Hd]. simpl.
  assert (Hrole : forall e, is_str (u "user") (default JNull (dict_get (u "role") e))
                    = is_user (JDict e)).
  { intros e. simpl. by destruct (dict_get (u "role") e). }
  rewrite Hrole.
  destruct i as [|i]; simpl in Hi.
  - injection Hi as ->. by rewrite Hu.
  - rewrite (Hlt 0%nat (JDict d)); [|lia|done].
    rewrite (IH i); [done..| |done].
    intros j m' Hj Hm'. apply (Hlt (S j)); [lia|done].
Qed.

Lemma find_user_reverse msgs k m :
  msgs !! k = Some (JDict m) -> last_user msgs k -> Forall is_dict msgs ->
  RagApi.find_user (reverse msgs)
  = Ret (Some ((length msgs - 1 - k)%nat, JDict m))
  /\ (length msgs - 1 - (length msgs - 1 - k))%nat = k.
Proof.
  intros Hk [(m0 & Hm0 & Hu) Hlater] Hd.
  apply lookup_lt_Some in Hk as Hlen.
  rewrite Hk in Hm0. injection Hm0 as <-.
  split; [|lia]. apply find_user_complete; try done.
  - apply reverse_lookup_Some. split; [|lia].
    by replace (length msgs - S (length msgs - 1 - k))%nat with k by lia.
  - intros j m' Hj [Hm' Hjl]%reverse_lookup_Some.
    by apply (Hlater (length msgs - S j)%nat); [lia|].
  - by apply Forall_reverse.
Qed.




(** ** Sibling paths that the defects are measured against *)

(** X5.  In injector.py a request with an empty or missing prompt is left
    alone. *)
Lemma process_request_keeps_empty_prompt `{Unicode} w h data d :
  h !! data = Some (JDict d) ->
  truthy (default (JStr []) (dict_get (u "prompt") d)) = false ->
  Injector.process_request data w (State h []) = (Ret data, State h []).
Proof.
  intros Hd Hp.
  destruct (process_request_run data w h)
    as (h' & lg & -> & _ & _ & _ & _ & _ & Hskip).
  destruct (Hskip d Hd) as [-> ->]; [by right|done].
Qed.

(** X7.  In injector.py every vector search asks for at most two hits with
    a score of 0.3 or more. *)
Lemma injector_search_payload `{Unicode} w h data c rep :
  (c, rep) ∈ log (Injector.process_request data w (State h [])).2 ->
  target c = Qdrant ->
  exists e limit_and_threshold,
    payload c = Some (JDict ((u "vector", e) :: limit_and_threshold))
    /\ dict_get (u "limit") limit_and_threshold = Some (JInt 2)
    /\ dict_get (u "score_threshold") limit_and_threshold = Some (JFloat (3 # 10)).
Proof.
  destruct (process_request_run data w h)
    as (h' & lg & -> & _ & _ & _ & _ & Hbody & _).
  simpl. intros Hin Ht. rewrite Forall_forall in Hbody.
  destruct (Hbody _ Hin Ht) as [e He]. simpl in He.
  exists e. eexists. split; [exact He|]. split; reflexivity.
Qed.

(** In the chat view of rag_api.py a request without a user message is left
    alone. *)
Lemma find_user_none l :
  Forall is_dict l -> Forall (fun m => is_user m = false) l ->
  RagApi.find_user l = Ret None.
Proof.
  induction 1 as [|x l [d ->] _ IH]; intros Hu; [done|].
  apply Forall_cons in Hu as [Hx Hu]. simpl in *.
  destruct (dict_get (u "role") d) as [r|]; simpl; rewrite ?Hx;
    by rewrite (IH Hu).
Qed.

(** X15.  In the chat view of rag_api.py a request whose messages are all
    JSON objects and none of them a user message is left alone, and no
    retrieval call is made. *)
Lemma augment_chat_keeps_without_user `{Unicode} w h data d msgs :
  h !! data = Some (JDict d) ->
  dict_get (u "messages") d = Some (JList msgs) ->
  Forall is_dict msgs -> Forall (fun m => is_user m = false) msgs ->
  RagApi.augment_chat data w (State h []) = (Ret tt, State h []).
Proof.
  intros Hd Hm Hdicts Hu.
  unfold RagApi.augment_chat, bind, load, request_json, lift, ret. simpl.
  rewrite Hd. simpl. rewrite Hm. simpl.
  destruct msgs as [|m0 ms0]; [done|].
  rewrite find_user_none; [done|by apply Forall_reverse..].
Qed.

(** The health view of injector.py answers 200 exactly when the tags query
    is answered with status 200. *)
Lemma injector_health_checks_status w s :
  (Injector.health w s).1
  = Ret (match w (Call GET Ollama (u "/api/tags") None 5) with
         | Reply a =>
             if status_code a =? 200
             then make_response Injector.status_ok 200
             else make_response Injector.status_error 500
         | NoReply => make_response Injector.status_error 500
         end).
Proof.
  unfold Injector.health, try_, bind, requests, ret. simpl.
  destruct (w _) as [a|]; simpl; [|done].
  by destruct (status_code a =? 200).
Qed.

(** X2.  The generate view of injector.py, in buffered mode, relays the
    status of the backend together with its body when that body is a JSON
    object or array (sent as JSON) or a JSON string (sent as text).  A body
    that is a JSON number, boolean or null is not a response that Flask
    accepts, and the answer is its 500 page; a body that is not JSON gives
    500 with an error body. *)
Lemma injector_generate_relays `{Unicode} w h data c a :
  let run := Injector.generate data w (State h []) in
  last (log run.2) = Some (c, Reply a) ->
  target c = Ollama ->
  (exists d, heap run.2 !! data = Some (JDict d)
     /\ truthy (default (JBool false) (dict_get (u "stream") d)) = false) ->
  run.1 = Ret (match parsed a with
               | Some (JDict o) =>
                   Response (status_code a) (BJson (JDict o)) application_json
               | Some (JList l) =>
                   Response (status_code a) (BJson (JList l)) application_json
               | Some (JStr s) => Response (status_code a) (BText s) text_html
               | Some _ => Response 500 BInternal text_html
               | None => Response 500 (BError JSONDecodeError) application_json
               end).
Proof.
  unfold Injector.generate, try_, bind, load, request_json, lift, ret. simpl.
  destruct (h !! data) as [j0|] eqn:Hd0; simpl; [|done].
  destruct (process_request_run data w h)
    as (h' & lg & -> & Hlg & _). simpl.
  destruct (h' !! data) as [[|b|n|q|s|l|d]|] eqn:Hd; simpl.
  1-6, 8: intros Hlast Ht; exfalso;
    apply last_Some in Hlast as [l' ->];
    apply Forall_app in Hlg as [_ Hc];
    apply Forall_cons in Hc as [Hc _]; by simpl in Hc.
  unfold requests. simpl.
  destruct (w _) as [a'|] eqn:Ew; simpl.
  - destruct (truthy (default (JBool false) (dict_get (u "stream") d))) eqn:Hs;
      simpl.
    + intros _ _ (d' & Hd' & Hs'). simplify_eq/=. congruence.
    + unfold json_. destruct (parsed a') as [rv|] eqn:Ep; simpl;
        rewrite last_snoc; intros [= <- <-] _ _; rewrite Ep; [|done].
      by destruct rv.
  - rewrite last_snoc. by intros ?.
Qed.

(** ** Defects of rag_api.py *)

(** C2 is not met by rag_api.py.  The backend answers the forwarded chat
    request with status 500 and a JSON body; the chat view answers with
    status 200, and its body is the iteration of that JSON value, not the
    value.  The generate view answers 200 with the body.  (In injector.py
    the status is relayed: lemma [injector_generate_relays].) *)
Theorem upstream_error_becomes_success :
  let chat := @RagApi.chat_with_rag Ucd.fragment 1 backend_error
                (at1 (chat_request weather_question)) in
  let generate := @RagApi.generate Ucd.fragment 1 backend_error
                    (at1 (generate_request (JBool false) weather_question)) in
  last (log chat.2)
  = Some (Call POST Ollama (u "/api/chat")
            (Some (chat_request weather_question)) 600,
          answer_json 500 model_missing)
  /\ chat.1 = Ret (Response 200 (BIter model_missing) application_json)
  /\ generate.1 = Ret (Response 200 (BJson model_missing) application_json).
Proof. repeat split; reflexivity. Qed.

(** C5 is not met by rag_api.py.  Its vector search carries a limit of two
    hits but no score threshold, so a hit with score 0.05 comes back and its
    content is injected.  (In injector.py the search carries the threshold
    0.3: lemma [injector_search_payload].) *)
Theorem search_without_threshold :
  let request := generate_request (JBool false) weather_question in
  let run := @augment Ucd.fragment ApiGenerate 1 low_score (at1 request) in
  (exists c rep body,
     log run.2 !! 1%nat = Some (c, rep)
     /\ target c = Qdrant
     /\ payload c = Some (JDict body)
     /\ dict_get (u "limit") body = Some (JInt 2)
     /\ dict_get (u "score_threshold") body = None
     /\ hits_of rep = Some [hit 7 unrelated_doc (5 # 100)])
  /\ heap run.2 !! 1%positive
     = Some (generate_request (JBool false)
               (rendered ApiGenerate [unrelated_doc] weather_question))
  /\ (5 # 100 < 3 # 10)%Q.
Proof.
  intros request run. split; [|split; [reflexivity|reflexivity]].
  eexists _, _, _. repeat split; reflexivity.
Qed.

(** C7 is not met by the generate view of rag_api.py.  A request with an
    empty prompt is sent through retrieval like any other, and when the
    index answers with a document the empty prompt is replaced.  (The chat
    view of the same file and injector.py test the query first: lemmas
    [augment_chat_keeps_without_user] and
    [process_request_keeps_empty_prompt].) *)
Theorem empty_prompt_is_augmented :
  let request := generate_request (JBool false) [] in
  let run := @augment Ucd.fragment ApiGenerate 1 madrid (at1 request) in
  run.1 = Ret 1%positive
  /\ heap run.2 !! 1%positive
     = Some (generate_request (JBool false)
               (rendered ApiGenerate [madrid_doc] []))
  /\ heap run.2 !! 1%positive <> Some request
  /\ log run.2 !! 0%nat
     = Some (@embedding_call Ucd.fragment [],
             answer_json 200 (JList [vector])).
Proof.
  intros request run. split; [reflexivity|]. split; [reflexivity|].
  split; [|reflexivity]. intros Hc. vm_compute in Hc. discriminate Hc.
Qed.

(** C8 is not met by rag_api.py.  The backend answers the tags query with
    status 503; the health view answers 200 with status "ok".  (In
    injector.py the status is tested: lemma
    [injector_health_checks_status].) *)
Theorem health_ignores_status :
  RagApi.health backend_unavailable (State ∅ [])
  = (Ret (Response 200 (BJson Injector.status_ok) application_json),
     State ∅ [(Call GET Ollama (u "/api/tags") None 5,
               Reply (Answer 503 None (u "Service Unavailable") None))]).
Proof. reflexivity. Qed.

(** ** [hash_id] *)

Lemma encode_cp_scalar c : Indexer.scalar c -> is_Some (Indexer.encode_cp c).
Proof.
  intros [_ Hs]. unfold Indexer.encode_cp.
  destruct (c <? 128); [eauto|]. destruct (c <? 2048); [eauto|].
  destruct ((55296 <=? c) && (c <=? 57343)) eqn:E.
  - apply andb_true_iff in E as [?%Z.leb_le ?%Z.leb_le]. lia.
  - destruct (c <? 65536); eauto.
Qed.

Lemma encode_scalar s : Forall Indexer.scalar s -> is_Some (Indexer.encode s).
Proof.
  induction 1 as [|c s Hc _ [bs' IH]]; simpl; [eauto|].
  destruct (encode_cp_scalar c Hc) as [bs ->]. rewrite IH. eauto.
Qed.

Lemma join_scalar sep parts :
  Forall Indexer.scalar sep -> Forall (Forall Indexer.scalar) parts ->
  Forall Indexer.scalar (join sep parts).
Proof.
  intros Hsep. induction 1 as [|p parts Hp Hparts IH]; simpl; [constructor|].
  destruct parts; [done|]. by repeat apply Forall_app_2.
Qed.

(** The ids that CPython computes for two keys. *)
Example hash_id_values :
  Indexer.hash_id [u "files"; u "/data/a.txt"] = inr 1549848624
  /\ Indexer.hash_id [u "weather"; u "madrid"; u "2024-01-01T00:00"]
     = inr 1684755023.
Proof. split; vm_compute; reflexivity. Qed.

(** C10, as stated, fails: a Python string may hold a lone surrogate, which
    [encode("utf-8")] refuses; [hash_id] then raises instead of returning a
    number. *)
Lemma hash_id_lone_surrogate :
  Forall (Forall Indexer.code_point) [[55296]]
  /\ ~ exists n, Indexer.hash_id [[55296]] = inr n /\ 0 <= n < 2 ^ 31.
Proof.
  split.
  - repeat constructor; unfold Indexer.code_point; lia.
  - intros (n & Hn & _). discriminate Hn.
Qed.

(** C10, amended.  For every tuple of string parts without surrogate code
    points, [hash_id] returns a non-negative integer strictly less than
    2^31; the id is a function of the parts, indeed of their concatenation
    with "::", so equal tuples always get equal ids. *)
Theorem hash_id_range (parts : list pystr) :
  Forall (Forall Indexer.scalar) parts ->
  exists n,
    Indexer.hash_id parts = inr n
    /\ 0 <= n < 2 ^ 31
    /\ forall parts',
         join (u "::") parts' = join (u "::") parts ->
         Indexer.hash_id parts' = inr n.
Proof.
  intros Hparts. unfold Indexer.hash_id.
  destruct (encode_scalar (join (u "::") parts)) as [bs Hbs].
  { apply join_scalar; [|done].
    repeat constructor; unfold Indexer.code_point; simpl; lia. }
  rewrite Hbs. eexists. split; [reflexivity|]. split.
  - apply Z.mod_pos_bound. lia.
  - intros parts' ->. by rewrite Hbs.
Qed.

Lemma hash_id_range_witness :
  Forall (Forall Indexer.scalar) [u "files"; u "/data/a.txt"]
  /\ exists n,
       Indexer.hash_id [u "files"; u "/data/a.txt"] = inr n
       /\ 0 <= n < 2 ^ 31.
Proof.
  assert (H : Forall (Forall Indexer.scalar) [u "files"; u "/data/a.txt"]).
  { repeat constructor; unfold Indexer.code_point; simpl; lia. }
  split; [exact H|].
  destruct (hash_id_range _ H) as (n & Hn & Hr & _). eauto.
Defined.

(** ** Normalisation of the query *)

(** A property of all Latin-1 code points, checked one by one. *)
Lemma latin1_all (P : Z -> bool) :
  forallb P (map Z.of_nat (seq 0 256)) = true ->
  forall c, Ucd.latin1 c = true -> P c = true.
Proof.
  intros Hall c Hc. unfold Ucd.latin1 in Hc.
  apply andb_true_iff in Hc as [H0%Z.leb_le H255%Z.leb_le].
  rewrite List.forallb_forall in Hall. apply Hall.
  apply in_map_iff. exists (Z.to_nat c). split; [lia|].
  apply in_seq. lia.
Qed.

Lemma place_marks c placed :
  (0 <? Ucd.combining c) = true -> Ucd.is_Mn c = true ->
  List.filter Ucd.not_Mn (Ucd.place c placed) = List.filter Ucd.not_Mn placed.
Proof.
  intros Hc Hm.
  assert (Hn : Ucd.not_Mn c = false) by (unfold Ucd.not_Mn; by rewrite Hm).
  induction placed as [|d placed IH]; cbn [Ucd.place List.filter].
  - by rewrite Hn.
  - rewrite Hc. cbn [andb].
    destruct (Ucd.combining c <? Ucd.combining d); cbn [List.filter].
    + by rewrite IH.
    + by rewrite Hn.
Qed.

Lemma place_starter c placed :
  (0 <? Ucd.combining c) = false -> Ucd.place c placed = c :: placed.
Proof. intros Hc. destruct placed; simpl; [done|]. by rewrite Hc. Qed.

Lemma place_filter c placed :
  Ucd.marks_are_Mn c = true ->
  List.filter Ucd.not_Mn (rev (Ucd.place c placed))
  = List.filter Ucd.not_Mn (rev placed) ++ List.filter Ucd.not_Mn [c].
Proof.
  unfold Ucd.marks_are_Mn. intros Hc.
  destruct (0 <? Ucd.combining c) eqn:E.
  - assert (Hn : Ucd.not_Mn c = false) by (unfold Ucd.not_Mn; by rewrite Hc).
    rewrite !List.filter_rev, place_marks by done.
    cbn [List.filter]. rewrite Hn. by rewrite app_nil_r.
  - rewrite place_starter by done. cbn [rev]. by rewrite List.filter_app.
Qed.

Lemma reorder_filter s :
  forallb Ucd.marks_are_Mn s = true ->
  List.filter Ucd.not_Mn (Ucd.reorder s) = List.filter Ucd.not_Mn s.
Proof.
  unfold Ucd.reorder. intros Hs.
  assert (Hgen : forall placed,
    List.filter Ucd.not_Mn (rev (fold_left (fun placed c => Ucd.place c placed) s placed))
    = List.filter Ucd.not_Mn (rev placed) ++ List.filter Ucd.not_Mn s).
  { induction s as [|c s IH]; intros placed.
    - simpl. by rewrite app_nil_r.
    - simpl in Hs. apply andb_true_iff in Hs as [Hc Hs].
      cbn [fold_left]. rewrite (IH Hs), place_filter by done.
      rewrite <- app_assoc. f_equal. cbn [List.filter]. by destruct (Ucd.not_Mn c). }
  by rewrite Hgen.
Qed.

(** On one Latin-1 character, decomposing and dropping the marks leaves its
    base letter, and the marks that are dropped are nonspacing. *)
Lemma decomposition_latin1 c :
  Ucd.latin1 c = true ->
  List.filter Ucd.not_Mn (Ucd.decomposition c) = [Ucd.base c]
  /\ forallb Ucd.marks_are_Mn (Ucd.decomposition c) = true.
Proof.
  intros Hc.
  pose proof (latin1_all (fun c =>
    bool_decide (List.filter Ucd.not_Mn (Ucd.decomposition c) = [Ucd.base c])
    && forallb Ucd.marks_are_Mn (Ucd.decomposition c))) as Hall.
  destruct (andb_prop _ _ (Hall ltac:(vm_compute; reflexivity) c Hc)) as [H1 H2].
  split; [by apply bool_decide_eq_true in H1|done].
Qed.

Lemma nfd_strip_latin1 s :
  forallb Ucd.latin1 s = true ->
  List.filter Ucd.not_Mn (Ucd.nfd s) = map Ucd.base s.
Proof.
  intros Hs. unfold Ucd.nfd. rewrite reorder_filter.
  - induction s as [|c s IH]; [done|].
    simpl in Hs. apply andb_true_iff in Hs as [Hc Hs]. cbn [flat_map map].
    rewrite List.filter_app, (IH Hs).
    by rewrite (proj1 (decomposition_latin1 c Hc)).
  - induction s as [|c s IH]; [done|].
    simpl in Hs. apply andb_true_iff in Hs as [Hc Hs]. cbn [flat_map].
    rewrite forallb_app, (IH Hs).
    by rewrite (proj2 (decomposition_latin1 c Hc)).
Qed.

(** What [replace(old, "")] keeps was there before. *)
Lemma drop_all_Forall (P : Z -> Prop) fuel old s :
  Forall P s -> Forall P (drop_all fuel old s).
Proof.
  revert s. induction fuel as [|fuel IH]; intros s Hs; [done|].
  destruct s as [|c s]; [done|]. cbn [drop_all].
  destruct (starts_with old (c :: s)).
  - apply IH. by apply Forall_drop.
  - apply Forall_cons in Hs as [Hc Hs]. constructor; [done|]. by apply IH.
Qed.

(** Removing a one-character string removes every occurrence. *)
Lemma drop_all_char a fuel s :
  (length s <= fuel)%nat -> Forall (fun c => c <> a) (drop_all fuel [a] s).
Proof.
  revert s. induction fuel as [|fuel IH]; intros s Hlen.
  - destruct s; [constructor|simpl in Hlen; lia].
  - destruct s as [|c s]; [constructor|]. simpl in Hlen.
    cbn [drop_all starts_with length drop].
    destruct (a =? c) eqn:E; cbn [andb].
    + rewrite drop_0. apply IH. lia.
    + constructor; [apply Z.eqb_neq in E; congruence|]. apply IH. lia.
Qed.

(** Nothing is removed from a text without the first character of
    [old]. *)
Lemma drop_all_absent a old fuel s :
  Forall (fun c => c <> a) s -> drop_all fuel (a :: old) s = s.
Proof.
  revert s. induction fuel as [|fuel IH]; intros s Hs; [done|].
  destruct s as [|c s]; [done|]. apply Forall_cons in Hs as [Hc Hs].
  cbn [drop_all starts_with].
  assert ((a =? c) = false) as -> by (apply Z.eqb_neq; congruence).
  cbn [andb]. by rewrite IH.
Qed.

Lemma map_fixed (f : Z -> Z) s : Forall (fun c => f c = c) s -> map f s = s.
Proof. induction 1 as [|c s Hc _ IH]; simpl; congruence. Qed.

Lemma forallb_Forall (P : Z -> bool) s :
  forallb P s = true <-> Forall (fun c => P c = true) s.
Proof.
  induction s as [|c s IH]; simpl.
  - split; [constructor|done].
  - rewrite andb_true_iff, Forall_cons. by rewrite IH.
Qed.

Lemma settled_spec c :
  Ucd.settled c = true ->
  Ucd.latin1 c = true /\ c <> 63 /\ c <> 194
  /\ Ucd.lower_cp c = c /\ Ucd.base c = c.
Proof.
  unfold Ucd.settled. rewrite !andb_true_iff, !negb_true_iff.
  intros [[[[H1 H2] H3] H4] H5].
  apply Z.eqb_neq in H2, H3. apply Z.eqb_eq in H4, H5. done.
Qed.

(** The normalised query on Latin-1 text, one character at a time. *)
Lemma normalize_latin1 q :
  Forall (fun c => Ucd.latin1 c = true) q ->
  @RagApi.normalize Ucd.fragment q
  = map Ucd.base (map Ucd.lower_cp (remove (u "?") (remove RagApi.mojibake q))).
Proof.
  intros Hq. unfold RagApi.normalize. simpl.
  apply nfd_strip_latin1. apply forallb_Forall, Forall_map.
  unfold remove. do 2 apply drop_all_Forall.
  eapply Forall_impl; [exact Hq|]. simpl.
  apply (latin1_all (fun c => Ucd.latin1 (Ucd.lower_cp c))).
  vm_compute. reflexivity.
Qed.

Lemma normalize_is_settled q :
  Forall (fun c => Ucd.latin1 c = true) q ->
  Forall (fun c => Ucd.settled c = true) (@RagApi.normalize Ucd.fragment q).
Proof.
  intros Hq. rewrite normalize_latin1 by done.
  do 2 apply Forall_map. unfold remove.
  assert (Hr : Forall (fun c => Ucd.latin1 c = true /\ c <> 63)
                 (drop_all (length (drop_all (length q) RagApi.mojibake q))
                    (u "?") (drop_all (length q) RagApi.mojibake q))).
  { apply Forall_and. split.
    - do 2 apply drop_all_Forall. done.
    - change (u "?") with [63]. by apply drop_all_char. }
  eapply Forall_impl; [exact Hr|]. simpl. intros c [Hc Hne].
  pose proof (latin1_all (fun c =>
    (c =? 63) || Ucd.settled (Ucd.base (Ucd.lower_cp c)))) as Hall.
  specialize (Hall ltac:(vm_compute; reflexivity) c Hc).
  apply orb_true_iff in Hall as [?%Z.eqb_eq|?]; done.
Qed.

(** What the generate view of rag_api.py sends and writes for a string
    prompt. *)
Lemma augment_generate_texts `{Unicode} w h data d p :
  h !! data = Some (JDict d) ->
  default (JStr []) (dict_get (u "prompt") d) = JStr p ->
  let run := RagApi.augment_generate data w (State h []) in
  Forall (fun cr => target cr.1 = Embeddings ->
            payload cr.1 = Some (RagApi.embed_body (RagApi.normalize p)))
         (log run.2)
  /\ Forall (fun cr => target cr.1 = Qdrant ->
               exists e, payload cr.1 = Some (RagApi.search_body e))
            (log run.2)
  /\ (heap run.2 = h
      \/ exists context,
           heap run.2
           = <[data := JDict (dict_set (u "prompt")
                        (JStr (RagApi.generate_prompt context p)) d)]> h).
Proof.
  intros Hd Hp. unfold RagApi.augment_generate, bind, load, request_json, lift, ret. simpl.
  rewrite Hd. simpl. rewrite Hp.
  destruct (get_rag_context_run (JStr p) w h)
    as (ctx & lg & -> & _ & _ & _ & _ & Hemb & Hbody).
  assert (Hemb' : Forall (fun cr => target cr.1 = Embeddings ->
            payload cr.1 = Some (RagApi.embed_body (RagApi.normalize p))) lg).
  { eapply Forall_impl; [exact Hemb|]. intros cr Hc Ht.
    destruct (Hc Ht) as (q & [= <-] & Hq). done. }
  destruct (RagApi.nonempty ctx) as [c|]; simpl.
  - unfold setitem. simpl. rewrite Hd. simpl. eauto 6.
  - eauto.
Qed.

Import Unicodedata.

(** ** The character database *)

(** A property of all the entries of a table holds for the entry that is
    found. *)
Lemma lookup_forallb {A} (P : Z * A -> bool) c t v :
  forallb P t = true -> lookup c t = Some v -> P (c, v) = true.
Proof.
  induction t as [|[k w] t IH]; [done|]. cbn [forallb lookup].
  intros [Hk Ht]%andb_true_iff.
  destruct (c <? k); [done|].
  destruct (c =? k) eqn:E; [|by apply IH].
  apply Z.eqb_eq in E as ->. by intros [= ->].
Qed.

Lemma seqZ_forallb (P : Z -> bool) lo hi c :
  forallb P (seqZ lo (hi - lo + 1)) = true -> lo <= c <= hi -> P c = true.
Proof.
  intros Hall Hc. rewrite List.forallb_forall in Hall. apply Hall.
  apply list_elem_of_In, elem_of_seqZ. lia.
Qed.

(** A property of all the code points of the ranges holds for a member. *)
Lemma in_ranges_forallb (P : Z -> bool) c rs :
  forallb (fun r => forallb P (seqZ r.1 (r.2 - r.1 + 1))) rs = true ->
  in_ranges c rs = true -> P c = true.
Proof.
  induction rs as [|[lo hi] rs IH]; [done|]. cbn [forallb in_ranges fst snd].
  intros [Hr Hrs]%andb_true_iff.
  destruct (Z.ltb_spec c lo); [done|].
  destruct (Z.leb_spec c hi); [|by apply IH].
  intros _. by apply (seqZ_forallb P lo hi).
Qed.

Lemma class_in_forallb (P : Z -> bool) c t :
  forallb (fun r => forallb P (seqZ r.1.1 (r.1.2 - r.1.1 + 1))) t = true ->
  class_in c t <> 0 -> P c = true.
Proof.
  induction t as [|[[lo hi] k] t IH]; [done|]. cbn [forallb class_in fst snd].
  intros [Hr Ht]%andb_true_iff.
  destruct (Z.ltb_spec c lo); [done|].
  destruct (Z.leb_spec c hi); [|by apply IH].
  intros _. by apply (seqZ_forallb P lo hi).
Qed.

Lemma single_spec c l : single c l = true -> l = [c].
Proof.
  destruct l as [|d [|e l]]; try done. simpl. by intros ->%Z.eqb_eq.
Qed.

Lemma settled_spec14 c :
  settled c = true ->
  c <> 63 /\ c <> 194 /\ c <> 0x3a3
  /\ tolower_full c = [c] /\ decomposition c = [c] /\ combining c = 0.
Proof.
  unfold settled. rewrite !andb_true_iff, !negb_true_iff.
  intros [[[[[H1 H2] H3] H4] H5] H6].
  apply Z.eqb_neq in H1, H2, H3. apply Z.eqb_eq in H6.
  by apply single_spec in H4, H5.
Qed.

Lemma lowercase_stable : forallb stable_entry lowercase = true.
Proof. vm_compute. reflexivity. Qed.

Lemma decompositions_stable : forallb stable_entry decompositions = true.
Proof. vm_compute. reflexivity. Qed.

(** The jamo are settled. *)
Lemma jamo_settled d :
  in_ranges d [(0x1100, 0x1112); (0x1161, 0x1175); (0x11a8, 0x11c2)] = true ->
  settled d = true.
Proof. apply in_ranges_forallb. vm_compute. reflexivity. Qed.

Lemma hangul_settled c :
  hangul_syllable c = true ->
  forallb settled (hangul_decomposition c) = true.
Proof.
  unfold hangul_syllable, hangul_decomposition.
  intros [H1%Z.leb_le H2%Z.leb_le]%andb_true_iff.
  set (si := c - 0xac00). assert (Hsi : 0 <= si < 11172) by (unfold si; lia).
  assert (HL : settled (0x1100 + si / 588) = true).
  { apply jamo_settled. cbn [in_ranges].
    destruct (Z.ltb_spec (0x1100 + si / 588) 0x1100);
      [Z.div_mod_to_equations; lia|].
    destruct (Z.leb_spec (0x1100 + si / 588) 0x1112);
      [done|Z.div_mod_to_equations; lia]. }
  assert (HV : settled (0x1161 + si mod 588 / 28) = true).
  { apply jamo_settled. cbn [in_ranges].
    destruct (Z.ltb_spec (0x1161 + si mod 588 / 28) 0x1100);
      [Z.div_mod_to_equations; lia|].
    destruct (Z.leb_spec (0x1161 + si mod 588 / 28) 0x1112);
      [Z.div_mod_to_equations; lia|].
    destruct (Z.ltb_spec (0x1161 + si mod 588 / 28) 0x1161);
      [Z.div_mod_to_equations; lia|].
    destruct (Z.leb_spec (0x1161 + si mod 588 / 28) 0x1175);
      [done|Z.div_mod_to_equations; lia]. }
  destruct (Z.eqb_spec (0x11a7 + si mod 28) 0x11a7) as [|HT];
    cbn [forallb]; rewrite HL, HV; [done|].
  rewrite jamo_settled; [done|]. cbn [in_ranges].
  destruct (Z.ltb_spec (0x11a7 + si mod 28) 0x1100);
    [Z.div_mod_to_equations; lia|].
  destruct (Z.leb_spec (0x11a7 + si mod 28) 0x1112);
    [Z.div_mod_to_equations; lia|].
  destruct (Z.ltb_spec (0x11a7 + si mod 28) 0x1161);
    [Z.div_mod_to_equations; lia|].
  destruct (Z.leb_spec (0x11a7 + si mod 28) 0x1175);
    [Z.div_mod_to_equations; lia|].
  destruct (Z.ltb_spec (0x11a7 + si mod 28) 0x11a8);
    [Z.div_mod_to_equations; lia|].
  destruct (Z.leb_spec (0x11a7 + si mod 28) 0x11c2);
    [done|Z.div_mod_to_equations; lia].
Qed.

(** A combining character that is not a nonspacing mark is one of the
    spacing marks. *)
Lemma combining_Mn c :
  combining c <> 0 -> is_Mn c || negb (plain c) = true.
Proof.
  apply (class_in_forallb (fun c => is_Mn c || negb (plain c))).
  vm_compute. reflexivity.
Qed.

(** Lower-casing and decomposing a character other than "?" and the
    sources of spacing marks gives nonspacing marks and settled characters
    only. *)
Lemma stable_plain c : c <> 63 -> plain c = true -> stable c = true.
Proof.
  intros H63 Hp.
  assert (Hcheck : forall l, stable_entry (c, l) = true -> stable c = true).
  { intros l. unfold stable_entry. cbn [fst]. rewrite Hp.
    by rewrite (proj2 (Z.eqb_neq c 63) H63). }
  destruct (lookup c lowercase) as [l|] eqn:El.
  { apply (Hcheck l), (lookup_forallb stable_entry c lowercase l); [|done].
    apply lowercase_stable. }
  destruct (lookup c decompositions) as [l|] eqn:Ed.
  { apply (Hcheck l), (lookup_forallb stable_entry c decompositions l); [|done].
    apply decompositions_stable. }
  assert (Hs : c <> 0x3a3) by (intros ->; vm_compute in El; discriminate El).
  assert (H194 : c <> 194) by (intros ->; vm_compute in Ed; discriminate Ed).
  assert (Hlow : tolower_full c = [c]) by (unfold tolower_full; by rewrite El).
  unfold stable, lowered. rewrite (proj2 (Z.eqb_neq c 0x3a3) Hs), Hlow.
  cbn [forallb]. rewrite andb_true_r.
  destruct (hangul_syllable c) eqn:Eh.
  { unfold decomposition. rewrite Eh.
    pose proof (hangul_settled c Eh) as Hh.
    rewrite List.forallb_forall in Hh. apply List.forallb_forall.
    intros d Hd. rewrite (Hh d Hd). apply orb_true_r. }
  assert (Hdec : decomposition c = [c])
    by (unfold decomposition; by rewrite Eh, Ed).
  rewrite Hdec. cbn [forallb]. rewrite andb_true_r.
  destruct (is_Mn c) eqn:Em; [done|]. cbn [orb].
  unfold settled. rewrite Hlow, Hdec.
  rewrite (proj2 (Z.eqb_neq c 63) H63), (proj2 (Z.eqb_neq c 194) H194),
    (proj2 (Z.eqb_neq c 0x3a3) Hs).
  cbn [negb andb single]. rewrite Z.eqb_refl. cbn [andb].
  apply Z.eqb_eq. destruct (Z.eq_dec (combining c) 0) as [|Hc]; [done|].
  pose proof (combining_Mn c Hc) as Hm. by rewrite Em, Hp in Hm.
Qed.

(** The tables are sorted: every entry is found. *)
Lemma lookup_complete k v :
  (In (k, v) lowercase -> lookup k lowercase = Some v)
  /\ (In (k, v) decompositions -> lookup k decompositions = Some v).
Proof.
  assert (Hall : forall t : list (Z * pystr),
            forallb (fun kv => bool_decide (lookup kv.1 t = Some kv.2)) t = true ->
            In (k, v) t -> lookup k t = Some v).
  { intros t Ht Hin. rewrite List.forallb_forall in Ht.
    by apply Ht, bool_decide_eq_true in Hin. }
  split; apply Hall; vm_compute; reflexivity.
Qed.

Lemma in_ranges_complete lo hi c :
  lo <= c <= hi ->
  (In (lo, hi) case_ignorable_ranges -> case_ignorable c = true)
  /\ (In (lo, hi) cased_ranges -> cased c = true)
  /\ (In (lo, hi) Mn_ranges -> is_Mn c = true)
  /\ (forall k, In (lo, hi, k) combining_classes -> combining c = k).
Proof.
  intros Hc.
  assert (Hall : forall rs,
            forallb (fun r => forallb (fun c => in_ranges c rs)
                                (seqZ r.1 (r.2 - r.1 + 1))) rs = true ->
            In (lo, hi) rs -> in_ranges c rs = true).
  { intros rs Hrs Hin. rewrite List.forallb_forall in Hrs.
    by apply (seqZ_forallb _ lo hi c (Hrs _ Hin)). }
  split; [|split; [|split]].
  - apply Hall. vm_compute. reflexivity.
  - apply Hall. vm_compute. reflexivity.
  - apply Hall. vm_compute. reflexivity.
  - intros k Hin.
    assert (Hcl : forallb (fun r => forallb (fun c => combining c =? r.2)
                                     (seqZ r.1.1 (r.1.2 - r.1.1 + 1)))
                    combining_classes = true) by (vm_compute; reflexivity).
    rewrite List.forallb_forall in Hcl.
    by apply Z.eqb_eq, (seqZ_forallb _ lo hi c (Hcl _ Hin)).
Qed.

(** ** The normalisation of a query, on the whole database *)

Lemma lower_from_Forall (P : Z -> Prop) before s :
  Forall (fun c => Forall P (lowered c)) s -> Forall P (lower_from before s).
Proof.
  intros Hs. revert before.
  induction Hs as [|c s Hc _ IH]; intros before; [constructor|].
  cbn [lower_from]. apply Forall_app. split; [|apply IH].
  unfold lowered in Hc. destruct (c =? 0x3a3); [|done].
  apply Forall_cons in Hc as [H1 [H2 _]%Forall_cons].
  constructor; [|constructor]. by destruct (final_sigma before s).
Qed.

Lemma lower_from_settled before s :
  Forall (fun c => settled c = true) s -> lower_from before s = s.
Proof.
  intros Hs. revert before.
  induction Hs as [|c s Hc _ IH]; intros before; [done|].
  apply settled_spec14 in Hc as (_ & _ & Hs & Hl & _).
  cbn [lower_from]. rewrite (proj2 (Z.eqb_neq c 0x3a3) Hs), Hl, IH. done.
Qed.

Lemma flat_map_Forall (P : Z -> Prop) (f : Z -> pystr) s :
  Forall (fun c => Forall P (f c)) s -> Forall P (flat_map f s).
Proof.
  induction 1 as [|c s Hc _ IH]; [constructor|].
  cbn [flat_map]. apply Forall_app. by split.
Qed.

Lemma flat_map_fixed (f : Z -> pystr) s :
  Forall (fun c => f c = [c]) s -> flat_map f s = s.
Proof.
  induction 1 as [|c s Hc _ IH]; [done|]. cbn [flat_map]. by rewrite Hc, IH.
Qed.

Lemma place_Forall (P : Z -> Prop) c placed :
  P c -> Forall P placed -> Forall P (place c placed).
Proof.
  intros Hc. induction 1 as [|d placed Hd Hp IH]; cbn [place].
  - by constructor.
  - destruct ((0 <? combining c) && (combining c <? combining d)).
    + by constructor.
    + constructor; [done|]. by constructor.
Qed.

(** Canonical ordering moves characters; it adds and removes none. *)
Lemma canonical_order_Forall (P : Z -> Prop) s :
  Forall P s -> Forall P (canonical_order s).
Proof.
  unfold canonical_order. intros Hs. apply Forall_rev.
  assert (Hgen : forall placed, Forall P placed ->
            Forall P (fold_left (fun placed c => place c placed) s placed)).
  { induction Hs as [|c s Hc _ IH]; intros placed Hp; [done|].
    cbn [fold_left]. apply IH. by apply place_Forall. }
  apply Hgen. constructor.
Qed.

(** It leaves a text without combining characters as it is. *)
Lemma canonical_order_starters s :
  Forall (fun c => combining c = 0) s -> canonical_order s = s.
Proof.
  unfold canonical_order. intros Hs.
  assert (Hgen : forall placed,
            fold_left (fun placed c => place c placed) s placed
            = rev s ++ placed).
  { induction Hs as [|c s Hc _ IH]; intros placed; [done|].
    cbn [fold_left rev]. rewrite IH, <- app_assoc. f_equal.
    destruct placed as [|d placed]; cbn [place]; [done|]. by rewrite Hc. }
  by rewrite Hgen, app_nil_r, rev_involutive.
Qed.

Lemma filter_Forall (P : Z -> Prop) (f : Z -> bool) s :
  Forall (fun c => f c = true -> P c) s -> Forall P (List.filter f s).
Proof.
  induction 1 as [|c s Hc _ IH]; [constructor|]. cbn [List.filter].
  destruct (f c) eqn:E; [|done]. constructor; [by apply Hc|done].
Qed.

Lemma filter_all (f : Z -> bool) s :
  Forall (fun c => f c = true) s -> List.filter f s = s.
Proof.
  induction 1 as [|c s Hc _ IH]; [done|]. cbn [List.filter].
  by rewrite Hc, IH.
Qed.

Lemma normalize_unfold q :
  @RagApi.normalize unicode14 q
  = List.filter (fun c => negb (is_Mn c))
      (canonical_order
         (flat_map decomposition
            (lower_from [] (remove [63] (remove [194; 191] q))))).
Proof. reflexivity. Qed.

(** The normalisation leaves a text of settled characters without
    nonspacing marks as it is. *)
Lemma normalize_fixed s :
  Forall (fun c => settled c = true /\ is_Mn c = false) s ->
  @RagApi.normalize unicode14 s = s.
Proof.
  intros Hs. rewrite normalize_unfold.
  assert (Hspec : Forall (fun c => c <> 63 /\ c <> 194 /\ c <> 0x3a3
                    /\ tolower_full c = [c] /\ decomposition c = [c]
                    /\ combining c = 0) s).
  { eapply Forall_impl; [exact Hs|]. by intros c [?%settled_spec14 _]. }
  unfold remove. rewrite (drop_all_absent 194), (drop_all_absent 63).
  - rewrite lower_from_settled, flat_map_fixed, canonical_order_starters,
      filter_all; [done|..].
    + eapply Forall_impl; [exact Hs|]. by intros c [_ ->].
    + eapply Forall_impl; [exact Hspec|]. by intros c (?&?&?&?&?&?).
    + eapply Forall_impl; [exact Hspec|]. by intros c (?&?&?&?&?&?).
    + eapply Forall_impl; [exact Hs|]. by intros c [? _].
  - eapply Forall_impl; [exact Hspec|]. by intros c (?&?&?&?&?&?).
  - eapply Forall_impl; [exact Hspec|]. by intros c (?&?&?&?&?&?).
Qed.

(** The normalised text of a query without sources of spacing marks is
    made of settled characters that are not nonspacing marks. *)
Lemma normalize_settles q :
  Forall (fun c => plain c = true) q ->
  Forall (fun c => settled c = true /\ is_Mn c = false)
    (@RagApi.normalize unicode14 q).
Proof.
  intros Hq. rewrite normalize_unfold.
  apply filter_Forall, canonical_order_Forall, flat_map_Forall.
  apply (lower_from_Forall
           (fun e => Forall (fun d => negb (is_Mn d) = true ->
                               settled d = true /\ is_Mn d = false)
                       (decomposition e))).
  assert (Hr : Forall (fun c => plain c = true /\ c <> 63)
                 (remove [63] (remove [194; 191] q))).
  { unfold remove. apply Forall_and. split.
    - by do 2 apply drop_all_Forall.
    - by apply drop_all_char. }
  eapply Forall_impl; [exact Hr|]. cbn beta. intros c [Hp H63].
  pose proof (stable_plain c H63 Hp) as Hst. unfold stable in Hst.
  rewrite List.forallb_forall in Hst.
  apply Forall_forall. intros e He%list_elem_of_In.
  specialize (Hst e He). rewrite List.forallb_forall in Hst.
  apply Forall_forall. intros d Hd%list_elem_of_In Hm.
  specialize (Hst d Hd). apply negb_true_iff in Hm. by rewrite Hm in Hst.
Qed.

(** The 38 listed code points are the ones that yield a combining
    character outside the nonspacing marks. *)
Lemma plain_spec c : plain c = negb (yields_spacing_mark c).
Proof.
  destruct (plain c) eqn:Hp.
  - symmetry. apply negb_true_iff.
    destruct (Z.eq_dec c 63) as [->|H63]; [by vm_compute|].
    pose proof (stable_plain c H63 Hp) as Hst. unfold stable in Hst.
    unfold yields_spacing_mark.
    apply not_true_iff_false. intros (e & He & Hy)%List.existsb_exists.
    apply List.existsb_exists in Hy as (d & Hd & Hy).
    rewrite List.forallb_forall in Hst. specialize (Hst e He).
    rewrite List.forallb_forall in Hst. specialize (Hst d Hd).
    unfold spacing_mark in Hy.
    apply andb_true_iff in Hy as [Hc%negb_true_iff Hm%negb_true_iff].
    rewrite Hm in Hst. cbn [orb] in Hst.
    apply settled_spec14 in Hst as (_ & _ & _ & _ & _ & H0).
    rewrite H0 in Hc. done.
  - symmetry. apply negb_false_iff.
    unfold plain in Hp. apply negb_false_iff in Hp. revert Hp.
    apply in_ranges_forallb. vm_compute. reflexivity.
Qed.

(** ** The Latin-1 fragment and the database *)

Lemma place_agrees c placed :
  Forall (fun d => Ucd.combining d = combining d) (c :: placed) ->
  Ucd.place c placed = place c placed.
Proof.
  intros [Hc Hp]%Forall_cons.
  induction Hp as [|d placed Hd _ IH]; [done|].
  cbn [Ucd.place place]. by rewrite Hc, Hd, IH.
Qed.

Lemma reorder_agrees s :
  Forall (fun d => Ucd.combining d = combining d) s ->
  Ucd.reorder s = canonical_order s.
Proof.
  unfold Ucd.reorder, canonical_order. intros Hs. f_equal.
  assert (Hgen : forall placed,
            Forall (fun d => Ucd.combining d = combining d) placed ->
            fold_left (fun placed c => Ucd.place c placed) s placed
            = fold_left (fun placed c => place c placed) s placed).
  { induction Hs as [|c s Hc _ IH]; intros placed Hp; [done|].
    cbn [fold_left]. rewrite place_agrees by by constructor.
    apply IH. by apply place_Forall. }
  apply Hgen. constructor.
Qed.

Lemma filter_agrees (f g : Z -> bool) s :
  Forall (fun c => f c = g c) s -> List.filter f s = List.filter g s.
Proof.
  induction 1 as [|c s Hc _ IH]; [done|]. cbn [List.filter].
  by rewrite Hc, IH.
Qed.

Lemma flat_map_agrees (f g : Z -> pystr) s :
  Forall (fun c => f c = g c) s -> flat_map f s = flat_map g s.
Proof.
  induction 1 as [|c s Hc _ IH]; [done|]. cbn [flat_map]. by rewrite Hc, IH.
Qed.

(** On Latin-1 text the fragment computes what the database computes:
    the same lower case and the same normalised query. *)
Lemma fragment_agrees q :
  Forall (fun c => Ucd.latin1 c = true) q ->
  @lower Ucd.fragment q = @lower unicode14 q
  /\ @Injector.is_weather_query Ucd.fragment q
     = @Injector.is_weather_query unicode14 q
  /\ @RagApi.normalize Ucd.fragment q = @RagApi.normalize unicode14 q.
Proof.
  assert (Hlow : forall c, Ucd.latin1 c = true ->
            c <> 0x3a3 /\ tolower_full c = [Ucd.lower_cp c]
            /\ Ucd.latin1 (Ucd.lower_cp c) = true).
  { intros c Hc.
    pose proof (latin1_all (fun c =>
      negb (c =? 0x3a3) && single (Ucd.lower_cp c) (tolower_full c)
      && Ucd.latin1 (Ucd.lower_cp c)) ltac:(vm_compute; reflexivity) c Hc)
      as [[H1 H2]%andb_true_iff H3]%andb_true_iff.
    apply negb_true_iff, Z.eqb_neq in H1. by apply single_spec in H2. }
  assert (Hdec : forall c, Ucd.latin1 c = true ->
            Ucd.decomposition c = decomposition c
            /\ Forall (fun d => Ucd.combining d = combining d
                                /\ Ucd.is_Mn d = is_Mn d) (decomposition c)).
  { intros c Hc.
    pose proof (latin1_all (fun c =>
      bool_decide (Ucd.decomposition c = decomposition c)
      && forallb (fun d => (Ucd.combining d =? combining d)
                           && bool_decide (Ucd.is_Mn d = is_Mn d))
           (decomposition c))) as Hall.
    destruct (andb_prop _ _ (Hall ltac:(vm_compute; reflexivity) c Hc))
      as [H1 H2].
    apply bool_decide_eq_true in H1. split; [done|].
    apply Forall_forall. intros d Hd%list_elem_of_In.
    rewrite List.forallb_forall in H2.
    apply H2 in Hd as [H3%Z.eqb_eq H4%bool_decide_eq_true]%andb_true_iff.
    done. }
  assert (Hmap : forall before s, Forall (fun c => Ucd.latin1 c = true) s ->
            lower_from before s = map Ucd.lower_cp s).
  { intros before s Hs. revert before.
    induction Hs as [|c s Hc _ IH]; intros before; [done|].
    destruct (Hlow c Hc) as (Hs & Hl & _).
    cbn [lower_from map]. by rewrite (proj2 (Z.eqb_neq c 0x3a3) Hs), Hl, IH. }
  intros Hq.
  assert (Hl : @lower Ucd.fragment q = @lower unicode14 q)
    by (symmetry; by apply Hmap).
  split; [done|]. split; [unfold Injector.is_weather_query; by rewrite Hl|].
  rewrite normalize_unfold. unfold RagApi.normalize.
  cbn [lower normalize_NFD category_Mn Ucd.fragment].
  set (s1 := remove (u "?") (remove RagApi.mojibake q)).
  change (remove [63] (remove [194; 191] q)) with s1.
  assert (H1 : Forall (fun c => Ucd.latin1 c = true) s1)
    by (unfold s1, remove; by do 2 apply drop_all_Forall).
  rewrite (Hmap [] s1 H1).
  assert (H2 : Forall (fun c => Ucd.latin1 c = true) (map Ucd.lower_cp s1)).
  { apply Forall_map. eapply Forall_impl; [exact H1|].
    intros c Hc. by destruct (Hlow c Hc) as (_ & _ & ?). }
  unfold Ucd.nfd.
  rewrite (flat_map_agrees Ucd.decomposition decomposition)
    by (eapply Forall_impl; [exact H2|]; intros c Hc; by destruct (Hdec c Hc)).
  assert (H3 : Forall (fun d => Ucd.combining d = combining d
                               /\ Ucd.is_Mn d = is_Mn d)
                 (flat_map decomposition (map Ucd.lower_cp s1))).
  { apply flat_map_Forall. eapply Forall_impl; [exact H2|].
    intros c Hc. by destruct (Hdec c Hc). }
  rewrite reorder_agrees
    by (eapply Forall_impl; [exact H3|]; by intros d [? _]).
  apply filter_agrees. apply canonical_order_Forall.
  eapply Forall_impl; [exact H3|]. cbn beta. by intros d [_ ->].
Qed.

(** C9, as stated, fails: normalising twice is not normalising once.
    Between U+302F and U+1B44 stands U+034F, a nonspacing mark of combining
    class 0.  The first pass removes it; the two marks that it kept apart
    (classes 224 and 9, neither a nonspacing mark) are then put in
    canonical order by the second pass. *)
Lemma normalize_twice_differs :
  let q := [0x302f; 0x34f; 0x1b44] in
  @RagApi.normalize unicode14 q = [0x302f; 0x1b44]
  /\ @RagApi.normalize unicode14 (@RagApi.normalize unicode14 q)
     = [0x1b44; 0x302f]
  /\ @RagApi.normalize unicode14 (@RagApi.normalize unicode14 q)
     <> @RagApi.normalize unicode14 q.
Proof.
  intros q. split; [by vm_compute|]. split; [by vm_compute|].
  intros Hc. vm_compute in Hc. discriminate Hc.
Qed.

(** C9, amended.  With the character database of CPython 3.11 (Unicode
    14.0.0), the normalisation (removal of "Â¿" and "?", lower case,
    removal of diacritics) is idempotent on every query that holds none
    of the 38 code points that are, or decompose into, a combining
    character other than a nonspacing mark.  For every prompt the
    normalised text is what is sent to the embeddings service and nothing
    else: the vector search carries the embedding, and the prompt that is
    written back is built from the context and the original prompt, which
    it ends with. *)
Theorem normalize_idempotent (q : pystr) :
  Forall (fun c => plain c = true) q ->
  @RagApi.normalize unicode14 (@RagApi.normalize unicode14 q)
  = @RagApi.normalize unicode14 q
  /\ forall (U : Unicode) w h data d p,
       h !! data = Some (JDict d) ->
       default (JStr []) (dict_get (u "prompt") d) = JStr p ->
       let run := RagApi.augment_generate data w (State h []) in
       Forall (fun cr => target cr.1 = Embeddings ->
                 payload cr.1 = Some (RagApi.embed_body (RagApi.normalize p)))
              (log run.2)
       /\ Forall (fun cr => target cr.1 = Qdrant ->
                    exists e, payload cr.1 = Some (RagApi.search_body e))
                 (log run.2)
       /\ (heap run.2 = h
           \/ exists context,
                heap run.2
                = <[data := JDict (dict_set (u "prompt")
                             (JStr (RagApi.generate_prompt context p)) d)]> h
                /\ exists x, RagApi.generate_prompt context p = x ++ p).
Proof.
  intros Hq. split.
  - by apply normalize_fixed, normalize_settles.
  - intros U w h data d p Hd Hp run.
    destruct (augment_generate_texts w h data d p Hd Hp) as (He & Hs & Hh).
    split; [done|]. split; [done|].
    destruct Hh as [Hh|[c Hh]]; [by left|]. right. exists c. split; [done|].
    apply (rendered_ends ApiGenerate [c] p).
Qed.

(** "Â¿Qué tiempo ĀΣΑΣ 한?" *)
Lemma normalize_idempotent_witness :
  let q := [194; 191; 81; 117; 233; 32; 116; 105; 101; 109; 112; 111; 32;
            0x100; 0x3a3; 0x391; 0x3a3; 32; 0xd55c; 63] in
  Forall (fun c => plain c = true) q
  /\ @RagApi.normalize unicode14 q
     = u "que tiempo a" ++ [0x3c3; 0x3b1; 0x3c2; 32; 0x1112; 0x1161; 0x11ab]
  /\ @RagApi.normalize unicode14 (@RagApi.normalize unicode14 q)
     = @RagApi.normalize unicode14 q.
Proof.
  intros q.
  assert (H : Forall (fun c => plain c = true) q)
    by (repeat constructor; by vm_compute).
  split; [exact H|]. split; [by vm_compute|].
  exact (proj1 (normalize_idempotent q H)).
Defined.

(** * Further properties of the code *)

Import Samples IndexerSamples.

(** ** The views of injector.py *)

(** X1.  No exception leaves the generate view of injector.py: it always
    returns a response.  When the backend cannot be reached the response is
    status 500 with a JSON error body; when the body of the request cannot
    be read as JSON, or is JSON but not an object, it is status 500 too,
    without any outbound call. *)
Theorem injector_generate_never_raises `{Unicode} data w h :
  exists resp h' lg,
    Injector.generate data w (State h []) = (Ret resp, State h' lg)
    /\ (forall c, (c, NoReply) ∈ lg -> target c = Ollama ->
          resp = Response 500 (BError ConnectionError) application_json)
    /\ (h !! data = None ->
          resp = Response 500 (BError HTTPException) application_json /\ lg = [])
    /\ (forall j, h !! data = Some j -> (forall d, j <> JDict d) ->
          resp = Response 500 (BError AttributeError) application_json /\ lg = []).
Proof.
  destruct (h !! data) as [[|b|n|q|s|l|d]|] eqn:Hd0.
  1-6, 8: unfold Injector.generate, Injector.process_request, try_, bind, load,
    request_json, lift, ret; simpl; repeat (rewrite Hd0; simpl);
    eexists _, _, _; (split; [reflexivity|]); split;
    [by intros c ?%not_elem_of_nil|];
    (split; [done|]); by intros j [= <-] Hj.
  unfold Injector.generate, try_, bind, load, request_json, lift, ret. simpl.
  rewrite Hd0.
  destruct (process_request_run data w h)
    as (h' & lg & -> & Hlg & _). simpl.
  assert (Hno : forall c r, (c, r) ∈ lg -> target c = Ollama -> False).
  { intros c r Hin Ht. rewrite Forall_forall in Hlg. by apply (Hlg _ Hin). }
  assert (Hlast : forall resp (c c' : call) (r : reply),
            target c = Ollama ->
            (r = NoReply -> resp = Response 500 (BError ConnectionError) application_json) ->
            (c', NoReply) ∈ lg ++ [(c, r)] -> target c' = Ollama ->
            resp = Response 500 (BError ConnectionError) application_json).
  { intros resp c c' r Hc Hr [Hin|Hin]%elem_of_app Ht; [by destruct (Hno _ _ Hin Ht)|].
    apply list_elem_of_singleton in Hin. injection Hin as -> <-. by apply Hr. }
  assert (Hdict : forall P : Prop,
            (forall j, Some (JDict d) = Some j -> (forall d0, j <> JDict d0) -> P)).
  { intros P j [= <-] Hj. by destruct (Hj d). }
  destruct (h' !! data) as [[|b|n|q|s|l|d']|] eqn:Hd; simpl.
  7:{ unfold requests. simpl.
      destruct (w _) as [a|] eqn:Ew; simpl.
      - destruct (truthy _); simpl.
        + eexists _, _, _. split; [reflexivity|].
          split; [|split; [done|apply Hdict]].
          intros c. by apply Hlast.
        + unfold json_. destruct (parsed a); simpl.
          all: eexists _, _, _; (split; [reflexivity|]);
            (split; [|split; [done|apply Hdict]]).
          all: intros c; by apply Hlast.
      - eexists _, _, _. split; [reflexivity|]. split; [done|].
        split; [done|apply Hdict]. }
  all: eexists _, _, _; (split; [reflexivity|]); split;
    [intros c Hin Ht; by destruct (Hno _ _ Hin Ht)|].
  all: split; [done|apply Hdict].
Qed.

(** X3.  In streaming mode (a truthy [stream] field) the generate view of
    injector.py forwards the request as it came, makes no retrieval call,
    and relays the body of the backend with status 200 whatever status the
    backend answered with; the content type is the backend's, or
    application/json. *)
Theorem injector_streams_with_status_200 `{Unicode} data w h d a :
  h !! data = Some (JDict d) ->
  truthy (default (JBool false) (dict_get (u "stream") d)) = true ->
  w (Call POST Ollama (u "/api/generate") (Some (JDict d)) 300) = Reply a ->
  Injector.generate data w (State h [])
  = (Ret (Response 200 (BStream (text a))
            (default application_json (content_type a))),
     State h [(Call POST Ollama (u "/api/generate") (Some (JDict d)) 300, Reply a)]).
Proof.
  intros Hd Hs Hw.
  unfold Injector.generate, try_, bind, load, request_json, lift, ret. simpl.
  rewrite Hd.
  destruct (process_request_run data w h)
    as (h' & lg & -> & _ & _ & _ & _ & _ & Hskip).
  destruct (Hskip d Hd) as [-> ->].
  { left. intros Hf. rewrite Hf in Hs. done. }
  simpl. rewrite Hd. simpl. unfold requests. simpl. rewrite Hw. simpl.
  by rewrite Hs.
Qed.

Lemma injector_streams_with_status_200_witness :
  @Injector.generate Ucd.fragment 1 backend_error
    (at1 (generate_request (JBool true) weather_question))
  = (Ret (Response 200 (BStream []) application_json),
     State {[1%positive := generate_request (JBool true) weather_question]}
       [(Call POST Ollama (u "/api/generate")
           (Some (generate_request (JBool true) weather_question)) 300,
         answer_json 500 model_missing)]).
Proof.
  refine (@injector_streams_with_status_200 Ucd.fragment 1 backend_error
            {[1%positive := _]} _
            (Answer 500 (Some model_missing) [] (Some application_json)) _ _ _);
    reflexivity.
Defined.

(** X4.  In injector.py a prompt that holds none of the weather keywords is
    left alone: the request is unchanged and no call is made to the
    embeddings service or to the index. *)
Theorem injector_skips_other_topics `{Unicode} data w h d p :
  h !! data = Some (JDict d) ->
  dict_get (u "prompt") d = Some (JStr p) ->
  Injector.is_weather_query p = false ->
  Injector.process_request data w (State h []) = (Ret data, State h []).
Proof.
  intros Hd Hp Hq.
  unfold Injector.process_request, Injector.inject_context, try_, bind, load, request_json,
    lift, ret, setitem. simpl. rewrite Hd. simpl.
  destruct (dict_get (u "stream") d) as [[|[|]|n|q|s|l|d']|]; simpl; try done.
  rewrite Hp. simpl. destruct p as [|c p]; [done|]. simpl.
  rewrite Hq. simpl. rewrite Hd.
  rewrite dict_set_same by done. by rewrite insert_id.
Qed.

Lemma injector_skips_other_topics_witness :
  @Injector.process_request Ucd.fragment 1 madrid
    (at1 (generate_request (JBool false) (u "Tell me a joke")))
  = (Ret 1%positive, at1 (generate_request (JBool false) (u "Tell me a joke"))).
Proof.
  refine (@injector_skips_other_topics Ucd.fragment 1 madrid
            {[1%positive := _]} _ _ _ _ _); reflexivity.
Defined.

(** ** The retrieval pipeline *)

Ltac first_element :=
  repeat match goal with
  | E : res_bind (json_ ?a) py_item0 = Ret _ |- _ =>
      unfold res_bind, json_ in E; destruct (parsed a) eqn:?; simpl in E; [|done]
  end.

(** X6.  [search_context] of injector.py makes at most two calls.  The
    first embeds the query as it is given; the index is searched only after
    the embeddings service answered with status 200 and a JSON body, and the
    vector of the search is the first element of that answer.  Without a
    search there are no documents. *)
Theorem injector_search_pipeline query limit w h :
  exists docs lg,
    Injector.search_context query limit w (State h []) = (Ret docs, State h lg)
    /\ ((exists r,
           lg = [(Call POST Embeddings [] (Some (Injector.embed_body query)) 30, r)]
           /\ docs = [])
        \/ exists a j e r,
             lg = [(Call POST Embeddings [] (Some (Injector.embed_body query)) 30,
                    Reply a);
                   (Call POST Qdrant Injector.search_path
                      (Some (Injector.search_body e limit)) 10, r)]
             /\ status_code a = 200 /\ parsed a = Some j /\ py_item0 j = Ret e).
Proof.
  unfold Injector.search_context. run.
  all: first_element; to_Z.
  all: eexists _, _; split; [reflexivity|].
  all: first [ left; eexists; split; reflexivity
             | right; eexists _, _, _, _; split; [reflexivity|]; done ].
Qed.

(** X10.  [get_rag_context] of rag_api.py makes at most two calls.  The
    first embeds the normalised query; the index is searched only after the
    embeddings service answered with status 200 and a JSON body, and the
    vector of the search is the first element of that answer.  Without a
    search there is no context. *)
Theorem rag_api_search_pipeline `{Unicode} q w h :
  exists ctx lg,
    RagApi.get_rag_context (JStr q) w (State h []) = (Ret ctx, State h lg)
    /\ ((exists r, lg = [(embedding_call q, r)] /\ ctx = None)
        \/ exists a j e r,
             lg = [(embedding_call q, Reply a);
                   (Call POST Qdrant RagApi.search_path
                      (Some (RagApi.search_body e)) 10, r)]
             /\ status_code a = 200 /\ parsed a = Some j /\ py_item0 j = Ret e).
Proof.
  unfold RagApi.get_rag_context, embedding_call.
  set (c := py_join (nl ++ nl)).
  run.
  all: first_element; to_Z.
  all: eexists _, _; split; [reflexivity|].
  all: first [ left; eexists; split; reflexivity
             | right; eexists _, _, _, _; split; [reflexivity|]; done ].
Qed.

(** ** The catch-all views *)

(** X8.  The catch-all view of injector.py never raises.  For GET and
    DELETE, and for POST and PUT with a body that can be read as JSON, it
    makes exactly one call to the backend, with the same method and path
    (and the parsed body as its JSON body for POST and PUT, none when that
    is the JSON null); it relays the status of the backend with its
    body when that is a JSON object, array or string, and answers 500 when
    the backend does not answer, when its body is not JSON, or when it is a
    JSON number, boolean or null.  For HEAD, and for POST and PUT with a
    body that cannot be read as JSON, it makes no call and answers 500. *)
Theorem injector_proxy_relays v path data w h :
  exists resp lg,
    Injector.proxy v path data w (State h []) = (Ret resp, State h lg)
    /\ (v = HEAD ->
        lg = []
        /\ resp = Response 500 (BError UnboundLocalError) application_json)
    /\ (v = POST \/ v = PUT -> h !! data = None ->
        lg = []
        /\ resp = Response 500 (BError HTTPException) application_json)
    /\ (v = GET \/ v = DELETE \/ (v = POST \/ v = PUT) /\ is_Some (h !! data) ->
        exists rep,
          lg = [(Call v Ollama (u "/api/" ++ path)
                   (match v with
                    | POST | PUT => h !! data ≫= json_arg
                    | _ => None
                    end) 30,
                 rep)]
          /\ resp
             = match rep with
               | Reply a =>
                   match parsed a with
                   | Some (JDict o) =>
                       Response (status_code a) (BJson (JDict o)) application_json
                   | Some (JList l) =>
                       Response (status_code a) (BJson (JList l)) application_json
                   | Some (JStr s) => Response (status_code a) (BText s) text_html
                   | Some _ => Response 500 BInternal text_html
                   | None =>
                       Response 500 (BError JSONDecodeError) application_json
                   end
               | NoReply => Response 500 (BError ConnectionError) application_json
               end).
Proof.
  unfold Injector.proxy, try_, bind, request_json, lift, ret, raise, requests,
    json_.
  destruct v; simpl; destruct (h !! data) as [j|] eqn:Hd; simpl.
  all: repeat match goal with
       | |- context [match ?x with Reply _ => _ | NoReply => _ end] =>
           destruct x as [?|] eqn:?; simpl
       | |- context [match parsed ?a with Some _ => _ | None => _ end] =>
           destruct (parsed a) as [[]|] eqn:?; simpl
       end.
  all: eexists _, _; (split; [reflexivity|]).
  all: split; [try done; by intros _|].
  all: split; [try (by intros [|]); by intros _ _|].
  all: try (intros [|[|[[|] []]]]; done).
  all: intros _; first [ eexists (Reply _); split; [reflexivity|];
                         simpl; by repeat match goal with
                                   | E : parsed _ = _ |- _ => rewrite E
                                   end
                       | eexists NoReply; split; reflexivity ].
Qed.

Lemma injector_proxy_relays_witness :
  Injector.proxy HEAD (u "tags") 1 madrid (at1 JNull)
  = (Ret (Response 500 (BError UnboundLocalError) application_json), at1 JNull)
  /\ Injector.proxy GET (u "version") 1 answers_number (at1 JNull)
     = (Ret (Response 500 BInternal text_html),
        State (heap (at1 JNull))
          [(Call GET Ollama (u "/api/version") None 30,
            answer_json 200 (JInt 7))]).
Proof.
  split.
  - destruct (injector_proxy_relays HEAD (u "tags") 1 madrid (heap (at1 JNull)))
      as (resp & lg & Hrun & Hhead & _).
    destruct (Hhead eq_refl) as [-> ->]. exact Hrun.
  - destruct (injector_proxy_relays GET (u "version") 1 answers_number
                (heap (at1 JNull)))
      as (resp & lg & Hrun & _ & _ & Hcall).
    destruct (Hcall (or_introl eq_refl)) as (rep & -> & ->).
    refine (eq_trans Hrun _). vm_compute in Hrun.
    by injection Hrun as _ <-.
Defined.

(** X11.  The catch-all view of rag_api.py.  For GET, DELETE and HEAD, and
    for POST and PUT with a body that can be read as JSON, it makes exactly
    one call to the backend: with the same method for GET, POST, PUT and
    DELETE, and a DELETE for HEAD; the parsed body is the JSON body of a
    POST or PUT, which has none when that is the JSON null.  Whatever
    status the backend answers with, the view answers a body that is a
    JSON object, array or string, or the text of a body that is not JSON,
    with status 200; a body that is a JSON number, boolean or null makes
    Flask answer 500.  The view raises when the backend cannot be reached,
    and, without a call, when the body of a POST or PUT cannot be read as
    JSON. *)
Theorem rag_api_proxy_ignores_status v path data w h :
  exists r lg,
    RagApi.proxy v path data w (State h []) = (r, State h lg)
    /\ (v = POST \/ v = PUT -> h !! data = None ->
        lg = [] /\ r = Raise HTTPException)
    /\ (v = GET \/ v = DELETE \/ v = HEAD
        \/ (v = POST \/ v = PUT) /\ is_Some (h !! data) ->
        exists rep,
          lg = [(Call (match v with HEAD => DELETE | _ => v end) Ollama
                   (u "/api/" ++ path)
                   (match v with
                    | POST | PUT => h !! data ≫= json_arg
                    | _ => None
                    end)
                   (match v with POST => 600 | _ => 30 end),
                 rep)]
          /\ r = match rep with
                 | Reply a =>
                     Ret (match parsed a with
                          | Some (JDict o) =>
                              Response 200 (BJson (JDict o)) application_json
                          | Some (JList l) =>
                              Response 200 (BJson (JList l)) application_json
                          | Some (JStr s) => Response 200 (BText s) text_html
                          | Some _ => Response 500 BInternal text_html
                          | None => Response 200 (BText (text a)) text_html
                          end)
                 | NoReply => Raise ConnectionError
                 end).
Proof.
  unfold RagApi.proxy, try_, bind, request_json, lift, ret, raise, requests,
    json_.
  destruct v; simpl; destruct (h !! data) as [j|] eqn:Hd; simpl.
  all: repeat match goal with
       | |- context [match ?x with Reply _ => _ | NoReply => _ end] =>
           destruct x as [?|] eqn:?; simpl
       | |- context [match parsed ?a with Some _ => _ | None => _ end] =>
           destruct (parsed a) as [[]|] eqn:?; simpl
       end.
  all: eexists _, _; (split; [reflexivity|]).
  all: split; [try (by intros [|]); by intros _ _|].
  all: try (intros [|[|[|[[|] []]]]]; done).
  all: intros _; first [ eexists (Reply _); split; [reflexivity|];
                         simpl; by repeat match goal with
                                   | E : parsed _ = _ |- _ => rewrite E
                                   end
                       | eexists NoReply; split; reflexivity ].
Qed.

Lemma rag_api_proxy_ignores_status_witness :
  RagApi.proxy HEAD (u "tags") 1 backend_error (at1 JNull)
  = (Ret (Response 200 (BJson model_missing) application_json),
     State (heap (at1 JNull))
       [(Call DELETE Ollama (u "/api/tags") None 30,
         answer_json 500 model_missing)])
  /\ RagApi.proxy GET (u "version") 1 answers_number (at1 JNull)
     = (Ret (Response 500 BInternal text_html),
        State (heap (at1 JNull))
          [(Call GET Ollama (u "/api/version") None 30,
            answer_json 200 (JInt 7))])
  /\ RagApi.proxy POST (u "pull") 1 madrid (State ∅ [])
     = (Raise HTTPException, State ∅ []).
Proof.
  split; [|split].
  - destruct (rag_api_proxy_ignores_status HEAD (u "tags") 1 backend_error
                (heap (at1 JNull)))
      as (r & lg & Hrun & _ & Hcall).
    destruct (Hcall (or_intror (or_intror (or_introl eq_refl))))
      as (rep & -> & ->).
    refine (eq_trans Hrun _). vm_compute in Hrun.
    by injection Hrun as _ <-.
  - destruct (rag_api_proxy_ignores_status GET (u "version") 1 answers_number
                (heap (at1 JNull)))
      as (r & lg & Hrun & _ & Hcall).
    destruct (Hcall (or_introl eq_refl)) as (rep & -> & ->).
    refine (eq_trans Hrun _). vm_compute in Hrun.
    by injection Hrun as _ <-.
  - destruct (rag_api_proxy_ignores_status POST (u "pull") 1 madrid ∅)
      as (r & lg & Hrun & Hbody & _).
    destruct (Hbody (or_introl eq_refl) eq_refl) as [-> ->]. exact Hrun.
Defined.

(** ** The views of rag_api.py *)

(** X12.  When the backend cannot be reached, the generate and chat views
    of rag_api.py raise instead of returning a response; for a request that
    is a JSON object the generate view raises the connection error
    itself. *)
Theorem rag_api_backend_unreachable `{Unicode} data w h :
  (forall c, target c = Ollama -> w c = NoReply) ->
  (exists e, (RagApi.generate data w (State h [])).1 = Raise e)
  /\ (exists e, (RagApi.chat_with_rag data w (State h [])).1 = Raise e)
  /\ (forall d, h !! data = Some (JDict d) ->
        (RagApi.generate data w (State h [])).1 = Raise ConnectionError).
Proof.
  intros Hw.
  assert (Hreq : forall p j tmo s,
            requests POST Ollama p j tmo w s
            = (Raise ConnectionError,
               State (heap s) (log s ++ [(Call POST Ollama p j tmo, NoReply)]))).
  { intros p j tmo s. unfold requests. by rewrite Hw. }
  split; [|split].
  - unfold RagApi.generate, bind.
    destruct (augment_generate_run data w h) as (r & h' & lg & -> & _).
    destruct r as [[]|e]; [|eauto].
    unfold load. simpl. rewrite Hreq. eauto.
  - unfold RagApi.chat_with_rag, bind.
    destruct (augment_chat_run data w h) as (r & h' & lg & -> & _).
    destruct r as [[]|e]; [|eauto].
    unfold load. simpl. rewrite Hreq. eauto.
  - intros d Hd. unfold RagApi.generate, bind.
    destruct (augment_generate_run data w h)
      as (r & h' & lg & Hrun & _ & _ & _ & Hh & _).
    rewrite Hrun.
    assert (r = Ret tt) as ->.
    { destruct Hh as [->|(d0 & v & -> & _)]; [|done].
      revert Hrun. unfold RagApi.augment_generate, bind, load, request_json, lift, ret. simpl.
      rewrite Hd. simpl.
      destruct (get_rag_context_run (default (JStr []) (dict_get (u "prompt") d)) w h)
        as (ctx & lg' & -> & _).
      destruct (RagApi.nonempty ctx); [|by intros [= <- _]].
      unfold setitem. simpl. rewrite Hd. by intros [= <- _]. }
    unfold load. simpl. by rewrite Hreq.
Qed.

Lemma rag_api_backend_unreachable_witness :
  (exists e, (@RagApi.generate Ucd.fragment 1 backend_down
                (at1 (generate_request (JBool false) weather_question))).1 = Raise e)
  /\ (exists e, (@RagApi.chat_with_rag Ucd.fragment 1 backend_down
                   (at1 (generate_request (JBool false) weather_question))).1 = Raise e)
  /\ (forall d,
        heap (at1 (generate_request (JBool false) weather_question)) !! 1%positive
        = Some (JDict d) ->
        (@RagApi.generate Ucd.fragment 1 backend_down
           (at1 (generate_request (JBool false) weather_question))).1
        = Raise ConnectionError).
Proof.
  apply (@rag_api_backend_unreachable Ucd.fragment 1%positive backend_down).
  intros c Hc. unfold backend_down. by rewrite Hc.
Defined.

(** X13.  The response of the chat view of rag_api.py, given the answer of
    the backend.  Below status 400 a body that is a JSON object or array is
    sent as JSON with status 200 and a JSON string as text with status 200;
    a body that is a JSON number, boolean or null makes Flask answer 500;
    a body that is not JSON is passed on as text with status 200.  From
    status 400 on, a JSON body is handed to [Response] without a status, so
    the status is 200: a string is the body, null gives an empty body, and
    any other value is iterated when the response is sent; a body that is
    not JSON is replaced by a fixed error object sent with the status of
    the backend. *)
Theorem chat_response_by_status `{Unicode} data w h c a :
  let run := RagApi.chat_with_rag data w (State h []) in
  last (log run.2) = Some (c, Reply a) ->
  target c = Ollama ->
  run.1
  = Ret (if 400 <=? status_code a
         then match parsed a with
              | Some (JStr s) => Response 200 (BText s) application_json
              | Some JNull => Response 200 (BText []) application_json
              | Some rv => Response 200 (BIter rv) application_json
              | None =>
                  Response (status_code a) (BJson RagApi.failure) application_json
              end
         else match parsed a with
              | Some (JDict o) => Response 200 (BJson (JDict o)) application_json
              | Some (JList l) => Response 200 (BJson (JList l)) application_json
              | Some (JStr s) => Response 200 (BText s) text_html
              | Some _ => Response 500 BInternal text_html
              | None => Response 200 (BText (text a)) application_json
              end).
Proof.
  unfold RagApi.chat_with_rag, bind.
  destruct (augment_chat_run data w h) as (r & h' & lg & -> & Hlg & _).
  assert (Hno : forall l' a', lg = l' ++ [(c, a')] -> target c = Ollama -> False).
  { intros l' a' -> Ht. apply Forall_app in Hlg as [_ Hc].
    apply Forall_cons in Hc as [Hc _]. by simpl in Hc. }
  destruct r as [[]|e]; simpl.
  2:{ intros Hlast Ht. exfalso. apply last_Some in Hlast as [l' ->]. eauto. }
  unfold load, requests, try_, lift, ret, json_. simpl.
  destruct (w _) as [a'|] eqn:Ew; simpl.
  - destruct (400 <=? status_code a') eqn:Hs; simpl;
      destruct (parsed a') as [rv|] eqn:Ep; simpl; rewrite last_snoc;
      intros [= <- <-] _; rewrite Ep, Hs; try done; by destruct rv.
  - rewrite last_snoc. by intros ?.
Qed.

Lemma chat_response_by_status_witness :
  (@RagApi.chat_with_rag Ucd.fragment 1 behind_gateway
     (at1 (chat_request weather_question))).1
  = Ret (Response 502 (BJson RagApi.failure) application_json).
Proof.
  refine (@chat_response_by_status Ucd.fragment 1 behind_gateway _ _ bad_gateway _ _);
    reflexivity.
Defined.

(** X14.  The chat view of rag_api.py looks at the last user message only:
    when its content is empty or missing, the request is left alone and no
    retrieval call is made, whatever the earlier messages hold. *)
Theorem chat_uses_last_user_message_only `{Unicode} w h data d msgs k m :
  h !! data = Some (JDict d) ->
  dict_get (u "messages") d = Some (JList msgs) ->
  Forall is_dict msgs ->
  last_user msgs k ->
  msgs !! k = Some (JDict m) ->
  truthy (default (JStr []) (dict_get (u "content") m)) = false ->
  RagApi.augment_chat data w (State h []) = (Ret tt, State h []).
Proof.
  intros Hd Hm Hdicts Hlast Hk Hc.
  unfold RagApi.augment_chat, bind, load, request_json, lift, ret. simpl.
  rewrite Hd. simpl. rewrite Hm. simpl.
  destruct msgs as [|m0 ms0]; [done|].
  destruct (find_user_reverse _ k m Hk Hlast Hdicts) as [-> _].
  simpl. by rewrite Hc.
Qed.

Lemma chat_uses_last_user_message_only_witness :
  @RagApi.augment_chat Ucd.fragment 1 madrid (at1 empty_turn)
  = (Ret tt, at1 empty_turn).
Proof.
  refine (@chat_uses_last_user_message_only Ucd.fragment madrid
            {[1%positive := _]} 1%positive _ _ 2%nat _ _ _ _ _ _ _).
  - reflexivity.
  - reflexivity.
  - repeat constructor; eexists; reflexivity.
  - split; [eexists; split; reflexivity|].
    intros [|[|[|[|j]]]] m' Hj Hm'; try lia; done.
  - reflexivity.
  - reflexivity.
Defined.

(** X16.  A message list whose last element is not a JSON object makes the
    chat view of rag_api.py raise [AttributeError] before any call is
    made: nothing is retrieved and nothing is forwarded. *)
Theorem chat_rejects_malformed_message `{Unicode} w h data d msgs x :
  h !! data = Some (JDict d) ->
  dict_get (u "messages") d = Some (JList (msgs ++ [x])) ->
  (forall m, x <> JDict m) ->
  RagApi.chat_with_rag data w (State h []) = (Raise AttributeError, State h []).
Proof.
  intros Hd Hm Hx.
  unfold RagApi.chat_with_rag, RagApi.augment_chat, bind, load, request_json, lift, ret. simpl.
  rewrite Hd. simpl. rewrite Hm. simpl.
  destruct (msgs ++ [x]) as [|m0 ms0] eqn:Hl; [by destruct msgs|].
  rewrite <- Hl, reverse_snoc. simpl.
  destruct x as [|b|n|q|s|l|m]; simpl; try done. by destruct (Hx m).
Qed.

Lemma chat_rejects_malformed_message_witness :
  @RagApi.chat_with_rag Ucd.fragment 1 madrid (at1 malformed_chat)
  = (Raise AttributeError, at1 malformed_chat).
Proof.
  refine (@chat_rejects_malformed_message Ucd.fragment madrid
            {[1%positive := _]} 1%positive _ [_] _ _ _ _); [reflexivity..|done].
Defined.

(** ** Instances of the lemmas on the sibling paths *)

Lemma injector_generate_relays_witness :
  (@Injector.generate Ucd.fragment 1 backend_error
     (at1 (generate_request (JBool false) weather_question))).1
  = Ret (Response 500 (BJson model_missing) application_json).
Proof.
  refine (@injector_generate_relays Ucd.fragment backend_error _ 1%positive _
            (Answer 500 (Some model_missing) [] (Some application_json)) _ _ _).
  - reflexivity.
  - reflexivity.
  - eexists. split; reflexivity.
Defined.

Lemma injector_search_payload_witness :
  exists e limit_and_threshold,
    Some (Injector.search_body vector 2)
    = Some (JDict ((u "vector", e) :: limit_and_threshold))
    /\ dict_get (u "limit") limit_and_threshold = Some (JInt 2)
    /\ dict_get (u "score_threshold") limit_and_threshold = Some (JFloat (3 # 10)).
Proof.
  refine (@injector_search_payload Ucd.fragment madrid
            {[1%positive := generate_request (JBool false) weather_question]}
            1%positive
            (Call POST Qdrant Injector.search_path
               (Some (Injector.search_body vector 2)) 10)
            (madrid (Call POST Qdrant Injector.search_path
               (Some (Injector.search_body vector 2)) 10)) _ _).
  - vm_compute. apply list_elem_of_further, list_elem_of_here.
  - reflexivity.
Defined.

Lemma process_request_keeps_empty_prompt_witness :
  @Injector.process_request Ucd.fragment 1 madrid
    (at1 (generate_request (JBool false) []))
  = (Ret 1%positive, at1 (generate_request (JBool false) [])).
Proof.
  refine (@process_request_keeps_empty_prompt Ucd.fragment madrid
            {[1%positive := _]} 1%positive _ _ _); reflexivity.
Defined.

Lemma augment_chat_keeps_without_user_witness :
  @RagApi.augment_chat Ucd.fragment 1 madrid (at1 system_only)
  = (Ret tt, at1 system_only).
Proof.
  refine (@augment_chat_keeps_without_user Ucd.fragment madrid
            {[1%positive := _]} 1%positive _ _ _ _ _ _).
  - reflexivity.
  - reflexivity.
  - repeat constructor; eexists; reflexivity.
  - repeat constructor.
Defined.

(** ** [hash_id] and the normalisation *)

Lemma int16_app xs ys :
  Indexer.int16 (xs ++ ys)
  = Indexer.int16 xs * 256 ^ Z.of_nat (length ys) + Indexer.int16 ys.
Proof.
  unfold Indexer.int16. rewrite fold_left_app.
  generalize (fold_left (fun n b => 256 * n + b) xs 0). intros a.
  revert a. induction ys as [|y ys IH]; intros a.
  - simpl. lia.
  - cbn [fold_left length]. rewrite IH, (IH (256 * 0 + y)).
    rewrite Nat2Z.inj_succ, Z.pow_succ_r by lia. lia.
Qed.

Lemma length_le_bytes n x : length (Md5.le_bytes n x) = n.
Proof. revert x. induction n as [|n IH]; intros x; simpl; [done|]. by rewrite IH. Qed.

Lemma digest_split msg :
  exists front back,
    Md5.digest msg = front ++ back /\ length front = 12%nat /\ length back = 4%nat.
Proof.
  unfold Md5.digest.
  set (r := fold_left Md5.block _ Md5.init).
  exists (Md5.le_bytes 4 (Md5.ra r) ++ Md5.le_bytes 4 (Md5.rb r)
            ++ Md5.le_bytes 4 (Md5.rc r)), (Md5.le_bytes 4 (Md5.rd r)).
  split; [by rewrite <- !app_assoc|].
  by rewrite !length_app, !length_le_bytes.
Qed.

(** X18.  [hash_id] keeps 31 of the 128 bits of the MD5 digest: the digest
    has sixteen bytes, and the id is the number that its last four bytes
    spell, modulo 2^31. *)
Theorem hash_id_keeps_31_bits (parts : list pystr) (bs : list Z) :
  Indexer.encode (join (u "::") parts) = Some bs ->
  length (Md5.digest bs) = 16%nat
  /\ Indexer.hash_id parts
     = inr (Indexer.int16 (drop 12 (Md5.digest bs)) mod 2 ^ 31).
Proof.
  intros He. unfold Indexer.hash_id. rewrite He.
  destruct (digest_split bs) as (front & back & -> & Hf & Hb).
  split; [rewrite length_app; lia|].
  rewrite <- Hf, drop_app_length, int16_app, Hb. f_equal.
  change (256 ^ Z.of_nat 4) with (2 * 2 ^ 31).
  rewrite Z.mul_assoc, Z.add_comm, Z.mod_add by lia. done.
Qed.

Lemma hash_id_keeps_31_bits_witness :
  length (Md5.digest (u "files::/data/a.txt")) = 16%nat
  /\ Indexer.hash_id [u "files"; u "/data/a.txt"]
     = inr (Indexer.int16 (drop 12 (Md5.digest (u "files::/data/a.txt")))
            mod 2 ^ 31).
Proof.
  apply (hash_id_keeps_31_bits [u "files"; u "/data/a.txt"]). reflexivity.
Defined.

(** X19.  [hash_id] joins its parts before it hashes them, so the id does
    not tell where one part ends: a part that contains the separator "::"
    gives the same id as the two parts on either side of it. *)
Theorem hash_id_separator_in_part (a b : pystr) (rest : list pystr) :
  Indexer.hash_id ((a ++ u "::" ++ b) :: rest) = Indexer.hash_id (a :: b :: rest).
Proof.
  unfold Indexer.hash_id.
  replace (join (u "::") ((a ++ u "::" ++ b) :: rest))
    with (join (u "::") (a :: b :: rest)); [done|].
  destruct rest as [|c rest]; cbn [join]; by rewrite <- ?app_assoc.
Qed.

Lemma length_drop_all fuel old s : (length (drop_all fuel old s) <= length s)%nat.
Proof.
  revert s. induction fuel as [|fuel IH]; intros s; simpl; [lia|].
  destruct s as [|c s]; [simpl; lia|].
  destruct (starts_with old (c :: s)).
  - etrans; [apply IH|]. rewrite length_drop. lia.
  - simpl. specialize (IH s). lia.
Qed.

(** X17.  On Latin-1 text the normalised query of rag_api.py has no more
    characters than the query, and no "?", no capital letter and no letter
    with a diacritic is left in it. *)
Theorem normalize_latin1_shape (q : pystr) :
  Forall (fun c => 0 <= c <= 255) q ->
  (length (@RagApi.normalize Ucd.fragment q) <= length q)%nat
  /\ Forall (fun c => 0 <= c <= 255 /\ c <> 63
                      /\ Ucd.lower_cp c = c /\ Ucd.decomposition c = [c])
       (@RagApi.normalize Ucd.fragment q).
Proof.
  intros Hq.
  assert (Hl : Forall (fun c => Ucd.latin1 c = true) q).
  { eapply Forall_impl; [exact Hq|]. simpl. intros c [H0 H255].
    unfold Ucd.latin1. apply andb_true_iff. split; by apply Z.leb_le. }
  split.
  - rewrite normalize_latin1 by done. rewrite !length_map. unfold remove.
    etrans; [apply length_drop_all|]. apply length_drop_all.
  - eapply Forall_impl; [apply normalize_is_settled, Hl|]. simpl. intros c Hc.
    pose proof (latin1_all (fun c =>
      negb (Ucd.settled c)
      || bool_decide (Ucd.decomposition c = [c]))) as Hall.
    apply settled_spec in Hc as Hs. destruct Hs as (Hlat & H63 & _ & Hlow & _).
    specialize (Hall ltac:(vm_compute; reflexivity) c Hlat).
    cbv beta in Hall. rewrite Hc in Hall. simpl in Hall. apply bool_decide_eq_true in Hall.
    unfold Ucd.latin1 in Hlat. apply andb_true_iff in Hlat as [?%Z.leb_le ?%Z.leb_le].
    done.
Qed.

Lemma normalize_latin1_shape_witness :
  let q := [191; 81; 117; 233; 32; 84; 73; 69; 77; 80; 79; 63] in
  (length (@RagApi.normalize Ucd.fragment q) <= length q)%nat
  /\ Forall (fun c => 0 <= c <= 255 /\ c <> 63
                      /\ Ucd.lower_cp c = c /\ Ucd.decomposition c = [c])
       (@RagApi.normalize Ucd.fragment q).
Proof.
  intros q. apply (normalize_latin1_shape q). repeat constructor; lia.
Defined.

(** ** [services/data-indexer/base.py] *)

Ltac io :=
  unfold Base.bind, Base.try_, Base.requests, Base.lift, Base.ret, Base.raise,
    Base.global, Base.raise_for_status; simpl.

(** X20.  [embed_text]: without the embeddings endpoint it raises
    [RuntimeError] and calls nothing; with it, it never raises, makes
    exactly one call (the text as the only input, 30 seconds), and hands
    back a value other than [None] only when the answer has a status
    outside 400..599 and a JSON body: the first element of a list, or the
    body itself. *)
Theorem embed_text_outcome (text : pystr) (w : world) (s : Base.process) :
  (Base.configured (Base.EMBEDDINGS_API s) = false ->
   Base.embed_text text w s
   = (inl (Base.RuntimeError Base.embeddings_not_configured), s))
  /\ (Base.configured (Base.EMBEDDINGS_API s) = true ->
      exists v r,
        Base.embed_text text w s
        = (inr v,
           Base.Process (Base.EMBEDDINGS_API s) (Base.QDRANT_API s)
             (Base.calls s
                ++ [(Call POST Embeddings [] (Some (Base.inputs text)) 30, r)]))
        /\ (v <> JNull ->
            exists a j,
              r = Reply a
              /\ (status_code a < 400 \/ 600 <= status_code a)
              /\ parsed a = Some j
              /\ (py_item0 j = Ret v \/ v = j /\ forall l, j <> JList l))).
Proof.
  split; intros Hc; unfold Base.embed_text; io; rewrite Hc; simpl; [done|].
  destruct (w _) as [a|] eqn:Ew; simpl.
  2:{ eexists _, _. split; [reflexivity|]. done. }
  destruct ((400 <=? status_code a) && (status_code a <? 600)) eqn:Hs; simpl.
  { eexists _, _. split; [reflexivity|]. done. }
  assert (Hst : status_code a < 400 \/ 600 <= status_code a).
  { apply andb_false_iff in Hs as [?%Z.leb_gt|?%Z.ltb_ge]; lia. }
  unfold json_. destruct (parsed a) as [j|] eqn:Ep; simpl.
  2:{ eexists _, _. split; [reflexivity|]. done. }
  destruct j as [|b|n|q|t|[|x l]|d]; simpl.
  all: eexists _, _; (split; [reflexivity|]); try done.
  all: intros _; eexists _, _; split; [reflexivity|]; split; [done|];
    split; [done|]; first [by left | by right].
Qed.

(** X21.  [ensure_collection_exists] leaves a collection that the index
    reports with status 200 as it is: the check is the only call, and no
    collection is created. *)
Theorem ensure_collection_keeps_existing collection w s a :
  Base.configured (Base.QDRANT_API s) = true ->
  w (Call GET Qdrant (Base.collection_path collection) None 5) = Reply a ->
  status_code a = 200 ->
  Base.ensure_collection_exists collection w s
  = (inr tt,
     Base.Process (Base.EMBEDDINGS_API s) (Base.QDRANT_API s)
       (Base.calls s
          ++ [(Call GET Qdrant (Base.collection_path collection) None 5, Reply a)])).
Proof.
  intros Hc Hw Hs. unfold Base.ensure_collection_exists. io.
  rewrite Hc. simpl. rewrite Hw. simpl. rewrite Hs. done.
Qed.

Lemma ensure_collection_keeps_existing_witness :
  Base.ensure_collection_exists (u "documents") madrid ready
  = (inr tt,
     Base.Process (Base.EMBEDDINGS_API ready) (Base.QDRANT_API ready)
       [(Call GET Qdrant (Base.collection_path (u "documents")) None 5,
         madrid (Call GET Qdrant (Base.collection_path (u "documents")) None 5))]).
Proof.
  exact (ensure_collection_keeps_existing (u "documents") madrid ready _
           eq_refl eq_refl eq_refl).
Defined.

(** X22.  When the check is not answered with status 200 (or raises),
    [ensure_collection_exists] creates the collection with vectors of size
    1024 and cosine distance; the answer to that call decides: 200 or 201
    is success, another status raises [RuntimeError] with the body of the
    answer, and a failed connection raises. *)
Theorem ensure_collection_creates collection w s r :
  Base.configured (Base.QDRANT_API s) = true ->
  w (Call GET Qdrant (Base.collection_path collection) None 5) = r ->
  (forall a, r = Reply a -> status_code a <> 200) ->
  exists r',
    Base.ensure_collection_exists collection w s
    = (match r' with
       | Reply a' =>
           if (status_code a' =? 200) || (status_code a' =? 201) then inr tt
           else inl (Base.RuntimeError
                       (u "Failed to create collection '" ++ collection
                          ++ u "': " ++ text a'))
       | NoReply => inl (Base.Builtin ConnectionError)
       end,
       Base.Process (Base.EMBEDDINGS_API s) (Base.QDRANT_API s)
         (Base.calls s
            ++ [(Call GET Qdrant (Base.collection_path collection) None 5, r);
                (Call PUT Qdrant (Base.collection_path collection)
                   (Some (JDict [(u "vectors",
                                  JDict [(u "size", JInt 1024);
                                         (u "distance", JStr (u "Cosine"))])]))
                   10, r')])).
Proof.
  intros Hc Hw Hs. unfold Base.ensure_collection_exists. io.
  rewrite Hc. simpl. rewrite Hw.
  destruct r as [a|]; simpl;
    [rewrite (proj2 (Z.eqb_neq _ _) (Hs a eq_refl)); simpl|].
  all: destruct (w (Call PUT _ _ _ _)) as [a'|]; simpl.
  all: first [ exists NoReply; by rewrite <- app_assoc
             | exists (Reply a'); unfold Base.ok_or_created;
               destruct ((status_code a' =? 200) || (status_code a' =? 201));
               simpl; by rewrite <- app_assoc ].
Qed.

Lemma ensure_collection_creates_witness :
  exists r',
    Base.ensure_collection_exists (u "documents") read_only_index ready
    = (match r' with
       | Reply a' =>
           if (status_code a' =? 200) || (status_code a' =? 201) then inr tt
           else inl (Base.RuntimeError
                       (u "Failed to create collection '" ++ u "documents"
                          ++ u "': " ++ text a'))
       | NoReply => inl (Base.Builtin ConnectionError)
       end,
       Base.Process (Base.EMBEDDINGS_API ready) (Base.QDRANT_API ready)
         (Base.calls ready
            ++ [(Call GET Qdrant (Base.collection_path (u "documents")) None 5,
                 not_found);
                (Call PUT Qdrant (Base.collection_path (u "documents"))
                   (Some (JDict [(u "vectors",
                                  JDict [(u "size", JInt 1024);
                                         (u "distance", JStr (u "Cosine"))])]))
                   10, r')])).
Proof.
  apply (ensure_collection_creates (u "documents") read_only_index ready not_found).
  - reflexivity.
  - reflexivity.
  - intros a [= <-]. simpl. lia.
Defined.

(** ** The file source handler *)

Ltac io_step :=
  match goal with
  | |- context [match ?x with _ => _ end] =>
      no_match x; let E := fresh "E" in destruct x eqn:E
  | |- context [if ?x then _ else _] =>
      no_match x; let E := fresh "E" in destruct x eqn:E
  end; simpl.

Lemma lstrip_all P s : forallb P s = true -> Str.lstrip P s = [].
Proof.
  induction s as [|c s IH]; simpl; [done|].
  intros [Hc Hs]%andb_true_iff. rewrite Hc. auto.
Qed.

Lemma strip_all P s : forallb P s = true -> Str.strip P s = [].
Proof. intros Hs. unfold Str.strip. by rewrite (lstrip_all P s) by done. Qed.

(** X23.  A file is reported as indexed only when its text was embedded
    and the point was stored.  Exactly two calls were made: the embedding of
    the whole text, and the upsert of one point whose id is
    [hash_id(config.id, str(file_path))], whose vector is what the
    embeddings service gave and whose payload carries the text; the index
    answered 200 or 201. *)
Theorem index_file_true `{Ctype} config file_path w s s' :
  FileSourceHandler._index_file config file_path w s = (inr true, s') ->
  exists content n a j v a',
    FileSourceHandler.read file_path = inr content
    /\ Indexer.hash_id [Base.id config; FileSourceHandler.str file_path] = inr n
    /\ parsed a = Some j
    /\ ((exists rest, j = JList (v :: rest)) \/ v = j /\ forall l, j <> JList l)
    /\ (status_code a' = 200 \/ status_code a' = 201)
    /\ Base.calls s'
       = Base.calls s
         ++ [(Call POST Embeddings [] (Some (Base.inputs content)) 30, Reply a);
             (Call PUT Qdrant (Base.points_path (Base.collection config))
                (Some (Base.points n v
                         (FileSourceHandler.file_payload config file_path content)))
                10, Reply a')].
Proof.
  unfold FileSourceHandler._index_file, FileSourceHandler.open_read,
    FileSourceHandler.hash_id, Base.embed_text, Base.upsert_document. io.
  unfold json_.
  repeat io_step; intros Heq; simplify_eq/=.
  all: eexists _, _, _, _, _, _.
  all: split; [reflexivity|]; split; [reflexivity|]; split; [eassumption|].
  all: split; [first [by left; eexists | by right]|].
  all: split; [|by rewrite <- app_assoc].
  all: match goal with
       | E : negb (Base.ok_or_created _) = false |- _ =>
           apply negb_false_iff, orb_true_iff in E as [?%Z.eqb_eq|?%Z.eqb_eq]
       end; auto.
Qed.

Lemma index_file_true_witness :
  exists content n a j v a',
    FileSourceHandler.read note = inr content
    /\ Indexer.hash_id [Base.id files; FileSourceHandler.str note] = inr n
    /\ parsed a = Some j
    /\ ((exists rest, j = JList (v :: rest)) \/ v = j /\ forall l, j <> JList l)
    /\ (status_code a' = 200 \/ status_code a' = 201)
    /\ Base.calls
         (@FileSourceHandler._index_file Latin1.ctype files note fresh_index ready).2
       = Base.calls ready
         ++ [(Call POST Embeddings [] (Some (Base.inputs content)) 30, Reply a);
             (Call PUT Qdrant (Base.points_path (Base.collection files))
                (Some (Base.points n v
                         (FileSourceHandler.file_payload files note content)))
                10, Reply a')].
Proof.
  apply (@index_file_true Latin1.ctype files note fresh_index ready).
  vm_compute. reflexivity.
Defined.

(** X24.  Indexing a file never raises: whatever goes wrong (the file
    cannot be read, an endpoint is not configured, a service does not
    answer, the path cannot be encoded) the result is a boolean.  The
    globals are left alone, at most two calls are made, and a file that
    cannot be read gives [False] without a call. *)
Theorem index_file_never_raises `{Ctype} config file_path w s :
  exists b lg,
    FileSourceHandler._index_file config file_path w s
    = (inr b, Base.Process (Base.EMBEDDINGS_API s) (Base.QDRANT_API s)
                (Base.calls s ++ lg))
    /\ (length lg <= 2)%nat
    /\ ((forall content, FileSourceHandler.read file_path <> inr content) ->
        b = false /\ lg = []).
Proof.
  unfold FileSourceHandler._index_file, FileSourceHandler.open_read,
    FileSourceHandler.hash_id, Base.embed_text, Base.upsert_document. io.
  unfold json_.
  repeat io_step.
  all: try (eexists _, []; rewrite app_nil_r; split; [by destruct s|];
            split; [simpl; lia|]; intros Hr; first [done | by destruct (Hr _ eq_refl)]).
  all: try (eexists _, [_]; split; [reflexivity|];
            split; [simpl; lia|]; intros Hr; by destruct (Hr _ eq_refl)).
  all: eexists _, [_; _]; rewrite <- app_assoc; split; [reflexivity|];
            split; [simpl; lia|]; intros Hr; by destruct (Hr _ eq_refl).
Qed.

(** X25.  A file that holds nothing but white space is skipped: the result
    is [False] and no call is made. *)
Theorem index_file_skips_blank `{Ctype} config file_path w s content :
  FileSourceHandler.read file_path = inr content ->
  forallb isspace content = true ->
  FileSourceHandler._index_file config file_path w s = (inr false, s).
Proof.
  intros Hr Hb.
  unfold FileSourceHandler._index_file, FileSourceHandler.open_read. io.
  by rewrite Hr, strip_all.
Qed.

Lemma index_file_skips_blank_witness :
  @FileSourceHandler._index_file Latin1.ctype files blank fresh_index ready
  = (inr false, ready).
Proof.
  exact (@index_file_skips_blank Latin1.ctype files blank fresh_index ready _
           eq_refl eq_refl).
Defined.

(** X26.  When the id cannot be computed (the source id or the path holds
    a lone surrogate), the file is not stored: the result is [False] and
    nothing is sent to the index, though the text may already have been
    sent to the embeddings service. *)
Theorem index_file_unencodable_path `{Ctype} config file_path w s f :
  Indexer.hash_id [Base.id config; FileSourceHandler.str file_path] = inl f ->
  exists s',
    FileSourceHandler._index_file config file_path w s = (inr false, s')
    /\ exists lg, Base.calls s' = Base.calls s ++ lg
         /\ Forall (fun cr => target cr.1 = Embeddings) lg.
Proof.
  intros Hh.
  unfold FileSourceHandler._index_file, FileSourceHandler.open_read,
    FileSourceHandler.hash_id, Base.embed_text, Base.upsert_document. io.
  unfold json_. rewrite Hh.
  repeat io_step.
  all: eexists; split; [reflexivity|]; simpl.
  all: first [ exists []; split; [by rewrite app_nil_r|constructor]
             | eexists [_]; split; [reflexivity|by repeat constructor] ].
Qed.

Lemma index_file_unencodable_path_witness :
  exists s',
    @FileSourceHandler._index_file Latin1.ctype files odd fresh_index ready
    = (inr false, s')
    /\ exists lg, Base.calls s' = Base.calls ready ++ lg
         /\ Forall (fun cr => target cr.1 = Embeddings) lg.
Proof.
  exact (@index_file_unencodable_path Latin1.ctype files odd fresh_index ready
           Indexer.UnicodeEncodeError eq_refl).
Defined.

(** ** Construction of a handler *)

(** X27.  A handler ensures its collection before it looks at its
    settings: a file source without a directory, and a weather source
    without locations, is refused with [ValueError] only after the calls to
    the index have been made. *)
Theorem handler_checks_settings_last config w s s' d :
  Base.ensure_collection_exists (Base.collection config) w s = (inr tt, s') ->
  BaseSourceHandler.settings_or_empty config = JDict d ->
  (truthy (default JNull (dict_get (u "directory") d)) = false ->
   FileSourceHandler.__init__ config w s
   = (inl (Base.ValueError FileSourceHandler.directory_required), s'))
  /\ (truthy (default (JList []) (dict_get (u "locations") d)) = false ->
      WeatherOpenMeteoHandler.__init__ config w s
      = (inl (Base.ValueError WeatherOpenMeteoHandler.location_required), s')).
Proof.
  intros He Hd. split; intros Ht.
  - unfold FileSourceHandler.__init__, BaseSourceHandler.__init__. io.
    rewrite He, Hd. simpl. by rewrite Ht.
  - unfold WeatherOpenMeteoHandler.__init__, BaseSourceHandler.__init__. io.
    rewrite He, Hd. simpl. by rewrite Ht.
Qed.

Lemma handler_checks_settings_last_witness :
  let s' := (Base.ensure_collection_exists (u "documents") fresh_index ready).2 in
  Base.calls s'
  = [(Call GET Qdrant (u "/collections/documents") None 5, not_found);
     (Call PUT Qdrant (u "/collections/documents") (Some Base.vectors) 10,
      madrid (Call PUT Qdrant (u "/collections/documents") (Some Base.vectors) 10))]
  /\ FileSourceHandler.__init__ nowhere fresh_index ready
     = (inl (Base.ValueError FileSourceHandler.directory_required), s')
  /\ WeatherOpenMeteoHandler.__init__ nowhere fresh_index ready
     = (inl (Base.ValueError WeatherOpenMeteoHandler.location_required), s').
Proof.
  intros s'. split; [reflexivity|].
  destruct (handler_checks_settings_last nowhere fresh_index ready s' []
              eq_refl eq_refl) as [Hf Hw].
  split; [exact (Hf eq_refl)|exact (Hw eq_refl)].
Defined.

(** ** Waiting for Open WebUI *)

Lemma poll_true ready server n k :
  (k + n <= OpenWebUI.MAX_RETRIES)%nat ->
  (OpenWebUI.poll ready server (seq k n)).1 = true
  <-> exists i a, (k <= i < k + n)%nat /\ server i = Reply a
                  /\ ready (status_code a) = true.
Proof.
  unfold OpenWebUI.MAX_RETRIES.
  revert k. induction n as [|n IH]; intros k Hk; simpl.
  { split; [done|]. intros (i & a & Hi & _). lia. }
  destruct (server k) as [a|] eqn:Es.
  - destruct (ready (status_code a)) eqn:Hr; simpl.
    + split; [|done]. intros _. exists k, a. split; [lia|done].
    + rewrite IH by lia. split; intros (i & a' & Hi & Hs & Hr').
      * exists i, a'. split; [lia|done].
      * exists i, a'. split; [|done].
        destruct (decide (i = k)) as [->|]; [|lia]. congruence.
  - destruct (k =? 29)%nat eqn:Hlast; simpl.
    + apply Nat.eqb_eq in Hlast. split; [done|].
      intros (i & a' & Hi & Hs & Hr'). assert (i = k) as -> by lia. congruence.
    + rewrite IH by lia. split; intros (i & a' & Hi & Hs & Hr').
      * exists i, a'. split; [lia|done].
      * exists i, a'. split; [|done].
        destruct (decide (i = k)) as [->|]; [|lia]. congruence.
Qed.

Lemma poll_bounds ready server n k :
  (k + n <= OpenWebUI.MAX_RETRIES)%nat ->
  (OpenWebUI.requests_made (OpenWebUI.poll ready server (seq k n)).2 <= n)%nat
  /\ 0 <= OpenWebUI.slept (OpenWebUI.poll ready server (seq k n)).2
       <= 2 * Z.of_nat (29 - k).
Proof.
  unfold OpenWebUI.MAX_RETRIES.
  revert k. induction n as [|n IH]; intros k Hk; simpl.
  { unfold OpenWebUI.requests_made. simpl. lia. }
  destruct (server k) as [a|] eqn:Es.
  - destruct (ready (status_code a)) eqn:Hr; simpl.
    + unfold OpenWebUI.requests_made. simpl. lia.
    + destruct (IH (S k)) as [H1 H2]; [lia|].
      unfold OpenWebUI.requests_made in *. simpl. lia.
  - destruct (k =? 29)%nat eqn:Hlast; simpl.
    + unfold OpenWebUI.requests_made. simpl. lia.
    + apply Nat.eqb_neq in Hlast. destruct (IH (S k)) as [H1 H2]; [lia|].
      unfold OpenWebUI.requests_made, OpenWebUI.RETRY_DELAY in *. simpl. lia.
Qed.

(** X28.  Waiting for Open WebUI succeeds exactly when one of the first 30
    requests is answered with a status that counts as ready (200, 301 or
    302 for the page, 200 for the API); it gives up after at most 30
    requests and 58 seconds of sleep. *)
Theorem wait_for_webui_spec (server : nat -> reply) :
  ((OpenWebUI.wait_for_webui server).1 = true
   <-> exists i a, (i < 30)%nat /\ server i = Reply a
         /\ (status_code a = 200 \/ status_code a = 301 \/ status_code a = 302))
  /\ ((OpenWebUI.wait_for_api server).1 = true
      <-> exists i a, (i < 30)%nat /\ server i = Reply a /\ status_code a = 200)
  /\ (OpenWebUI.requests_made (OpenWebUI.wait_for_webui server).2 <= 30)%nat
  /\ OpenWebUI.slept (OpenWebUI.wait_for_webui server).2 <= 58
  /\ (OpenWebUI.requests_made (OpenWebUI.wait_for_api server).2 <= 30)%nat
  /\ OpenWebUI.slept (OpenWebUI.wait_for_api server).2 <= 58.
Proof.
  unfold OpenWebUI.wait_for_webui, OpenWebUI.wait_for_api, OpenWebUI.MAX_RETRIES.
  split; [|split].
  - rewrite poll_true by done. unfold OpenWebUI.up.
    split; intros (i & a & Hi & Hs & Hr); exists i, a; (split; [lia|]);
      (split; [done|]).
    + cbn [existsb] in Hr. rewrite !orb_true_iff in Hr.
      destruct Hr as [?%Z.eqb_eq|[?%Z.eqb_eq|[?%Z.eqb_eq|?]]]; auto. done.
    + cbn [existsb]. rewrite !orb_true_iff. destruct Hr as [-> | [-> | ->]]; auto.
  - rewrite poll_true by done.
    split; intros (i & a & Hi & Hs & Hr); exists i, a; (split; [lia|]);
      (split; [done|]).
    + by apply Z.eqb_eq.
    + by apply Z.eqb_eq.
  - destruct (poll_bounds OpenWebUI.up server 30 0) as [H1 H2]; [done|].
    destruct (poll_bounds (fun st => st =? 200) server 30 0) as [H3 H4]; [done|].
    lia.
Qed.

Lemma poll_busy ready server n k :
  (forall i, exists a, server i = Reply a /\ ready (status_code a) = false) ->
  (OpenWebUI.poll ready server (seq k n)).1 = false
  /\ OpenWebUI.requests_made (OpenWebUI.poll ready server (seq k n)).2 = n
  /\ OpenWebUI.slept (OpenWebUI.poll ready server (seq k n)).2 = 0.
Proof.
  intros Hs. revert k. induction n as [|n IH]; intros k; simpl; [done|].
  destruct (Hs k) as (a & -> & ->). simpl.
  destruct (IH (S k)) as (H1 & H2 & H3).
  unfold OpenWebUI.requests_made in *. simpl. auto.
Qed.

(** X29.  The pause between two attempts is taken only after a request
    that raised.  A server that answers every request with a status that
    does not count as ready is asked 30 times in a row, without any pause,
    and is then reported as not ready. *)
Theorem wait_for_webui_does_not_pause (server : nat -> reply) :
  (forall i, exists a, server i = Reply a
               /\ status_code a <> 200 /\ status_code a <> 301
               /\ status_code a <> 302) ->
  (OpenWebUI.wait_for_webui server).1 = false
  /\ OpenWebUI.requests_made (OpenWebUI.wait_for_webui server).2 = 30%nat
  /\ OpenWebUI.slept (OpenWebUI.wait_for_webui server).2 = 0
  /\ (OpenWebUI.wait_for_api server).1 = false
  /\ OpenWebUI.requests_made (OpenWebUI.wait_for_api server).2 = 30%nat
  /\ OpenWebUI.slept (OpenWebUI.wait_for_api server).2 = 0.
Proof.
  intros Hs.
  destruct (poll_busy OpenWebUI.up server 30 0) as (H1 & H2 & H3).
  { intros i. destruct (Hs i) as (a & Ha & H200 & H301 & H302).
    exists a. split; [done|]. unfold OpenWebUI.up. cbn [existsb].
    apply Z.eqb_neq in H200, H301, H302. by rewrite H200, H301, H302. }
  destruct (poll_busy (fun st => st =? 200) server 30 0) as (H4 & H5 & H6).
  { intros i. destruct (Hs i) as (a & Ha & H200 & _).
    exists a. split; [done|]. by apply Z.eqb_neq. }
  exact (conj H1 (conj H2 (conj H3 (conj H4 (conj H5 H6))))).
Qed.

Lemma wait_for_webui_does_not_pause_witness :
  (OpenWebUI.wait_for_webui starting).1 = false
  /\ OpenWebUI.requests_made (OpenWebUI.wait_for_webui starting).2 = 30%nat
  /\ OpenWebUI.slept (OpenWebUI.wait_for_webui starting).2 = 0
  /\ (OpenWebUI.wait_for_api starting).1 = false
  /\ OpenWebUI.requests_made (OpenWebUI.wait_for_api starting).2 = 30%nat
  /\ OpenWebUI.slept (OpenWebUI.wait_for_api starting).2 = 0.
Proof.
  apply (wait_for_webui_does_not_pause starting).
  intros i. eexists. split; [reflexivity|]. simpl. lia.
Defined.

(** ** Location ids *)

Lemma lstrip_suffix P s : exists pre, s = pre ++ Str.lstrip P s /\ forallb P pre = true.
Proof.
  induction s as [|c s (pre & IH & Hp)]; simpl.
  - by exists [].
  - destruct (P c) eqn:Hc.
    + exists (c :: pre). simpl. rewrite Hc. split; [by f_equal|done].
    + by exists [].
Qed.

Lemma lstrip_head P s c : head (Str.lstrip P s) = Some c -> P c = false.
Proof.
  induction s as [|x s IH]; simpl; [done|].
  destruct (P x) eqn:Hx; [done|]. simpl. by intros [= <-].
Qed.

Lemma strip_ends P s c :
  (head (Str.strip P s) = Some c -> P c = false)
  /\ (last (Str.strip P s) = Some c -> P c = false).
Proof.
  unfold Str.strip. set (t := Str.lstrip P s).
  assert (Ht : forall x, head t = Some x -> P x = false) by apply lstrip_head.
  destruct (lstrip_suffix P (reverse t)) as (pre & Hpre & Hall).
  set (r := Str.lstrip P (reverse t)) in *.
  split.
  - rewrite head_reverse. intros Hl.
    apply Ht. rewrite <- (reverse_involutive t), head_reverse, Hpre.
    destruct r as [|y r] using rev_ind; [done|].
    rewrite app_assoc, last_snoc. by rewrite last_snoc in Hl.
  - rewrite last_reverse. apply lstrip_head.
Qed.

Lemma lstrip_hyphens s :
  Forall (fun c => c = 45) s -> Str.lstrip (Z.eqb 45) s = [].
Proof.
  intros Hs. apply lstrip_all. apply forallb_Forall.
  eapply Forall_impl; [exact Hs|]. by intros c ->.
Qed.

(** X9.  A location id made from a name never starts or ends with a
    hyphen, and a name without any letter or digit gives the empty id. *)
Theorem slugify_shape `{Unicode} `{Ctype} (name : option pystr) :
  head (WeatherOpenMeteoHandler._slugify name) <> Some 45
  /\ last (WeatherOpenMeteoHandler._slugify name) <> Some 45
  /\ (forall s, name = Some s -> s <> [] ->
        Forall (fun c => isalnum c = false) s ->
        WeatherOpenMeteoHandler._slugify name = []).
Proof.
  unfold WeatherOpenMeteoHandler._slugify.
  split; [|split].
  - intros Hh. by apply (proj1 (strip_ends _ _ _)) in Hh.
  - intros Hl. by apply (proj2 (strip_ends _ _ _)) in Hl.
  - intros s -> Hne Hs.
    assert (Hh : Forall (fun c => c = 45)
                   (flat_map (fun c => if isalnum c then lower [c] else [45]) s)).
    { clear Hne. induction Hs as [|x l Hx _ IH]; [constructor|].
      cbn [flat_map]. rewrite Hx. cbn [app]. constructor; [done|exact IH]. }
    destruct s as [|c s]; [done|].
    unfold Str.strip. by rewrite (lstrip_hyphens _ Hh).
Qed.
